(** * Device and context core of OpenAL Soft (Alc/alc.cpp)

    A shallow embedding of the device reconfiguration routine
    [UpdateDeviceParams], the deferred-update routine
    [ALCcontext_ProcessUpdates] and the ALC entry points that read or write
    the per-device error latch, the connection flag and the integer
    attributes, followed by the properties of the specification that
    concern them.

    Conventions.
    - 32-bit integers are [Z] with the wrap-around written out ([wrapu] for
      ALCuint/ALuint, [wrapi] for ALCint/ALsizei).
    - Constants that the source takes from internal headers outside
      [Alc/alc.cpp] are fields of the record [Consts]; nothing is assumed
      about their values except where a theorem says so.  The constants of
      the public ALC interface have their published values.
    - Collaborators outside [Alc/alc.cpp] (configuration file, CPU
      detection, backend, renderer set-up, HRTF loader, effect states) are
      fields of the record [Env]: each is a function giving the result of
      the call.  Calls made to the backend are also appended to the
      device's [BackendLog].
    - Floating-point values are not computed: a dither depth is kept as its
      bit count, a limiter as the parameters it was created from. *)

From Stdlib Require Import ZArith List Bool Lia String Ascii.
Import ListNotations.
Open Scope Z_scope.

(* ------------------------------------------------------------------ *)
(** ** Machine integers *)

Definition wrapu (z : Z) : Z := z mod 2 ^ 32.
Definition wrapi (z : Z) : Z := (z + 2 ^ 31) mod 2 ^ 32 - 2 ^ 31.
Definition wrapu64 (z : Z) : Z := z mod 2 ^ 64.

Definition INT_MAX : Z := 2 ^ 31 - 1.

(** [~x] on a 32-bit unsigned operand. *)
Definition notu (x : Z) : Z := wrapu (Z.lnot x).

(** Modelled from the spec: the integer helpers [maxi], [mini], [clampi],
    [minu], [maxu], [clampu] are declared in a header outside src/; the
    spec (4.3, steps 4 and 5) uses them as the usual maximum, minimum and
    clamp to a closed range. *)
Definition maxi (a b : Z) : Z := if a >? b then a else b.
Definition mini (a b : Z) : Z := if a >? b then b else a.
Definition clampi (val lo hi : Z) : Z := mini hi (maxi lo val).
Definition maxu (a b : Z) : Z := if a >? b then a else b.
Definition minu (a b : Z) : Z := if a >? b then b else a.
Definition clampu (val lo hi : Z) : Z := minu hi (maxu lo val).

(* ------------------------------------------------------------------ *)
(** ** Constants of the public ALC interface *)

(** Modelled from the spec: the error codes, attribute keys (spec 6) and
    query names are declared in the public headers AL/alc.h, AL/alext.h
    and AL/efx.h, outside src/; the values are those the OpenAL 1.1
    interface and its published extensions assign.  The properties below
    use only that they are pairwise different. *)

Definition ALC_FALSE : Z := 0.
Definition ALC_TRUE : Z := 1.
Definition AL_NONE : Z := 0.

Definition ALC_NO_ERROR : Z := 0.
Definition ALC_INVALID_DEVICE : Z := 0xA001.
Definition ALC_INVALID_CONTEXT : Z := 0xA002.
Definition ALC_INVALID_ENUM : Z := 0xA003.
Definition ALC_INVALID_VALUE : Z := 0xA004.
Definition ALC_OUT_OF_MEMORY : Z := 0xA005.

Definition ALC_MAJOR_VERSION : Z := 0x1000.
Definition ALC_MINOR_VERSION : Z := 0x1001.
Definition ALC_ATTRIBUTES_SIZE : Z := 0x1002.
Definition ALC_ALL_ATTRIBUTES : Z := 0x1003.
Definition ALC_FREQUENCY : Z := 0x1007.
Definition ALC_REFRESH : Z := 0x1008.
Definition ALC_SYNC : Z := 0x1009.
Definition ALC_MONO_SOURCES : Z := 0x1010.
Definition ALC_STEREO_SOURCES : Z := 0x1011.
Definition ALC_CAPTURE_SAMPLES : Z := 0x312.
Definition ALC_CONNECTED : Z := 0x313.
Definition ALC_EFX_MAJOR_VERSION : Z := 0x20001.
Definition ALC_EFX_MINOR_VERSION : Z := 0x20002.
Definition ALC_MAX_AUXILIARY_SENDS : Z := 0x20003.

Definition ALC_BYTE_SOFT : Z := 0x1400.
Definition ALC_UNSIGNED_BYTE_SOFT : Z := 0x1401.
Definition ALC_SHORT_SOFT : Z := 0x1402.
Definition ALC_UNSIGNED_SHORT_SOFT : Z := 0x1403.
Definition ALC_INT_SOFT : Z := 0x1404.
Definition ALC_UNSIGNED_INT_SOFT : Z := 0x1405.
Definition ALC_FLOAT_SOFT : Z := 0x1406.

Definition ALC_MONO_SOFT : Z := 0x1500.
Definition ALC_STEREO_SOFT : Z := 0x1501.
Definition ALC_QUAD_SOFT : Z := 0x1503.
Definition ALC_5POINT1_SOFT : Z := 0x1504.
Definition ALC_6POINT1_SOFT : Z := 0x1505.
Definition ALC_7POINT1_SOFT : Z := 0x1506.

Definition ALC_FORMAT_CHANNELS_SOFT : Z := 0x1990.
Definition ALC_FORMAT_TYPE_SOFT : Z := 0x1991.
Definition ALC_HRTF_SOFT : Z := 0x1992.
Definition ALC_DONT_CARE_SOFT : Z := 0x0002.
Definition ALC_HRTF_STATUS_SOFT : Z := 0x1993.
Definition ALC_HRTF_DISABLED_SOFT : Z := 0x0000.
Definition ALC_HRTF_UNSUPPORTED_FORMAT_SOFT : Z := 0x0005.
Definition ALC_NUM_HRTF_SPECIFIERS_SOFT : Z := 0x1994.
Definition ALC_HRTF_ID_SOFT : Z := 0x1996.
Definition ALC_OUTPUT_LIMITER_SOFT : Z := 0x199A.

(** Version numbers, as [alc.cpp] defines them. *)
Definition alcMajorVersion : Z := 1.
Definition alcMinorVersion : Z := 1.
Definition alcEFXMajorVersion : Z := 1.
Definition alcEFXMinorVersion : Z := 0.

(* ------------------------------------------------------------------ *)
(** ** Build constants taken from headers outside the source file *)

Record Consts : Type := mkConsts {
  (* device flag masks *)
  DEVICE_FREQUENCY_REQUEST : Z;
  DEVICE_CHANNELS_REQUEST : Z;
  DEVICE_SAMPLE_TYPE_REQUEST : Z;
  DEVICE_PAUSED : Z;
  DEVICE_RUNNING : Z;
  (* output format limits and defaults *)
  MIN_OUTPUT_RATE : Z;
  DEFAULT_OUTPUT_RATE : Z;
  DEFAULT_UPDATE_SIZE : Z;
  DEFAULT_NUM_UPDATES : Z;
  MAX_SENDS : Z;
  MAX_AMBI_ORDER : Z;
  DITHER_RNG_SEED : Z;
  (* CPU capability masks *)
  CPU_CAP_SSE : Z;
  CPU_CAP_NEON : Z;
  (* loopback B-Format extension *)
  ALC_AMBISONIC_LAYOUT_SOFT : Z;
  ALC_AMBISONIC_SCALING_SOFT : Z;
  ALC_AMBISONIC_ORDER_SOFT : Z;
  ALC_MAX_AMBISONIC_ORDER_SOFT : Z;
  ALC_BFORMAT3D_SOFT : Z;
  ALC_ACN_SOFT : Z;
  ALC_FUMA_SOFT : Z;
  ALC_SN3D_SOFT : Z;
  ALC_N3D_SOFT : Z
}.

(** The five flag masks are pairwise disjoint 32-bit masks. *)
Definition disjoint_masks (a b : Z) : bool := Z.land a b =? 0.

Definition is_u32 (a : Z) : bool := (0 <=? a) && (a <? 2 ^ 32).

Definition flags_ok (K : Consts) : bool :=
  forallb is_u32
    [DEVICE_FREQUENCY_REQUEST K; DEVICE_CHANNELS_REQUEST K;
     DEVICE_SAMPLE_TYPE_REQUEST K; DEVICE_PAUSED K; DEVICE_RUNNING K]
  && disjoint_masks (DEVICE_RUNNING K) (DEVICE_FREQUENCY_REQUEST K)
  && disjoint_masks (DEVICE_RUNNING K) (DEVICE_CHANNELS_REQUEST K)
  && disjoint_masks (DEVICE_RUNNING K) (DEVICE_SAMPLE_TYPE_REQUEST K)
  && disjoint_masks (DEVICE_RUNNING K) (DEVICE_PAUSED K)
  && disjoint_masks (DEVICE_FREQUENCY_REQUEST K) (DEVICE_CHANNELS_REQUEST K)
  && disjoint_masks (DEVICE_FREQUENCY_REQUEST K) (DEVICE_SAMPLE_TYPE_REQUEST K)
  && disjoint_masks (DEVICE_CHANNELS_REQUEST K) (DEVICE_SAMPLE_TYPE_REQUEST K).

(** The attribute keys of the B-Format extension differ from the two
    read-only keys of the core interface. *)
Definition ambi_keys_ok (K : Consts) : bool :=
  forallb (fun k => negb (k =? ALC_REFRESH) && negb (k =? ALC_SYNC))
    [ALC_AMBISONIC_LAYOUT_SOFT K; ALC_AMBISONIC_SCALING_SOFT K;
     ALC_AMBISONIC_ORDER_SOFT K].

(** The values of the upstream headers, used for concrete runs. *)
Definition upstream : Consts := {|
  DEVICE_FREQUENCY_REQUEST := Z.shiftl 1 1;
  DEVICE_CHANNELS_REQUEST := Z.shiftl 1 2;
  DEVICE_SAMPLE_TYPE_REQUEST := Z.shiftl 1 3;
  DEVICE_PAUSED := Z.shiftl 1 30;
  DEVICE_RUNNING := Z.shiftl 1 31;
  MIN_OUTPUT_RATE := 8000;
  DEFAULT_OUTPUT_RATE := 44100;
  DEFAULT_UPDATE_SIZE := 1024;
  DEFAULT_NUM_UPDATES := 3;
  MAX_SENDS := 16;
  MAX_AMBI_ORDER := 3;
  DITHER_RNG_SEED := 22222;
  CPU_CAP_SSE := Z.shiftl 1 0;
  CPU_CAP_NEON := Z.shiftl 1 4;
  ALC_AMBISONIC_LAYOUT_SOFT := 0xfff0;
  ALC_AMBISONIC_SCALING_SOFT := 0xfff1;
  ALC_AMBISONIC_ORDER_SOFT := 0xfff2;
  ALC_MAX_AMBISONIC_ORDER_SOFT := 0xfff3;
  ALC_BFORMAT3D_SOFT := 0xfff4;
  ALC_ACN_SOFT := 0xfff5;
  ALC_FUMA_SOFT := 0xfff6;
  ALC_SN3D_SOFT := 0xfff7;
  ALC_N3D_SOFT := 0xfff8
|}.

(* ------------------------------------------------------------------ *)
(** ** Data model *)

Inductive DeviceType : Type := Playback | Capture | Loopback.

Inductive HrtfRequestMode : Type := Hrtf_Default | Hrtf_Enable | Hrtf_Disable.

Inductive DevFmtChannels : Type :=
  | DevFmtMono | DevFmtStereo | DevFmtQuad | DevFmtX51 | DevFmtX51Rear
  | DevFmtX61 | DevFmtX71 | DevFmtAmbi3D.

Inductive DevFmtType : Type :=
  | DevFmtByte | DevFmtUByte | DevFmtShort | DevFmtUShort
  | DevFmtInt | DevFmtUInt | DevFmtFloat.

Definition DeviceType_eqb (a b : DeviceType) : bool :=
  match a, b with
  | Playback, Playback | Capture, Capture | Loopback, Loopback => true
  | _, _ => false
  end.

Definition DevFmtChannels_eqb (a b : DevFmtChannels) : bool :=
  match a, b with
  | DevFmtMono, DevFmtMono | DevFmtStereo, DevFmtStereo
  | DevFmtQuad, DevFmtQuad | DevFmtX51, DevFmtX51
  | DevFmtX51Rear, DevFmtX51Rear | DevFmtX61, DevFmtX61
  | DevFmtX71, DevFmtX71 | DevFmtAmbi3D, DevFmtAmbi3D => true
  | _, _ => false
  end.

Definition DevFmtType_eqb (a b : DevFmtType) : bool :=
  match a, b with
  | DevFmtByte, DevFmtByte | DevFmtUByte, DevFmtUByte
  | DevFmtShort, DevFmtShort | DevFmtUShort, DevFmtUShort
  | DevFmtInt, DevFmtInt | DevFmtUInt, DevFmtUInt
  | DevFmtFloat, DevFmtFloat => true
  | _, _ => false
  end.

Definition HrtfRequestMode_eqb (a b : HrtfRequestMode) : bool :=
  match a, b with
  | Hrtf_Default, Hrtf_Default | Hrtf_Enable, Hrtf_Enable
  | Hrtf_Disable, Hrtf_Disable => true
  | _, _ => false
  end.

(** Calls that leave [alc.cpp]: the backend's virtual methods and the
    mixer entry point. *)
Inductive BackendCall : Type :=
  | Backend_stop
  | Backend_reset
  | Backend_start
  | Backend_lock
  | Backend_unlock
  | Mixer_aluMixData (buffer samples : Z).

(** A loaded HRTF data set and an entry of the enumerated list. *)
Record Hrtf : Type := mkHrtf { sampleRate : Z; hrtf_data : Z }.
Record EnumeratedHrtf : Type := mkEnumHrtf { hrtf_name : string; hrtf : Z }.

(** The output limiter, kept as the arguments of [CreateDeviceLimiter]:
    channel count, sample rate, and the sample type and dither depth the
    threshold was derived from. *)
Record Compressor : Type := mkCompressor {
  comp_NumChans : Z;
  comp_SampleRate : Z;
  comp_ThresholdType : DevFmtType;
  comp_ThresholdDither : Z
}.

(** One of the three views into the mix buffer.  [Buffer] is the index of
    the view's first channel line in [MixBuffer]; [None] is nullptr. *)
Record MixParams : Type := mkMixParams {
  Buffer : option Z;
  NumChannels : Z
}.

(** One line of BUFFERSIZE samples; the samples are not modelled. *)
Inductive ChanBuf : Type := ZeroedLine.

(** An auxiliary send of a source: the slot it feeds (by slot id) and
    whether its gains are the identity set written on (re)initialisation. *)
Record SendData : Type := mkSend {
  Slot : option Z;
  send_identity : bool
}.

Record ALsource : Type := mkSource {
  source_id : Z;
  Send : list SendData;
  src_PropsClean : bool
}.

(** A slab of 64 sources; bit [i] of [FreeMask] set means slot [i] is
    free. *)
Record SourceSubList : Type := mkSubList {
  FreeMask : Z;
  Sources : list ALsource
}.

Record EffectState : Type := mkEffectState {
  state_id : Z;
  mOutBuffer : option Z;
  mOutChannels : Z
}.

Record ALeffectslot : Type := mkSlot {
  slot_id : Z;
  slot_ref : Z;
  slot_PropsClean : bool;
  Effect_State : EffectState
}.

(** A mixer voice: the source it plays (0 when free), whether an update
    struct is pending, its per-send state (0 is the zero-initialised
    state), and whether its near-field filters were re-initialised. *)
Record ALvoice : Type := mkVoice {
  SourceID : Z;
  voice_Update : option Z;
  voice_Send : list Z;
  voice_NFCInit : bool
}.

Inductive PropUpdate : Type :=
  | Upd_Context
  | Upd_Listener
  | Upd_EffectSlot (id : Z)
  | Upd_Source (id : Z).

Inductive AsyncEvent : Type := EventType_Disconnected.

Record ALCcontext : Type := mkContext {
  DeferUpdates : bool;
  HoldUpdates : bool;
  ctx_PropsClean : bool;  (* PropsClean *)
  Listener_PropsClean : bool;  (* Listener.PropsClean *)
  DefaultSlot : option ALeffectslot;
  EffectSlotList : list ALeffectslot;
  SourceList : list SourceSubList;
  FreeVoiceProps : list Z;  (* chain of recycled structs *)
  Voices : option (list ALvoice);  (* None is nullptr *)
  VoiceCount : Z;
  MaxVoices : Z;
  PropUpdates : list PropUpdate;  (* published updates, oldest first *)
  AsyncEvents : list AsyncEvent  (* event ring, oldest first *)
}.

Definition set_DeferUpdates (v : bool) (c : ALCcontext) : ALCcontext :=
  mkContext v (HoldUpdates c) (ctx_PropsClean c) (Listener_PropsClean c)
    (DefaultSlot c) (EffectSlotList c) (SourceList c) (FreeVoiceProps c)
    (Voices c) (VoiceCount c) (MaxVoices c) (PropUpdates c) (AsyncEvents c).
Definition set_HoldUpdates (v : bool) (c : ALCcontext) : ALCcontext :=
  mkContext (DeferUpdates c) v (ctx_PropsClean c) (Listener_PropsClean c)
    (DefaultSlot c) (EffectSlotList c) (SourceList c) (FreeVoiceProps c)
    (Voices c) (VoiceCount c) (MaxVoices c) (PropUpdates c) (AsyncEvents c).
Definition set_ctx_PropsClean (v : bool) (c : ALCcontext) : ALCcontext :=
  mkContext (DeferUpdates c) (HoldUpdates c) v (Listener_PropsClean c)
    (DefaultSlot c) (EffectSlotList c) (SourceList c) (FreeVoiceProps c)
    (Voices c) (VoiceCount c) (MaxVoices c) (PropUpdates c) (AsyncEvents c).
Definition set_Listener_PropsClean (v : bool) (c : ALCcontext) : ALCcontext :=
  mkContext (DeferUpdates c) (HoldUpdates c) (ctx_PropsClean c) v
    (DefaultSlot c) (EffectSlotList c) (SourceList c) (FreeVoiceProps c)
    (Voices c) (VoiceCount c) (MaxVoices c) (PropUpdates c) (AsyncEvents c).
Definition set_DefaultSlot (v : option ALeffectslot) (c : ALCcontext) : ALCcontext :=
  mkContext (DeferUpdates c) (HoldUpdates c) (ctx_PropsClean c)
    (Listener_PropsClean c) v (EffectSlotList c) (SourceList c)
    (FreeVoiceProps c) (Voices c) (VoiceCount c) (MaxVoices c) (PropUpdates
    c) (AsyncEvents c).
Definition set_EffectSlotList (v : list ALeffectslot) (c : ALCcontext) : ALCcontext :=
  mkContext (DeferUpdates c) (HoldUpdates c) (ctx_PropsClean c)
    (Listener_PropsClean c) (DefaultSlot c) v (SourceList c) (FreeVoiceProps
    c) (Voices c) (VoiceCount c) (MaxVoices c) (PropUpdates c) (AsyncEvents
    c).
Definition set_SourceList (v : list SourceSubList) (c : ALCcontext) : ALCcontext :=
  mkContext (DeferUpdates c) (HoldUpdates c) (ctx_PropsClean c)
    (Listener_PropsClean c) (DefaultSlot c) (EffectSlotList c) v
    (FreeVoiceProps c) (Voices c) (VoiceCount c) (MaxVoices c) (PropUpdates
    c) (AsyncEvents c).
Definition set_FreeVoiceProps (v : list Z) (c : ALCcontext) : ALCcontext :=
  mkContext (DeferUpdates c) (HoldUpdates c) (ctx_PropsClean c)
    (Listener_PropsClean c) (DefaultSlot c) (EffectSlotList c) (SourceList
    c) v (Voices c) (VoiceCount c) (MaxVoices c) (PropUpdates c)
    (AsyncEvents c).
Definition set_Voices (v : option (list ALvoice)) (c : ALCcontext) : ALCcontext :=
  mkContext (DeferUpdates c) (HoldUpdates c) (ctx_PropsClean c)
    (Listener_PropsClean c) (DefaultSlot c) (EffectSlotList c) (SourceList
    c) (FreeVoiceProps c) v (VoiceCount c) (MaxVoices c) (PropUpdates c)
    (AsyncEvents c).
Definition set_VoiceCount (v : Z) (c : ALCcontext) : ALCcontext :=
  mkContext (DeferUpdates c) (HoldUpdates c) (ctx_PropsClean c)
    (Listener_PropsClean c) (DefaultSlot c) (EffectSlotList c) (SourceList
    c) (FreeVoiceProps c) (Voices c) v (MaxVoices c) (PropUpdates c)
    (AsyncEvents c).
Definition set_MaxVoices (v : Z) (c : ALCcontext) : ALCcontext :=
  mkContext (DeferUpdates c) (HoldUpdates c) (ctx_PropsClean c)
    (Listener_PropsClean c) (DefaultSlot c) (EffectSlotList c) (SourceList
    c) (FreeVoiceProps c) (Voices c) (VoiceCount c) v (PropUpdates c)
    (AsyncEvents c).
Definition set_PropUpdates (v : list PropUpdate) (c : ALCcontext) : ALCcontext :=
  mkContext (DeferUpdates c) (HoldUpdates c) (ctx_PropsClean c)
    (Listener_PropsClean c) (DefaultSlot c) (EffectSlotList c) (SourceList
    c) (FreeVoiceProps c) (Voices c) (VoiceCount c) (MaxVoices c) v
    (AsyncEvents c).
Definition set_AsyncEvents (v : list AsyncEvent) (c : ALCcontext) : ALCcontext :=
  mkContext (DeferUpdates c) (HoldUpdates c) (ctx_PropsClean c)
    (Listener_PropsClean c) (DefaultSlot c) (EffectSlotList c) (SourceList
    c) (FreeVoiceProps c) (Voices c) (VoiceCount c) (MaxVoices c)
    (PropUpdates c) v.


Record ALCdevice : Type := mkDevice {
  Type_ : DeviceType;  (* Type *)
  DeviceName : string;
  Connected : bool;
  LastError : Z;
  Flags : Z;
  Frequency : Z;
  UpdateSize : Z;
  NumUpdates : Z;
  FmtChans : DevFmtChannels;
  FmtType : DevFmtType;
  mAmbiOrder : Z;
  mAmbiLayout : Z;
  mAmbiScale : Z;
  SourcesMax : Z;
  AuxiliaryEffectSlotMax : Z;
  NumMonoSources : Z;
  NumStereoSources : Z;
  NumAuxSends : Z;
  LimiterState : Z;
  Limiter : option Compressor;
  HrtfStatus : Z;
  HrtfHandle : option Hrtf;
  HrtfList : list EnumeratedHrtf;
  Uhj_Encoder : bool;  (* non-null *)
  Bs2b : bool;  (* non-null *)
  ChannelDelay : list Z;  (* delay lengths *)
  Dry : MixParams;
  FOAOut : MixParams;
  RealOut : MixParams;
  MixBuffer : list ChanBuf;
  AvgSpeakerDist_pos : bool;  (* AvgSpeakerDist > 0.0f *)
  ClockBase : Z;  (* nanoseconds *)
  SamplesDone : Z;
  MixCount : Z;
  FixedLatency : Z;  (* nanoseconds *)
  DitherSeed : Z;
  DitherDepth : Z;  (* bit count d for 2^(d-1); 0 when off *)
  ContextList : list ALCcontext;  (* head first *)
  BackendLog : list BackendCall  (* oldest first *)
}.

Definition set_Connected (v : bool) (d : ALCdevice) : ALCdevice :=
  mkDevice (Type_ d) (DeviceName d) v (LastError d) (Flags d) (Frequency d)
    (UpdateSize d) (NumUpdates d) (FmtChans d) (FmtType d) (mAmbiOrder d)
    (mAmbiLayout d) (mAmbiScale d) (SourcesMax d) (AuxiliaryEffectSlotMax d)
    (NumMonoSources d) (NumStereoSources d) (NumAuxSends d) (LimiterState d)
    (Limiter d) (HrtfStatus d) (HrtfHandle d) (HrtfList d) (Uhj_Encoder d)
    (Bs2b d) (ChannelDelay d) (Dry d) (FOAOut d) (RealOut d) (MixBuffer d)
    (AvgSpeakerDist_pos d) (ClockBase d) (SamplesDone d) (MixCount d)
    (FixedLatency d) (DitherSeed d) (DitherDepth d) (ContextList d)
    (BackendLog d).
Definition set_LastError (v : Z) (d : ALCdevice) : ALCdevice :=
  mkDevice (Type_ d) (DeviceName d) (Connected d) v (Flags d) (Frequency d)
    (UpdateSize d) (NumUpdates d) (FmtChans d) (FmtType d) (mAmbiOrder d)
    (mAmbiLayout d) (mAmbiScale d) (SourcesMax d) (AuxiliaryEffectSlotMax d)
    (NumMonoSources d) (NumStereoSources d) (NumAuxSends d) (LimiterState d)
    (Limiter d) (HrtfStatus d) (HrtfHandle d) (HrtfList d) (Uhj_Encoder d)
    (Bs2b d) (ChannelDelay d) (Dry d) (FOAOut d) (RealOut d) (MixBuffer d)
    (AvgSpeakerDist_pos d) (ClockBase d) (SamplesDone d) (MixCount d)
    (FixedLatency d) (DitherSeed d) (DitherDepth d) (ContextList d)
    (BackendLog d).
Definition set_Flags (v : Z) (d : ALCdevice) : ALCdevice :=
  mkDevice (Type_ d) (DeviceName d) (Connected d) (LastError d) v (Frequency
    d) (UpdateSize d) (NumUpdates d) (FmtChans d) (FmtType d) (mAmbiOrder d)
    (mAmbiLayout d) (mAmbiScale d) (SourcesMax d) (AuxiliaryEffectSlotMax d)
    (NumMonoSources d) (NumStereoSources d) (NumAuxSends d) (LimiterState d)
    (Limiter d) (HrtfStatus d) (HrtfHandle d) (HrtfList d) (Uhj_Encoder d)
    (Bs2b d) (ChannelDelay d) (Dry d) (FOAOut d) (RealOut d) (MixBuffer d)
    (AvgSpeakerDist_pos d) (ClockBase d) (SamplesDone d) (MixCount d)
    (FixedLatency d) (DitherSeed d) (DitherDepth d) (ContextList d)
    (BackendLog d).
Definition set_Frequency (v : Z) (d : ALCdevice) : ALCdevice :=
  mkDevice (Type_ d) (DeviceName d) (Connected d) (LastError d) (Flags d) v
    (UpdateSize d) (NumUpdates d) (FmtChans d) (FmtType d) (mAmbiOrder d)
    (mAmbiLayout d) (mAmbiScale d) (SourcesMax d) (AuxiliaryEffectSlotMax d)
    (NumMonoSources d) (NumStereoSources d) (NumAuxSends d) (LimiterState d)
    (Limiter d) (HrtfStatus d) (HrtfHandle d) (HrtfList d) (Uhj_Encoder d)
    (Bs2b d) (ChannelDelay d) (Dry d) (FOAOut d) (RealOut d) (MixBuffer d)
    (AvgSpeakerDist_pos d) (ClockBase d) (SamplesDone d) (MixCount d)
    (FixedLatency d) (DitherSeed d) (DitherDepth d) (ContextList d)
    (BackendLog d).
Definition set_UpdateSize (v : Z) (d : ALCdevice) : ALCdevice :=
  mkDevice (Type_ d) (DeviceName d) (Connected d) (LastError d) (Flags d)
    (Frequency d) v (NumUpdates d) (FmtChans d) (FmtType d) (mAmbiOrder d)
    (mAmbiLayout d) (mAmbiScale d) (SourcesMax d) (AuxiliaryEffectSlotMax d)
    (NumMonoSources d) (NumStereoSources d) (NumAuxSends d) (LimiterState d)
    (Limiter d) (HrtfStatus d) (HrtfHandle d) (HrtfList d) (Uhj_Encoder d)
    (Bs2b d) (ChannelDelay d) (Dry d) (FOAOut d) (RealOut d) (MixBuffer d)
    (AvgSpeakerDist_pos d) (ClockBase d) (SamplesDone d) (MixCount d)
    (FixedLatency d) (DitherSeed d) (DitherDepth d) (ContextList d)
    (BackendLog d).
Definition set_NumUpdates (v : Z) (d : ALCdevice) : ALCdevice :=
  mkDevice (Type_ d) (DeviceName d) (Connected d) (LastError d) (Flags d)
    (Frequency d) (UpdateSize d) v (FmtChans d) (FmtType d) (mAmbiOrder d)
    (mAmbiLayout d) (mAmbiScale d) (SourcesMax d) (AuxiliaryEffectSlotMax d)
    (NumMonoSources d) (NumStereoSources d) (NumAuxSends d) (LimiterState d)
    (Limiter d) (HrtfStatus d) (HrtfHandle d) (HrtfList d) (Uhj_Encoder d)
    (Bs2b d) (ChannelDelay d) (Dry d) (FOAOut d) (RealOut d) (MixBuffer d)
    (AvgSpeakerDist_pos d) (ClockBase d) (SamplesDone d) (MixCount d)
    (FixedLatency d) (DitherSeed d) (DitherDepth d) (ContextList d)
    (BackendLog d).
Definition set_FmtChans (v : DevFmtChannels) (d : ALCdevice) : ALCdevice :=
  mkDevice (Type_ d) (DeviceName d) (Connected d) (LastError d) (Flags d)
    (Frequency d) (UpdateSize d) (NumUpdates d) v (FmtType d) (mAmbiOrder d)
    (mAmbiLayout d) (mAmbiScale d) (SourcesMax d) (AuxiliaryEffectSlotMax d)
    (NumMonoSources d) (NumStereoSources d) (NumAuxSends d) (LimiterState d)
    (Limiter d) (HrtfStatus d) (HrtfHandle d) (HrtfList d) (Uhj_Encoder d)
    (Bs2b d) (ChannelDelay d) (Dry d) (FOAOut d) (RealOut d) (MixBuffer d)
    (AvgSpeakerDist_pos d) (ClockBase d) (SamplesDone d) (MixCount d)
    (FixedLatency d) (DitherSeed d) (DitherDepth d) (ContextList d)
    (BackendLog d).
Definition set_FmtType (v : DevFmtType) (d : ALCdevice) : ALCdevice :=
  mkDevice (Type_ d) (DeviceName d) (Connected d) (LastError d) (Flags d)
    (Frequency d) (UpdateSize d) (NumUpdates d) (FmtChans d) v (mAmbiOrder
    d) (mAmbiLayout d) (mAmbiScale d) (SourcesMax d) (AuxiliaryEffectSlotMax
    d) (NumMonoSources d) (NumStereoSources d) (NumAuxSends d) (LimiterState
    d) (Limiter d) (HrtfStatus d) (HrtfHandle d) (HrtfList d) (Uhj_Encoder
    d) (Bs2b d) (ChannelDelay d) (Dry d) (FOAOut d) (RealOut d) (MixBuffer
    d) (AvgSpeakerDist_pos d) (ClockBase d) (SamplesDone d) (MixCount d)
    (FixedLatency d) (DitherSeed d) (DitherDepth d) (ContextList d)
    (BackendLog d).
Definition set_mAmbiOrder (v : Z) (d : ALCdevice) : ALCdevice :=
  mkDevice (Type_ d) (DeviceName d) (Connected d) (LastError d) (Flags d)
    (Frequency d) (UpdateSize d) (NumUpdates d) (FmtChans d) (FmtType d) v
    (mAmbiLayout d) (mAmbiScale d) (SourcesMax d) (AuxiliaryEffectSlotMax d)
    (NumMonoSources d) (NumStereoSources d) (NumAuxSends d) (LimiterState d)
    (Limiter d) (HrtfStatus d) (HrtfHandle d) (HrtfList d) (Uhj_Encoder d)
    (Bs2b d) (ChannelDelay d) (Dry d) (FOAOut d) (RealOut d) (MixBuffer d)
    (AvgSpeakerDist_pos d) (ClockBase d) (SamplesDone d) (MixCount d)
    (FixedLatency d) (DitherSeed d) (DitherDepth d) (ContextList d)
    (BackendLog d).
Definition set_mAmbiLayout (v : Z) (d : ALCdevice) : ALCdevice :=
  mkDevice (Type_ d) (DeviceName d) (Connected d) (LastError d) (Flags d)
    (Frequency d) (UpdateSize d) (NumUpdates d) (FmtChans d) (FmtType d)
    (mAmbiOrder d) v (mAmbiScale d) (SourcesMax d) (AuxiliaryEffectSlotMax
    d) (NumMonoSources d) (NumStereoSources d) (NumAuxSends d) (LimiterState
    d) (Limiter d) (HrtfStatus d) (HrtfHandle d) (HrtfList d) (Uhj_Encoder
    d) (Bs2b d) (ChannelDelay d) (Dry d) (FOAOut d) (RealOut d) (MixBuffer
    d) (AvgSpeakerDist_pos d) (ClockBase d) (SamplesDone d) (MixCount d)
    (FixedLatency d) (DitherSeed d) (DitherDepth d) (ContextList d)
    (BackendLog d).
Definition set_mAmbiScale (v : Z) (d : ALCdevice) : ALCdevice :=
  mkDevice (Type_ d) (DeviceName d) (Connected d) (LastError d) (Flags d)
    (Frequency d) (UpdateSize d) (NumUpdates d) (FmtChans d) (FmtType d)
    (mAmbiOrder d) (mAmbiLayout d) v (SourcesMax d) (AuxiliaryEffectSlotMax
    d) (NumMonoSources d) (NumStereoSources d) (NumAuxSends d) (LimiterState
    d) (Limiter d) (HrtfStatus d) (HrtfHandle d) (HrtfList d) (Uhj_Encoder
    d) (Bs2b d) (ChannelDelay d) (Dry d) (FOAOut d) (RealOut d) (MixBuffer
    d) (AvgSpeakerDist_pos d) (ClockBase d) (SamplesDone d) (MixCount d)
    (FixedLatency d) (DitherSeed d) (DitherDepth d) (ContextList d)
    (BackendLog d).
Definition set_SourcesMax (v : Z) (d : ALCdevice) : ALCdevice :=
  mkDevice (Type_ d) (DeviceName d) (Connected d) (LastError d) (Flags d)
    (Frequency d) (UpdateSize d) (NumUpdates d) (FmtChans d) (FmtType d)
    (mAmbiOrder d) (mAmbiLayout d) (mAmbiScale d) v (AuxiliaryEffectSlotMax
    d) (NumMonoSources d) (NumStereoSources d) (NumAuxSends d) (LimiterState
    d) (Limiter d) (HrtfStatus d) (HrtfHandle d) (HrtfList d) (Uhj_Encoder
    d) (Bs2b d) (ChannelDelay d) (Dry d) (FOAOut d) (RealOut d) (MixBuffer
    d) (AvgSpeakerDist_pos d) (ClockBase d) (SamplesDone d) (MixCount d)
    (FixedLatency d) (DitherSeed d) (DitherDepth d) (ContextList d)
    (BackendLog d).
Definition set_NumMonoSources (v : Z) (d : ALCdevice) : ALCdevice :=
  mkDevice (Type_ d) (DeviceName d) (Connected d) (LastError d) (Flags d)
    (Frequency d) (UpdateSize d) (NumUpdates d) (FmtChans d) (FmtType d)
    (mAmbiOrder d) (mAmbiLayout d) (mAmbiScale d) (SourcesMax d)
    (AuxiliaryEffectSlotMax d) v (NumStereoSources d) (NumAuxSends d)
    (LimiterState d) (Limiter d) (HrtfStatus d) (HrtfHandle d) (HrtfList d)
    (Uhj_Encoder d) (Bs2b d) (ChannelDelay d) (Dry d) (FOAOut d) (RealOut d)
    (MixBuffer d) (AvgSpeakerDist_pos d) (ClockBase d) (SamplesDone d)
    (MixCount d) (FixedLatency d) (DitherSeed d) (DitherDepth d)
    (ContextList d) (BackendLog d).
Definition set_NumStereoSources (v : Z) (d : ALCdevice) : ALCdevice :=
  mkDevice (Type_ d) (DeviceName d) (Connected d) (LastError d) (Flags d)
    (Frequency d) (UpdateSize d) (NumUpdates d) (FmtChans d) (FmtType d)
    (mAmbiOrder d) (mAmbiLayout d) (mAmbiScale d) (SourcesMax d)
    (AuxiliaryEffectSlotMax d) (NumMonoSources d) v (NumAuxSends d)
    (LimiterState d) (Limiter d) (HrtfStatus d) (HrtfHandle d) (HrtfList d)
    (Uhj_Encoder d) (Bs2b d) (ChannelDelay d) (Dry d) (FOAOut d) (RealOut d)
    (MixBuffer d) (AvgSpeakerDist_pos d) (ClockBase d) (SamplesDone d)
    (MixCount d) (FixedLatency d) (DitherSeed d) (DitherDepth d)
    (ContextList d) (BackendLog d).
Definition set_NumAuxSends (v : Z) (d : ALCdevice) : ALCdevice :=
  mkDevice (Type_ d) (DeviceName d) (Connected d) (LastError d) (Flags d)
    (Frequency d) (UpdateSize d) (NumUpdates d) (FmtChans d) (FmtType d)
    (mAmbiOrder d) (mAmbiLayout d) (mAmbiScale d) (SourcesMax d)
    (AuxiliaryEffectSlotMax d) (NumMonoSources d) (NumStereoSources d) v
    (LimiterState d) (Limiter d) (HrtfStatus d) (HrtfHandle d) (HrtfList d)
    (Uhj_Encoder d) (Bs2b d) (ChannelDelay d) (Dry d) (FOAOut d) (RealOut d)
    (MixBuffer d) (AvgSpeakerDist_pos d) (ClockBase d) (SamplesDone d)
    (MixCount d) (FixedLatency d) (DitherSeed d) (DitherDepth d)
    (ContextList d) (BackendLog d).
Definition set_LimiterState (v : Z) (d : ALCdevice) : ALCdevice :=
  mkDevice (Type_ d) (DeviceName d) (Connected d) (LastError d) (Flags d)
    (Frequency d) (UpdateSize d) (NumUpdates d) (FmtChans d) (FmtType d)
    (mAmbiOrder d) (mAmbiLayout d) (mAmbiScale d) (SourcesMax d)
    (AuxiliaryEffectSlotMax d) (NumMonoSources d) (NumStereoSources d)
    (NumAuxSends d) v (Limiter d) (HrtfStatus d) (HrtfHandle d) (HrtfList d)
    (Uhj_Encoder d) (Bs2b d) (ChannelDelay d) (Dry d) (FOAOut d) (RealOut d)
    (MixBuffer d) (AvgSpeakerDist_pos d) (ClockBase d) (SamplesDone d)
    (MixCount d) (FixedLatency d) (DitherSeed d) (DitherDepth d)
    (ContextList d) (BackendLog d).
Definition set_Limiter (v : option Compressor) (d : ALCdevice) : ALCdevice :=
  mkDevice (Type_ d) (DeviceName d) (Connected d) (LastError d) (Flags d)
    (Frequency d) (UpdateSize d) (NumUpdates d) (FmtChans d) (FmtType d)
    (mAmbiOrder d) (mAmbiLayout d) (mAmbiScale d) (SourcesMax d)
    (AuxiliaryEffectSlotMax d) (NumMonoSources d) (NumStereoSources d)
    (NumAuxSends d) (LimiterState d) v (HrtfStatus d) (HrtfHandle d)
    (HrtfList d) (Uhj_Encoder d) (Bs2b d) (ChannelDelay d) (Dry d) (FOAOut
    d) (RealOut d) (MixBuffer d) (AvgSpeakerDist_pos d) (ClockBase d)
    (SamplesDone d) (MixCount d) (FixedLatency d) (DitherSeed d)
    (DitherDepth d) (ContextList d) (BackendLog d).
Definition set_HrtfStatus (v : Z) (d : ALCdevice) : ALCdevice :=
  mkDevice (Type_ d) (DeviceName d) (Connected d) (LastError d) (Flags d)
    (Frequency d) (UpdateSize d) (NumUpdates d) (FmtChans d) (FmtType d)
    (mAmbiOrder d) (mAmbiLayout d) (mAmbiScale d) (SourcesMax d)
    (AuxiliaryEffectSlotMax d) (NumMonoSources d) (NumStereoSources d)
    (NumAuxSends d) (LimiterState d) (Limiter d) v (HrtfHandle d) (HrtfList
    d) (Uhj_Encoder d) (Bs2b d) (ChannelDelay d) (Dry d) (FOAOut d) (RealOut
    d) (MixBuffer d) (AvgSpeakerDist_pos d) (ClockBase d) (SamplesDone d)
    (MixCount d) (FixedLatency d) (DitherSeed d) (DitherDepth d)
    (ContextList d) (BackendLog d).
Definition set_HrtfHandle (v : option Hrtf) (d : ALCdevice) : ALCdevice :=
  mkDevice (Type_ d) (DeviceName d) (Connected d) (LastError d) (Flags d)
    (Frequency d) (UpdateSize d) (NumUpdates d) (FmtChans d) (FmtType d)
    (mAmbiOrder d) (mAmbiLayout d) (mAmbiScale d) (SourcesMax d)
    (AuxiliaryEffectSlotMax d) (NumMonoSources d) (NumStereoSources d)
    (NumAuxSends d) (LimiterState d) (Limiter d) (HrtfStatus d) v (HrtfList
    d) (Uhj_Encoder d) (Bs2b d) (ChannelDelay d) (Dry d) (FOAOut d) (RealOut
    d) (MixBuffer d) (AvgSpeakerDist_pos d) (ClockBase d) (SamplesDone d)
    (MixCount d) (FixedLatency d) (DitherSeed d) (DitherDepth d)
    (ContextList d) (BackendLog d).
Definition set_HrtfList (v : list EnumeratedHrtf) (d : ALCdevice) : ALCdevice :=
  mkDevice (Type_ d) (DeviceName d) (Connected d) (LastError d) (Flags d)
    (Frequency d) (UpdateSize d) (NumUpdates d) (FmtChans d) (FmtType d)
    (mAmbiOrder d) (mAmbiLayout d) (mAmbiScale d) (SourcesMax d)
    (AuxiliaryEffectSlotMax d) (NumMonoSources d) (NumStereoSources d)
    (NumAuxSends d) (LimiterState d) (Limiter d) (HrtfStatus d) (HrtfHandle
    d) v (Uhj_Encoder d) (Bs2b d) (ChannelDelay d) (Dry d) (FOAOut d)
    (RealOut d) (MixBuffer d) (AvgSpeakerDist_pos d) (ClockBase d)
    (SamplesDone d) (MixCount d) (FixedLatency d) (DitherSeed d)
    (DitherDepth d) (ContextList d) (BackendLog d).
Definition set_Uhj_Encoder (v : bool) (d : ALCdevice) : ALCdevice :=
  mkDevice (Type_ d) (DeviceName d) (Connected d) (LastError d) (Flags d)
    (Frequency d) (UpdateSize d) (NumUpdates d) (FmtChans d) (FmtType d)
    (mAmbiOrder d) (mAmbiLayout d) (mAmbiScale d) (SourcesMax d)
    (AuxiliaryEffectSlotMax d) (NumMonoSources d) (NumStereoSources d)
    (NumAuxSends d) (LimiterState d) (Limiter d) (HrtfStatus d) (HrtfHandle
    d) (HrtfList d) v (Bs2b d) (ChannelDelay d) (Dry d) (FOAOut d) (RealOut
    d) (MixBuffer d) (AvgSpeakerDist_pos d) (ClockBase d) (SamplesDone d)
    (MixCount d) (FixedLatency d) (DitherSeed d) (DitherDepth d)
    (ContextList d) (BackendLog d).
Definition set_Bs2b (v : bool) (d : ALCdevice) : ALCdevice :=
  mkDevice (Type_ d) (DeviceName d) (Connected d) (LastError d) (Flags d)
    (Frequency d) (UpdateSize d) (NumUpdates d) (FmtChans d) (FmtType d)
    (mAmbiOrder d) (mAmbiLayout d) (mAmbiScale d) (SourcesMax d)
    (AuxiliaryEffectSlotMax d) (NumMonoSources d) (NumStereoSources d)
    (NumAuxSends d) (LimiterState d) (Limiter d) (HrtfStatus d) (HrtfHandle
    d) (HrtfList d) (Uhj_Encoder d) v (ChannelDelay d) (Dry d) (FOAOut d)
    (RealOut d) (MixBuffer d) (AvgSpeakerDist_pos d) (ClockBase d)
    (SamplesDone d) (MixCount d) (FixedLatency d) (DitherSeed d)
    (DitherDepth d) (ContextList d) (BackendLog d).
Definition set_ChannelDelay (v : list Z) (d : ALCdevice) : ALCdevice :=
  mkDevice (Type_ d) (DeviceName d) (Connected d) (LastError d) (Flags d)
    (Frequency d) (UpdateSize d) (NumUpdates d) (FmtChans d) (FmtType d)
    (mAmbiOrder d) (mAmbiLayout d) (mAmbiScale d) (SourcesMax d)
    (AuxiliaryEffectSlotMax d) (NumMonoSources d) (NumStereoSources d)
    (NumAuxSends d) (LimiterState d) (Limiter d) (HrtfStatus d) (HrtfHandle
    d) (HrtfList d) (Uhj_Encoder d) (Bs2b d) v (Dry d) (FOAOut d) (RealOut
    d) (MixBuffer d) (AvgSpeakerDist_pos d) (ClockBase d) (SamplesDone d)
    (MixCount d) (FixedLatency d) (DitherSeed d) (DitherDepth d)
    (ContextList d) (BackendLog d).
Definition set_Dry (v : MixParams) (d : ALCdevice) : ALCdevice :=
  mkDevice (Type_ d) (DeviceName d) (Connected d) (LastError d) (Flags d)
    (Frequency d) (UpdateSize d) (NumUpdates d) (FmtChans d) (FmtType d)
    (mAmbiOrder d) (mAmbiLayout d) (mAmbiScale d) (SourcesMax d)
    (AuxiliaryEffectSlotMax d) (NumMonoSources d) (NumStereoSources d)
    (NumAuxSends d) (LimiterState d) (Limiter d) (HrtfStatus d) (HrtfHandle
    d) (HrtfList d) (Uhj_Encoder d) (Bs2b d) (ChannelDelay d) v (FOAOut d)
    (RealOut d) (MixBuffer d) (AvgSpeakerDist_pos d) (ClockBase d)
    (SamplesDone d) (MixCount d) (FixedLatency d) (DitherSeed d)
    (DitherDepth d) (ContextList d) (BackendLog d).
Definition set_FOAOut (v : MixParams) (d : ALCdevice) : ALCdevice :=
  mkDevice (Type_ d) (DeviceName d) (Connected d) (LastError d) (Flags d)
    (Frequency d) (UpdateSize d) (NumUpdates d) (FmtChans d) (FmtType d)
    (mAmbiOrder d) (mAmbiLayout d) (mAmbiScale d) (SourcesMax d)
    (AuxiliaryEffectSlotMax d) (NumMonoSources d) (NumStereoSources d)
    (NumAuxSends d) (LimiterState d) (Limiter d) (HrtfStatus d) (HrtfHandle
    d) (HrtfList d) (Uhj_Encoder d) (Bs2b d) (ChannelDelay d) (Dry d) v
    (RealOut d) (MixBuffer d) (AvgSpeakerDist_pos d) (ClockBase d)
    (SamplesDone d) (MixCount d) (FixedLatency d) (DitherSeed d)
    (DitherDepth d) (ContextList d) (BackendLog d).
Definition set_RealOut (v : MixParams) (d : ALCdevice) : ALCdevice :=
  mkDevice (Type_ d) (DeviceName d) (Connected d) (LastError d) (Flags d)
    (Frequency d) (UpdateSize d) (NumUpdates d) (FmtChans d) (FmtType d)
    (mAmbiOrder d) (mAmbiLayout d) (mAmbiScale d) (SourcesMax d)
    (AuxiliaryEffectSlotMax d) (NumMonoSources d) (NumStereoSources d)
    (NumAuxSends d) (LimiterState d) (Limiter d) (HrtfStatus d) (HrtfHandle
    d) (HrtfList d) (Uhj_Encoder d) (Bs2b d) (ChannelDelay d) (Dry d)
    (FOAOut d) v (MixBuffer d) (AvgSpeakerDist_pos d) (ClockBase d)
    (SamplesDone d) (MixCount d) (FixedLatency d) (DitherSeed d)
    (DitherDepth d) (ContextList d) (BackendLog d).
Definition set_MixBuffer (v : list ChanBuf) (d : ALCdevice) : ALCdevice :=
  mkDevice (Type_ d) (DeviceName d) (Connected d) (LastError d) (Flags d)
    (Frequency d) (UpdateSize d) (NumUpdates d) (FmtChans d) (FmtType d)
    (mAmbiOrder d) (mAmbiLayout d) (mAmbiScale d) (SourcesMax d)
    (AuxiliaryEffectSlotMax d) (NumMonoSources d) (NumStereoSources d)
    (NumAuxSends d) (LimiterState d) (Limiter d) (HrtfStatus d) (HrtfHandle
    d) (HrtfList d) (Uhj_Encoder d) (Bs2b d) (ChannelDelay d) (Dry d)
    (FOAOut d) (RealOut d) v (AvgSpeakerDist_pos d) (ClockBase d)
    (SamplesDone d) (MixCount d) (FixedLatency d) (DitherSeed d)
    (DitherDepth d) (ContextList d) (BackendLog d).
Definition set_AvgSpeakerDist_pos (v : bool) (d : ALCdevice) : ALCdevice :=
  mkDevice (Type_ d) (DeviceName d) (Connected d) (LastError d) (Flags d)
    (Frequency d) (UpdateSize d) (NumUpdates d) (FmtChans d) (FmtType d)
    (mAmbiOrder d) (mAmbiLayout d) (mAmbiScale d) (SourcesMax d)
    (AuxiliaryEffectSlotMax d) (NumMonoSources d) (NumStereoSources d)
    (NumAuxSends d) (LimiterState d) (Limiter d) (HrtfStatus d) (HrtfHandle
    d) (HrtfList d) (Uhj_Encoder d) (Bs2b d) (ChannelDelay d) (Dry d)
    (FOAOut d) (RealOut d) (MixBuffer d) v (ClockBase d) (SamplesDone d)
    (MixCount d) (FixedLatency d) (DitherSeed d) (DitherDepth d)
    (ContextList d) (BackendLog d).
Definition set_ClockBase (v : Z) (d : ALCdevice) : ALCdevice :=
  mkDevice (Type_ d) (DeviceName d) (Connected d) (LastError d) (Flags d)
    (Frequency d) (UpdateSize d) (NumUpdates d) (FmtChans d) (FmtType d)
    (mAmbiOrder d) (mAmbiLayout d) (mAmbiScale d) (SourcesMax d)
    (AuxiliaryEffectSlotMax d) (NumMonoSources d) (NumStereoSources d)
    (NumAuxSends d) (LimiterState d) (Limiter d) (HrtfStatus d) (HrtfHandle
    d) (HrtfList d) (Uhj_Encoder d) (Bs2b d) (ChannelDelay d) (Dry d)
    (FOAOut d) (RealOut d) (MixBuffer d) (AvgSpeakerDist_pos d) v
    (SamplesDone d) (MixCount d) (FixedLatency d) (DitherSeed d)
    (DitherDepth d) (ContextList d) (BackendLog d).
Definition set_SamplesDone (v : Z) (d : ALCdevice) : ALCdevice :=
  mkDevice (Type_ d) (DeviceName d) (Connected d) (LastError d) (Flags d)
    (Frequency d) (UpdateSize d) (NumUpdates d) (FmtChans d) (FmtType d)
    (mAmbiOrder d) (mAmbiLayout d) (mAmbiScale d) (SourcesMax d)
    (AuxiliaryEffectSlotMax d) (NumMonoSources d) (NumStereoSources d)
    (NumAuxSends d) (LimiterState d) (Limiter d) (HrtfStatus d) (HrtfHandle
    d) (HrtfList d) (Uhj_Encoder d) (Bs2b d) (ChannelDelay d) (Dry d)
    (FOAOut d) (RealOut d) (MixBuffer d) (AvgSpeakerDist_pos d) (ClockBase
    d) v (MixCount d) (FixedLatency d) (DitherSeed d) (DitherDepth d)
    (ContextList d) (BackendLog d).
Definition set_MixCount (v : Z) (d : ALCdevice) : ALCdevice :=
  mkDevice (Type_ d) (DeviceName d) (Connected d) (LastError d) (Flags d)
    (Frequency d) (UpdateSize d) (NumUpdates d) (FmtChans d) (FmtType d)
    (mAmbiOrder d) (mAmbiLayout d) (mAmbiScale d) (SourcesMax d)
    (AuxiliaryEffectSlotMax d) (NumMonoSources d) (NumStereoSources d)
    (NumAuxSends d) (LimiterState d) (Limiter d) (HrtfStatus d) (HrtfHandle
    d) (HrtfList d) (Uhj_Encoder d) (Bs2b d) (ChannelDelay d) (Dry d)
    (FOAOut d) (RealOut d) (MixBuffer d) (AvgSpeakerDist_pos d) (ClockBase
    d) (SamplesDone d) v (FixedLatency d) (DitherSeed d) (DitherDepth d)
    (ContextList d) (BackendLog d).
Definition set_FixedLatency (v : Z) (d : ALCdevice) : ALCdevice :=
  mkDevice (Type_ d) (DeviceName d) (Connected d) (LastError d) (Flags d)
    (Frequency d) (UpdateSize d) (NumUpdates d) (FmtChans d) (FmtType d)
    (mAmbiOrder d) (mAmbiLayout d) (mAmbiScale d) (SourcesMax d)
    (AuxiliaryEffectSlotMax d) (NumMonoSources d) (NumStereoSources d)
    (NumAuxSends d) (LimiterState d) (Limiter d) (HrtfStatus d) (HrtfHandle
    d) (HrtfList d) (Uhj_Encoder d) (Bs2b d) (ChannelDelay d) (Dry d)
    (FOAOut d) (RealOut d) (MixBuffer d) (AvgSpeakerDist_pos d) (ClockBase
    d) (SamplesDone d) (MixCount d) v (DitherSeed d) (DitherDepth d)
    (ContextList d) (BackendLog d).
Definition set_DitherSeed (v : Z) (d : ALCdevice) : ALCdevice :=
  mkDevice (Type_ d) (DeviceName d) (Connected d) (LastError d) (Flags d)
    (Frequency d) (UpdateSize d) (NumUpdates d) (FmtChans d) (FmtType d)
    (mAmbiOrder d) (mAmbiLayout d) (mAmbiScale d) (SourcesMax d)
    (AuxiliaryEffectSlotMax d) (NumMonoSources d) (NumStereoSources d)
    (NumAuxSends d) (LimiterState d) (Limiter d) (HrtfStatus d) (HrtfHandle
    d) (HrtfList d) (Uhj_Encoder d) (Bs2b d) (ChannelDelay d) (Dry d)
    (FOAOut d) (RealOut d) (MixBuffer d) (AvgSpeakerDist_pos d) (ClockBase
    d) (SamplesDone d) (MixCount d) (FixedLatency d) v (DitherDepth d)
    (ContextList d) (BackendLog d).
Definition set_DitherDepth (v : Z) (d : ALCdevice) : ALCdevice :=
  mkDevice (Type_ d) (DeviceName d) (Connected d) (LastError d) (Flags d)
    (Frequency d) (UpdateSize d) (NumUpdates d) (FmtChans d) (FmtType d)
    (mAmbiOrder d) (mAmbiLayout d) (mAmbiScale d) (SourcesMax d)
    (AuxiliaryEffectSlotMax d) (NumMonoSources d) (NumStereoSources d)
    (NumAuxSends d) (LimiterState d) (Limiter d) (HrtfStatus d) (HrtfHandle
    d) (HrtfList d) (Uhj_Encoder d) (Bs2b d) (ChannelDelay d) (Dry d)
    (FOAOut d) (RealOut d) (MixBuffer d) (AvgSpeakerDist_pos d) (ClockBase
    d) (SamplesDone d) (MixCount d) (FixedLatency d) (DitherSeed d) v
    (ContextList d) (BackendLog d).
Definition set_ContextList (v : list ALCcontext) (d : ALCdevice) : ALCdevice :=
  mkDevice (Type_ d) (DeviceName d) (Connected d) (LastError d) (Flags d)
    (Frequency d) (UpdateSize d) (NumUpdates d) (FmtChans d) (FmtType d)
    (mAmbiOrder d) (mAmbiLayout d) (mAmbiScale d) (SourcesMax d)
    (AuxiliaryEffectSlotMax d) (NumMonoSources d) (NumStereoSources d)
    (NumAuxSends d) (LimiterState d) (Limiter d) (HrtfStatus d) (HrtfHandle
    d) (HrtfList d) (Uhj_Encoder d) (Bs2b d) (ChannelDelay d) (Dry d)
    (FOAOut d) (RealOut d) (MixBuffer d) (AvgSpeakerDist_pos d) (ClockBase
    d) (SamplesDone d) (MixCount d) (FixedLatency d) (DitherSeed d)
    (DitherDepth d) v (BackendLog d).
Definition set_BackendLog (v : list BackendCall) (d : ALCdevice) : ALCdevice :=
  mkDevice (Type_ d) (DeviceName d) (Connected d) (LastError d) (Flags d)
    (Frequency d) (UpdateSize d) (NumUpdates d) (FmtChans d) (FmtType d)
    (mAmbiOrder d) (mAmbiLayout d) (mAmbiScale d) (SourcesMax d)
    (AuxiliaryEffectSlotMax d) (NumMonoSources d) (NumStereoSources d)
    (NumAuxSends d) (LimiterState d) (Limiter d) (HrtfStatus d) (HrtfHandle
    d) (HrtfList d) (Uhj_Encoder d) (Bs2b d) (ChannelDelay d) (Dry d)
    (FOAOut d) (RealOut d) (MixBuffer d) (AvgSpeakerDist_pos d) (ClockBase
    d) (SamplesDone d) (MixCount d) (FixedLatency d) (DitherSeed d)
    (DitherDepth d) (ContextList d) v.


(* ------------------------------------------------------------------ *)
(** ** Collaborators outside the source file *)

(** What [aluInitRenderer] leaves in the device: the channel counts of the
    three mix views, the HRTF outcome, and the post-processing objects. *)
Record RendererResult : Type := mkRenderer {
  r_Dry_NumChannels : Z;
  r_FOAOut_NumChannels : Z;
  r_RealOut_NumChannels : Z;
  r_HrtfStatus : Z;
  r_HrtfHandle : option Hrtf;
  r_AvgSpeakerDist_pos : bool;
  r_Uhj_Encoder : bool;
  r_Bs2b : bool;
  r_ChannelDelay : list Z
}.

(** The format a backend settles on in [reset()]. *)
Record BackendFormat : Type := mkBackendFormat {
  bf_FmtChans : DevFmtChannels;
  bf_FmtType : DevFmtType;
  bf_Frequency : Z;
  bf_UpdateSize : Z;
  bf_NumUpdates : Z
}.

Record Env : Type := mkEnv {
  CPUCapFlags : Z;
  (* configuration file: device name (None is nullptr) and key *)
  ConfigValueUInt : option string -> string -> option Z;
  ConfigValueInt : option string -> string -> option Z;
  ConfigValueStr : option string -> string -> option string;
  ConfigValueBool : option string -> string -> option bool;
  GetConfigValueBool : option string -> string -> bool -> bool;
  (* HRTF loader *)
  EnumerateHrtf : string -> list EnumeratedHrtf;
  GetLoadedHrtf : Z -> option Hrtf;
  (* backend *)
  backend_reset : ALCdevice -> bool * BackendFormat;
  backend_start : ALCdevice -> bool;
  backend_availableSamples : ALCdevice -> Z;
  (* renderer and limiter set-up *)
  aluInitRenderer :
    ALCdevice -> Z -> HrtfRequestMode -> HrtfRequestMode -> RendererResult;
  GetCompressorLookAhead : Compressor -> Z;
  (* EffectState::deviceUpdate *)
  deviceUpdate : EffectState -> ALCdevice -> bool;
  (* context creation *)
  DefaultEffect_is_null : bool;
  InitEffectSlot_ok : bool;
  InitializeEffect_ok : bool
}.

(* ------------------------------------------------------------------ *)
(** ** Small helpers of the source *)

Definition has_flag (flags mask : Z) : bool := negb (Z.land flags mask =? 0).
Definition clear_flag (flags mask : Z) : Z := Z.land flags (notu mask).
Definition raise_flag (flags mask : Z) : Z := Z.lor flags mask.

Definition log_call (c : BackendCall) (d : ALCdevice) : ALCdevice :=
  set_BackendLog (BackendLog d ++ [c]) d.

(** [if((device->Flags&DEVICE_RUNNING)) V0(device->Backend,stop)();
     device->Flags &= ~DEVICE_RUNNING;] *)
Definition stop_if_running (K : Consts) (d : ALCdevice) : ALCdevice :=
  let d1 := if has_flag (Flags d) (DEVICE_RUNNING K)
            then log_call Backend_stop d else d in
  set_Flags (clear_flag (Flags d1) (DEVICE_RUNNING K)) d1.

Definition IsValidALCType (type : Z) : bool :=
  (type =? ALC_BYTE_SOFT) || (type =? ALC_UNSIGNED_BYTE_SOFT)
  || (type =? ALC_SHORT_SOFT) || (type =? ALC_UNSIGNED_SHORT_SOFT)
  || (type =? ALC_INT_SOFT) || (type =? ALC_UNSIGNED_INT_SOFT)
  || (type =? ALC_FLOAT_SOFT).

Definition IsValidALCChannels (K : Consts) (channels : Z) : bool :=
  (channels =? ALC_MONO_SOFT) || (channels =? ALC_STEREO_SOFT)
  || (channels =? ALC_QUAD_SOFT) || (channels =? ALC_5POINT1_SOFT)
  || (channels =? ALC_6POINT1_SOFT) || (channels =? ALC_7POINT1_SOFT)
  || (channels =? ALC_BFORMAT3D_SOFT K).

Definition IsValidAmbiLayout (K : Consts) (layout : Z) : bool :=
  (layout =? ALC_ACN_SOFT K) || (layout =? ALC_FUMA_SOFT K).

Definition IsValidAmbiScaling (K : Consts) (scaling : Z) : bool :=
  (scaling =? ALC_N3D_SOFT K) || (scaling =? ALC_SN3D_SOFT K)
  || (scaling =? ALC_FUMA_SOFT K).

(** Modelled from the spec: the enumerators of [DevFmtChannels] and
    [DevFmtType] are declared in a header outside src/; a loopback format
    that passed [IsValidALCChannels] / [IsValidALCType] is pinned as the
    layout or sample type of the same name (spec 3, 6). *)
Definition DevFmtChannels_of_ALC (schans : Z) : DevFmtChannels :=
  if schans =? ALC_MONO_SOFT then DevFmtMono
  else if schans =? ALC_STEREO_SOFT then DevFmtStereo
  else if schans =? ALC_QUAD_SOFT then DevFmtQuad
  else if schans =? ALC_5POINT1_SOFT then DevFmtX51
  else if schans =? ALC_6POINT1_SOFT then DevFmtX61
  else if schans =? ALC_7POINT1_SOFT then DevFmtX71
  else DevFmtAmbi3D.

Definition DevFmtType_of_ALC (stype : Z) : DevFmtType :=
  if stype =? ALC_BYTE_SOFT then DevFmtByte
  else if stype =? ALC_UNSIGNED_BYTE_SOFT then DevFmtUByte
  else if stype =? ALC_SHORT_SOFT then DevFmtShort
  else if stype =? ALC_UNSIGNED_SHORT_SOFT then DevFmtUShort
  else if stype =? ALC_INT_SOFT then DevFmtInt
  else if stype =? ALC_UNSIGNED_INT_SOFT then DevFmtUInt
  else DevFmtFloat.

(** [strcasecmp(a, b) == 0] on ASCII strings. *)
Definition lower (c : ascii) : ascii :=
  let n := nat_of_ascii c in
  if (Nat.leb 65 n && Nat.leb n 90)%bool then ascii_of_nat (n + 32) else c.

Fixpoint strcaseeq (a b : string) : bool :=
  match a, b with
  | EmptyString, EmptyString => true
  | String x a', String y b' =>
      (Ascii.eqb (lower x) (lower y) && strcaseeq a' b')%bool
  | _, _ => false
  end.

(** [UpdateClockBase]: folds the samples done into the base clock between
    two increments of the mix count.  The quotient by a zero frequency is
    undefined in the source and 0 here. *)
Definition UpdateClockBase (device : ALCdevice) : ALCdevice :=
  let d1 := set_MixCount (wrapu (MixCount device + 1)) device in
  let d2 := set_ClockBase
              (ClockBase d1 + Z.quot (SamplesDone d1 * 1000000000) (Frequency d1))
              d1 in
  let d3 := set_SamplesDone 0 d2 in
  set_MixCount (wrapu (MixCount d3 + 1)) d3.

(* ------------------------------------------------------------------ *)
(** ** UpdateDeviceParams: the attribute list *)

(** The locals the attribute walk assigns. *)
Record AttrVals : Type := mkAttrVals {
  schans : Z;
  stype : Z;
  freq : Z;
  alayout : Z;
  ascale : Z;
  aorder : Z;
  numMono : Z;
  numStereo : Z;
  numSends : Z;
  hrtf_appreq : HrtfRequestMode;
  hrtf_id : Z;
  gainLimiter : Z
}.

Definition set_schans (v : Z) (a : AttrVals) : AttrVals :=
  mkAttrVals v (stype a) (freq a) (alayout a) (ascale a) (aorder a) (numMono
    a) (numStereo a) (numSends a) (hrtf_appreq a) (hrtf_id a) (gainLimiter
    a).
Definition set_stype (v : Z) (a : AttrVals) : AttrVals :=
  mkAttrVals (schans a) v (freq a) (alayout a) (ascale a) (aorder a)
    (numMono a) (numStereo a) (numSends a) (hrtf_appreq a) (hrtf_id a)
    (gainLimiter a).
Definition set_freq (v : Z) (a : AttrVals) : AttrVals :=
  mkAttrVals (schans a) (stype a) v (alayout a) (ascale a) (aorder a)
    (numMono a) (numStereo a) (numSends a) (hrtf_appreq a) (hrtf_id a)
    (gainLimiter a).
Definition set_alayout (v : Z) (a : AttrVals) : AttrVals :=
  mkAttrVals (schans a) (stype a) (freq a) v (ascale a) (aorder a) (numMono
    a) (numStereo a) (numSends a) (hrtf_appreq a) (hrtf_id a) (gainLimiter
    a).
Definition set_ascale (v : Z) (a : AttrVals) : AttrVals :=
  mkAttrVals (schans a) (stype a) (freq a) (alayout a) v (aorder a) (numMono
    a) (numStereo a) (numSends a) (hrtf_appreq a) (hrtf_id a) (gainLimiter
    a).
Definition set_aorder (v : Z) (a : AttrVals) : AttrVals :=
  mkAttrVals (schans a) (stype a) (freq a) (alayout a) (ascale a) v (numMono
    a) (numStereo a) (numSends a) (hrtf_appreq a) (hrtf_id a) (gainLimiter
    a).
Definition set_numMono (v : Z) (a : AttrVals) : AttrVals :=
  mkAttrVals (schans a) (stype a) (freq a) (alayout a) (ascale a) (aorder a)
    v (numStereo a) (numSends a) (hrtf_appreq a) (hrtf_id a) (gainLimiter
    a).
Definition set_numStereo (v : Z) (a : AttrVals) : AttrVals :=
  mkAttrVals (schans a) (stype a) (freq a) (alayout a) (ascale a) (aorder a)
    (numMono a) v (numSends a) (hrtf_appreq a) (hrtf_id a) (gainLimiter a).
Definition set_numSends (v : Z) (a : AttrVals) : AttrVals :=
  mkAttrVals (schans a) (stype a) (freq a) (alayout a) (ascale a) (aorder a)
    (numMono a) (numStereo a) v (hrtf_appreq a) (hrtf_id a) (gainLimiter a).
Definition set_hrtf_appreq (v : HrtfRequestMode) (a : AttrVals) : AttrVals :=
  mkAttrVals (schans a) (stype a) (freq a) (alayout a) (ascale a) (aorder a)
    (numMono a) (numStereo a) (numSends a) v (hrtf_id a) (gainLimiter a).
Definition set_hrtf_id (v : Z) (a : AttrVals) : AttrVals :=
  mkAttrVals (schans a) (stype a) (freq a) (alayout a) (ascale a) (aorder a)
    (numMono a) (numStereo a) (numSends a) (hrtf_appreq a) v (gainLimiter
    a).
Definition set_gainLimiter (v : Z) (a : AttrVals) : AttrVals :=
  mkAttrVals (schans a) (stype a) (freq a) (alayout a) (ascale a) (aorder a)
    (numMono a) (numStereo a) (numSends a) (hrtf_appreq a) (hrtf_id a) v.

(** One iteration of [switch(attrList[attrIdx])], the cases in source
    order. *)
Definition attr_case (K : Consts) (key val : Z) (a : AttrVals) : AttrVals :=
  if key =? ALC_FORMAT_CHANNELS_SOFT then set_schans val a
  else if key =? ALC_FORMAT_TYPE_SOFT then set_stype val a
  else if key =? ALC_FREQUENCY then set_freq (wrapu val) a
  else if key =? ALC_AMBISONIC_LAYOUT_SOFT K then set_alayout val a
  else if key =? ALC_AMBISONIC_SCALING_SOFT K then set_ascale val a
  else if key =? ALC_AMBISONIC_ORDER_SOFT K then set_aorder val a
  else if key =? ALC_MONO_SOURCES then set_numMono (maxi val 0) a
  else if key =? ALC_STEREO_SOURCES then set_numStereo (maxi val 0) a
  else if key =? ALC_MAX_AUXILIARY_SENDS
       then set_numSends (clampi val 0 (MAX_SENDS K)) a
  else if key =? ALC_HRTF_SOFT
       then set_hrtf_appreq
              (if val =? ALC_FALSE then Hrtf_Disable
               else if val =? ALC_TRUE then Hrtf_Enable
               else Hrtf_Default) a
  else if key =? ALC_HRTF_ID_SOFT then set_hrtf_id val a
  else if key =? ALC_OUTPUT_LIMITER_SOFT then set_gainLimiter val a
  else a.

(** [while(attrList[attrIdx]) { ...; attrIdx += 2; }].  The array is given
    by its elements; the terminating 0 and whatever follows the listed
    elements read as 0. *)
Fixpoint walk_attrs (K : Consts) (attrList : list Z) (a : AttrVals)
  : AttrVals :=
  match attrList with
  | [] => a
  | key :: rest =>
      if key =? 0 then a
      else match rest with
           | [] => attr_case K key 0 a
           | val :: rest' => walk_attrs K rest' (attr_case K key val a)
           end
  end.

(** [!attrList || !attrList[0]]; [None] is the null pointer. *)
Definition attrs_missing (attrList : option (list Z)) : bool :=
  match attrList with
  | None => true
  | Some [] => true
  | Some (key :: _) => key =? 0
  end.

(** The checks of the [if(loopback)] block, in source order; [true] when
    one of them returns ALC_INVALID_VALUE. *)
Definition loopback_attrs_invalid (K : Consts) (a : AttrVals) : bool :=
  ((schans a =? 0) || (stype a =? 0) || (freq a =? 0))
  || ((schans a =? ALC_BFORMAT3D_SOFT K)
      && ((alayout a =? 0) || (ascale a =? 0) || (aorder a =? 0)))
  || (negb (IsValidALCChannels K (schans a))
      || negb (IsValidALCType (stype a))
      || (freq a <? wrapu (MIN_OUTPUT_RATE K)))
  || (negb (IsValidAmbiLayout K (alayout a))
      || negb (IsValidAmbiScaling K (ascale a)))
  || ((aorder a <? 1) || (aorder a >? MAX_AMBI_ORDER K))
  || (((alayout a =? ALC_FUMA_SOFT K) || (ascale a =? ALC_FUMA_SOFT K))
      && (aorder a >? 3)).

(** [ConfigValueUInt(devname, nullptr, key, &var)] and its signed twin:
    the variable keeps its value when the key is absent. *)
Definition config_uint (E : Env) (devname : option string) (key : string)
  (var : Z) : Z :=
  match ConfigValueUInt E devname key with
  | Some v => wrapu v
  | None => var
  end.

Definition config_int (E : Env) (devname : option string) (key : string)
  (var : Z) : Z :=
  match ConfigValueInt E devname key with
  | Some v => wrapi v
  | None => var
  end.

(** The [if(!loopback)] block after the walk: frequency, period count and
    period size of a playback device. *)
Definition playback_periods (K : Consts) (E : Env) (devname : option string)
  (freq0 : Z) (device : ALCdevice) : ALCdevice :=
  let d := set_NumUpdates (wrapu (DEFAULT_NUM_UPDATES K)) device in
  let d := set_UpdateSize (wrapu (DEFAULT_UPDATE_SIZE K)) d in
  let d := set_Frequency (wrapu (DEFAULT_OUTPUT_RATE K)) d in
  let freq := config_uint E devname "frequency" freq0 in
  let d :=
    if freq <? 1
    then set_Flags (clear_flag (Flags d) (DEVICE_FREQUENCY_REQUEST K)) d
    else
      let freq := wrapu (maxi (wrapi freq) (MIN_OUTPUT_RATE K)) in
      let d := set_NumUpdates
                 (Z.quot (wrapu (NumUpdates d * freq + Z.quot (NumUpdates d) 2))
                         (Frequency d)) d in
      let d := set_Frequency freq d in
      set_Flags (raise_flag (Flags d) (DEVICE_FREQUENCY_REQUEST K)) d in
  let d := set_NumUpdates (config_uint E devname "periods" (NumUpdates d)) d in
  let d := set_NumUpdates (clampu (NumUpdates d) 2 16) d in
  let d := set_UpdateSize (config_uint E devname "period_size" (UpdateSize d)) d in
  let d := set_UpdateSize (clampu (UpdateSize d) 64 8192) d in
  if negb (Z.land (CPUCapFlags E) (Z.lor (CPU_CAP_SSE K) (CPU_CAP_NEON K)) =? 0)
  then set_UpdateSize (Z.land (wrapu (UpdateSize d + 3)) (notu 3)) d
  else d.

(** The [else] block: a loopback device takes the format of the list. *)
Definition loopback_format (K : Consts) (a : AttrVals) (device : ALCdevice)
  : ALCdevice :=
  let d := set_Frequency (freq a) device in
  let d := set_FmtChans (DevFmtChannels_of_ALC (schans a)) d in
  let d := set_FmtType (DevFmtType_of_ALC (stype a)) d in
  if schans a =? ALC_BFORMAT3D_SOFT K
  then set_mAmbiScale (ascale a)
         (set_mAmbiLayout (alayout a) (set_mAmbiOrder (aorder a) d))
  else d.

(** Source counts and the new send count. *)
Definition source_counts (E : Env) (devname : option string) (a : AttrVals)
  : Z * Z :=
  let numStereo := numStereo a in
  let numMono := numMono a in
  let numMono := if numMono >? wrapi (INT_MAX - numStereo)
                 then wrapi (INT_MAX - numStereo) else numMono in
  let numMono := wrapi (numMono + numStereo) in
  let numMono :=
    match ConfigValueInt E devname "sources" with
    | Some v => if wrapi v <=? 0 then 256 else wrapi v
    | None => maxi numMono 256
    end in
  let numStereo := mini numStereo numMono in
  let numMono := wrapi (numMono - numStereo) in
  (numMono, numStereo).

Definition sends_from_config (K : Consts) (E : Env) (devname : option string)
  (numSends : Z) : Z :=
  match ConfigValueInt E devname "sends" with
  | Some v => mini numSends (clampi (wrapi v) 0 (MAX_SENDS K))
  | None => numSends
  end.

(* ------------------------------------------------------------------ *)
(** ** UpdateDeviceParams: control flow

    The function has several early returns.  Each stage below either
    returns from the function with an error code and the device as it
    stands, or hands its result to the next stage. *)

Inductive Stage (A : Type) : Type :=
  | Return (err : Z) (device : ALCdevice)
  | Next (x : A).
Arguments Return {A} err device.
Arguments Next {A} x.

Definition andThen {A B : Type} (s : Stage A) (k : A -> Stage B) : Stage B :=
  match s with
  | Return err d => Return err d
  | Next x => k x
  end.

Notation "x <- s ;; k" := (andThen s (fun x => k))
  (at level 61, s at next level, right associativity).

(** The locals that outlive the attribute block. *)
Record Locals : Type := mkLocals {
  l_hrtf_userreq : HrtfRequestMode;
  l_hrtf_appreq : HrtfRequestMode;
  l_hrtf_id : Z;
  l_gainLimiter : Z;
  l_old_sends : Z;
  l_new_sends : Z
}.

(** Lines 1600-1808: the missing-attributes check for loopback devices and
    the [if(attrList && attrList[0])] block. *)
Definition attribute_stage (K : Consts) (E : Env) (device : ALCdevice)
  (attrList : option (list Z)) : Stage (ALCdevice * Locals) :=
  let old_sends := NumAuxSends device in
  let loopback := DeviceType_eqb (Type_ device) Loopback in
  if attrs_missing attrList && loopback
  then Return ALC_INVALID_VALUE device
  else
    match attrList with
    | Some attrs =>
        if attrs_missing attrList
        then Next (device, mkLocals Hrtf_Default Hrtf_Default (-1)
                             (LimiterState device) old_sends old_sends)
        else
          let devname := if loopback then None else Some (DeviceName device) in
          let d := if loopback then device else stop_if_running K device in
          let a := walk_attrs K attrs
                     (mkAttrVals AL_NONE AL_NONE 0 AL_NONE AL_NONE 0
                        (wrapi (NumMonoSources d)) (wrapi (NumStereoSources d))
                        old_sends Hrtf_Default (-1) (LimiterState device)) in
          if loopback && loopback_attrs_invalid K a
          then Return ALC_INVALID_VALUE d
          else
            let d := stop_if_running K d in
            let d := UpdateClockBase d in
            let d := if loopback then loopback_format K a d
                     else playback_periods K E devname (freq a) d in
            let (numMono, numStereo) := source_counts E devname a in
            let d := set_SourcesMax (wrapu (numMono + numStereo)) d in
            let d := set_NumMonoSources (wrapu numMono) d in
            let d := set_NumStereoSources (wrapu numStereo) d in
            Next (d, mkLocals Hrtf_Default (hrtf_appreq a) (hrtf_id a)
                       (gainLimiter a) old_sends
                       (sends_from_config K E devname (numSends a)))
    | None =>
        Next (device, mkLocals Hrtf_Default Hrtf_Default (-1)
                        (LimiterState device) old_sends old_sends)
    end.

(** Lines 1813-1836: the mix views and buffer are dropped and the clock
    folded before the format is renegotiated. *)
Definition clear_views (K : Consts) (device : ALCdevice) : ALCdevice :=
  let d := set_Uhj_Encoder false device in
  let d := set_Bs2b false d in
  let d := set_ChannelDelay [] d in
  let d := set_Dry (mkMixParams None 0) d in
  let d := set_FOAOut (mkMixParams None 0) d in
  let d := set_RealOut (mkMixParams None 0) d in
  let d := set_MixBuffer [] d in
  let d := UpdateClockBase d in
  let d := set_FixedLatency 0 d in
  let d := set_DitherSeed (DITHER_RNG_SEED K) d in
  set_HrtfStatus ALC_HRTF_DISABLED_SOFT d.

(** Lines 1837-1879: the HRTF request of a playback device.  Reference
    counts of HRTF data sets are not modelled. *)
Definition hrtf_request (K : Consts) (E : Env) (device : ALCdevice)
  (l : Locals) : ALCdevice * Locals :=
  if DeviceType_eqb (Type_ device) Loopback then (device, l)
  else
    let userreq :=
      match ConfigValueStr E (Some (DeviceName device)) "hrtf" with
      | Some s => if strcaseeq s "true" then Hrtf_Enable
                  else if strcaseeq s "false" then Hrtf_Disable
                  else Hrtf_Default
      | None => Hrtf_Default
      end in
    if HrtfRequestMode_eqb userreq Hrtf_Enable
       || (negb (HrtfRequestMode_eqb userreq Hrtf_Disable)
           && HrtfRequestMode_eqb (l_hrtf_appreq l) Hrtf_Enable)
    then
      let d := match HrtfList device with
               | [] => set_HrtfList (EnumerateHrtf E (DeviceName device)) device
               | _ :: _ => device
               end in
      let loaded :=
        match HrtfList d with
        | [] => None
        | first :: _ =>
            if (0 <=? l_hrtf_id l)
               && (l_hrtf_id l <? Z.of_nat (List.length (HrtfList d)))
            then GetLoadedHrtf E
                   (hrtf (nth (Z.to_nat (l_hrtf_id l)) (HrtfList d) first))
            else GetLoadedHrtf E (hrtf first)
        end in
      match loaded with
      | Some h =>
          let d := set_FmtChans DevFmtStereo d in
          let d := set_Frequency (wrapu (sampleRate h)) d in
          let d := set_Flags
                     (raise_flag (Flags d)
                        (Z.lor (DEVICE_CHANNELS_REQUEST K)
                               (DEVICE_FREQUENCY_REQUEST K))) d in
          (set_HrtfHandle (Some h) d,
           mkLocals userreq (l_hrtf_appreq l) (l_hrtf_id l) (l_gainLimiter l)
             (l_old_sends l) (l_new_sends l))
      | None =>
          (set_HrtfStatus ALC_HRTF_UNSUPPORTED_FORMAT_SOFT d,
           mkLocals Hrtf_Default Hrtf_Disable (l_hrtf_id l) (l_gainLimiter l)
             (l_old_sends l) (l_new_sends l))
      end
    else
      (device,
       mkLocals userreq (l_hrtf_appreq l) (l_hrtf_id l) (l_gainLimiter l)
         (l_old_sends l) (l_new_sends l)).

(** Lines 1810-1879: the running check, then everything up to the call of
    the backend's [reset()]. *)
Definition prepare_stage (K : Consts) (E : Env) (x : ALCdevice * Locals)
  : Stage (ALCdevice * Locals) :=
  let (device, l) := x in
  if has_flag (Flags device) (DEVICE_RUNNING K)
  then Return ALC_NO_ERROR device
  else Next (hrtf_request K E (clear_views K device) l).

(** Lines 1881-1911: the backend renegotiates the format; a request flag
    whose field came back different is dropped. *)
Definition apply_format (f : BackendFormat) (d : ALCdevice) : ALCdevice :=
  let d := set_FmtChans (bf_FmtChans f) d in
  let d := set_FmtType (bf_FmtType f) d in
  let d := set_Frequency (wrapu (bf_Frequency f)) d in
  let d := set_UpdateSize (wrapu (bf_UpdateSize f)) d in
  set_NumUpdates (wrapu (bf_NumUpdates f)) d.

Definition reconcile_requests (K : Consts) (oldFreq : Z)
  (oldChans : DevFmtChannels) (oldType : DevFmtType) (device : ALCdevice)
  : ALCdevice :=
  let d := device in
  let d := if negb (DevFmtChannels_eqb (FmtChans d) oldChans)
              && has_flag (Flags d) (DEVICE_CHANNELS_REQUEST K)
           then set_Flags (clear_flag (Flags d) (DEVICE_CHANNELS_REQUEST K)) d
           else d in
  let d := if negb (DevFmtType_eqb (FmtType d) oldType)
              && has_flag (Flags d) (DEVICE_SAMPLE_TYPE_REQUEST K)
           then set_Flags (clear_flag (Flags d) (DEVICE_SAMPLE_TYPE_REQUEST K)) d
           else d in
  if negb (Frequency d =? oldFreq)
     && has_flag (Flags d) (DEVICE_FREQUENCY_REQUEST K)
  then set_Flags (clear_flag (Flags d) (DEVICE_FREQUENCY_REQUEST K)) d
  else d.

Definition reset_stage (K : Consts) (E : Env) (x : ALCdevice * Locals)
  : Stage (ALCdevice * Locals) :=
  let (device, l) := x in
  let oldFreq := Frequency device in
  let oldChans := FmtChans device in
  let oldType := FmtType device in
  let (ok, fmt) := backend_reset E device in
  let d := apply_format fmt (log_call Backend_reset device) in
  if negb ok then Return ALC_INVALID_DEVICE d
  else Next (reconcile_requests K oldFreq oldChans oldType d, l).

(** Line 1926: [aluInitRenderer] fills in the channel counts. *)
Definition apply_renderer (r : RendererResult) (d : ALCdevice) : ALCdevice :=
  let d := set_Dry (mkMixParams (Buffer (Dry d)) (r_Dry_NumChannels r)) d in
  let d := set_FOAOut
             (mkMixParams (Buffer (FOAOut d)) (r_FOAOut_NumChannels r)) d in
  let d := set_RealOut
             (mkMixParams (Buffer (RealOut d)) (r_RealOut_NumChannels r)) d in
  let d := set_HrtfStatus (r_HrtfStatus r) d in
  let d := set_HrtfHandle (r_HrtfHandle r) d in
  let d := set_AvgSpeakerDist_pos (r_AvgSpeakerDist_pos r) d in
  let d := set_Uhj_Encoder (r_Uhj_Encoder r) d in
  let d := set_Bs2b (r_Bs2b r) d in
  set_ChannelDelay (r_ChannelDelay r) d.

(** [std::vector::resize]: keep the first [n] elements, pad with fresh
    ones.  A negative count (a length error in the source) gives the empty
    vector here. *)
Definition resize {A : Type} (fresh : A) (n : Z) (v : list A) : list A :=
  firstn (Z.to_nat n) v ++ repeat fresh (Z.to_nat n - List.length v).

(** Lines 1930-1956: the mix buffer is sized for the three views; a view
    without channels of its own is made an alias of the dry view. *)
Definition allocate_mix_buffer (new_sends : Z) (device : ALCdevice)
  : ALCdevice :=
  let num_chans := wrapi (NumChannels (Dry device)
                          + NumChannels (FOAOut device)
                          + NumChannels (RealOut device)) in
  let d := set_MixBuffer (resize ZeroedLine num_chans (MixBuffer device))
             device in
  let d := set_Dry (mkMixParams (Some 0) (NumChannels (Dry d))) d in
  let d :=
    if negb (NumChannels (RealOut d) =? 0)
    then set_RealOut
           (mkMixParams
              (Some (NumChannels (Dry d) + NumChannels (FOAOut d)))
              (NumChannels (RealOut d))) d
    else set_RealOut (mkMixParams (Some 0) (NumChannels (Dry d))) d in
  let d :=
    if negb (NumChannels (FOAOut d) =? 0)
    then set_FOAOut
           (mkMixParams (Some (NumChannels (Dry d)))
              (NumChannels (FOAOut d))) d
    else set_FOAOut (mkMixParams (Some 0) (NumChannels (Dry d))) d in
  set_NumAuxSends new_sends d.

(** Lines 1961-1990: the dither depth, kept as its bit count. *)
Definition select_dither (E : Env) (device : ALCdevice) : ALCdevice :=
  let name := Some (DeviceName device) in
  let d := set_DitherDepth 0 device in
  if GetConfigValueBool E name "dither" true
  then
    let depth := config_int E name "dither-depth" 0 in
    let depth :=
      if depth <=? 0
      then match FmtType d with
           | DevFmtByte | DevFmtUByte => 8
           | DevFmtShort | DevFmtUShort => 16
           | DevFmtInt | DevFmtUInt | DevFmtFloat => depth
           end
      else depth in
    if depth >? 0 then set_DitherDepth (clampi depth 2 24) d else d
  else d.

(** Lines 1997-2052: the output limiter and its look-ahead latency. *)
Definition select_limiter (E : Env) (gainLimiter0 : Z) (device : ALCdevice)
  : ALCdevice :=
  let d := set_LimiterState gainLimiter0 device in
  let gainLimiter :=
    match ConfigValueBool E (Some (DeviceName d)) "output-limiter" with
    | Some val => if val then ALC_TRUE else ALC_FALSE
    | None => gainLimiter0
    end in
  let gainLimiter :=
    if gainLimiter =? ALC_DONT_CARE_SOFT
    then match FmtType d with
         | DevFmtFloat => ALC_FALSE
         | _ => ALC_TRUE
         end
    else gainLimiter in
  if negb (gainLimiter =? ALC_FALSE)
  then
    let limiter := mkCompressor (NumChannels (RealOut d)) (Frequency d)
                     (FmtType d) (DitherDepth d) in
    let d := set_Limiter (Some limiter) d in
    set_FixedLatency
      (FixedLatency d
       + Z.quot (GetCompressorLookAhead E limiter * 1000000000) (Frequency d))
      d
  else set_Limiter None d.

(* ------------------------------------------------------------------ *)
(** ** Property publication *)

Definition publish (u : PropUpdate) (c : ALCcontext) : ALCcontext :=
  set_PropUpdates (PropUpdates c ++ [u]) c.

(** Modelled from the spec: [UpdateContextProps], [UpdateListenerProps]
    and [UpdateEffectSlotProps] are defined outside src/; by spec 4.6 each
    copies a snapshot of the entity into an update struct and swaps it into
    the published slot.  The snapshot itself is not modelled, only that it
    was published. *)
Definition UpdateContextProps (c : ALCcontext) : ALCcontext :=
  publish Upd_Context c.
Definition UpdateListenerProps (c : ALCcontext) : ALCcontext :=
  publish Upd_Listener c.
Definition UpdateEffectSlotProps (slot : ALeffectslot) (c : ALCcontext)
  : ALCcontext :=
  publish (Upd_EffectSlot (slot_id slot)) c.

Definition set_slot_PropsClean (v : bool) (s : ALeffectslot) : ALeffectslot :=
  mkSlot (slot_id s) (slot_ref s) v (Effect_State s).
Definition set_src_PropsClean (v : bool) (s : ALsource) : ALsource :=
  mkSource (source_id s) (Send s) v.

(** The sources in use in a slab: slot [i] is in use when bit [i] of the
    free mask is clear. *)
Fixpoint used_from (i : nat) (mask : Z) (srcs : list ALsource)
  : list ALsource :=
  match srcs with
  | [] => []
  | s :: rest =>
      if Z.testbit mask (Z.of_nat i) then used_from (S i) mask rest
      else s :: used_from (S i) mask rest
  end.

Definition live_sources (c : ALCcontext) : list ALsource :=
  flat_map (fun sl => used_from 0 (FreeMask sl) (Sources sl)) (SourceList c).

Fixpoint map_used_from (f : ALsource -> ALsource) (i : nat) (mask : Z)
  (srcs : list ALsource) : list ALsource :=
  match srcs with
  | [] => []
  | s :: rest =>
      (if Z.testbit mask (Z.of_nat i) then s else f s)
      :: map_used_from f (S i) mask rest
  end.

Definition all_slots (c : ALCcontext) : list ALeffectslot :=
  match DefaultSlot c with
  | Some s => s :: EffectSlotList c
  | None => EffectSlotList c
  end.

(** Modelled from the spec: [UpdateAllEffectSlotProps] and
    [UpdateAllSourceProps] are defined outside src/.  By spec 4.6 the
    publish-all sweep test-and-sets the clean flag of each entity and
    publishes those whose flag was clear; by spec 4.4 ProcessUpdates
    publishes all pending slot and source properties. *)
Definition UpdateAllEffectSlotProps (c : ALCcontext) : ALCcontext :=
  let pending := filter (fun s => negb (slot_PropsClean s)) (all_slots c) in
  let c := set_DefaultSlot
             (option_map (set_slot_PropsClean true) (DefaultSlot c)) c in
  let c := set_EffectSlotList
             (map (set_slot_PropsClean true) (EffectSlotList c)) c in
  fold_left (fun c s => UpdateEffectSlotProps s c) pending c.

Definition UpdateAllSourceProps (c : ALCcontext) : ALCcontext :=
  let pending := filter (fun s => negb (src_PropsClean s)) (live_sources c) in
  let c := set_SourceList
             (map (fun sl =>
                     mkSubList (FreeMask sl)
                       (map_used_from (set_src_PropsClean true) 0
                          (FreeMask sl) (Sources sl)))
                  (SourceList c)) c in
  fold_left (fun c s => publish (Upd_Source (source_id s)) c) pending c.

(* ------------------------------------------------------------------ *)
(** ** Deferred updates *)

(** [ALCcontext_DeferUpdates]. *)
Definition ALCcontext_DeferUpdates (context : ALCcontext) : ALCcontext :=
  set_DeferUpdates true context.

(** The wait loop of [ALCcontext_ProcessUpdates].  [UpdateCount] is
    written by the mixer thread only; [loads i] is the value the [i]-th
    acquire-load of it returns.  The result is the number of loads made,
    or [None] when [fuel] loads all returned an odd value. *)
Fixpoint wait_for_mixer (fuel : nat) (loads : nat -> Z) (i : nat)
  : option nat :=
  match fuel with
  | O => None
  | S fuel' =>
      if negb (Z.land (loads i) 1 =? 0)
      then wait_for_mixer fuel' loads (S i)
      else Some (S i)
  end.

(** [ALCcontext_ProcessUpdates]; [None] when the wait loop did not come
    to an end within [fuel] loads. *)
Definition ALCcontext_ProcessUpdates (fuel : nat) (loads : nat -> Z)
  (context : ALCcontext) : option ALCcontext :=
  if DeferUpdates context
  then
    let c := set_DeferUpdates false context in
    let c := set_HoldUpdates true c in
    match wait_for_mixer fuel loads 0 with
    | None => None
    | Some _ =>
        let c := if negb (ctx_PropsClean c)
                 then UpdateContextProps (set_ctx_PropsClean true c)
                 else c in
        let c := if negb (Listener_PropsClean c)
                 then UpdateListenerProps (set_Listener_PropsClean true c)
                 else c in
        let c := UpdateAllEffectSlotProps c in
        let c := UpdateAllSourceProps c in
        Some (set_HoldUpdates false c)
    end
  else Some context.

(* ------------------------------------------------------------------ *)
(** ** UpdateDeviceParams: the attached contexts *)

(** [CTZ64]: index of the lowest set bit (64 for zero). *)
Fixpoint ctz_pos (p : positive) : Z :=
  match p with
  | xO q => 1 + ctz_pos q
  | _ => 0
  end.

Definition CTZ64 (x : Z) : Z :=
  match x with
  | Zpos p => ctz_pos p
  | _ => 64
  end.

(** Replace element [i] of a list; out of range leaves the list alone (the
    source would write out of bounds). *)
Fixpoint list_set {A : Type} (i : nat) (x : A) (l : list A) : list A :=
  match l, i with
  | [], _ => []
  | _ :: rest, O => x :: rest
  | y :: rest, S i' => y :: list_set i' x rest
  end.

(** The body of the source loop when the send count changes.  Returns the
    source and the ids of the slots whose reference it gave up. *)
Definition release_send (s : SendData) : SendData :=
  mkSend None (send_identity s).

Definition identity_send : SendData := mkSend None true.
Definition fresh_send : SendData := mkSend None false.

Fixpoint init_sends (n : nat) (from : nat) (sends : list SendData)
  : list SendData :=
  match n with
  | O => sends
  | S n' => init_sends n' (S from) (list_set from identity_send sends)
  end.

Definition resend_source (old_sends new_sends : Z) (source : ALsource)
  : ALsource * list Z :=
  let lo := Z.to_nat new_sends in
  let hi := Z.to_nat old_sends in
  let dropped := firstn (hi - lo) (skipn lo (Send source)) in
  let released :=
    flat_map (fun s => match Slot s with Some id => [id] | None => [] end)
      dropped in
  let sends := firstn lo (Send source)
               ++ map release_send dropped
               ++ skipn (lo + (hi - lo)) (Send source) in
  let sends := resize fresh_send new_sends sends in
  let sends := init_sends (lo - hi) hi sends in
  (mkSource (source_id source) sends (src_PropsClean source), released).

Definition update_source (old_sends new_sends : Z) (source : ALsource)
  : ALsource * list Z :=
  let (s, released) :=
    if negb (old_sends =? new_sends)
    then resend_source old_sends new_sends source
    else (source, []) in
  (set_src_PropsClean false s, released).

(** [while(usemask) { idx = CTZ64(usemask); ...; usemask &= ~(1<<idx); }]
    over one slab.  64 rounds exhaust a 64-bit mask. *)
Fixpoint visit_used (fuel : nat) (usemask : Z)
  (body : ALsource -> ALsource * list Z) (srcs : list ALsource)
  (released : list Z) : list ALsource * list Z :=
  match fuel with
  | O => (srcs, released)
  | S fuel' =>
      if usemask =? 0 then (srcs, released)
      else
        let idx := CTZ64 usemask in
        let usemask' :=
          Z.land usemask (wrapu64 (Z.lnot (Z.shiftl 1 idx))) in
        match nth_error srcs (Z.to_nat idx) with
        | Some source =>
            let (s, r) := body source in
            visit_used fuel' usemask' body
              (list_set (Z.to_nat idx) s srcs) (released ++ r)
        | None => visit_used fuel' usemask' body srcs released
        end
  end.

Definition update_sublist (old_sends new_sends : Z) (sl : SourceSubList)
  : SourceSubList * list Z :=
  let (srcs, released) :=
    visit_used 64 (wrapu64 (Z.lnot (FreeMask sl)))
      (update_source old_sends new_sends) (Sources sl) [] in
  (mkSubList (FreeMask sl) srcs, released).

Fixpoint update_sublists (old_sends new_sends : Z) (sls : list SourceSubList)
  : list SourceSubList * list Z :=
  match sls with
  | [] => ([], [])
  | sl :: rest =>
      let (sl', r1) := update_sublist old_sends new_sends sl in
      let (rest', r2) := update_sublists old_sends new_sends rest in
      (sl' :: rest', r1 ++ r2)
  end.

(** [DecrementRef(&source->Send[s].Slot->ref)] for each released id: the
    slot is the one of that id in the context's slot list. *)
Definition decrement_ref (id : Z) (slots : list ALeffectslot)
  : list ALeffectslot :=
  map (fun s => if slot_id s =? id
                then mkSlot (slot_id s) (wrapu (slot_ref s - 1))
                       (slot_PropsClean s) (Effect_State s)
                else s) slots.

(** The slot part of the loop: point the effect state at the dry buffer
    and let it adapt to the device. *)
Definition retarget_slot (E : Env) (device : ALCdevice) (slot : ALeffectslot)
  : ALeffectslot * bool :=
  let st := mkEffectState (state_id (Effect_State slot))
              (Buffer (Dry device)) (NumChannels (Dry device)) in
  (mkSlot (slot_id slot) (slot_ref slot) (slot_PropsClean slot) st,
   deviceUpdate E st device).

Fixpoint retarget_slots (E : Env) (device : ALCdevice)
  (slots : list ALeffectslot) (c : ALCcontext) (update_failed : bool)
  : list ALeffectslot * ALCcontext * bool :=
  match slots with
  | [] => ([], c, update_failed)
  | slot :: rest =>
      let (slot', ok) := retarget_slot E device slot in
      let c := if ok then UpdateEffectSlotProps slot' c else c in
      let '(rest', c, failed) :=
        retarget_slots E device rest c (update_failed || negb ok) in
      (slot' :: rest', c, failed)
  end.

(** [AllocateVoices]: a new block of [num_voices] voices with the
    device's send count; the voices in use are carried over with their
    sends cut to the smaller of the two counts. *)
Definition fresh_voice (num_sends : Z) : ALvoice :=
  mkVoice 0 None (repeat 0 (Z.to_nat num_sends)) false.

Definition copy_voice (s_count num_sends : Z) (old_voice : ALvoice)
  : ALvoice :=
  mkVoice (SourceID old_voice) (voice_Update old_voice)
    (resize 0 num_sends (firstn (Z.to_nat s_count) (voice_Send old_voice)))
    (voice_NFCInit old_voice).

Definition AllocateVoices (device : ALCdevice) (context : ALCcontext)
  (num_voices old_sends : Z) : ALCcontext :=
  let num_sends := NumAuxSends device in
  if (num_voices =? MaxVoices context) && (num_sends =? old_sends)
  then context
  else
    let copied :=
      match Voices context with
      | Some old =>
          let v_count := mini (VoiceCount context) num_voices in
          let s_count := mini old_sends num_sends in
          map (copy_voice s_count num_sends) (firstn (Z.to_nat v_count) old)
      | None => []
      end in
    let voices :=
      copied ++ repeat (fresh_voice num_sends)
                  (Z.to_nat num_voices - List.length copied) in
    let c := set_Voices (Some voices) context in
    let c := set_MaxVoices num_voices c in
    set_VoiceCount (mini (VoiceCount context) num_voices) c.

(** The lambda run over the voices in use: drop the pending update and,
    for a voice that plays a source, re-initialise the near-field filters
    when the device has an average speaker distance. *)
Definition refresh_voice (device : ALCdevice) (voice : ALvoice) : ALvoice :=
  let v := mkVoice (SourceID voice) None (voice_Send voice)
             (voice_NFCInit voice) in
  if SourceID v =? 0 then v
  else if AvgSpeakerDist_pos device
       then mkVoice (SourceID v) None (voice_Send v) true
       else v.

Definition refresh_voices (device : ALCdevice) (c : ALCcontext) : ALCcontext :=
  match Voices c with
  | Some vs =>
      let n := Z.to_nat (VoiceCount c) in
      set_Voices (Some (map (refresh_voice device) (firstn n vs) ++ skipn n vs))
        c
  | None => c
  end.

(** Lines 2066-2173: one round of the loop over the context list. *)
Definition update_context (E : Env) (device : ALCdevice) (old_sends : Z)
  (context : ALCcontext) (update_failed : bool) : ALCcontext * bool :=
  let '(c, update_failed) :=
    match DefaultSlot context with
    | Some slot =>
        let (slot', ok) := retarget_slot E device slot in
        let c := set_DefaultSlot (Some slot') context in
        (if ok then UpdateEffectSlotProps slot' c else c,
         update_failed || negb ok)
    | None => (context, update_failed)
    end in
  let '(slots, c, update_failed) :=
    retarget_slots E device (EffectSlotList c) c update_failed in
  let c := set_EffectSlotList slots c in
  let (sublists, released) :=
    update_sublists old_sends (NumAuxSends device) (SourceList c) in
  let c := set_SourceList sublists c in
  let c := set_EffectSlotList
             (fold_left (fun sl id => decrement_ref id sl) released
                (EffectSlotList c)) c in
  let c := set_FreeVoiceProps [] c in
  let c := AllocateVoices device c (MaxVoices c) old_sends in
  let c := refresh_voices device c in
  let c := UpdateContextProps (set_ctx_PropsClean true c) in
  let c := UpdateListenerProps (set_Listener_PropsClean true c) in
  (UpdateAllSourceProps c, update_failed).

Fixpoint update_contexts (E : Env) (device : ALCdevice) (old_sends : Z)
  (contexts : list ALCcontext) (update_failed : bool)
  : list ALCcontext * bool :=
  match contexts with
  | [] => ([], update_failed)
  | c :: rest =>
      let (c', failed) := update_context E device old_sends c update_failed in
      let (rest', failed) := update_contexts E device old_sends rest failed in
      (c' :: rest', failed)
  end.

(** Lines 1926-2186: everything after a successful [reset()]. *)
Definition configure_stage (K : Consts) (E : Env) (x : ALCdevice * Locals)
  : Z * ALCdevice :=
  let (device, l) := x in
  let d := apply_renderer
             (aluInitRenderer E device (l_hrtf_id l) (l_hrtf_appreq l)
                (l_hrtf_userreq l)) device in
  let d := allocate_mix_buffer (l_new_sends l) d in
  let d := select_dither E d in
  let d := select_limiter E (l_gainLimiter l) d in
  let (contexts, update_failed) :=
    update_contexts E d (l_old_sends l) (ContextList d) false in
  let d := set_ContextList contexts d in
  if update_failed then (ALC_INVALID_DEVICE, d)
  else if negb (has_flag (Flags d) (DEVICE_PAUSED K))
  then
    let ok := backend_start E d in
    let d := log_call Backend_start d in
    if negb ok then (ALC_INVALID_DEVICE, d)
    else (ALC_NO_ERROR, set_Flags (raise_flag (Flags d) (DEVICE_RUNNING K)) d)
  else (ALC_NO_ERROR, d).

(** [UpdateDeviceParams]: the error code it returns and the device as it
    leaves it. *)
Definition UpdateDeviceParams (K : Consts) (E : Env) (device : ALCdevice)
  (attrList : option (list Z)) : Z * ALCdevice :=
  match
    (x <- attribute_stage K E device attrList ;;
     y <- prepare_stage K E x ;;
     reset_stage K E y)
  with
  | Return err d => (err, d)
  | Next z => configure_stage K E z
  end.

(* ------------------------------------------------------------------ *)
(** ** The device list and the error latches *)

(** The process state the entry points share.  [DeviceList] is the
    intrusive list from its head, each device with its address; a device
    pointer is a [Z], 0 being nullptr.  Reference counts are taken and
    dropped in pairs by every entry point below and are not modelled.
    [Traps] counts the SIGTRAPs raised; the raise is taken to return. *)
Record ALCstate : Type := mkState {
  DeviceList : list (positive * ALCdevice);
  LastNullDeviceError : Z;
  TrapALCError : bool;
  Traps : nat
}.

Definition set_DeviceList (v : list (positive * ALCdevice)) (st : ALCstate)
  : ALCstate :=
  mkState v (LastNullDeviceError st) (TrapALCError st) (Traps st).

(** [VerifyDevice]: walk the list from its head until a node has the
    address asked for. *)
Fixpoint VerifyDevice_from (l : list (positive * ALCdevice)) (device : Z)
  : option (positive * ALCdevice) :=
  match l with
  | [] => None
  | (addr, d) :: rest =>
      if Zpos addr =? device then Some (addr, d)
      else VerifyDevice_from rest device
  end.

Definition VerifyDevice (st : ALCstate) (device : Z)
  : option (positive * ALCdevice) :=
  VerifyDevice_from (DeviceList st) device.

(** Writing through a verified pointer: the node the walk finds is the
    one changed. *)
Fixpoint modify_from (l : list (positive * ALCdevice)) (addr : positive)
  (f : ALCdevice -> ALCdevice) : list (positive * ALCdevice) :=
  match l with
  | [] => []
  | (a, d0) :: rest =>
      if Pos.eqb a addr then (a, f d0) :: rest
      else (a, d0) :: modify_from rest addr f
  end.

Definition modify_device (addr : positive) (f : ALCdevice -> ALCdevice)
  (st : ALCstate) : ALCstate :=
  set_DeviceList (modify_from (DeviceList st) addr f) st.

Definition put_device (addr : positive) (d : ALCdevice) (st : ALCstate)
  : ALCstate :=
  modify_device addr (fun _ => d) st.

(** [alcSetError]: the trap, then the latch of the device, or the
    process-wide one for a null device.  [device] is the address held by
    the verified reference, [None] for an empty one. *)
Definition alcSetError (st : ALCstate) (device : option positive)
  (errorCode : Z) : ALCstate :=
  let st := if TrapALCError st
            then mkState (DeviceList st) (LastNullDeviceError st)
                   (TrapALCError st) (S (Traps st))
            else st in
  match device with
  | Some addr => modify_device addr (set_LastError errorCode) st
  | None =>
      mkState (DeviceList st) errorCode (TrapALCError st) (Traps st)
  end.

(** [alcGetError]: exchange the latch with ALC_NO_ERROR. *)
Definition alcGetError (st : ALCstate) (device : Z) : ALCstate * Z :=
  match VerifyDevice st device with
  | Some (addr, d) =>
      (put_device addr (set_LastError ALC_NO_ERROR d) st, LastError d)
  | None =>
      (mkState (DeviceList st) ALC_NO_ERROR (TrapALCError st) (Traps st),
       LastNullDeviceError st)
  end.

(** Modelled from the spec: [aluHandleDisconnect] is defined outside
    src/; by spec 4.3 it sets [Connected] to false and posts a disconnect
    event to the event ring of every attached context. *)
Definition aluHandleDisconnect (d : ALCdevice) : ALCdevice :=
  let d := set_Connected false d in
  set_ContextList
    (map (fun c => set_AsyncEvents (AsyncEvents c ++ [EventType_Disconnected]) c)
       (ContextList d)) d.

(** Modelled from the spec: [aluMixData] is the mixer entry point, a
    black box with a fixed calling contract (spec 1).  The call and its
    sample count are recorded; the samples written and the counters the
    mixer advances are not modelled. *)
Definition aluMixData (d : ALCdevice) (buffer samples : Z) : ALCdevice :=
  log_call (Mixer_aluMixData buffer samples) d.

(* ------------------------------------------------------------------ *)
(** ** Integer queries *)

(** Modelled from the spec: the integer values of the [DevFmtChannels]
    and [DevFmtType] enumerators are declared outside src/; the layouts
    and sample types carry the ALC name of the same format (spec 3, 6),
    the rear 5.1 layout having no ALC name. *)
Definition ALC_of_DevFmtChannels (K : Consts) (c : DevFmtChannels) : Z :=
  match c with
  | DevFmtMono => ALC_MONO_SOFT
  | DevFmtStereo => ALC_STEREO_SOFT
  | DevFmtQuad => ALC_QUAD_SOFT
  | DevFmtX51 => ALC_5POINT1_SOFT
  | DevFmtX51Rear => wrapi 0x80000000
  | DevFmtX61 => ALC_6POINT1_SOFT
  | DevFmtX71 => ALC_7POINT1_SOFT
  | DevFmtAmbi3D => ALC_BFORMAT3D_SOFT K
  end.

Definition ALC_of_DevFmtType (t : DevFmtType) : Z :=
  match t with
  | DevFmtByte => ALC_BYTE_SOFT
  | DevFmtUByte => ALC_UNSIGNED_BYTE_SOFT
  | DevFmtShort => ALC_SHORT_SOFT
  | DevFmtUShort => ALC_UNSIGNED_SHORT_SOFT
  | DevFmtInt => ALC_INT_SOFT
  | DevFmtUInt => ALC_UNSIGNED_INT_SOFT
  | DevFmtFloat => ALC_FLOAT_SOFT
  end.

Definition NumAttrsForDevice (device : ALCdevice) : Z :=
  match Type_ device with
  | Capture => 9
  | Playback => 29
  | Loopback => if DevFmtChannels_eqb (FmtChans device) DevFmtAmbi3D
                then 35 else 29
  end.

Definition ALCboolean_of (b : bool) : Z := if b then ALC_TRUE else ALC_FALSE.
Definition is_some {A : Type} (o : option A) : bool :=
  match o with Some _ => true | None => false end.

(** The list written for ALC_ALL_ATTRIBUTES on a render device.  The
    quotient by a zero update size is undefined in the source and 0
    here. *)
Definition all_attributes (K : Consts) (device : ALCdevice) : list Z :=
  [ALC_MAJOR_VERSION; alcMajorVersion; ALC_MINOR_VERSION; alcMinorVersion;
   ALC_EFX_MAJOR_VERSION; alcEFXMajorVersion;
   ALC_EFX_MINOR_VERSION; alcEFXMinorVersion;
   ALC_FREQUENCY; wrapi (Frequency device)]
  ++ (match Type_ device with
      | Loopback =>
          (if DevFmtChannels_eqb (FmtChans device) DevFmtAmbi3D
           then [ALC_AMBISONIC_LAYOUT_SOFT K; mAmbiLayout device;
                 ALC_AMBISONIC_SCALING_SOFT K; mAmbiScale device;
                 ALC_AMBISONIC_ORDER_SOFT K; mAmbiOrder device]
           else [])
          ++ [ALC_FORMAT_CHANNELS_SOFT;
              ALC_of_DevFmtChannels K (FmtChans device);
              ALC_FORMAT_TYPE_SOFT; ALC_of_DevFmtType (FmtType device)]
      | _ =>
          [ALC_REFRESH;
           wrapi (Z.quot (Frequency device) (UpdateSize device));
           ALC_SYNC; ALC_FALSE]
      end)
  ++ [ALC_MONO_SOURCES; wrapi (NumMonoSources device);
      ALC_STEREO_SOURCES; wrapi (NumStereoSources device);
      ALC_MAX_AUXILIARY_SENDS; NumAuxSends device;
      ALC_HRTF_SOFT; ALCboolean_of (is_some (HrtfHandle device));
      ALC_HRTF_STATUS_SOFT; HrtfStatus device;
      ALC_OUTPUT_LIMITER_SOFT; ALCboolean_of (is_some (Limiter device));
      ALC_MAX_AMBISONIC_ORDER_SOFT K; MAX_AMBI_ORDER K;
      0].

(** [GetIntegerv]: the state after the call and the values written, in
    order; the length of the list is the count the function returns.  A
    quotient by a zero update size is undefined in the source and 0 here. *)
Definition GetIntegerv (K : Consts) (E : Env) (st : ALCstate)
  (device : option (positive * ALCdevice)) (param size values : Z)
  : ALCstate * list Z :=
  let fail code := (alcSetError st (option_map fst device) code, []) in
  if (size <=? 0) || (values =? 0) then fail ALC_INVALID_VALUE
  else
    match device with
    | None =>
        if param =? ALC_MAJOR_VERSION then (st, [alcMajorVersion])
        else if param =? ALC_MINOR_VERSION then (st, [alcMinorVersion])
        else if existsb (Z.eqb param)
                  [ALC_ATTRIBUTES_SIZE; ALC_ALL_ATTRIBUTES; ALC_FREQUENCY;
                   ALC_REFRESH; ALC_SYNC; ALC_MONO_SOURCES;
                   ALC_STEREO_SOURCES; ALC_CAPTURE_SAMPLES;
                   ALC_FORMAT_CHANNELS_SOFT; ALC_FORMAT_TYPE_SOFT;
                   ALC_AMBISONIC_LAYOUT_SOFT K; ALC_AMBISONIC_SCALING_SOFT K;
                   ALC_AMBISONIC_ORDER_SOFT K; ALC_MAX_AMBISONIC_ORDER_SOFT K]
        then fail ALC_INVALID_DEVICE
        else fail ALC_INVALID_ENUM
    | Some (addr, d) =>
        let loopback := DeviceType_eqb (Type_ d) Loopback in
        let ambi := loopback && DevFmtChannels_eqb (FmtChans d) DevFmtAmbi3D in
        match Type_ d with
        | Capture =>
            if param =? ALC_ATTRIBUTES_SIZE then (st, [NumAttrsForDevice d])
            else if param =? ALC_ALL_ATTRIBUTES then
              if size <? NumAttrsForDevice d then fail ALC_INVALID_VALUE
              else (st, [ALC_MAJOR_VERSION; alcMajorVersion;
                         ALC_MINOR_VERSION; alcMinorVersion;
                         ALC_CAPTURE_SAMPLES;
                         wrapi (backend_availableSamples E d);
                         ALC_CONNECTED; ALCboolean_of (Connected d); 0])
            else if param =? ALC_MAJOR_VERSION then (st, [alcMajorVersion])
            else if param =? ALC_MINOR_VERSION then (st, [alcMinorVersion])
            else if param =? ALC_CAPTURE_SAMPLES
                 then (st, [wrapi (backend_availableSamples E d)])
            else if param =? ALC_CONNECTED
                 then (st, [ALCboolean_of (Connected d)])
            else fail ALC_INVALID_ENUM
        | _ =>
            if param =? ALC_ATTRIBUTES_SIZE then (st, [NumAttrsForDevice d])
            else if param =? ALC_ALL_ATTRIBUTES then
              if size <? NumAttrsForDevice d then fail ALC_INVALID_VALUE
              else (st, all_attributes K d)
            else if param =? ALC_MAJOR_VERSION then (st, [alcMajorVersion])
            else if param =? ALC_MINOR_VERSION then (st, [alcMinorVersion])
            else if param =? ALC_EFX_MAJOR_VERSION
                 then (st, [alcEFXMajorVersion])
            else if param =? ALC_EFX_MINOR_VERSION
                 then (st, [alcEFXMinorVersion])
            else if param =? ALC_FREQUENCY then (st, [wrapi (Frequency d)])
            else if param =? ALC_REFRESH then
              if loopback then fail ALC_INVALID_DEVICE
              else (st, [wrapi (Z.quot (Frequency d) (UpdateSize d))])
            else if param =? ALC_SYNC then
              if loopback then fail ALC_INVALID_DEVICE
              else (st, [ALC_FALSE])
            else if param =? ALC_FORMAT_CHANNELS_SOFT then
              if negb loopback then fail ALC_INVALID_DEVICE
              else (st, [ALC_of_DevFmtChannels K (FmtChans d)])
            else if param =? ALC_FORMAT_TYPE_SOFT then
              if negb loopback then fail ALC_INVALID_DEVICE
              else (st, [ALC_of_DevFmtType (FmtType d)])
            else if param =? ALC_AMBISONIC_LAYOUT_SOFT K then
              if negb ambi then fail ALC_INVALID_DEVICE
              else (st, [mAmbiLayout d])
            else if param =? ALC_AMBISONIC_SCALING_SOFT K then
              if negb ambi then fail ALC_INVALID_DEVICE
              else (st, [mAmbiScale d])
            else if param =? ALC_AMBISONIC_ORDER_SOFT K then
              if negb ambi then fail ALC_INVALID_DEVICE
              else (st, [mAmbiOrder d])
            else if param =? ALC_MONO_SOURCES
                 then (st, [wrapi (NumMonoSources d)])
            else if param =? ALC_STEREO_SOURCES
                 then (st, [wrapi (NumStereoSources d)])
            else if param =? ALC_MAX_AUXILIARY_SENDS
                 then (st, [NumAuxSends d])
            else if param =? ALC_CONNECTED
                 then (st, [ALCboolean_of (Connected d)])
            else if param =? ALC_HRTF_SOFT
                 then (st, [ALCboolean_of (is_some (HrtfHandle d))])
            else if param =? ALC_HRTF_STATUS_SOFT then (st, [HrtfStatus d])
            else if param =? ALC_NUM_HRTF_SPECIFIERS_SOFT then
              let list := EnumerateHrtf E (DeviceName d) in
              (put_device addr (set_HrtfList list d) st,
               [wrapi (Z.of_nat (List.length list))])
            else if param =? ALC_OUTPUT_LIMITER_SOFT
                 then (st, [ALCboolean_of (is_some (Limiter d))])
            else if param =? ALC_MAX_AMBISONIC_ORDER_SOFT K
                 then (st, [MAX_AMBI_ORDER K])
            else fail ALC_INVALID_ENUM
        end
    end.

(** [alcGetIntegerv]. *)
Definition alcGetIntegerv (K : Consts) (E : Env) (st : ALCstate)
  (device param size values : Z) : ALCstate * list Z :=
  let dev := VerifyDevice st device in
  if (size <=? 0) || (values =? 0)
  then (alcSetError st (option_map fst dev) ALC_INVALID_VALUE, [])
  else GetIntegerv K E st dev param size values.

(* ------------------------------------------------------------------ *)
(** ** Entry points that act on a device *)

(** [alcRenderSamplesSOFT]. *)
Definition alcRenderSamplesSOFT (st : ALCstate) (device buffer samples : Z)
  : ALCstate :=
  match VerifyDevice st device with
  | Some (addr, d) =>
      if negb (DeviceType_eqb (Type_ d) Loopback)
      then alcSetError st (Some addr) ALC_INVALID_DEVICE
      else if (samples <? 0) || ((samples >? 0) && (buffer =? 0))
      then alcSetError st (Some addr) ALC_INVALID_VALUE
      else
        let d := log_call Backend_lock d in
        let d := aluMixData d buffer samples in
        put_device addr (log_call Backend_unlock d) st
  | None => alcSetError st None ALC_INVALID_DEVICE
  end.

(** [alcDevicePauseSOFT]. *)
Definition alcDevicePauseSOFT (K : Consts) (st : ALCstate) (device : Z)
  : ALCstate :=
  match VerifyDevice st device with
  | Some (addr, d) =>
      if negb (DeviceType_eqb (Type_ d) Playback)
      then alcSetError st (Some addr) ALC_INVALID_DEVICE
      else
        let d := stop_if_running K d in
        put_device addr (set_Flags (raise_flag (Flags d) (DEVICE_PAUSED K)) d)
          st
  | None => alcSetError st None ALC_INVALID_DEVICE
  end.

(** [V0(Backend,lock)(); aluHandleDisconnect(...); V0(Backend,unlock)();] *)
Definition locked_disconnect (d : ALCdevice) : ALCdevice :=
  log_call Backend_unlock (aluHandleDisconnect (log_call Backend_lock d)).

(** [alcDeviceResumeSOFT]. *)
Definition alcDeviceResumeSOFT (K : Consts) (E : Env) (st : ALCstate)
  (device : Z) : ALCstate :=
  match VerifyDevice st device with
  | Some (addr, d) =>
      if negb (DeviceType_eqb (Type_ d) Playback)
      then alcSetError st (Some addr) ALC_INVALID_DEVICE
      else if negb (has_flag (Flags d) (DEVICE_PAUSED K)) then st
      else
        let d := set_Flags (clear_flag (Flags d) (DEVICE_PAUSED K)) d in
        match ContextList d with
        | [] => put_device addr d st
        | _ :: _ =>
            let ok := backend_start E d in
            let d := log_call Backend_start d in
            if negb ok
            then alcSetError (put_device addr (locked_disconnect d) st)
                   (Some addr) ALC_INVALID_DEVICE
            else
              put_device addr
                (set_Flags (raise_flag (Flags d) (DEVICE_RUNNING K)) d) st
        end
  | None => alcSetError st None ALC_INVALID_DEVICE
  end.

(** [alcCaptureStart]. *)
Definition alcCaptureStart (K : Consts) (E : Env) (st : ALCstate)
  (device : Z) : ALCstate :=
  match VerifyDevice st device with
  | Some (addr, d) =>
      if negb (DeviceType_eqb (Type_ d) Capture)
      then alcSetError st (Some addr) ALC_INVALID_DEVICE
      else if negb (Connected d)
      then alcSetError st (Some addr) ALC_INVALID_DEVICE
      else if negb (has_flag (Flags d) (DEVICE_RUNNING K))
      then
        let ok := backend_start E d in
        let d := log_call Backend_start d in
        if ok
        then put_device addr
               (set_Flags (raise_flag (Flags d) (DEVICE_RUNNING K)) d) st
        else alcSetError (put_device addr (aluHandleDisconnect d) st)
               (Some addr) ALC_INVALID_DEVICE
      else st
  | None => alcSetError st None ALC_INVALID_DEVICE
  end.

(** [alcCaptureStop]. *)
Definition alcCaptureStop (K : Consts) (st : ALCstate) (device : Z)
  : ALCstate :=
  match VerifyDevice st device with
  | Some (addr, d) =>
      if negb (DeviceType_eqb (Type_ d) Capture)
      then alcSetError st (Some addr) ALC_INVALID_DEVICE
      else put_device addr (stop_if_running K d) st
  | None => alcSetError st None ALC_INVALID_DEVICE
  end.

(** [alcResetDeviceSOFT]: the state after the call and the ALCboolean it
    returns. *)
Definition alcResetDeviceSOFT (K : Consts) (E : Env) (st : ALCstate)
  (device : Z) (attribs : option (list Z)) : ALCstate * bool :=
  match VerifyDevice st device with
  | Some (addr, d) =>
      if DeviceType_eqb (Type_ d) Capture
      then (alcSetError st (Some addr) ALC_INVALID_DEVICE, false)
      else
        let d := stop_if_running K d in
        let d := set_Connected true d in
        let (err, d) := UpdateDeviceParams K E d attribs in
        let st := put_device addr d st in
        if err =? ALC_NO_ERROR then (st, true)
        else
          let st := alcSetError st (Some addr) err in
          if err =? ALC_INVALID_DEVICE
          then (modify_device addr locked_disconnect st, false)
          else (st, false)
  | None => (alcSetError st None ALC_INVALID_DEVICE, false)
  end.

(** Modelled from the spec: the constructors of [ALCcontext] and
    [ALeffectslot] are defined outside src/; by spec 4.4 a fresh context
    has no sources, slots or voices, its listener is the identity, and
    nothing is deferred or pending. *)
Definition fresh_context : ALCcontext :=
  mkContext false false true true None [] [] [] None 0 0 [] [].

Definition fresh_slot : ALeffectslot :=
  mkSlot 0 0 true (mkEffectState 0 None 0).

(** [alcCreateContext]: the state after the call and whether a context
    was returned.  The listener and context globals set by [InitContext]
    and the volume adjustment are outside the model. *)
Definition alcCreateContext (K : Consts) (E : Env) (st : ALCstate)
  (device : Z) (attrList : option (list Z)) : ALCstate * bool :=
  match VerifyDevice st device with
  | Some (addr, d) =>
      if DeviceType_eqb (Type_ d) Capture || negb (Connected d)
      then (alcSetError st (Some addr) ALC_INVALID_DEVICE, false)
      else
        let d := set_LastError ALC_NO_ERROR d in
        let (err, d) := UpdateDeviceParams K E d attrList in
        if negb (err =? ALC_NO_ERROR)
        then
          let st := alcSetError (put_device addr d st) (Some addr) err in
          if err =? ALC_INVALID_DEVICE
          then (modify_device addr locked_disconnect st, false)
          else (st, false)
        else
          let c := AllocateVoices d fresh_context 256 (NumAuxSends d) in
          let c :=
            if negb (DefaultEffect_is_null E)
               && DeviceType_eqb (Type_ d) Playback
               && InitEffectSlot_ok E
            then set_DefaultSlot (Some fresh_slot) c
            else c in
          let c := UpdateListenerProps c in
          let c :=
            match DefaultSlot c with
            | Some slot =>
                if InitializeEffect_ok E then UpdateEffectSlotProps slot c
                else c
            | None => c
            end in
          (put_device addr (set_ContextList (c :: ContextList d) d) st, true)
  | None => (alcSetError st None ALC_INVALID_DEVICE, false)
  end.

(* ------------------------------------------------------------------ *)
(** ** Operations on the process state *)

(** The operations that reach a device once it is open: the entry points
    above, and the backend reporting the loss of its device. *)
Inductive Operation : Type :=
  | Op_alcGetError (device : Z)
  | Op_alcGetIntegerv (device param size values : Z)
  | Op_alcRenderSamplesSOFT (device buffer samples : Z)
  | Op_alcDevicePauseSOFT (device : Z)
  | Op_alcDeviceResumeSOFT (device : Z)
  | Op_alcCaptureStart (device : Z)
  | Op_alcCaptureStop (device : Z)
  | Op_alcCreateContext (device : Z) (attrList : option (list Z))
  | Op_alcResetDeviceSOFT (device : Z) (attribs : option (list Z))
  | Op_aluHandleDisconnect (device : positive).

Definition perform (K : Consts) (E : Env) (st : ALCstate) (op : Operation)
  : ALCstate :=
  match op with
  | Op_alcGetError device => fst (alcGetError st device)
  | Op_alcGetIntegerv device param size values =>
      fst (alcGetIntegerv K E st device param size values)
  | Op_alcRenderSamplesSOFT device buffer samples =>
      alcRenderSamplesSOFT st device buffer samples
  | Op_alcDevicePauseSOFT device => alcDevicePauseSOFT K st device
  | Op_alcDeviceResumeSOFT device => alcDeviceResumeSOFT K E st device
  | Op_alcCaptureStart device => alcCaptureStart K E st device
  | Op_alcCaptureStop device => alcCaptureStop K st device
  | Op_alcCreateContext device attrList =>
      fst (alcCreateContext K E st device attrList)
  | Op_alcResetDeviceSOFT device attribs =>
      fst (alcResetDeviceSOFT K E st device attribs)
  | Op_aluHandleDisconnect device =>
      modify_device device aluHandleDisconnect st
  end.

Definition perform_all (K : Consts) (E : Env) (st : ALCstate)
  (ops : list Operation) : ALCstate :=
  fold_left (perform K E) ops st.

(** The device stored at an address, if any. *)
Definition device_at (st : ALCstate) (addr : positive) : option ALCdevice :=
  option_map snd (VerifyDevice st (Zpos addr)).

(** Whether an operation is a reset of the device at [addr]. *)
Definition is_reset_of (addr : positive) (op : Operation) : bool :=
  match op with
  | Op_alcResetDeviceSOFT device _ => device =? Zpos addr
  | _ => false
  end.

(* ------------------------------------------------------------------ *)
(** ** A concrete environment for running the model *)

Definition stereo_renderer : RendererResult :=
  mkRenderer 2 0 0 ALC_HRTF_DISABLED_SOFT None false false false [].

(** No configuration file entries, no CPU extensions, a backend that
    grants every request, a stereo renderer. *)
Definition plain_env : Env := {|
  CPUCapFlags := 0;
  ConfigValueUInt := fun _ _ => None;
  ConfigValueInt := fun _ _ => None;
  ConfigValueStr := fun _ _ => None;
  ConfigValueBool := fun _ _ => None;
  GetConfigValueBool := fun _ _ def => def;
  EnumerateHrtf := fun _ => [];
  GetLoadedHrtf := fun _ => None;
  backend_reset := fun d =>
    (true, mkBackendFormat (FmtChans d) (FmtType d) (Frequency d)
             (UpdateSize d) (NumUpdates d));
  backend_start := fun _ => true;
  backend_availableSamples := fun _ => 0;
  aluInitRenderer := fun _ _ _ _ => stereo_renderer;
  GetCompressorLookAhead := fun _ => 0;
  deviceUpdate := fun _ _ => true;
  DefaultEffect_is_null := true;
  InitEffectSlot_ok := true;
  InitializeEffect_ok := true
|}.

(** A playback device as [alcOpenDevice] leaves it with the upstream
    defaults and no configuration file; and a loopback device as
    [alcLoopbackOpenDeviceSOFT] leaves it. *)
Definition playback_device : ALCdevice :=
  mkDevice Playback "OpenAL Soft" true ALC_NO_ERROR 0
    44100 1024 3 DevFmtStereo DevFmtFloat 0 0 0
    256 64 255 1 2 ALC_TRUE None
    ALC_HRTF_DISABLED_SOFT None [] false false []
    (mkMixParams None 0) (mkMixParams None 0) (mkMixParams None 0) []
    false 0 0 0 0 0 0 [] [].

Definition loopback_device : ALCdevice :=
  mkDevice Loopback "Loopback" true ALC_NO_ERROR 0
    44100 0 0 DevFmtStereo DevFmtFloat 0 0 0
    256 64 255 1 2 0 None
    ALC_HRTF_DISABLED_SOFT None [] false false []
    (mkMixParams None 0) (mkMixParams None 0) (mkMixParams None 0) []
    false 0 0 0 0 0 0 [] [].

Definition one_device (d : ALCdevice) : ALCstate :=
  mkState [(1%positive, d)] ALC_NO_ERROR false 0.

(* ------------------------------------------------------------------ *)
(** ** Notions used to state the properties *)

(** [(x+3u)&~3u], the rounding of the period size to a multiple of four. *)
Definition round_up_4 (x : Z) : Z := Z.land (wrapu (x + 3)) (notu 3).

(** What the rounding has to satisfy at one period size. *)
Definition round_up_4_ok (x : Z) : bool :=
  let y := round_up_4 x in
  (64 <=? y) && (y <=? 8192) && (y mod 4 =? 0) && (x <=? y) && (y <? x + 4).

(** The locals when the attribute block is skipped. *)
Definition default_locals (device : ALCdevice) : Locals :=
  mkLocals Hrtf_Default Hrtf_Default (-1) (LimiterState device)
    (NumAuxSends device) (NumAuxSends device).

(** The part of the function after the attribute block. *)
Definition after_attributes (K : Consts) (E : Env) (x : ALCdevice * Locals)
  : Z * ALCdevice :=
  match (y <- prepare_stage K E x ;; reset_stage K E y) with
  | Return err d => (err, d)
  | Next z => configure_stage K E z
  end.

(** [(CPUCapFlags&(CPU_CAP_SSE|CPU_CAP_NEON)) != 0]. *)
Definition simd_present (K : Consts) (E : Env) : bool :=
  negb (Z.land (CPUCapFlags E) (Z.lor (CPU_CAP_SSE K) (CPU_CAP_NEON K)) =? 0).

(** Everything up to the call of the backend's reset(). *)
Definition before_reset (K : Consts) (E : Env) (device : ALCdevice)
  (attrList : option (list Z)) : Stage (ALCdevice * Locals) :=
  x <- attribute_stage K E device attrList ;; prepare_stage K E x.

(** The device as it stands when the loop over the contexts starts. *)
Definition configured (E : Env) (d : ALCdevice) (l : Locals) : ALCdevice :=
  select_limiter E (l_gainLimiter l)
    (select_dither E
       (allocate_mix_buffer (l_new_sends l)
          (apply_renderer
             (aluInitRenderer E d (l_hrtf_id l) (l_hrtf_appreq l)
                (l_hrtf_userreq l)) d))).

(** The mix buffer and its three views. *)
Definition views (d : ALCdevice)
  : list ChanBuf * MixParams * MixParams * MixParams :=
  (MixBuffer d, Dry d, FOAOut d, RealOut d).

(** Everything up to the point where the renderer is set up. *)
Definition before_configure (K : Consts) (E : Env) (device : ALCdevice)
  (attrList : option (list Z)) : Stage (ALCdevice * Locals) :=
  x <- before_reset K E device attrList ;; reset_stage K E x.

(** The renderer reports channel counts that are not negative and whose
    sum fits an ALsizei. *)
Definition renderer_counts_ok (r : RendererResult) : Prop :=
  0 <= r_Dry_NumChannels r /\ 0 <= r_FOAOut_NumChannels r
  /\ 0 <= r_RealOut_NumChannels r
  /\ r_Dry_NumChannels r + r_FOAOut_NumChannels r + r_RealOut_NumChannels r
     <= INT_MAX.

(** What [modify_from] does to the node a walk finds. *)
Definition modified (addr : positive) (f : ALCdevice -> ALCdevice)
  (x : positive * ALCdevice) : positive * ALCdevice :=
  if Pos.eqb (fst x) addr then (fst x, f (snd x)) else x.

(** Every entity of the context has its clean flag set: the context, the
    listener, the default and the listed effect slots, the sources in
    use. *)
Definition all_clean (c : ALCcontext) : bool :=
  ctx_PropsClean c && Listener_PropsClean c
  && forallb slot_PropsClean (all_slots c)
  && forallb src_PropsClean (live_sources c).

(** What publishing leaves alone. *)
Definition entities (c : ALCcontext) :=
  (DeferUpdates c, HoldUpdates c, ctx_PropsClean c, Listener_PropsClean c,
   DefaultSlot c, EffectSlotList c, SourceList c).

(** The device a stage ends with has the given [Connected] flag. *)
Definition stage_Connected (s : Stage (ALCdevice * Locals)) (c : bool)
  : Prop :=
  match s with
  | Return _ d => Connected d = c
  | Next (d, _) => Connected d = c
  end.

(** A device at [addr] survives a step and stays disconnected if it
    was. *)
Definition kept (st st' : ALCstate) (addr : positive) : Prop :=
  forall d, device_at st addr = Some d ->
    exists d', device_at st' addr = Some d'
               /\ (Connected d = false -> Connected d' = false).

(* ------------------------------------------------------------------ *)
(** ** Further concrete inputs *)

(** The playback device while its backend runs. *)
Definition running_playback_device : ALCdevice :=
  set_Flags (DEVICE_RUNNING upstream) playback_device.

(** An SSE machine whose configuration file asks for periods of 1001
    frames. *)
Definition sse_env : Env :=
  mkEnv (CPU_CAP_SSE upstream)
    (fun _ key => if String.eqb key "period_size" then Some 1001 else None)
    (ConfigValueInt plain_env) (ConfigValueStr plain_env)
    (ConfigValueBool plain_env) (GetConfigValueBool plain_env)
    (EnumerateHrtf plain_env) (GetLoadedHrtf plain_env)
    (backend_reset plain_env) (backend_start plain_env)
    (backend_availableSamples plain_env) (aluInitRenderer plain_env)
    (GetCompressorLookAhead plain_env) (deviceUpdate plain_env)
    true true true.

(** A backend that always settles on 48000 Hz. *)
Definition resampling_env : Env :=
  mkEnv 0 (ConfigValueUInt plain_env)
    (ConfigValueInt plain_env) (ConfigValueStr plain_env)
    (ConfigValueBool plain_env) (GetConfigValueBool plain_env)
    (EnumerateHrtf plain_env) (GetLoadedHrtf plain_env)
    (fun d => (true, mkBackendFormat (FmtChans d) (FmtType d) 48000
                       (UpdateSize d) (NumUpdates d)))
    (backend_start plain_env)
    (backend_availableSamples plain_env) (aluInitRenderer plain_env)
    (GetCompressorLookAhead plain_env) (deviceUpdate plain_env)
    true true true.

(** An application asking for 44100 Hz, and the device and locals with
    which that request reaches the resampling backend's reset(). *)
Definition request_44100 : option (list Z) := Some [ALC_FREQUENCY; 44100; 0].

Definition reached_reset : ALCdevice * Locals :=
  match before_reset upstream resampling_env playback_device request_44100
  with
  | Next x => x
  | Return _ d => (d, default_locals d)
  end.

(** A playback device reconfigured at 48000 Hz with a stereo renderer. *)
Definition stereo_run : Z * ALCdevice :=
  UpdateDeviceParams upstream plain_env playback_device
    (Some [ALC_FREQUENCY; 48000; 0]).

(** A process with one device whose last query failed, and an earlier
    failure without a device. *)
Definition failed_query_state : ALCstate :=
  mkState [(1%positive, set_LastError ALC_INVALID_ENUM playback_device)]
    ALC_INVALID_VALUE false 0.

(** A context that is not deferring, with one source in use whose
    properties were changed while it was not playing. *)
Definition idle_source_context : ALCcontext :=
  mkContext false false true true None []
    [mkSubList (2 ^ 64 - 2) [mkSource 1 [] false]] [] None 0 0 [] [].

(** The backend loses the device, then the application resets it. *)
Definition lost_then_reset : list Operation :=
  [Op_aluHandleDisconnect 1; Op_alcResetDeviceSOFT 1 None].

(* ------------------------------------------------------------------ *)
(** ** Attribute lists as pairs *)

(** The array that holds the given key/value pairs. *)
Definition flatten_attrs (ps : list (Z * Z)) : list Z :=
  flat_map (fun p => [fst p; snd p]) ps.

(** The locals of the attribute block as the walk starts. *)
Definition initial_attrs (device : ALCdevice) : AttrVals :=
  mkAttrVals AL_NONE AL_NONE 0 AL_NONE AL_NONE 0
    (wrapi (NumMonoSources device)) (wrapi (NumStereoSources device))
    (NumAuxSends device) Hrtf_Default (-1) (LimiterState device).

(** The switch applied to each pair in turn. *)
Definition apply_pairs (K : Consts) (ps : list (Z * Z)) (a : AttrVals)
  : AttrVals :=
  fold_left (fun a p => attr_case K (fst p) (snd p) a) ps a.

(** The pairs ahead of the first one whose key is the terminator. *)
Fixpoint live_pairs (ps : list (Z * Z)) : list (Z * Z) :=
  match ps with
  | [] => []
  | p :: rest => if fst p =? 0 then [] else p :: live_pairs rest
  end.

(** No pair has the terminator as its key. *)
Definition keys_nonzero (ps : list (Z * Z)) : bool :=
  forallb (fun p => negb (fst p =? 0)) ps.

(** No pair has the given key. *)
Definition key_absent (key : Z) (ps : list (Z * Z)) : bool :=
  forallb (fun p => negb (fst p =? key)) ps.

(* ------------------------------------------------------------------ *)
(** ** Groups of device fields *)

(** What identifies a device and what the error paths write. *)
Definition identity_fields (d : ALCdevice) :=
  (Type_ d, DeviceName d, Connected d, LastError d, AuxiliaryEffectSlotMax d).

(** The source limits. *)
Definition source_limits (d : ALCdevice) : Z * Z * Z :=
  (SourcesMax d, NumMonoSources d, NumStereoSources d).

(** The device clock. *)
Definition clock (d : ALCdevice) : Z * Z * Z :=
  (ClockBase d, SamplesDone d, MixCount d).

(** The device a stage ends with satisfies [P], the locals it hands on
    satisfy [Q]. *)
Definition stage_holds (P : ALCdevice -> Prop) (Q : Locals -> Prop)
  (s : Stage (ALCdevice * Locals)) : Prop :=
  match s with
  | Return _ d => P d
  | Next (d, l) => P d /\ Q l
  end.

(** A value that fits an ALCint. *)
Definition is_i32 (v : Z) : bool := (- 2 ^ 31 <=? v) && (v <=? INT_MAX).

(** The device as the backend's [reset()] leaves it, before the request
    flags are reconciled. *)
Definition after_reset (E : Env) (d : ALCdevice) : ALCdevice :=
  apply_format (snd (backend_reset E d)) (log_call Backend_reset d).

(** The clock once [UpdateClockBase] has folded the samples done into the
    base. *)
Definition folded_clock (d : ALCdevice) : Z * Z * Z :=
  (ClockBase d + Z.quot (SamplesDone d * 1000000000) (Frequency d), 0,
   wrapu (wrapu (MixCount d + 1) + 1)).

(** The backend calls a run of UpdateDeviceParams can add to the log. *)
Definition backend_calls (stop reset start : bool) : list BackendCall :=
  (if stop then [Backend_stop] else [])
  ++ (if reset then [Backend_reset] else [])
  ++ (if start then [Backend_start] else []).

(** A backend that runs one period of 16384 frames, whatever it is asked
    for. *)
Definition own_period_env : Env :=
  mkEnv 0 (ConfigValueUInt plain_env)
    (ConfigValueInt plain_env) (ConfigValueStr plain_env)
    (ConfigValueBool plain_env) (GetConfigValueBool plain_env)
    (EnumerateHrtf plain_env) (GetLoadedHrtf plain_env)
    (fun d => (true, mkBackendFormat (FmtChans d) (FmtType d) (Frequency d)
                       16384 1))
    (backend_start plain_env)
    (backend_availableSamples plain_env) (aluInitRenderer plain_env)
    (GetCompressorLookAhead plain_env) (deviceUpdate plain_env)
    true true true.

(** A request for 48000 Hz answered by that backend. *)
Definition own_period_run : Z * ALCdevice :=
  UpdateDeviceParams upstream own_period_env playback_device
    (Some [ALC_FREQUENCY; 48000; 0]).

(** The playback device once it has been reconfigured at 48000 Hz. *)
Definition playback_48000 : ALCdevice := set_Frequency 48000 playback_device.

(** What an ALC_REFRESH query with room for one value writes for a
    device that is the only one open. *)
Definition refresh_reading (d : ALCdevice) : list Z :=
  snd (alcGetIntegerv upstream plain_env (one_device d) 1 ALC_REFRESH 1 1).

(** A capture device as [alcCaptureOpenDevice] leaves it for 1024 samples
    of 16-bit mono at 44100 Hz. *)
Definition capture_device : ALCdevice :=
  mkDevice Capture "Mic" true ALC_NO_ERROR
    (Z.lor (DEVICE_FREQUENCY_REQUEST upstream)
       (Z.lor (DEVICE_CHANNELS_REQUEST upstream)
          (DEVICE_SAMPLE_TYPE_REQUEST upstream)))
    44100 1024 1 DevFmtMono DevFmtShort 0 0 0 0 0 0 0 0 0 None
    0 None [] false false []
    (mkMixParams None 0) (mkMixParams None 0) (mkMixParams None 0) []
    false 0 0 0 0 0 0 [] [].

(** The playback device while it plays for one context. *)
Definition playing_device : ALCdevice :=
  set_ContextList [fresh_context] running_playback_device.

(* ------------------------------------------------------------------ *)
(** ** Integer queries as a table *)

(** The first entry of a table whose key is the one asked for. *)
Fixpoint first_match {A : Type} (key : Z) (table : list (Z * A)) : option A :=
  match table with
  | [] => None
  | (k, v) :: rest => if key =? k then Some v else first_match key rest
  end.

(** The [switch] of [GetIntegerv] for a playback or loopback device, case
    by case in source order. *)
Definition render_queries (K : Consts) (E : Env) (st : ALCstate)
  (addr : positive) (d : ALCdevice) (size : Z)
  : list (Z * (ALCstate * list Z)) :=
  let fail code := (alcSetError st (Some addr) code, []) in
  let loopback := DeviceType_eqb (Type_ d) Loopback in
  let ambi := loopback && DevFmtChannels_eqb (FmtChans d) DevFmtAmbi3D in
  [(ALC_ATTRIBUTES_SIZE, (st, [NumAttrsForDevice d]));
   (ALC_ALL_ATTRIBUTES,
    if size <? NumAttrsForDevice d then fail ALC_INVALID_VALUE
    else (st, all_attributes K d));
   (ALC_MAJOR_VERSION, (st, [alcMajorVersion]));
   (ALC_MINOR_VERSION, (st, [alcMinorVersion]));
   (ALC_EFX_MAJOR_VERSION, (st, [alcEFXMajorVersion]));
   (ALC_EFX_MINOR_VERSION, (st, [alcEFXMinorVersion]));
   (ALC_FREQUENCY, (st, [wrapi (Frequency d)]));
   (ALC_REFRESH,
    if loopback then fail ALC_INVALID_DEVICE
    else (st, [wrapi (Z.quot (Frequency d) (UpdateSize d))]));
   (ALC_SYNC,
    if loopback then fail ALC_INVALID_DEVICE else (st, [ALC_FALSE]));
   (ALC_FORMAT_CHANNELS_SOFT,
    if negb loopback then fail ALC_INVALID_DEVICE
    else (st, [ALC_of_DevFmtChannels K (FmtChans d)]));
   (ALC_FORMAT_TYPE_SOFT,
    if negb loopback then fail ALC_INVALID_DEVICE
    else (st, [ALC_of_DevFmtType (FmtType d)]));
   (ALC_AMBISONIC_LAYOUT_SOFT K,
    if negb ambi then fail ALC_INVALID_DEVICE else (st, [mAmbiLayout d]));
   (ALC_AMBISONIC_SCALING_SOFT K,
    if negb ambi then fail ALC_INVALID_DEVICE else (st, [mAmbiScale d]));
   (ALC_AMBISONIC_ORDER_SOFT K,
    if negb ambi then fail ALC_INVALID_DEVICE else (st, [mAmbiOrder d]));
   (ALC_MONO_SOURCES, (st, [wrapi (NumMonoSources d)]));
   (ALC_STEREO_SOURCES, (st, [wrapi (NumStereoSources d)]));
   (ALC_MAX_AUXILIARY_SENDS, (st, [NumAuxSends d]));
   (ALC_CONNECTED, (st, [ALCboolean_of (Connected d)]));
   (ALC_HRTF_SOFT, (st, [ALCboolean_of (is_some (HrtfHandle d))]));
   (ALC_HRTF_STATUS_SOFT, (st, [HrtfStatus d]));
   (ALC_NUM_HRTF_SPECIFIERS_SOFT,
    (put_device addr (set_HrtfList (EnumerateHrtf E (DeviceName d)) d) st,
     [wrapi (Z.of_nat (List.length (EnumerateHrtf E (DeviceName d))))]));
   (ALC_OUTPUT_LIMITER_SOFT, (st, [ALCboolean_of (is_some (Limiter d))]));
   (ALC_MAX_AMBISONIC_ORDER_SOFT K, (st, [MAX_AMBI_ORDER K]))].

(** The keys of the table, in source order. *)
Definition render_query_keys (K : Consts) : list Z :=
  [ALC_ATTRIBUTES_SIZE; ALC_ALL_ATTRIBUTES; ALC_MAJOR_VERSION;
   ALC_MINOR_VERSION; ALC_EFX_MAJOR_VERSION; ALC_EFX_MINOR_VERSION;
   ALC_FREQUENCY; ALC_REFRESH; ALC_SYNC; ALC_FORMAT_CHANNELS_SOFT;
   ALC_FORMAT_TYPE_SOFT; ALC_AMBISONIC_LAYOUT_SOFT K;
   ALC_AMBISONIC_SCALING_SOFT K; ALC_AMBISONIC_ORDER_SOFT K;
   ALC_MONO_SOURCES; ALC_STEREO_SOURCES; ALC_MAX_AUXILIARY_SENDS;
   ALC_CONNECTED; ALC_HRTF_SOFT; ALC_HRTF_STATUS_SOFT;
   ALC_NUM_HRTF_SPECIFIERS_SOFT; ALC_OUTPUT_LIMITER_SOFT;
   ALC_MAX_AMBISONIC_ORDER_SOFT K].

(** No key occurs twice in a list. *)
Fixpoint distinct (l : list Z) : bool :=
  match l with
  | [] => true
  | x :: rest => negb (existsb (Z.eqb x) rest) && distinct rest
  end.

(** The key/value pairs of an attribute array, up to its terminator. *)
Fixpoint attr_pairs (fuel : nat) (l : list Z) : list (Z * Z) :=
  match fuel, l with
  | S fuel', k :: v :: rest =>
      if k =? 0 then [] else (k, v) :: attr_pairs fuel' rest
  | _, _ => []
  end.

(** The pairs of an array, read two by two to its end. *)
Fixpoint all_pairs (fuel : nat) (l : list Z) : list (Z * Z) :=
  match fuel, l with
  | S fuel', k :: v :: rest => (k, v) :: all_pairs fuel' rest
  | _, _ => []
  end.

(* ------------------------------------------------------------------ *)
(** ** Send slots of sources and voices *)

(** Every source in use and every voice of the context has exactly [n]
    send slots, and no slab holds more than 64 sources. *)
Definition sends_sized (n : Z) (c : ALCcontext) : bool :=
  forallb (fun s => Nat.eqb (List.length (Send s)) (Z.to_nat n))
    (live_sources c)
  && match Voices c with
     | Some vs =>
         forallb (fun v => Nat.eqb (List.length (voice_Send v)) (Z.to_nat n))
           vs
     | None => true
     end
  && forallb (fun sl => Nat.leb (List.length (Sources sl)) 64)
       (SourceList c).

(** The sources and voices of a context. *)
Definition sources_and_voices (c : ALCcontext) :=
  (SourceList c, Voices c, VoiceCount c, MaxVoices c).

(** A context with a source that feeds two sends and a voice playing
    it, and the playback device with that context attached. *)
Definition busy_context : ALCcontext :=
  mkContext false false true true None []
    [mkSubList (2 ^ 64 - 2) [mkSource 1 [fresh_send; fresh_send] true]] []
    (Some [mkVoice 1 None [0; 0] false]) 1 1 [] [].

Definition busy_device : ALCdevice :=
  set_ContextList [busy_context] playback_device.

(* ------------------------------------------------------------------ *)
(** ** Device formats *)

(** Modelled from the spec: the buffer format names are declared in the
    public headers AL/al.h and AL/alext.h, outside src/; the values are
    those the OpenAL 1.1 interface and the AL_EXT_float32 and
    AL_EXT_MCFORMATS extensions assign. *)
Definition AL_FORMAT_MONO8 : Z := 0x1100.
Definition AL_FORMAT_MONO16 : Z := 0x1101.
Definition AL_FORMAT_STEREO8 : Z := 0x1102.
Definition AL_FORMAT_STEREO16 : Z := 0x1103.
Definition AL_FORMAT_MONO_FLOAT32 : Z := 0x10010.
Definition AL_FORMAT_STEREO_FLOAT32 : Z := 0x10011.
Definition AL_FORMAT_QUAD8 : Z := 0x1204.
Definition AL_FORMAT_QUAD16 : Z := 0x1205.
Definition AL_FORMAT_QUAD32 : Z := 0x1206.
Definition AL_FORMAT_51CHN8 : Z := 0x120A.
Definition AL_FORMAT_51CHN16 : Z := 0x120B.
Definition AL_FORMAT_51CHN32 : Z := 0x120C.
Definition AL_FORMAT_61CHN8 : Z := 0x120D.
Definition AL_FORMAT_61CHN16 : Z := 0x120E.
Definition AL_FORMAT_61CHN32 : Z := 0x120F.
Definition AL_FORMAT_71CHN8 : Z := 0x1210.
Definition AL_FORMAT_71CHN16 : Z := 0x1211.
Definition AL_FORMAT_71CHN32 : Z := 0x1212.

(** [BytesFromDevFmt]: the size of one sample; the sizes are those of the
    fixed-width AL types. *)
Definition BytesFromDevFmt (type : DevFmtType) : Z :=
  match type with
  | DevFmtByte => 1
  | DevFmtUByte => 1
  | DevFmtShort => 2
  | DevFmtUShort => 2
  | DevFmtInt => 4
  | DevFmtUInt => 4
  | DevFmtFloat => 4
  end.

(** [ChannelsFromDevFmt]; a product that overflows an ALsizei is undefined
    in the source and wraps here. *)
Definition ChannelsFromDevFmt (chans : DevFmtChannels) (ambiorder : Z) : Z :=
  match chans with
  | DevFmtMono => 1
  | DevFmtStereo => 2
  | DevFmtQuad => 4
  | DevFmtX51 => 6
  | DevFmtX51Rear => 6
  | DevFmtX61 => 7
  | DevFmtX71 => 8
  | DevFmtAmbi3D => wrapi ((ambiorder + 1) * (ambiorder + 1))
  end.

(** The table of [DecomposeDevFormat], in source order. *)
Definition format_list : list (Z * (DevFmtChannels * DevFmtType)) :=
  [(AL_FORMAT_MONO8, (DevFmtMono, DevFmtUByte));
   (AL_FORMAT_MONO16, (DevFmtMono, DevFmtShort));
   (AL_FORMAT_MONO_FLOAT32, (DevFmtMono, DevFmtFloat));
   (AL_FORMAT_STEREO8, (DevFmtStereo, DevFmtUByte));
   (AL_FORMAT_STEREO16, (DevFmtStereo, DevFmtShort));
   (AL_FORMAT_STEREO_FLOAT32, (DevFmtStereo, DevFmtFloat));
   (AL_FORMAT_QUAD8, (DevFmtQuad, DevFmtUByte));
   (AL_FORMAT_QUAD16, (DevFmtQuad, DevFmtShort));
   (AL_FORMAT_QUAD32, (DevFmtQuad, DevFmtFloat));
   (AL_FORMAT_51CHN8, (DevFmtX51, DevFmtUByte));
   (AL_FORMAT_51CHN16, (DevFmtX51, DevFmtShort));
   (AL_FORMAT_51CHN32, (DevFmtX51, DevFmtFloat));
   (AL_FORMAT_61CHN8, (DevFmtX61, DevFmtUByte));
   (AL_FORMAT_61CHN16, (DevFmtX61, DevFmtShort));
   (AL_FORMAT_61CHN32, (DevFmtX61, DevFmtFloat));
   (AL_FORMAT_71CHN8, (DevFmtX71, DevFmtUByte));
   (AL_FORMAT_71CHN16, (DevFmtX71, DevFmtShort));
   (AL_FORMAT_71CHN32, (DevFmtX71, DevFmtFloat))].

(** [DecomposeDevFormat]: the first entry of the table with the format
    asked for; [None] is AL_FALSE. *)
Definition DecomposeDevFormat (format : Z)
  : option (DevFmtChannels * DevFmtType) :=
  first_match format format_list.

(** Modelled from the spec: the channel names are the enumerators of
    [enum Channel], declared in a header outside src/; only the names the
    two functions below assign are listed. *)
Inductive Channel : Type :=
  | FrontLeft | FrontRight | FrontCenter | LFE
  | BackLeft | BackRight | BackCenter | SideLeft | SideRight
  | Aux (n : nat)
  | InvalidChannel.

Definition Channel_eqb (a b : Channel) : bool :=
  match a, b with
  | FrontLeft, FrontLeft | FrontRight, FrontRight
  | FrontCenter, FrontCenter | LFE, LFE | BackLeft, BackLeft
  | BackRight, BackRight | BackCenter, BackCenter
  | SideLeft, SideLeft | SideRight, SideRight
  | InvalidChannel, InvalidChannel => true
  | Aux n, Aux m => Nat.eqb n m
  | _, _ => false
  end.

(** [ChannelName[i] = c; ...] for consecutive indices from [i]. *)
Fixpoint assign_from {A : Type} (i : nat) (names : list A) (arr : list A)
  : list A :=
  match names with
  | [] => arr
  | c :: rest => assign_from (S i) rest (list_set i c arr)
  end.

(** [SetDefaultWFXChannelOrder]: the array [RealOut.ChannelName] as the
    function leaves it; [size] is the length of the array. *)
Definition SetDefaultWFXChannelOrder (size : nat) (device : ALCdevice)
  : list Channel :=
  let arr := repeat InvalidChannel size in
  match FmtChans device with
  | DevFmtMono => assign_from 0 [FrontCenter] arr
  | DevFmtStereo => assign_from 0 [FrontLeft; FrontRight] arr
  | DevFmtQuad =>
      assign_from 0 [FrontLeft; FrontRight; BackLeft; BackRight] arr
  | DevFmtX51 =>
      assign_from 0
        [FrontLeft; FrontRight; FrontCenter; LFE; SideLeft; SideRight] arr
  | DevFmtX51Rear =>
      assign_from 0
        [FrontLeft; FrontRight; FrontCenter; LFE; BackLeft; BackRight] arr
  | DevFmtX61 =>
      assign_from 0
        [FrontLeft; FrontRight; FrontCenter; LFE; BackCenter; SideLeft;
         SideRight] arr
  | DevFmtX71 =>
      assign_from 0
        [FrontLeft; FrontRight; FrontCenter; LFE; BackLeft; BackRight;
         SideLeft; SideRight] arr
  | DevFmtAmbi3D =>
      let arr := assign_from 0 [Aux 0] arr in
      let arr := if mAmbiOrder device >? 0
                 then assign_from 1 [Aux 1; Aux 2; Aux 3] arr else arr in
      let arr := if mAmbiOrder device >? 1
                 then assign_from 4 [Aux 4; Aux 5; Aux 6; Aux 7; Aux 8] arr
                 else arr in
      if mAmbiOrder device >? 2
      then assign_from 9
             [Aux 9; Aux 10; Aux 11; Aux 12; Aux 13; Aux 14; Aux 15] arr
      else arr
  end.

(** [SetDefaultChannelOrder]. *)
Definition SetDefaultChannelOrder (size : nat) (device : ALCdevice)
  : list Channel :=
  let arr := repeat InvalidChannel size in
  match FmtChans device with
  | DevFmtX51Rear =>
      assign_from 0
        [FrontLeft; FrontRight; BackLeft; BackRight; FrontCenter; LFE] arr
  | DevFmtX71 =>
      assign_from 0
        [FrontLeft; FrontRight; BackLeft; BackRight; FrontCenter; LFE;
         SideLeft; SideRight] arr
  | DevFmtMono | DevFmtStereo | DevFmtQuad | DevFmtX51 | DevFmtX61
  | DevFmtAmbi3D => SetDefaultWFXChannelOrder size device
  end.

(** The channels of an array that carry a name. *)
Definition named (arr : list Channel) : list Channel :=
  filter (fun c => negb (Channel_eqb c InvalidChannel)) arr.

(** What every entry of the format table satisfies: the sample type is
    one of the three buffer types, the layout is neither rear 5.1 nor
    B-Format, and a frame takes between 1 and 32 bytes. *)
Definition format_entry_ok (e : Z * (DevFmtChannels * DevFmtType)) : bool :=
  let (chans, type) := snd e in
  (DevFmtType_eqb type DevFmtUByte || DevFmtType_eqb type DevFmtShort
   || DevFmtType_eqb type DevFmtFloat)
  && negb (DevFmtChannels_eqb chans DevFmtX51Rear)
  && negb (DevFmtChannels_eqb chans DevFmtAmbi3D)
  && (1 <=? BytesFromDevFmt type * ChannelsFromDevFmt chans 0)
  && (BytesFromDevFmt type * ChannelsFromDevFmt chans 0 <=? 32).

(** Two entries with the same layout and type have the same format. *)
Definition same_value_same_key (e1 e2 : Z * (DevFmtChannels * DevFmtType))
  : bool :=
  implb (DevFmtChannels_eqb (fst (snd e1)) (fst (snd e2))
         && DevFmtType_eqb (snd (snd e1)) (snd (snd e2)))
        (fst e1 =? fst e2).

(** How often a channel occurs in an array. *)
Definition occurrences (c : Channel) (arr : list Channel) : nat :=
  List.length (filter (Channel_eqb c) arr).

(** A loopback device rendering second-order B-Format. *)
Definition ambisonic_device : ALCdevice :=
  set_mAmbiOrder 2 (set_FmtChans DevFmtAmbi3D loopback_device).

(* ------------------------------------------------------------------ *)
(** ** Opening and closing devices *)

Definition set_Type_ (v : DeviceType) (d : ALCdevice) : ALCdevice :=
  mkDevice v (DeviceName d) (Connected d) (LastError d) (Flags d) (Frequency
    d) (UpdateSize d) (NumUpdates d) (FmtChans d) (FmtType d) (mAmbiOrder d)
    (mAmbiLayout d) (mAmbiScale d) (SourcesMax d) (AuxiliaryEffectSlotMax d)
    (NumMonoSources d) (NumStereoSources d) (NumAuxSends d) (LimiterState d)
    (Limiter d) (HrtfStatus d) (HrtfHandle d) (HrtfList d) (Uhj_Encoder d)
    (Bs2b d) (ChannelDelay d) (Dry d) (FOAOut d) (RealOut d) (MixBuffer d)
    (AvgSpeakerDist_pos d) (ClockBase d) (SamplesDone d) (MixCount d)
    (FixedLatency d) (DitherSeed d) (DitherDepth d) (ContextList d)
    (BackendLog d).
Definition set_AuxiliaryEffectSlotMax (v : Z) (d : ALCdevice) : ALCdevice :=
  mkDevice (Type_ d) (DeviceName d) (Connected d) (LastError d) (Flags d)
    (Frequency d) (UpdateSize d) (NumUpdates d) (FmtChans d) (FmtType d)
    (mAmbiOrder d) (mAmbiLayout d) (mAmbiScale d) (SourcesMax d) v
    (NumMonoSources d) (NumStereoSources d) (NumAuxSends d) (LimiterState d)
    (Limiter d) (HrtfStatus d) (HrtfHandle d) (HrtfList d) (Uhj_Encoder d)
    (Bs2b d) (ChannelDelay d) (Dry d) (FOAOut d) (RealOut d) (MixBuffer d)
    (AvgSpeakerDist_pos d) (ClockBase d) (SamplesDone d) (MixCount d)
    (FixedLatency d) (DitherSeed d) (DitherDepth d) (ContextList d)
    (BackendLog d).

(** What opening a device needs from outside the source file: the member
    initialisers of [ALCdevice_struct] (the device [new ALCdevice{type}]
    yields before the constructor body sets [Type]), whether a playback
    and a capture backend were selected at start-up, the backend factory
    and the backend's [open] and [captureSamples], and three build
    constants. *)
Record OpenEnv : Type := mkOpenEnv {
  blank_device : ALCdevice;
  PlaybackBackend_name : bool;
  CaptureBackend_name : bool;
  createBackend_ok : ALCdevice -> bool;
  backend_open : ALCdevice -> option string -> Z;
  backend_captureSamples : ALCdevice -> Z -> Z -> Z;
  DEFAULT_SENDS : Z;
  DevFmtChannelsDefault : DevFmtChannels;
  DevFmtTypeDefault : DevFmtType
}.

(** [alcDefaultName]. *)
Definition alcDefaultName : string := "OpenAL Soft".

(** [ALCdevice_struct::ALCdevice_struct(DeviceType type) : Type{type}]. *)
Definition new_device (O : OpenEnv) (type : DeviceType) : ALCdevice :=
  set_Type_ type (blank_device O).

(** [if(deviceName && (!deviceName[0] || strcasecmp(...) == 0 || ...))
     deviceName = nullptr;], without the names of the Windows build. *)
Definition default_to_null (deviceName : option string) : option string :=
  match deviceName with
  | Some name =>
      if match name with EmptyString => true | _ => false end
         || strcaseeq name alcDefaultName || strcaseeq name "openal-soft"
      then None else Some name
  | None => None
  end.

(** [std::find_if] over a table of names with [strcasecmp]. *)
Fixpoint find_name {A : Type} (table : list (string * A)) (name : string)
  : option A :=
  match table with
  | [] => None
  | (n, v) :: rest => if strcaseeq n name then Some v else find_name rest name
  end.

Definition chanlist : list (string * (DevFmtChannels * Z)) :=
  [("mono", (DevFmtMono, 0)); ("stereo", (DevFmtStereo, 0));
   ("quad", (DevFmtQuad, 0)); ("surround51", (DevFmtX51, 0));
   ("surround61", (DevFmtX61, 0)); ("surround71", (DevFmtX71, 0));
   ("surround51rear", (DevFmtX51Rear, 0)); ("ambi1", (DevFmtAmbi3D, 1));
   ("ambi2", (DevFmtAmbi3D, 2)); ("ambi3", (DevFmtAmbi3D, 3))]%string.

Definition typelist : list (string * DevFmtType) :=
  [("int8", DevFmtByte); ("uint8", DevFmtUByte); ("int16", DevFmtShort);
   ("uint16", DevFmtUShort); ("int32", DevFmtInt); ("uint32", DevFmtUInt);
   ("float32", DevFmtFloat)]%string.

(** [DeviceList] gains the device at its head. *)
Definition push_device (addr : positive) (d : ALCdevice) (st : ALCstate)
  : ALCstate :=
  set_DeviceList ((addr, d) :: DeviceList st) st.

(** The source, slot and send limits both render devices are opened
    with. *)
Definition open_limits (K : Consts) (E : Env) (O : OpenEnv)
  (deviceName : option string) (device : ALCdevice) : ALCdevice :=
  let d := set_SourcesMax (config_uint E deviceName "sources" (SourcesMax device))
             device in
  let d := if SourcesMax d =? 0 then set_SourcesMax 256 d else d in
  let d := set_AuxiliaryEffectSlotMax
             (config_uint E deviceName "slots" (AuxiliaryEffectSlotMax d)) d in
  let d := if AuxiliaryEffectSlotMax d =? 0
           then set_AuxiliaryEffectSlotMax 64 d
           else set_AuxiliaryEffectSlotMax
                  (minu (AuxiliaryEffectSlotMax d) INT_MAX) d in
  let d := match ConfigValueInt E deviceName "sends" with
           | Some v =>
               set_NumAuxSends
                 (clampi (DEFAULT_SENDS O) 0 (clampi (wrapi v) 0 (MAX_SENDS K)))
                 d
           | None => d
           end in
  let d := set_NumStereoSources 1 d in
  set_NumMonoSources (wrapu (SourcesMax d - NumStereoSources d)) d.

(** The output format block of [alcOpenDevice]: channels, sample type,
    frequency, periods and period size from the configuration file.  A
    quotient by a zero default rate is undefined in the source and 0
    here. *)
Definition open_format (K : Consts) (E : Env) (deviceName : option string)
  (device : ALCdevice) : ALCdevice :=
  let d := device in
  let d :=
    match ConfigValueStr E deviceName "channels" with
    | Some fmt =>
        match find_name chanlist fmt with
        | Some (chans, order) =>
            let d := set_FmtChans chans d in
            let d := set_mAmbiOrder order d in
            set_Flags (raise_flag (Flags d) (DEVICE_CHANNELS_REQUEST K)) d
        | None => d
        end
    | None => d
    end in
  let d :=
    match ConfigValueStr E deviceName "sample-type" with
    | Some fmt =>
        match find_name typelist fmt with
        | Some type =>
            let d := set_FmtType type d in
            set_Flags (raise_flag (Flags d) (DEVICE_SAMPLE_TYPE_REQUEST K)) d
        | None => d
        end
    | None => d
    end in
  let freq := config_uint E deviceName "frequency" 0 in
  let d :=
    if is_some (ConfigValueUInt E deviceName "frequency") && (freq >? 0)
    then
      let freq := if freq <? wrapu (MIN_OUTPUT_RATE K)
                  then wrapu (MIN_OUTPUT_RATE K) else freq in
      let d := set_NumUpdates
                 (Z.quot (wrapu (NumUpdates d * freq + Z.quot (Frequency d) 2))
                    (Frequency d)) d in
      let d := set_Frequency freq d in
      set_Flags (raise_flag (Flags d) (DEVICE_FREQUENCY_REQUEST K)) d
    else d in
  let d := set_NumUpdates (config_uint E deviceName "periods" (NumUpdates d)) d in
  let d := set_NumUpdates (clampu (NumUpdates d) 2 16) d in
  let d := set_UpdateSize
             (config_uint E deviceName "period_size" (UpdateSize d)) d in
  let d := set_UpdateSize (clampu (UpdateSize d) 64 8192) d in
  if negb (Z.land (CPUCapFlags E) (Z.lor (CPU_CAP_SSE K) (CPU_CAP_NEON K)) =? 0)
  then set_UpdateSize (Z.land (wrapu (UpdateSize d + 3)) (notu 3)) d
  else d.

(** The "ambi-format" block of [alcOpenDevice].  The enumerators of
    [AmbiLayout] and [AmbiNorm] carry the ALC values, as the casts in
    [UpdateDeviceParams] and [GetIntegerv] have it. *)
Definition open_ambi_format (K : Consts) (E : Env) (device : ALCdevice)
  : ALCdevice :=
  match ConfigValueStr E (Some (DeviceName device)) "ambi-format" with
  | Some fmt =>
      if strcaseeq fmt "fuma"
      then if mAmbiOrder device >? 3 then device
           else set_mAmbiScale (ALC_FUMA_SOFT K)
                  (set_mAmbiLayout (ALC_FUMA_SOFT K) device)
      else if strcaseeq fmt "acn+sn3d"
      then set_mAmbiScale (ALC_SN3D_SOFT K)
             (set_mAmbiLayout (ALC_ACN_SOFT K) device)
      else if strcaseeq fmt "acn+n3d"
      then set_mAmbiScale (ALC_N3D_SOFT K)
             (set_mAmbiLayout (ALC_ACN_SOFT K) device)
      else device
  | None => device
  end.

(** Modelled from the spec: a backend's [open(name)] is defined outside
    src/; by spec 3 it answers with an error code, and nothing more of it
    is modelled.

    [alcOpenDevice]: the state after the call and the pointer returned,
    [None] being nullptr.  [addr] is the address [new] hands out.  The
    one-time start-up behind DO_INITCONFIG is taken to have run. *)
Definition alcOpenDevice (K : Consts) (E : Env) (O : OpenEnv)
  (st : ALCstate) (addr : positive) (deviceName : option string)
  : ALCstate * option positive :=
  if negb (PlaybackBackend_name O)
  then (alcSetError st None ALC_INVALID_VALUE, None)
  else
    let deviceName := default_to_null deviceName in
    let d := new_device O Playback in
    let d := set_FmtChans (DevFmtChannelsDefault O) d in
    let d := set_FmtType (DevFmtTypeDefault O) d in
    let d := set_Frequency (wrapu (DEFAULT_OUTPUT_RATE K)) d in
    let d := set_UpdateSize (wrapu (DEFAULT_UPDATE_SIZE K)) d in
    let d := set_NumUpdates (wrapu (DEFAULT_NUM_UPDATES K)) d in
    let d := set_LimiterState ALC_TRUE d in
    let d := set_SourcesMax 256 d in
    let d := set_AuxiliaryEffectSlotMax 64 d in
    let d := set_NumAuxSends (DEFAULT_SENDS O) d in
    let d := open_format K E deviceName d in
    let d := open_limits K E O deviceName d in
    if negb (createBackend_ok O d)
    then (alcSetError st None ALC_OUT_OF_MEMORY, None)
    else
      let err := backend_open O d deviceName in
      if negb (err =? ALC_NO_ERROR)
      then (alcSetError st None err, None)
      else (push_device addr (open_ambi_format K E d) st, Some addr).

(** [alcLoopbackOpenDeviceSOFT]. *)
Definition alcLoopbackOpenDeviceSOFT (K : Consts) (E : Env) (O : OpenEnv)
  (st : ALCstate) (addr : positive) (deviceName : option string)
  : ALCstate * option positive :=
  if match deviceName with
     | Some name => negb (String.eqb name alcDefaultName)
     | None => false
     end
  then (alcSetError st None ALC_INVALID_VALUE, None)
  else
    let d := new_device O Loopback in
    let d := set_SourcesMax 256 d in
    let d := set_AuxiliaryEffectSlotMax 64 d in
    let d := set_NumAuxSends (DEFAULT_SENDS O) d in
    let d := set_NumUpdates 0 d in
    let d := set_UpdateSize 0 d in
    let d := set_Frequency (wrapu (DEFAULT_OUTPUT_RATE K)) d in
    let d := set_FmtChans (DevFmtChannelsDefault O) d in
    let d := set_FmtType (DevFmtTypeDefault O) d in
    let d := open_limits K E O None d in
    if negb (createBackend_ok O d)
    then (alcSetError st None ALC_OUT_OF_MEMORY, None)
    else (push_device addr d st, Some addr).

(** [alcCaptureOpenDevice]. *)
Definition alcCaptureOpenDevice (K : Consts) (O : OpenEnv) (st : ALCstate)
  (addr : positive) (deviceName : option string)
  (frequency format samples : Z) : ALCstate * option positive :=
  if negb (CaptureBackend_name O)
  then (alcSetError st None ALC_INVALID_VALUE, None)
  else if samples <=? 0
  then (alcSetError st None ALC_INVALID_VALUE, None)
  else
    let deviceName := default_to_null deviceName in
    let d := new_device O Capture in
    let d := set_Frequency (wrapu frequency) d in
    let d := set_Flags (raise_flag (Flags d) (DEVICE_FREQUENCY_REQUEST K)) d in
    match DecomposeDevFormat format with
    | None => (alcSetError st None ALC_INVALID_ENUM, None)
    | Some (chans, type) =>
        let d := set_FmtType type (set_FmtChans chans d) in
        let d := set_Flags
                   (raise_flag (Flags d)
                      (Z.lor (DEVICE_CHANNELS_REQUEST K)
                         (DEVICE_SAMPLE_TYPE_REQUEST K))) d in
        let d := set_UpdateSize (wrapu samples) d in
        let d := set_NumUpdates 1 d in
        if negb (createBackend_ok O d)
        then (alcSetError st None ALC_OUT_OF_MEMORY, None)
        else
          let err := backend_open O d deviceName in
          if negb (err =? ALC_NO_ERROR)
          then (alcSetError st None err, None)
          else (push_device addr d st, Some addr)
    end.

(** Unlinking a node from the device list. *)
Fixpoint unlink (addr : positive) (l : list (positive * ALCdevice))
  : list (positive * ALCdevice) :=
  match l with
  | [] => []
  | (a, d) :: rest =>
      if Pos.eqb a addr then rest else (a, d) :: unlink addr rest
  end.

(** The walk both close functions make over the device list.  It reads
    the first node before it tests for the end of the list: on an empty
    list the walk is undefined unless the pointer asked for is null. *)
Definition find_for_close (st : ALCstate) (device : Z)
  : option (option (positive * ALCdevice)) :=
  match DeviceList st with
  | [] => if device =? 0 then Some None else None
  | _ :: _ => Some (VerifyDevice st device)
  end.

(** [alcCaptureCloseDevice]: [None] where the source is undefined;
    otherwise the state after the call and, when the function returns
    ALC_TRUE, the device as it is released. *)
Definition alcCaptureCloseDevice (K : Consts) (st : ALCstate) (device : Z)
  : option (ALCstate * option ALCdevice) :=
  match find_for_close st device with
  | None => None
  | Some None => Some (alcSetError st None ALC_INVALID_DEVICE, None)
  | Some (Some (addr, d)) =>
      if negb (DeviceType_eqb (Type_ d) Capture)
      then Some (alcSetError st (Some addr) ALC_INVALID_DEVICE, None)
      else Some (set_DeviceList (unlink addr (DeviceList st)) st,
                 Some (stop_if_running K d))
  end.

(** [ReleaseContext] as far as the device goes: the context leaves the
    context list under the backend lock.  The thread-local and global
    current context are outside the model. *)
Definition release_contexts (d : ALCdevice) : ALCdevice :=
  fold_left
    (fun d _ =>
       let d := log_call Backend_lock d in
       let d := set_ContextList (tl (ContextList d)) d in
       log_call Backend_unlock d)
    (ContextList d) d.

(** [alcCloseDevice]. *)
Definition alcCloseDevice (K : Consts) (st : ALCstate) (device : Z)
  : option (ALCstate * option ALCdevice) :=
  match find_for_close st device with
  | None => None
  | Some None => Some (alcSetError st None ALC_INVALID_DEVICE, None)
  | Some (Some (addr, d)) =>
      if DeviceType_eqb (Type_ d) Capture
      then Some (alcSetError st (Some addr) ALC_INVALID_DEVICE, None)
      else Some (set_DeviceList (unlink addr (DeviceList st)) st,
                 Some (stop_if_running K (release_contexts d)))
  end.

(** [alcCaptureSamples]: the state after the call and the arguments of
    the [captureSamples] call made, if one was made. *)
Definition alcCaptureSamples (E : Env) (O : OpenEnv) (st : ALCstate)
  (device buffer samples : Z) : ALCstate * option (Z * Z) :=
  match VerifyDevice st device with
  | Some (addr, d) =>
      if negb (DeviceType_eqb (Type_ d) Capture)
      then (alcSetError st (Some addr) ALC_INVALID_DEVICE, None)
      else
        let call := (samples >=? 0)
                    && (wrapu (backend_availableSamples E d) >=? wrapu samples) in
        let err := if call then backend_captureSamples O d buffer samples
                   else ALC_INVALID_VALUE in
        (if negb (err =? ALC_NO_ERROR)
         then alcSetError st (Some addr) err else st,
         if call then Some (buffer, samples) else None)
  | None => (alcSetError st None ALC_INVALID_DEVICE, None)
  end.

(** [alcIsRenderFormatSupportedSOFT]: the state after the call and the
    ALCboolean returned. *)
Definition alcIsRenderFormatSupportedSOFT (K : Consts) (st : ALCstate)
  (device freq channels type : Z) : ALCstate * bool :=
  match VerifyDevice st device with
  | Some (addr, d) =>
      if negb (DeviceType_eqb (Type_ d) Loopback)
      then (alcSetError st (Some addr) ALC_INVALID_DEVICE, false)
      else if freq <=? 0
      then (alcSetError st (Some addr) ALC_INVALID_VALUE, false)
      else (st, IsValidALCType type && IsValidALCChannels K channels
                && (freq >=? MIN_OUTPUT_RATE K))
  | None => (alcSetError st None ALC_INVALID_DEVICE, false)
  end.

(** A machine with both backends, whose backends open every device, and
    the defaults of the upstream headers. *)
Definition plain_open : OpenEnv := {|
  blank_device := set_Type_ Playback (set_Frequency 0 loopback_device);
  PlaybackBackend_name := true;
  CaptureBackend_name := true;
  createBackend_ok := fun _ => true;
  backend_open := fun _ _ => ALC_NO_ERROR;
  backend_captureSamples := fun _ _ _ => ALC_NO_ERROR;
  DEFAULT_SENDS := 2;
  DevFmtChannelsDefault := DevFmtStereo;
  DevFmtTypeDefault := DevFmtFloat
|}.

Definition no_devices : ALCstate := mkState [] ALC_NO_ERROR false 0.

(* ================================================================== *)
(** * Properties *)

(* ------------------------------------------------------------------ *)
(** ** Integer helpers *)

Lemma clampu_range (v lo hi : Z) :
  lo <= hi -> lo <= clampu v lo hi <= hi.
Proof.
  intros Hle. unfold clampu, minu, maxu.
  destruct (lo >? v) eqn:E1; destruct (hi >? _) eqn:E2;
    rewrite ?Z.gtb_ltb, ?Z.ltb_lt, ?Z.ltb_ge in *; lia.
Qed.

Lemma clampi_range (v lo hi : Z) :
  lo <= hi -> lo <= clampi v lo hi <= hi.
Proof.
  intros Hle. unfold clampi, mini, maxi.
  destruct (lo >? v) eqn:E1; destruct (hi >? _) eqn:E2;
    rewrite ?Z.gtb_ltb, ?Z.ltb_lt, ?Z.ltb_ge in *; lia.
Qed.

(** The rounding applied to a period size already clamped stays in range
    and gives a multiple of four; checked over the whole range. *)
Lemma round_up_4_table :
  forallb (fun n => round_up_4_ok (64 + Z.of_nat n)) (seq 0 (Z.to_nat 8129)) = true.
Proof. vm_compute. reflexivity. Qed.

Lemma round_up_4_spec (x : Z) :
  64 <= x <= 8192 ->
  64 <= round_up_4 x <= 8192 /\ round_up_4 x mod 4 = 0
  /\ x <= round_up_4 x < x + 4.
Proof.
  intros Hx.
  pose proof round_up_4_table as T.
  rewrite forallb_forall in T.
  specialize (T (Z.to_nat (x - 64))).
  replace (64 + Z.of_nat (Z.to_nat (x - 64))) with x in T by lia.
  assert (Hin : In (Z.to_nat (x - 64)) (seq 0 (Z.to_nat 8129))).
  { apply in_seq. lia. }
  specialize (T Hin). unfold round_up_4_ok in T.
  repeat (apply andb_prop in T; destruct T as [T ?]).
  rewrite ?Z.leb_le, ?Z.ltb_lt, ?Z.eqb_eq in *. lia.
Qed.

(* ------------------------------------------------------------------ *)
(** ** Flag arithmetic *)

Lemma notu_range (m : Z) : 0 <= notu m < 2 ^ 32.
Proof. unfold notu, wrapu. apply Z.mod_pos_bound. lia. Qed.

Lemma land_notu_self (f m : Z) :
  0 <= m < 2 ^ 32 -> Z.land (Z.land f (notu m)) m = 0.
Proof.
  intros Hm. unfold notu, wrapu.
  rewrite <- Z.land_ones by lia.
  apply Z.bits_inj'. intros n Hn.
  rewrite !Z.land_spec, Z.bits_0.
  destruct (Z.testbit m n) eqn:Em; [|now rewrite andb_false_r].
  rewrite Z.lnot_spec by lia. rewrite Em. cbn.
  now rewrite andb_false_r.
Qed.

Lemma has_flag_clear (f m : Z) :
  0 <= m < 2 ^ 32 -> has_flag (clear_flag f m) m = false.
Proof.
  intros Hm. unfold has_flag, clear_flag.
  rewrite land_notu_self by exact Hm. reflexivity.
Qed.

Lemma has_flag_false_iff (f m : Z) : has_flag f m = false <-> Z.land f m = 0.
Proof.
  unfold has_flag. rewrite negb_false_iff, Z.eqb_eq. reflexivity.
Qed.

(** Clearing or raising a mask leaves a disjoint mask as it was. *)
Lemma land_clear_other (f m k : Z) :
  Z.land f k = 0 -> Z.land (clear_flag f m) k = 0.
Proof.
  intros H. unfold clear_flag.
  rewrite <- Z.land_assoc, (Z.land_comm (notu m) k), Z.land_assoc, H.
  apply Z.land_0_l.
Qed.

Lemma land_raise_other (f m k : Z) :
  Z.land m k = 0 -> Z.land f k = 0 -> Z.land (raise_flag f m) k = 0.
Proof.
  intros Hm Hf. unfold raise_flag.
  rewrite Z.land_lor_distr_l, Hm, Hf. reflexivity.
Qed.

(* ------------------------------------------------------------------ *)
(** ** UpdateDeviceParams: return codes *)

Lemma attribute_stage_missing (K : Consts) (E : Env) (device : ALCdevice)
  (attrList : option (list Z)) :
  attrs_missing attrList = true ->
  attribute_stage K E device attrList =
    if DeviceType_eqb (Type_ device) Loopback
    then Return ALC_INVALID_VALUE device
    else Next (device, default_locals device).
Proof.
  intros Hm. unfold attribute_stage. rewrite Hm. cbn [andb].
  destruct (DeviceType_eqb (Type_ device) Loopback); [reflexivity|].
  destruct attrList; reflexivity.
Qed.

Lemma UpdateDeviceParams_unfold (K : Consts) (E : Env) (device : ALCdevice)
  (attrList : option (list Z)) :
  UpdateDeviceParams K E device attrList =
    match attribute_stage K E device attrList with
    | Return err d => (err, d)
    | Next x => after_attributes K E x
    end.
Proof.
  unfold UpdateDeviceParams, after_attributes.
  destruct (attribute_stage K E device attrList); reflexivity.
Qed.

Lemma configure_stage_codes (K : Consts) (E : Env) (x : ALCdevice * Locals) :
  fst (configure_stage K E x) = ALC_NO_ERROR
  \/ fst (configure_stage K E x) = ALC_INVALID_DEVICE.
Proof.
  destruct x as [d l]. unfold configure_stage.
  destruct (update_contexts _ _ _ _ _) as [cs failed].
  destruct failed; [right; reflexivity|].
  destruct (negb (has_flag _ _)); [|left; reflexivity].
  destruct (negb (backend_start _ _)); [right|left]; reflexivity.
Qed.

Lemma reset_stage_cases (K : Consts) (E : Env) (d : ALCdevice) (l : Locals) :
  let after := apply_format (snd (backend_reset E d))
                 (log_call Backend_reset d) in
  reset_stage K E (d, l) =
    if fst (backend_reset E d)
    then Next (reconcile_requests K (Frequency d) (FmtChans d) (FmtType d)
                 after, l)
    else Return ALC_INVALID_DEVICE after.
Proof.
  unfold reset_stage. destruct (backend_reset E d) as [ok fmt].
  destruct ok; reflexivity.
Qed.

Lemma after_attributes_codes (K : Consts) (E : Env) (x : ALCdevice * Locals) :
  fst (after_attributes K E x) = ALC_NO_ERROR
  \/ fst (after_attributes K E x) = ALC_INVALID_DEVICE.
Proof.
  destruct x as [d l]. unfold after_attributes, prepare_stage.
  destruct (has_flag (Flags d) (DEVICE_RUNNING K)); [left; reflexivity|].
  cbn [andThen].
  destruct (hrtf_request K E (clear_views K d) l) as [d1 l1].
  rewrite reset_stage_cases.
  destruct (fst (backend_reset E d1)); [|right; reflexivity].
  apply configure_stage_codes.
Qed.

(** C10.  Called with a null or empty attribute list on a device that is
    not a loopback device and has its RUNNING flag set, UpdateDeviceParams
    returns ALC_NO_ERROR and leaves the whole device as it was: no call
    reaches the backend, and format, update size, period count, mix
    buffer, send count and the attached contexts are all untouched. *)
Theorem UpdateDeviceParams_running_no_attributes
  (K : Consts) (E : Env) (device : ALCdevice) (attrList : option (list Z)) :
  attrs_missing attrList = true ->
  DeviceType_eqb (Type_ device) Loopback = false ->
  has_flag (Flags device) (DEVICE_RUNNING K) = true ->
  UpdateDeviceParams K E device attrList = (ALC_NO_ERROR, device).
Proof.
  intros Hm Hl Hr.
  rewrite UpdateDeviceParams_unfold, attribute_stage_missing, Hl by exact Hm.
  unfold after_attributes, prepare_stage. rewrite Hr. reflexivity.
Qed.

Lemma UpdateDeviceParams_running_no_attributes_witness :
  UpdateDeviceParams upstream plain_env running_playback_device (Some [0])
  = (ALC_NO_ERROR, running_playback_device).
Proof.
  apply (UpdateDeviceParams_running_no_attributes upstream plain_env
           running_playback_device (Some [0])); reflexivity.
Defined.

(** C5.  With a null or empty attribute list, UpdateDeviceParams returns
    ALC_INVALID_VALUE (leaving the device alone) on a loopback device; on
    any other device the list is accepted: the attribute block is skipped
    with the locals at their defaults, and the result is ALC_NO_ERROR or
    ALC_INVALID_DEVICE, never ALC_INVALID_VALUE. *)
Theorem UpdateDeviceParams_missing_attributes
  (K : Consts) (E : Env) (device : ALCdevice) (attrList : option (list Z)) :
  attrs_missing attrList = true ->
  (DeviceType_eqb (Type_ device) Loopback = true ->
   UpdateDeviceParams K E device attrList = (ALC_INVALID_VALUE, device))
  /\ (DeviceType_eqb (Type_ device) Loopback = false ->
      attribute_stage K E device attrList
        = Next (device, default_locals device)
      /\ fst (UpdateDeviceParams K E device attrList) <> ALC_INVALID_VALUE
      /\ (fst (UpdateDeviceParams K E device attrList) = ALC_NO_ERROR
          \/ fst (UpdateDeviceParams K E device attrList)
             = ALC_INVALID_DEVICE)).
Proof.
  intros Hm. split; intros Hl.
  - rewrite UpdateDeviceParams_unfold, attribute_stage_missing, Hl
      by exact Hm. reflexivity.
  - pose proof (attribute_stage_missing K E device attrList Hm) as Ha.
    rewrite Hl in Ha. split; [exact Ha|].
    rewrite UpdateDeviceParams_unfold, Ha.
    destruct (after_attributes_codes K E (device, default_locals device))
      as [H|H]; rewrite H; split; try discriminate; auto.
Qed.

Lemma UpdateDeviceParams_missing_attributes_witness :
  UpdateDeviceParams upstream plain_env loopback_device None
    = (ALC_INVALID_VALUE, loopback_device)
  /\ fst (UpdateDeviceParams upstream plain_env playback_device None)
     <> ALC_INVALID_VALUE.
Proof.
  split.
  - apply (UpdateDeviceParams_missing_attributes upstream plain_env
             loopback_device None); reflexivity.
  - apply (UpdateDeviceParams_missing_attributes upstream plain_env
             playback_device None); reflexivity.
Defined.

(* ------------------------------------------------------------------ *)
(** ** UpdateDeviceParams: period count and period size *)

Lemma playback_periods_NumUpdates (K : Consts) (E : Env)
  (devname : option string) (freq0 : Z) (device : ALCdevice) :
  2 <= NumUpdates (playback_periods K E devname freq0 device) <= 16.
Proof.
  cbv beta zeta delta [playback_periods].
  destruct (negb (Z.land (CPUCapFlags E) _ =? 0));
    cbn [NumUpdates set_UpdateSize set_NumUpdates];
    apply clampu_range; lia.
Qed.

Lemma playback_periods_UpdateSize (K : Consts) (E : Env)
  (devname : option string) (freq0 : Z) (device : ALCdevice) :
  64 <= UpdateSize (playback_periods K E devname freq0 device) <= 8192
  /\ (simd_present K E = true ->
      UpdateSize (playback_periods K E devname freq0 device) mod 4 = 0).
Proof.
  cbv beta zeta delta [playback_periods simd_present].
  destruct (negb (Z.land (CPUCapFlags E) _ =? 0));
    cbn [UpdateSize set_UpdateSize set_NumUpdates].
  - match goal with
    | |- context [clampu ?v 64 8192] =>
        pose proof (clampu_range v 64 8192 ltac:(lia)) as Hc;
        pose proof (round_up_4_spec (clampu v 64 8192) Hc) as Hr
    end.
    unfold round_up_4 in Hr. split; [|intros _]; apply Hr.
  - split; [apply clampu_range; lia | discriminate].
Qed.

(** Dropping the views and asking for an HRTF leave the periods alone. *)
Lemma clear_views_periods (K : Consts) (d : ALCdevice) :
  NumUpdates (clear_views K d) = NumUpdates d
  /\ UpdateSize (clear_views K d) = UpdateSize d.
Proof. split; reflexivity. Qed.

Lemma hrtf_request_periods (K : Consts) (E : Env) (d : ALCdevice) (l : Locals) :
  NumUpdates (fst (hrtf_request K E d l)) = NumUpdates d
  /\ UpdateSize (fst (hrtf_request K E d l)) = UpdateSize d.
Proof.
  unfold hrtf_request.
  repeat match goal with
         | |- context [if ?c then _ else _] => destruct c
         | |- context [match ?c with _ => _ end] => destruct c
         end; split; reflexivity.
Qed.

(** On a device that is not a loopback device, the attribute block ends
    with the period count in [2,16] and the period size in [64,8192], the
    latter a multiple of 4 when the CPU has SSE or NEON; and these are
    still the values when the block hands over to the backend's
    reset(). *)
Lemma attribute_stage_period_bounds
  (K : Consts) (E : Env) (device : ALCdevice) (attrList : option (list Z)) :
  attrs_missing attrList = false ->
  DeviceType_eqb (Type_ device) Loopback = false ->
  exists (d : ALCdevice) (l : Locals),
    attribute_stage K E device attrList = Next (d, l)
    /\ 2 <= NumUpdates d <= 16
    /\ 64 <= UpdateSize d <= 8192
    /\ (simd_present K E = true -> UpdateSize d mod 4 = 0)
    /\ (forall d1 l1, prepare_stage K E (d, l) = Next (d1, l1) ->
        NumUpdates d1 = NumUpdates d /\ UpdateSize d1 = UpdateSize d).
Proof.
  intros Hm Hl.
  destruct attrList as [attrs|]; [|discriminate].
  unfold attribute_stage. rewrite Hm, Hl. cbn [andb].
  destruct (source_counts E _ _) as [numMono numStereo].
  eexists. eexists. split; [reflexivity|].
  cbn [NumUpdates UpdateSize set_NumStereoSources set_NumMonoSources
       set_SourcesMax].
  split; [apply playback_periods_NumUpdates|].
  split; [apply playback_periods_UpdateSize|].
  split; [apply playback_periods_UpdateSize|].
  intros d1 l1. unfold prepare_stage.
  destruct (has_flag _ _); [discriminate|].
  intros H. injection H as H.
  match type of H with
  | hrtf_request K E ?x ?y = _ =>
      pose proof (hrtf_request_periods K E x y) as [Hn Hu];
      rewrite H in Hn, Hu; cbn [fst] in Hn, Hu;
      rewrite Hn, Hu
  end.
  split; reflexivity.
Qed.

Example period_size_rounded :
  UpdateSize (snd (UpdateDeviceParams upstream sse_env playback_device
                     (Some [ALC_FREQUENCY; 48000; 0]))) = 1004.
Proof. vm_compute. reflexivity. Qed.

(* ------------------------------------------------------------------ *)
(** ** UpdateDeviceParams: the backend's reset and the request flags *)

Lemma UpdateDeviceParams_from_reset (K : Consts) (E : Env)
  (device : ALCdevice) (attrList : option (list Z)) (d : ALCdevice)
  (l : Locals) :
  before_reset K E device attrList = Next (d, l) ->
  UpdateDeviceParams K E device attrList =
    match reset_stage K E (d, l) with
    | Return err d' => (err, d')
    | Next z => configure_stage K E z
    end.
Proof.
  unfold before_reset, UpdateDeviceParams.
  destruct (attribute_stage K E device attrList) as [e0 d0|x];
    cbn [andThen]; [discriminate|].
  destruct (prepare_stage K E x) as [e1 d1|y]; cbn [andThen];
    [discriminate|].
  intros H. injection H as ->. reflexivity.
Qed.

Ltac split_ifs :=
  repeat match goal with
         | |- context [if ?c then _ else _] => destruct c
         | |- context [match ?c with _ => _ end] => destruct c
         end.

Lemma allocate_mix_buffer_Flags (n : Z) (d : ALCdevice) :
  Flags (allocate_mix_buffer n d) = Flags d.
Proof. unfold allocate_mix_buffer. cbv zeta. split_ifs; reflexivity. Qed.

Lemma select_dither_Flags (E : Env) (d : ALCdevice) :
  Flags (select_dither E d) = Flags d.
Proof. unfold select_dither. cbv zeta. split_ifs; reflexivity. Qed.

Lemma select_limiter_Flags (E : Env) (g : Z) (d : ALCdevice) :
  Flags (select_limiter E g d) = Flags d.
Proof. unfold select_limiter. cbv zeta. split_ifs; reflexivity. Qed.

Lemma configured_Flags (E : Env) (d : ALCdevice) (l : Locals) :
  Flags (configured E d l) = Flags d.
Proof.
  unfold configured.
  rewrite select_limiter_Flags, select_dither_Flags,
    allocate_mix_buffer_Flags. reflexivity.
Qed.

Lemma configure_stage_unfold (K : Consts) (E : Env) (d : ALCdevice)
  (l : Locals) :
  configure_stage K E (d, l) =
    let d0 := configured E d l in
    let r := update_contexts E d0 (l_old_sends l) (ContextList d0) false in
    let d1 := set_ContextList (fst r) d0 in
    if snd r then (ALC_INVALID_DEVICE, d1)
    else if negb (has_flag (Flags d1) (DEVICE_PAUSED K))
    then if negb (backend_start E d1)
         then (ALC_INVALID_DEVICE, log_call Backend_start d1)
         else (ALC_NO_ERROR,
               set_Flags (raise_flag (Flags (log_call Backend_start d1))
                            (DEVICE_RUNNING K))
                 (log_call Backend_start d1))
    else (ALC_NO_ERROR, d1).
Proof.
  unfold configure_stage, configured. cbv zeta.
  destruct (update_contexts _ _ _ _ _) as [cs failed]. reflexivity.
Qed.

Lemma configure_stage_Flags (K : Consts) (E : Env) (d : ALCdevice)
  (l : Locals) :
  Flags (snd (configure_stage K E (d, l))) = Flags d
  \/ Flags (snd (configure_stage K E (d, l)))
     = raise_flag (Flags d) (DEVICE_RUNNING K).
Proof.
  rewrite configure_stage_unfold. cbv zeta.
  destruct (snd (update_contexts _ _ _ _ _)).
  - left. cbn [snd Flags set_ContextList]. apply configured_Flags.
  - destruct (negb (has_flag _ _)).
    + destruct (negb (backend_start _ _)).
      * left. cbn. apply configured_Flags.
      * right. cbn. rewrite configured_Flags. reflexivity.
    + left. cbn. apply configured_Flags.
Qed.

Lemma flags_ok_facts (K : Consts) :
  flags_ok K = true ->
  (0 <= DEVICE_FREQUENCY_REQUEST K < 2 ^ 32
   /\ 0 <= DEVICE_CHANNELS_REQUEST K < 2 ^ 32
   /\ 0 <= DEVICE_SAMPLE_TYPE_REQUEST K < 2 ^ 32
   /\ 0 <= DEVICE_RUNNING K < 2 ^ 32)
  /\ Z.land (DEVICE_RUNNING K) (DEVICE_FREQUENCY_REQUEST K) = 0
  /\ Z.land (DEVICE_RUNNING K) (DEVICE_CHANNELS_REQUEST K) = 0
  /\ Z.land (DEVICE_RUNNING K) (DEVICE_SAMPLE_TYPE_REQUEST K) = 0.
Proof.
  unfold flags_ok, disjoint_masks. cbn [forallb]. unfold is_u32. intros H.
  repeat match type of H with
         | (_ && _)%bool = true =>
             let H1 := fresh "H" in
             apply andb_prop in H; destruct H as [H H1]
         end.
  repeat match goal with
         | X : (_ && _)%bool = true |- _ =>
             let H1 := fresh "H" in
             apply andb_prop in X; destruct X as [X H1]
         end.
  rewrite ?Z.leb_le, ?Z.ltb_lt, ?Z.eqb_eq in *.
  repeat split; assumption.
Qed.

Lemma reconcile_requests_Flags (K : Consts) (oldFreq : Z)
  (oldChans : DevFmtChannels) (oldType : DevFmtType) (d : ALCdevice) :
  flags_ok K = true ->
  let d' := reconcile_requests K oldFreq oldChans oldType d in
  (DevFmtChannels_eqb (FmtChans d) oldChans = false ->
   Z.land (Flags d') (DEVICE_CHANNELS_REQUEST K) = 0)
  /\ (DevFmtType_eqb (FmtType d) oldType = false ->
      Z.land (Flags d') (DEVICE_SAMPLE_TYPE_REQUEST K) = 0)
  /\ ((Frequency d =? oldFreq) = false ->
      Z.land (Flags d') (DEVICE_FREQUENCY_REQUEST K) = 0).
Proof.
  intros Hok. destruct (flags_ok_facts K Hok) as [(HF & HC & HT & HR) _].
  cbv zeta. unfold reconcile_requests. cbv zeta.
  repeat split; intros Hne.
  - rewrite Hne. cbn [negb andb].
    destruct (has_flag (Flags d) (DEVICE_CHANNELS_REQUEST K)) eqn:E1; cbv iota.
    + split_ifs; cbn [Flags set_Flags];
        repeat first [ apply land_notu_self; assumption
                     | apply land_clear_other ].
    + apply has_flag_false_iff in E1.
      split_ifs; cbn [Flags set_Flags];
        repeat apply land_clear_other; assumption.
  - match goal with
    | |- context [if ?c then set_Flags ?f d else d] =>
        set (d1 := if c then set_Flags f d else d)
    end.
    assert (Ht : FmtType d1 = FmtType d) by (subst d1; split_ifs; reflexivity).
    rewrite Ht, Hne. cbn [negb andb].
    destruct (has_flag (Flags d1) (DEVICE_SAMPLE_TYPE_REQUEST K)) eqn:E1; cbv iota.
    + split_ifs; cbn [Flags set_Flags];
        repeat first [ apply land_notu_self; assumption
                     | apply land_clear_other ].
    + apply has_flag_false_iff in E1.
      split_ifs; cbn [Flags set_Flags];
        repeat apply land_clear_other; assumption.
  - match goal with
    | |- context [if ?c then set_Flags ?f d else d] =>
        set (d1 := if c then set_Flags f d else d)
    end.
    match goal with
    | |- context [if ?c then set_Flags ?f d1 else d1] =>
        set (d2 := if c then set_Flags f d1 else d1)
    end.
    assert (Hf : Frequency d2 = Frequency d)
      by (subst d2 d1; split_ifs; reflexivity).
    rewrite Hf, Hne. cbn [negb andb].
    destruct (has_flag (Flags d2) (DEVICE_FREQUENCY_REQUEST K)) eqn:E1; cbv iota.
    + cbn [Flags set_Flags]. apply land_notu_self; assumption.
    + apply has_flag_false_iff in E1. assumption.
Qed.

(** When every effect state adapts to the device, the loop over the
    contexts reports no failure. *)
Lemma retarget_slots_ok (E : Env) (d : ALCdevice) :
  (forall s dev, deviceUpdate E s dev = true) ->
  forall slots c failed,
    snd (retarget_slots E d slots c failed) = failed.
Proof.
  intros Hok. induction slots as [|slot rest IH]; intros c failed.
  - reflexivity.
  - cbn [retarget_slots]. unfold retarget_slot. rewrite Hok.
    cbn [negb]. rewrite orb_false_r.
    specialize (IH (UpdateEffectSlotProps
                      (mkSlot (slot_id slot) (slot_ref slot)
                         (slot_PropsClean slot)
                         (mkEffectState (state_id (Effect_State slot))
                            (Buffer (Dry d)) (NumChannels (Dry d)))) c)
                   failed).
    destruct (retarget_slots E d rest _ failed) as [[rest' c'] failed'].
    exact IH.
Qed.

Lemma update_context_ok (E : Env) (d : ALCdevice) (old_sends : Z) :
  (forall s dev, deviceUpdate E s dev = true) ->
  forall c failed, snd (update_context E d old_sends c failed) = failed.
Proof.
  intros Hok c failed. unfold update_context.
  destruct (DefaultSlot c) as [slot|].
  - unfold retarget_slot. rewrite Hok. cbn [negb]. rewrite orb_false_r.
    match goal with
    | |- context [retarget_slots E d ?s ?c0 failed] =>
        pose proof (retarget_slots_ok E d Hok s c0 failed) as H;
        destruct (retarget_slots E d s c0 failed) as [[slots c1] f1]
    end.
    cbn [snd] in H. subst f1.
    destruct (update_sublists _ _ _). reflexivity.
  - match goal with
    | |- context [retarget_slots E d ?s ?c0 failed] =>
        pose proof (retarget_slots_ok E d Hok s c0 failed) as H;
        destruct (retarget_slots E d s c0 failed) as [[slots c1] f1]
    end.
    cbn [snd] in H. subst f1.
    destruct (update_sublists _ _ _). reflexivity.
Qed.

Lemma update_contexts_ok (E : Env) (d : ALCdevice) (old_sends : Z) :
  (forall s dev, deviceUpdate E s dev = true) ->
  forall cs failed, snd (update_contexts E d old_sends cs failed) = failed.
Proof.
  intros Hok. induction cs as [|c rest IH]; intros failed.
  - reflexivity.
  - cbn [update_contexts].
    pose proof (update_context_ok E d old_sends Hok c failed) as H.
    destruct (update_context E d old_sends c failed) as [c' f']. cbn in H.
    subst f'. specialize (IH failed).
    destruct (update_contexts E d old_sends rest failed) as [rest' f''].
    exact IH.
Qed.

(** C4.  Once UpdateDeviceParams has reached the backend's reset():
    if reset() fails the function returns ALC_INVALID_DEVICE; if it
    succeeds, each of channel layout, sample type and frequency that came
    back different from its value before the reset has its request flag
    clear at return, the function returns ALC_NO_ERROR or
    ALC_INVALID_DEVICE, and it returns ALC_NO_ERROR whenever every effect
    state adapts and the backend starts, whatever format reset() chose. *)
Theorem UpdateDeviceParams_reset_requests
  (K : Consts) (E : Env) (device : ALCdevice) (attrList : option (list Z))
  (d : ALCdevice) (l : Locals) :
  flags_ok K = true ->
  before_reset K E device attrList = Next (d, l) ->
  let result := UpdateDeviceParams K E device attrList in
  let got := snd (backend_reset E d) in
  (fst (backend_reset E d) = false -> fst result = ALC_INVALID_DEVICE)
  /\ (fst (backend_reset E d) = true ->
      (DevFmtChannels_eqb (bf_FmtChans got) (FmtChans d) = false ->
       has_flag (Flags (snd result)) (DEVICE_CHANNELS_REQUEST K) = false)
      /\ (DevFmtType_eqb (bf_FmtType got) (FmtType d) = false ->
          has_flag (Flags (snd result)) (DEVICE_SAMPLE_TYPE_REQUEST K)
          = false)
      /\ ((wrapu (bf_Frequency got) =? Frequency d) = false ->
          has_flag (Flags (snd result)) (DEVICE_FREQUENCY_REQUEST K) = false)
      /\ (fst result = ALC_NO_ERROR \/ fst result = ALC_INVALID_DEVICE)
      /\ ((forall s dev, deviceUpdate E s dev = true) ->
          (forall dev, backend_start E dev = true) ->
          fst result = ALC_NO_ERROR)).
Proof.
  intros Hok Hreach result got. subst result.
  rewrite (UpdateDeviceParams_from_reset K E device attrList d l Hreach).
  rewrite reset_stage_cases. cbv zeta.
  split; intros Hreset; rewrite Hreset; [reflexivity|].
  set (after := apply_format (snd (backend_reset E d))
                  (log_call Backend_reset d)).
  set (d0 := reconcile_requests K (Frequency d) (FmtChans d) (FmtType d)
               after).
  destruct (flags_ok_facts K Hok) as (_ & HRF & HRC & HRT).
  pose proof (reconcile_requests_Flags K (Frequency d) (FmtChans d)
                (FmtType d) after Hok) as (HC & HT & HF).
  fold d0 in HC, HT, HF.
  assert (Hkeep : forall m, Z.land (DEVICE_RUNNING K) m = 0 ->
            Z.land (Flags d0) m = 0 ->
            has_flag (Flags (snd (configure_stage K E (d0, l)))) m = false).
  { intros m Hm H0. apply has_flag_false_iff.
    destruct (configure_stage_Flags K E d0 l) as [-> | ->];
      [assumption | apply land_raise_other; assumption]. }
  repeat split.
  - intros Hne. apply Hkeep; [assumption|]. apply HC. exact Hne.
  - intros Hne. apply Hkeep; [assumption|]. apply HT. exact Hne.
  - intros Hne. apply Hkeep; [assumption|]. apply HF. exact Hne.
  - apply configure_stage_codes.
  - intros Hfx Hstart. rewrite configure_stage_unfold. cbv zeta.
    rewrite update_contexts_ok by exact Hfx.
    destruct (negb (has_flag _ _)); [|reflexivity].
    rewrite Hstart. reflexivity.
Qed.

Lemma UpdateDeviceParams_reset_requests_witness :
  has_flag (Flags (fst reached_reset)) (DEVICE_FREQUENCY_REQUEST upstream)
  = true
  /\ has_flag
       (Flags (snd (UpdateDeviceParams upstream resampling_env
                      playback_device request_44100)))
       (DEVICE_FREQUENCY_REQUEST upstream) = false
  /\ fst (UpdateDeviceParams upstream resampling_env playback_device
            request_44100) = ALC_NO_ERROR.
Proof.
  split; [vm_compute; reflexivity|].
  pose proof (UpdateDeviceParams_reset_requests upstream resampling_env
                playback_device request_44100
                (fst reached_reset) (snd reached_reset)) as H.
  assert (Hok : flags_ok upstream = true) by (vm_compute; reflexivity).
  assert (Hreach : before_reset upstream resampling_env playback_device
                     request_44100
                   = Next (fst reached_reset, snd reached_reset))
    by (vm_compute; reflexivity).
  specialize (H Hok Hreach). cbv zeta in H.
  destruct H as [_ H].
  assert (Hreset : fst (backend_reset resampling_env (fst reached_reset))
                   = true) by reflexivity.
  specialize (H Hreset).
  destruct H as (_ & _ & HF & _ & HN).
  split.
  - apply HF. vm_compute. reflexivity.
  - apply HN; intros; reflexivity.
Defined.

(* ------------------------------------------------------------------ *)
(** ** UpdateDeviceParams: the mix buffer *)

Lemma views_eq (a b : ALCdevice) :
  views a = views b ->
  MixBuffer a = MixBuffer b /\ Dry a = Dry b /\ FOAOut a = FOAOut b
  /\ RealOut a = RealOut b.
Proof. unfold views. intros H. injection H as H1 H2 H3 H4. auto. Qed.

Lemma hrtf_request_views (K : Consts) (E : Env) (d : ALCdevice) (l : Locals) :
  views (fst (hrtf_request K E d l)) = views d.
Proof. unfold hrtf_request. split_ifs; reflexivity. Qed.

Lemma reconcile_requests_views (K : Consts) (f : Z) (c : DevFmtChannels)
  (t : DevFmtType) (d : ALCdevice) :
  views (reconcile_requests K f c t d) = views d.
Proof. unfold reconcile_requests. cbv zeta. split_ifs; reflexivity. Qed.

Lemma before_configure_MixBuffer (K : Consts) (E : Env) (device : ALCdevice)
  (attrList : option (list Z)) (d : ALCdevice) (l : Locals) :
  before_configure K E device attrList = Next (d, l) -> MixBuffer d = [].
Proof.
  unfold before_configure, before_reset.
  destruct (attribute_stage K E device attrList) as [e0 d0|[d0 l0]];
    cbn [andThen]; [discriminate|].
  unfold prepare_stage.
  destruct (has_flag (Flags d0) (DEVICE_RUNNING K)); cbn [andThen];
    [discriminate|].
  pose proof (hrtf_request_views K E (clear_views K d0) l0) as Hv.
  destruct (hrtf_request K E (clear_views K d0) l0) as [d1 l1].
  rewrite reset_stage_cases.
  destruct (fst (backend_reset E d1)); [|discriminate].
  intros H. injection H as <- <-.
  pose proof (reconcile_requests_views K (Frequency d1) (FmtChans d1)
                (FmtType d1)
                (apply_format (snd (backend_reset E d1))
                   (log_call Backend_reset d1))) as Hr.
  apply views_eq in Hr. apply views_eq in Hv. cbn [fst] in Hv.
  destruct Hr as [Hr _]. destruct Hv as [Hv _].
  rewrite Hr. exact Hv.
Qed.

Lemma select_dither_views (E : Env) (d : ALCdevice) :
  views (select_dither E d) = views d.
Proof. unfold select_dither. cbv zeta. split_ifs; reflexivity. Qed.

Lemma select_limiter_views (E : Env) (g : Z) (d : ALCdevice) :
  views (select_limiter E g d) = views d.
Proof. unfold select_limiter. cbv zeta. split_ifs; reflexivity. Qed.

Lemma configure_stage_views (K : Consts) (E : Env) (d : ALCdevice)
  (l : Locals) :
  views (snd (configure_stage K E (d, l))) =
    views (allocate_mix_buffer (l_new_sends l)
             (apply_renderer
                (aluInitRenderer E d (l_hrtf_id l) (l_hrtf_appreq l)
                   (l_hrtf_userreq l)) d)).
Proof.
  transitivity (views (configured E d l)).
  - rewrite configure_stage_unfold. cbv zeta. split_ifs; reflexivity.
  - unfold configured.
    rewrite select_limiter_views, select_dither_views. reflexivity.
Qed.

Lemma wrapi_small (z : Z) : 0 <= z <= INT_MAX -> wrapi z = z.
Proof.
  unfold wrapi, INT_MAX. intros H.
  rewrite Z.mod_small by lia. lia.
Qed.

Lemma resize_nil_length {A : Type} (x : A) (n : Z) :
  0 <= n -> Z.of_nat (List.length (resize x n [])) = n.
Proof.
  intros Hn. unfold resize. rewrite firstn_nil. cbn [app List.length].
  rewrite repeat_length. lia.
Qed.

Lemma stop_if_running_stopped (K : Consts) (d : ALCdevice) :
  0 <= DEVICE_RUNNING K < 2 ^ 32 ->
  Z.land (Flags (stop_if_running K d)) (DEVICE_RUNNING K) = 0.
Proof.
  intros HR. unfold stop_if_running. cbv zeta. cbn [Flags set_Flags].
  apply land_notu_self. exact HR.
Qed.

Lemma playback_periods_Flags (K : Consts) (E : Env) (n : option string)
  (f : Z) (d : ALCdevice) :
  Flags (playback_periods K E n f d)
    = clear_flag (Flags d) (DEVICE_FREQUENCY_REQUEST K)
  \/ Flags (playback_periods K E n f d)
     = raise_flag (Flags d) (DEVICE_FREQUENCY_REQUEST K).
Proof.
  cbv beta zeta delta [playback_periods].
  destruct (config_uint E n "frequency" f <? 1);
    destruct (negb (Z.land (CPUCapFlags E) _ =? 0));
    cbn [Flags set_Flags set_UpdateSize set_NumUpdates set_Frequency];
    auto.
Qed.

Lemma loopback_format_Flags (K : Consts) (a : AttrVals) (d : ALCdevice) :
  Flags (loopback_format K a d) = Flags d.
Proof. unfold loopback_format. cbv zeta. split_ifs; reflexivity. Qed.

(** After a non-empty attribute list the RUNNING flag is clear, so the
    early return of line 1811 is not taken. *)
Lemma attribute_stage_stopped (K : Consts) (E : Env) (device : ALCdevice)
  (attrList : option (list Z)) (d : ALCdevice) (l : Locals) :
  flags_ok K = true ->
  attrs_missing attrList = false ->
  attribute_stage K E device attrList = Next (d, l) ->
  has_flag (Flags d) (DEVICE_RUNNING K) = false.
Proof.
  intros Hok Hm.
  destruct (flags_ok_facts K Hok) as [(_ & _ & _ & HR) (HRF & _ & _)].
  destruct attrList as [attrs|]; [|discriminate].
  unfold attribute_stage. rewrite Hm. rewrite andb_false_l.
  destruct (DeviceType_eqb (Type_ device) Loopback) eqn:Hl.
  - cbn [andb]. destruct (loopback_attrs_invalid K _); [discriminate|].
    destruct (source_counts E _ _) as [numMono numStereo].
    intros H. injection H as <- _. apply has_flag_false_iff.
    cbn [Flags set_NumStereoSources set_NumMonoSources set_SourcesMax].
    rewrite loopback_format_Flags.
    apply stop_if_running_stopped. exact HR.
  - cbn [andb].
    destruct (source_counts E _ _) as [numMono numStereo].
    intros H. injection H as <- _. apply has_flag_false_iff.
    cbn [Flags set_NumStereoSources set_NumMonoSources set_SourcesMax].
    match goal with
    | |- context [playback_periods K E ?n ?f ?x] =>
        destruct (playback_periods_Flags K E n f x) as [-> | ->]
    end.
    + apply land_clear_other. apply stop_if_running_stopped. exact HR.
    + apply land_raise_other.
      * rewrite Z.land_comm. exact HRF.
      * apply stop_if_running_stopped. exact HR.
Qed.

Lemma allocate_mix_buffer_views (n : Z) (r : RendererResult) (d : ALCdevice) :
  let d' := allocate_mix_buffer n (apply_renderer r d) in
  MixBuffer d' =
    resize ZeroedLine
      (wrapi (r_Dry_NumChannels r + r_FOAOut_NumChannels r
              + r_RealOut_NumChannels r)) (MixBuffer d)
  /\ NumChannels (Dry d') = r_Dry_NumChannels r
  /\ NumChannels (FOAOut d') =
       (if r_FOAOut_NumChannels r =? 0 then r_Dry_NumChannels r
        else r_FOAOut_NumChannels r)
  /\ NumChannels (RealOut d') =
       (if r_RealOut_NumChannels r =? 0 then r_Dry_NumChannels r
        else r_RealOut_NumChannels r).
Proof.
  cbv zeta. unfold allocate_mix_buffer, apply_renderer.
  cbn -[wrapi Z.add resize Z.eqb].
  destruct (r_RealOut_NumChannels r =? 0) eqn:E1;
    cbn -[wrapi Z.add resize Z.eqb];
    destruct (r_FOAOut_NumChannels r =? 0) eqn:E2;
    cbn -[wrapi Z.add resize Z.eqb]; rewrite ?E1, ?E2; auto.
Qed.

Lemma attribute_stage_return (K : Consts) (E : Env) (device : ALCdevice)
  (attrList : option (list Z)) (err : Z) (d : ALCdevice) :
  attribute_stage K E device attrList = Return err d ->
  err = ALC_INVALID_VALUE.
Proof.
  unfold attribute_stage.
  destruct (attrs_missing attrList && _)%bool; [congruence|].
  destruct attrList as [attrs|]; [|discriminate].
  destruct (attrs_missing (Some attrs)); [discriminate|].
  destruct (_ && loopback_attrs_invalid K _)%bool; [congruence|].
  destruct (source_counts E _ _). discriminate.
Qed.

(** The four ways through UpdateDeviceParams. *)
Lemma UpdateDeviceParams_cases (K : Consts) (E : Env) (device : ALCdevice)
  (attrList : option (list Z)) :
  (exists d, attribute_stage K E device attrList
             = Return ALC_INVALID_VALUE d
             /\ UpdateDeviceParams K E device attrList
                = (ALC_INVALID_VALUE, d))
  \/ (exists d0 l0, attribute_stage K E device attrList = Next (d0, l0)
                    /\ has_flag (Flags d0) (DEVICE_RUNNING K) = true
                    /\ UpdateDeviceParams K E device attrList
                       = (ALC_NO_ERROR, d0))
  \/ (exists d l, before_reset K E device attrList = Next (d, l)
                  /\ fst (backend_reset E d) = false
                  /\ fst (UpdateDeviceParams K E device attrList)
                     = ALC_INVALID_DEVICE)
  \/ (exists d l, before_configure K E device attrList = Next (d, l)
                  /\ UpdateDeviceParams K E device attrList
                     = configure_stage K E (d, l)).
Proof.
  unfold before_configure, before_reset, UpdateDeviceParams.
  destruct (attribute_stage K E device attrList) as [e0 d0|[d0 l0]] eqn:Ha.
  - left. exists d0. apply attribute_stage_return in Ha. subst e0.
    split; reflexivity.
  - right. cbn [andThen]. unfold prepare_stage.
    destruct (has_flag (Flags d0) (DEVICE_RUNNING K)) eqn:Hrun.
    + left. exists d0, l0. split; [reflexivity|].
      split; [exact Hrun | reflexivity].
    + right. cbn [andThen].
      destruct (hrtf_request K E (clear_views K d0) l0) as [d1 l1].
      rewrite reset_stage_cases.
      destruct (fst (backend_reset E d1)) eqn:Hreset.
      * right. eexists. eexists. split; reflexivity.
      * left. exists d1, l1. split; [reflexivity|].
        split; [exact Hreset | reflexivity].
Qed.

(** C1 (as amended).  When UpdateDeviceParams returns ALC_NO_ERROR, either
    it left through the early return for a running device with no
    attributes, and the device (mix buffer included) is as it was; or it
    reallocated the mix buffer, whose length is then the sum of the three
    channel counts as aluInitRenderer set them.  At return Dry holds the
    renderer's count, while FOAOut and RealOut hold the renderer's count
    when it is not zero and Dry's count otherwise. *)
Theorem UpdateDeviceParams_mix_buffer
  (K : Consts) (E : Env) (device : ALCdevice) (attrList : option (list Z)) :
  flags_ok K = true ->
  (forall dev id a u, renderer_counts_ok (aluInitRenderer E dev id a u)) ->
  fst (UpdateDeviceParams K E device attrList) = ALC_NO_ERROR ->
  (attrs_missing attrList = true
   /\ has_flag (Flags device) (DEVICE_RUNNING K) = true
   /\ snd (UpdateDeviceParams K E device attrList) = device)
  \/ exists (d : ALCdevice) (l : Locals),
       before_configure K E device attrList = Next (d, l)
       /\ let r := aluInitRenderer E d (l_hrtf_id l) (l_hrtf_appreq l)
                     (l_hrtf_userreq l) in
          let d' := snd (UpdateDeviceParams K E device attrList) in
          Z.of_nat (List.length (MixBuffer d'))
            = r_Dry_NumChannels r + r_FOAOut_NumChannels r
              + r_RealOut_NumChannels r
          /\ NumChannels (Dry d') = r_Dry_NumChannels r
          /\ NumChannels (FOAOut d') =
               (if r_FOAOut_NumChannels r =? 0 then r_Dry_NumChannels r
                else r_FOAOut_NumChannels r)
          /\ NumChannels (RealOut d') =
               (if r_RealOut_NumChannels r =? 0 then r_Dry_NumChannels r
                else r_RealOut_NumChannels r).
Proof.
  intros Hok Hr Hcode.
  destruct (UpdateDeviceParams_cases K E device attrList)
    as [(d & _ & Hu) | [(d0 & l0 & Ha & Hrun & Hu)
        | [(d & l & _ & _ & Hu) | (d & l & Hreach & Hu)]]].
  - rewrite Hu in Hcode. discriminate.
  - left. destruct (attrs_missing attrList) eqn:Hm.
    + rewrite attribute_stage_missing in Ha by exact Hm.
      destruct (DeviceType_eqb (Type_ device) Loopback); [discriminate|].
      injection Ha as <- _. rewrite Hu. auto.
    + rewrite (attribute_stage_stopped K E device attrList d0 l0 Hok Hm Ha)
        in Hrun. discriminate.
  - rewrite Hu in Hcode. discriminate.
  - right. exists d, l. split; [exact Hreach|]. cbv zeta. rewrite Hu.
    pose proof (configure_stage_views K E d l) as Hv.
    destruct (allocate_mix_buffer_views (l_new_sends l)
                (aluInitRenderer E d (l_hrtf_id l) (l_hrtf_appreq l)
                   (l_hrtf_userreq l)) d) as (Hb & HD & HF & HR).
    apply views_eq in Hv. destruct Hv as (Hv1 & Hv2 & Hv3 & Hv4).
    rewrite Hv1, Hv2, Hv3, Hv4, Hb, HD, HF, HR.
    rewrite (before_configure_MixBuffer K E device attrList d l Hreach).
    destruct (Hr d (l_hrtf_id l) (l_hrtf_appreq l) (l_hrtf_userreq l))
      as (H1 & H2 & H3 & H4).
    rewrite wrapi_small by lia.
    rewrite resize_nil_length by lia. auto.
Qed.

Lemma UpdateDeviceParams_mix_buffer_witness :
  (attrs_missing (Some [ALC_FREQUENCY; 48000; 0]) = true
   /\ has_flag (Flags playback_device) (DEVICE_RUNNING upstream) = true
   /\ snd (UpdateDeviceParams upstream plain_env playback_device
             (Some [ALC_FREQUENCY; 48000; 0])) = playback_device)
  \/ exists (d : ALCdevice) (l : Locals),
       before_configure upstream plain_env playback_device
         (Some [ALC_FREQUENCY; 48000; 0]) = Next (d, l)
       /\ let r := aluInitRenderer plain_env d (l_hrtf_id l) (l_hrtf_appreq l)
                     (l_hrtf_userreq l) in
          let d' := snd (UpdateDeviceParams upstream plain_env playback_device
                           (Some [ALC_FREQUENCY; 48000; 0])) in
          Z.of_nat (List.length (MixBuffer d'))
            = r_Dry_NumChannels r + r_FOAOut_NumChannels r
              + r_RealOut_NumChannels r
          /\ NumChannels (Dry d') = r_Dry_NumChannels r
          /\ NumChannels (FOAOut d') =
               (if r_FOAOut_NumChannels r =? 0 then r_Dry_NumChannels r
                else r_FOAOut_NumChannels r)
          /\ NumChannels (RealOut d') =
               (if r_RealOut_NumChannels r =? 0 then r_Dry_NumChannels r
                else r_RealOut_NumChannels r).
Proof.
  apply (UpdateDeviceParams_mix_buffer upstream plain_env playback_device
           (Some [ALC_FREQUENCY; 48000; 0])).
  - vm_compute. reflexivity.
  - intros dev id a u. unfold renderer_counts_ok, INT_MAX. cbn. lia.
  - vm_compute. reflexivity.
Defined.

(** C1, as stated, fails: with a stereo renderer that gives FOAOut and
    RealOut no channels of their own, the call succeeds with a mix buffer
    of 2 lines while the three counts at return are 2, 2 and 2. *)
Lemma UpdateDeviceParams_mix_buffer_counterexample :
  fst stereo_run = ALC_NO_ERROR
  /\ Z.of_nat (List.length (MixBuffer (snd stereo_run)))
     <> NumChannels (Dry (snd stereo_run))
        + NumChannels (FOAOut (snd stereo_run))
        + NumChannels (RealOut (snd stereo_run)).
Proof. vm_compute. split; [reflexivity | discriminate]. Qed.

Example stereo_run_values :
  Z.of_nat (List.length (MixBuffer (snd stereo_run))) = 2
  /\ NumChannels (Dry (snd stereo_run)) = 2
  /\ NumChannels (FOAOut (snd stereo_run)) = 2
  /\ NumChannels (RealOut (snd stereo_run)) = 2.
Proof. vm_compute. repeat split; reflexivity. Qed.

(* ------------------------------------------------------------------ *)
(** ** The device list *)

Lemma VerifyDevice_from_addr (l : list (positive * ALCdevice)) (p : Z)
  (a : positive) (d : ALCdevice) :
  VerifyDevice_from l p = Some (a, d) -> Zpos a = p.
Proof.
  induction l as [|[a0 d0] rest IH]; cbn [VerifyDevice_from];
    [discriminate|].
  destruct (Zpos a0 =? p) eqn:Ea.
  - intros H. injection H as <- _. apply Z.eqb_eq. exact Ea.
  - exact IH.
Qed.

Lemma VerifyDevice_from_modify (l : list (positive * ALCdevice))
  (addr : positive) (f : ALCdevice -> ALCdevice) (p : Z) :
  VerifyDevice_from (modify_from l addr f) p
  = option_map (modified addr f) (VerifyDevice_from l p).
Proof.
  induction l as [|[a0 d0] rest IH]; [reflexivity|].
  cbn [modify_from VerifyDevice_from].
  destruct (Pos.eqb a0 addr) eqn:Ea; cbn [VerifyDevice_from].
  - destruct (Zpos a0 =? p) eqn:Ep.
    + unfold modified. cbn [option_map fst snd]. rewrite Ea. reflexivity.
    + destruct (VerifyDevice_from rest p) as [[a1 d1]|] eqn:Ev;
        [|reflexivity].
      cbn [option_map]. unfold modified. cbn [fst snd].
      apply VerifyDevice_from_addr in Ev.
      apply Pos.eqb_eq in Ea. apply Z.eqb_neq in Ep.
      destruct (Pos.eqb a1 addr) eqn:E1; [|reflexivity].
      apply Pos.eqb_eq in E1. congruence.
  - destruct (Zpos a0 =? p) eqn:Ep.
    + unfold modified. cbn [option_map fst snd]. rewrite Ea. reflexivity.
    + exact IH.
Qed.

Lemma VerifyDevice_modify_same (st : ALCstate) (addr : positive)
  (f : ALCdevice -> ALCdevice) (p : Z) (d : ALCdevice) :
  VerifyDevice st p = Some (addr, d) ->
  VerifyDevice (modify_device addr f st) p = Some (addr, f d).
Proof.
  unfold VerifyDevice, modify_device. cbn [DeviceList set_DeviceList].
  intros H. rewrite VerifyDevice_from_modify, H. cbn [option_map].
  unfold modified. cbn [fst snd]. rewrite Pos.eqb_refl. reflexivity.
Qed.

Lemma VerifyDevice_modify_other (st : ALCstate) (addr : positive)
  (f : ALCdevice -> ALCdevice) (p : Z) :
  p <> Zpos addr ->
  VerifyDevice (modify_device addr f st) p = VerifyDevice st p.
Proof.
  unfold VerifyDevice, modify_device. cbn [DeviceList set_DeviceList].
  intros Hp. rewrite VerifyDevice_from_modify.
  destruct (VerifyDevice_from (DeviceList st) p) as [[a d]|] eqn:Ev;
    [|reflexivity].
  cbn [option_map]. unfold modified. cbn [fst snd].
  apply VerifyDevice_from_addr in Ev.
  destruct (Pos.eqb a addr) eqn:Ea; [|reflexivity].
  apply Pos.eqb_eq in Ea. congruence.
Qed.

Lemma VerifyDevice_modify_none (st : ALCstate) (addr : positive)
  (f : ALCdevice -> ALCdevice) (p : Z) :
  VerifyDevice st p = None ->
  VerifyDevice (modify_device addr f st) p = None.
Proof.
  unfold VerifyDevice, modify_device. cbn [DeviceList set_DeviceList].
  intros H. rewrite VerifyDevice_from_modify, H. reflexivity.
Qed.

(* ------------------------------------------------------------------ *)
(** ** The error latches *)

(** C7.  alcGetError on a pointer that verifies returns the device's
    LastError and leaves ALC_NO_ERROR in that latch, the process-wide
    latch untouched; on a pointer that does not verify it returns
    LastNullDeviceError and leaves ALC_NO_ERROR there, the devices
    untouched; so a second call right after the first returns
    ALC_NO_ERROR. *)
Theorem alcGetError_exchanges (st : ALCstate) (device : Z) :
  (forall addr d, VerifyDevice st device = Some (addr, d) ->
     snd (alcGetError st device) = LastError d
     /\ VerifyDevice (fst (alcGetError st device)) device
        = Some (addr, set_LastError ALC_NO_ERROR d)
     /\ LastNullDeviceError (fst (alcGetError st device))
        = LastNullDeviceError st)
  /\ (VerifyDevice st device = None ->
      snd (alcGetError st device) = LastNullDeviceError st
      /\ LastNullDeviceError (fst (alcGetError st device)) = ALC_NO_ERROR
      /\ DeviceList (fst (alcGetError st device)) = DeviceList st)
  /\ snd (alcGetError (fst (alcGetError st device)) device) = ALC_NO_ERROR.
Proof.
  assert (Hsome : forall addr d, VerifyDevice st device = Some (addr, d) ->
            snd (alcGetError st device) = LastError d
            /\ VerifyDevice (fst (alcGetError st device)) device
               = Some (addr, set_LastError ALC_NO_ERROR d)
            /\ LastNullDeviceError (fst (alcGetError st device))
               = LastNullDeviceError st).
  { intros addr d Hv. unfold alcGetError. rewrite Hv. cbn [fst snd].
    split; [reflexivity|]. split; [|reflexivity].
    exact (VerifyDevice_modify_same st addr
             (fun _ => set_LastError ALC_NO_ERROR d) device d Hv). }
  assert (Hnone : VerifyDevice st device = None ->
            snd (alcGetError st device) = LastNullDeviceError st
            /\ LastNullDeviceError (fst (alcGetError st device))
               = ALC_NO_ERROR
            /\ DeviceList (fst (alcGetError st device)) = DeviceList st).
  { intros Hv. unfold alcGetError. rewrite Hv. repeat split. }
  split; [exact Hsome|]. split; [exact Hnone|].
  destruct (VerifyDevice st device) as [[addr d]|] eqn:Hv.
  - destruct (Hsome addr d eq_refl) as (_ & Hv' & _).
    unfold alcGetError at 1. rewrite Hv'. reflexivity.
  - destruct (Hnone eq_refl) as (_ & Hn & Hl).
    unfold alcGetError at 1.
    assert (Hv' : VerifyDevice (fst (alcGetError st device)) device = None).
    { unfold VerifyDevice. rewrite Hl. exact Hv. }
    rewrite Hv'. exact Hn.
Qed.

Lemma alcGetError_exchanges_witness :
  snd (alcGetError failed_query_state 1) = ALC_INVALID_ENUM
  /\ snd (alcGetError (fst (alcGetError failed_query_state 1)) 1)
     = ALC_NO_ERROR
  /\ snd (alcGetError failed_query_state 0) = ALC_INVALID_VALUE
  /\ snd (alcGetError (fst (alcGetError failed_query_state 0)) 0)
     = ALC_NO_ERROR.
Proof.
  destruct (alcGetError_exchanges failed_query_state 1) as (H1 & _ & H2).
  destruct (alcGetError_exchanges failed_query_state 0) as (_ & H3 & H4).
  split; [apply (H1 1%positive _ eq_refl)|].
  split; [exact H2|].
  split; [apply (H3 eq_refl) | exact H4].
Defined.

(* ------------------------------------------------------------------ *)
(** ** Rendering on a loopback device *)

(** C6.  On a loopback device that verifies, alcRenderSamplesSOFT with
    zero samples records no error: it takes the backend lock, asks the
    mixer for 0 samples and releases the lock, and nothing else in the
    device or the process-wide latch changes.  With a negative sample
    count, or a positive one and a null buffer, it stores
    ALC_INVALID_VALUE in the device's latch and does nothing else: no
    call reaches the backend or the mixer. *)
Theorem alcRenderSamplesSOFT_edge_cases
  (st : ALCstate) (device buffer samples : Z) (addr : positive)
  (d : ALCdevice) :
  VerifyDevice st device = Some (addr, d) ->
  DeviceType_eqb (Type_ d) Loopback = true ->
  let st' := alcRenderSamplesSOFT st device buffer samples in
  (samples = 0 ->
     VerifyDevice st' device
     = Some (addr,
             set_BackendLog
               (BackendLog d
                ++ [Backend_lock; Mixer_aluMixData buffer 0; Backend_unlock])
               d)
     /\ LastNullDeviceError st' = LastNullDeviceError st)
  /\ (samples < 0 \/ (samples > 0 /\ buffer = 0) ->
      VerifyDevice st' device
      = Some (addr, set_LastError ALC_INVALID_VALUE d)
      /\ LastNullDeviceError st' = LastNullDeviceError st).
Proof.
  intros Hv Hl. cbv zeta. unfold alcRenderSamplesSOFT.
  rewrite Hv, Hl. cbn [negb]. split.
  - intros ->. cbn [Z.ltb Z.gtb Z.compare orb andb].
    split; [|reflexivity].
    unfold put_device.
    rewrite (VerifyDevice_modify_same st addr _ device d Hv).
    unfold aluMixData, log_call. cbn [BackendLog set_BackendLog].
    rewrite <- !app_assoc. reflexivity.
  - intros Hbad.
    assert (Hc : (samples <? 0) || ((samples >? 0) && (buffer =? 0)) = true).
    { destruct Hbad as [Hneg | [Hpos ->]].
      - apply Z.ltb_lt in Hneg. rewrite Hneg. reflexivity.
      - rewrite Z.gtb_ltb. apply Z.gt_lt, Z.ltb_lt in Hpos. rewrite Hpos.
        apply orb_true_r. }
    rewrite Hc. unfold alcSetError.
    destruct (TrapALCError st); (split; [|reflexivity]);
      apply VerifyDevice_modify_same; exact Hv.
Qed.

Lemma alcRenderSamplesSOFT_edge_cases_witness :
  VerifyDevice (alcRenderSamplesSOFT (one_device loopback_device) 1 0 0) 1
  = Some (1%positive,
          set_BackendLog
            [Backend_lock; Mixer_aluMixData 0 0; Backend_unlock]
            loopback_device)
  /\ VerifyDevice
       (alcRenderSamplesSOFT (one_device loopback_device) 1 0 (-16)) 1
     = Some (1%positive, set_LastError ALC_INVALID_VALUE loopback_device).
Proof.
  split.
  - apply (alcRenderSamplesSOFT_edge_cases (one_device loopback_device)
             1 0 0 1%positive loopback_device eq_refl eq_refl).
    reflexivity.
  - apply (alcRenderSamplesSOFT_edge_cases (one_device loopback_device)
             1 0 (-16) 1%positive loopback_device eq_refl eq_refl).
    left. lia.
Defined.

(* ------------------------------------------------------------------ *)
(** ** ALC_REFRESH and ALC_SYNC *)

(** The two queries on each type of device, and the two keys in the
    switch of the attribute walk, which has no case for them. *)
Lemma refresh_sync_cases
  (K : Consts) (E : Env) (st : ALCstate) (device size values : Z)
  (addr : positive) (d : ALCdevice) :
  VerifyDevice st device = Some (addr, d) ->
  0 < size -> values <> 0 ->
  match Type_ d with
  | Playback =>
      alcGetIntegerv K E st device ALC_SYNC size values = (st, [ALC_FALSE])
      /\ (UpdateSize d <> 0 ->
          alcGetIntegerv K E st device ALC_REFRESH size values
          = (st, [wrapi (Z.quot (Frequency d) (UpdateSize d))]))
  | Loopback =>
      alcGetIntegerv K E st device ALC_SYNC size values
      = (alcSetError st (Some addr) ALC_INVALID_DEVICE, [])
      /\ alcGetIntegerv K E st device ALC_REFRESH size values
         = (alcSetError st (Some addr) ALC_INVALID_DEVICE, [])
  | Capture =>
      alcGetIntegerv K E st device ALC_SYNC size values
      = (alcSetError st (Some addr) ALC_INVALID_ENUM, [])
      /\ alcGetIntegerv K E st device ALC_REFRESH size values
         = (alcSetError st (Some addr) ALC_INVALID_ENUM, [])
  end
  /\ (ambi_keys_ok K = true ->
      forall val a,
        attr_case K ALC_REFRESH val a = a /\ attr_case K ALC_SYNC val a = a).
Proof.
  intros Hv Hsize Hvalues.
  assert (Hargs : (size <=? 0) || (values =? 0) = false).
  { apply orb_false_iff. split; [apply Z.leb_gt; lia | apply Z.eqb_neq; lia]. }
  split.
  - unfold alcGetIntegerv, GetIntegerv. rewrite Hv, Hargs.
    cbn [option_map fst].
    destruct (Type_ d); cbn [DeviceType_eqb]; split; try intros _;
      reflexivity.
  - unfold ambi_keys_ok. cbn [forallb]. intros Hk.
    repeat match type of Hk with
           | (_ && _)%bool = true =>
               let H1 := fresh "Hk" in
               apply andb_prop in Hk; destruct Hk as [Hk H1]
           end.
    repeat match goal with
           | X : (_ && _)%bool = true |- _ =>
               let H1 := fresh "Hk" in
               apply andb_prop in X; destruct X as [X H1]
           end.
    rewrite ?negb_true_iff in *.
    intros val a. unfold attr_case.
    rewrite ?(Z.eqb_sym ALC_REFRESH), ?(Z.eqb_sym ALC_SYNC).
    repeat match goal with
           | X : (_ =? _) = false |- _ => rewrite X; clear X
           end.
    split; reflexivity.
Qed.

(* ------------------------------------------------------------------ *)
(** ** Deferred updates *)

Lemma land_1_even (x : Z) : (Z.land x 1 =? 0) = Z.even x.
Proof.
  change 1 with (Z.ones 1) at 1. rewrite Z.land_ones by lia.
  rewrite Zeven_mod. reflexivity.
Qed.

(** The wait ends as soon as one load finds the update count even. *)
Lemma wait_for_mixer_ends (loads : nat -> Z) :
  forall (fuel start i : nat),
    (start <= i < start + fuel)%nat ->
    Z.even (loads i) = true ->
    exists n, wait_for_mixer fuel loads start = Some n.
Proof.
  induction fuel as [|fuel IH]; intros start i Hi He; [lia|].
  cbn [wait_for_mixer]. rewrite land_1_even.
  destruct (Z.even (loads start)) eqn:Es; cbn [negb].
  - eexists. reflexivity.
  - assert (i <> start) by congruence.
    apply (IH (S start) i); [lia | exact He].
Qed.

Lemma publish_all_entities {A : Type} (g : A -> PropUpdate) (l : list A) :
  forall c, entities (fold_left (fun c s => publish (g s) c) l c)
            = entities c.
Proof.
  induction l as [|x rest IH]; intros c; [reflexivity|].
  cbn [fold_left]. rewrite IH. reflexivity.
Qed.

Lemma used_from_map (f : ALsource -> ALsource) (mask : Z) :
  forall srcs i,
    used_from i mask (map_used_from f i mask srcs)
    = map f (used_from i mask srcs).
Proof.
  induction srcs as [|s rest IH]; intros i; [reflexivity|].
  cbn [map_used_from used_from].
  destruct (Z.testbit mask (Z.of_nat i)); cbn [map]; rewrite IH; reflexivity.
Qed.

Lemma forallb_map_const {A : Type} (p : A -> bool) (f : A -> A) (l : list A) :
  (forall x, p (f x) = true) -> forallb p (map f l) = true.
Proof.
  intros H. induction l as [|x rest IH]; [reflexivity|].
  cbn [map forallb]. rewrite H, IH. reflexivity.
Qed.

Lemma UpdateAllEffectSlotProps_clean (c : ALCcontext) :
  let c' := UpdateAllEffectSlotProps c in
  forallb slot_PropsClean (all_slots c') = true
  /\ ctx_PropsClean c' = ctx_PropsClean c
  /\ Listener_PropsClean c' = Listener_PropsClean c
  /\ DeferUpdates c' = DeferUpdates c
  /\ SourceList c' = SourceList c.
Proof.
  cbv zeta. unfold UpdateAllEffectSlotProps, UpdateEffectSlotProps.
  cbv zeta.
  match goal with
  | |- context [fold_left ?k ?l ?c0] =>
      pose proof (publish_all_entities (fun s => Upd_EffectSlot (slot_id s))
                    l c0) as He;
      set (c1 := fold_left k l c0) in *
  end.
  unfold entities in He.
  injection He as H1 H2 H3 H4 H5 H6 H7.
  unfold all_slots. rewrite H5, H6, H3, H4, H1, H7.
  cbn [DefaultSlot EffectSlotList set_DefaultSlot set_EffectSlotList
       ctx_PropsClean Listener_PropsClean DeferUpdates SourceList].
  repeat split.
  destruct (DefaultSlot c) as [s|]; cbn [option_map forallb].
  - cbn [slot_PropsClean set_slot_PropsClean andb].
    apply forallb_map_const. reflexivity.
  - apply forallb_map_const. reflexivity.
Qed.

Lemma cleaned_sublists_clean (sls : list SourceSubList) :
  forallb src_PropsClean
    (flat_map (fun sl => used_from 0 (FreeMask sl) (Sources sl))
       (map (fun sl =>
               mkSubList (FreeMask sl)
                 (map_used_from (set_src_PropsClean true) 0 (FreeMask sl)
                    (Sources sl))) sls)) = true.
Proof.
  induction sls as [|sl rest IH]; [reflexivity|].
  cbn [map flat_map FreeMask Sources]. rewrite forallb_app, IH.
  rewrite used_from_map, forallb_map_const by reflexivity. reflexivity.
Qed.

Lemma UpdateAllSourceProps_clean (c : ALCcontext) :
  let c' := UpdateAllSourceProps c in
  forallb src_PropsClean (live_sources c') = true
  /\ ctx_PropsClean c' = ctx_PropsClean c
  /\ Listener_PropsClean c' = Listener_PropsClean c
  /\ DeferUpdates c' = DeferUpdates c
  /\ all_slots c' = all_slots c.
Proof.
  cbv zeta. unfold UpdateAllSourceProps. cbv zeta.
  match goal with
  | |- context [fold_left ?k ?l ?c0] =>
      pose proof (publish_all_entities (fun s => Upd_Source (source_id s))
                    l c0) as He;
      set (c1 := fold_left k l c0) in *
  end.
  unfold entities in He.
  injection He as H1 H2 H3 H4 H5 H6 H7.
  unfold all_slots, live_sources. rewrite H5, H6, H3, H4, H1, H7.
  cbn [DefaultSlot EffectSlotList set_SourceList
       ctx_PropsClean Listener_PropsClean DeferUpdates SourceList].
  repeat split. apply cleaned_sublists_clean.
Qed.

(** C3 (as amended).  ALCcontext_ProcessUpdates acts only on a context
    whose DeferUpdates flag is set.  On such a context, once a load of the
    mixer's update count returns an even value, the call returns with the
    clean flag of the context, of the listener, of every effect slot and
    of every source in use set, and with DeferUpdates and HoldUpdates
    clear.  On a context that is not deferring, the call returns at once
    and changes nothing. *)
Theorem ALCcontext_ProcessUpdates_clean
  (fuel : nat) (loads : nat -> Z) (context : ALCcontext) :
  (DeferUpdates context = false ->
   ALCcontext_ProcessUpdates fuel loads context = Some context)
  /\ (DeferUpdates context = true ->
      forall i, (i < fuel)%nat -> Z.even (loads i) = true ->
      exists c',
        ALCcontext_ProcessUpdates fuel loads context = Some c'
        /\ all_clean c' = true
        /\ DeferUpdates c' = false
        /\ HoldUpdates c' = false).
Proof.
  unfold ALCcontext_ProcessUpdates. split; intros Hd; rewrite Hd;
    [reflexivity|].
  intros i Hi He.
  destruct (wait_for_mixer_ends loads fuel 0 i ltac:(lia) He) as [n Hn].
  rewrite Hn. eexists. split; [reflexivity|].
  match goal with
  | |- context [UpdateAllEffectSlotProps ?c0] => set (c2 := c0)
  end.
  assert (H2 : ctx_PropsClean c2 = true /\ Listener_PropsClean c2 = true
               /\ DeferUpdates c2 = false).
  { subst c2. destruct (ctx_PropsClean context) eqn:E1;
      destruct (Listener_PropsClean context) eqn:E2;
      cbn; rewrite ?E1, ?E2; cbn; rewrite ?E1, ?E2; auto. }
  destruct H2 as (Hc & Hl & Hdf).
  destruct (UpdateAllEffectSlotProps_clean c2) as (S1 & S2 & S3 & S4 & S5).
  destruct (UpdateAllSourceProps_clean (UpdateAllEffectSlotProps c2))
    as (T1 & T2 & T3 & T4 & T5).
  split; [|split].
  - unfold all_clean.
    change (ctx_PropsClean (set_HoldUpdates false ?c)) with (ctx_PropsClean c).
    change (Listener_PropsClean (set_HoldUpdates false ?c))
      with (Listener_PropsClean c).
    change (all_slots (set_HoldUpdates false ?c)) with (all_slots c).
    change (live_sources (set_HoldUpdates false ?c)) with (live_sources c).
    rewrite T2, T3, T5, T1, S1, S2, S3, Hc, Hl. reflexivity.
  - change (DeferUpdates (set_HoldUpdates false ?c)) with (DeferUpdates c).
    rewrite T4, S4. exact Hdf.
  - reflexivity.
Qed.

Lemma ALCcontext_ProcessUpdates_clean_witness :
  exists c',
    ALCcontext_ProcessUpdates 2 (fun i => 3 + Z.of_nat i)
      (ALCcontext_DeferUpdates idle_source_context) = Some c'
    /\ all_clean c' = true
    /\ DeferUpdates c' = false
    /\ HoldUpdates c' = false.
Proof.
  apply (proj2 (ALCcontext_ProcessUpdates_clean 2 (fun i => 3 + Z.of_nat i)
                  (ALCcontext_DeferUpdates idle_source_context))
           eq_refl 1%nat); [lia | reflexivity].
Defined.

(** C3, as stated, fails on a context that is not deferring: the call
    returns the context as it was, the source's clean flag still clear. *)
Lemma ALCcontext_ProcessUpdates_clean_counterexample :
  ALCcontext_ProcessUpdates 1 (fun _ => 0) idle_source_context
  = Some idle_source_context
  /\ forallb src_PropsClean (live_sources idle_source_context) = false
  /\ all_clean idle_source_context = false.
Proof. vm_compute. repeat split; reflexivity. Qed.

(* ------------------------------------------------------------------ *)
(** ** The connection flag *)

(** UpdateDeviceParams never writes [Connected]. *)
Lemma playback_periods_Connected (K : Consts) (E : Env) (n : option string)
  (f : Z) (d : ALCdevice) :
  Connected (playback_periods K E n f d) = Connected d.
Proof.
  cbv beta zeta delta [playback_periods]. split_ifs; reflexivity.
Qed.

Lemma loopback_format_Connected (K : Consts) (a : AttrVals) (d : ALCdevice) :
  Connected (loopback_format K a d) = Connected d.
Proof. unfold loopback_format. cbv zeta. split_ifs; reflexivity. Qed.

Lemma stop_if_running_Connected (K : Consts) (d : ALCdevice) :
  Connected (stop_if_running K d) = Connected d.
Proof. unfold stop_if_running. cbv zeta. split_ifs; reflexivity. Qed.

Lemma attribute_stage_Connected (K : Consts) (E : Env) (device : ALCdevice)
  (attrList : option (list Z)) :
  stage_Connected (attribute_stage K E device attrList) (Connected device).
Proof.
  unfold attribute_stage.
  destruct (attrs_missing attrList && _)%bool; [reflexivity|].
  destruct attrList as [attrs|]; [|reflexivity].
  destruct (attrs_missing (Some attrs)); [reflexivity|].
  destruct (DeviceType_eqb (Type_ device) Loopback).
  - cbn [andb]. destruct (loopback_attrs_invalid K _); [reflexivity|].
    destruct (source_counts E _ _). cbn [stage_Connected].
    cbn [Connected set_NumStereoSources set_NumMonoSources set_SourcesMax].
    rewrite loopback_format_Connected.
    change (Connected (UpdateClockBase ?x)) with (Connected x).
    apply stop_if_running_Connected.
  - cbn [andb]. destruct (source_counts E _ _). cbn [stage_Connected].
    cbn [Connected set_NumStereoSources set_NumMonoSources set_SourcesMax].
    rewrite playback_periods_Connected.
    change (Connected (UpdateClockBase ?x)) with (Connected x).
    rewrite !stop_if_running_Connected. reflexivity.
Qed.

Lemma hrtf_request_Connected (K : Consts) (E : Env) (d : ALCdevice)
  (l : Locals) :
  Connected (fst (hrtf_request K E d l)) = Connected d.
Proof. unfold hrtf_request. split_ifs; reflexivity. Qed.

Lemma reconcile_requests_Connected (K : Consts) (f : Z) (c : DevFmtChannels)
  (t : DevFmtType) (d : ALCdevice) :
  Connected (reconcile_requests K f c t d) = Connected d.
Proof. unfold reconcile_requests. cbv zeta. split_ifs; reflexivity. Qed.

Lemma configured_Connected (E : Env) (d : ALCdevice) (l : Locals) :
  Connected (configured E d l) = Connected d.
Proof.
  unfold configured, select_limiter, select_dither, allocate_mix_buffer.
  cbv zeta. split_ifs; reflexivity.
Qed.

Lemma configure_stage_Connected (K : Consts) (E : Env) (d : ALCdevice)
  (l : Locals) :
  Connected (snd (configure_stage K E (d, l))) = Connected d.
Proof.
  rewrite configure_stage_unfold. cbv zeta.
  rewrite <- (configured_Connected E d l).
  split_ifs; reflexivity.
Qed.

Lemma UpdateDeviceParams_Connected (K : Consts) (E : Env) (device : ALCdevice)
  (attrList : option (list Z)) :
  Connected (snd (UpdateDeviceParams K E device attrList))
  = Connected device.
Proof.
  pose proof (attribute_stage_Connected K E device attrList) as Ha.
  unfold UpdateDeviceParams.
  destruct (attribute_stage K E device attrList) as [e0 d0|[d0 l0]];
    cbn [andThen stage_Connected] in *; [exact Ha|].
  unfold prepare_stage.
  destruct (has_flag (Flags d0) (DEVICE_RUNNING K)); cbn [andThen];
    [exact Ha|].
  pose proof (hrtf_request_Connected K E (clear_views K d0) l0) as Hh.
  destruct (hrtf_request K E (clear_views K d0) l0) as [d1 l1].
  cbn [fst] in Hh.
  rewrite reset_stage_cases.
  destruct (fst (backend_reset E d1)).
  - rewrite configure_stage_Connected, reconcile_requests_Connected.
    cbn. rewrite Hh. exact Ha.
  - cbn. rewrite Hh. exact Ha.
Qed.

Lemma device_at_modify (st : ALCstate) (a addr : positive)
  (f : ALCdevice -> ALCdevice) :
  device_at (modify_device a f st) addr
  = if Pos.eqb addr a then option_map f (device_at st addr)
    else device_at st addr.
Proof.
  unfold device_at, VerifyDevice, modify_device.
  cbn [DeviceList set_DeviceList]. rewrite VerifyDevice_from_modify.
  destruct (VerifyDevice_from (DeviceList st) (Zpos addr)) as [[a1 d1]|] eqn:Ev.
  - apply VerifyDevice_from_addr in Ev. injection Ev as ->.
    cbn [option_map]. unfold modified. cbn [fst snd].
    destruct (Pos.eqb addr a); reflexivity.
  - destruct (Pos.eqb addr a); reflexivity.
Qed.

Lemma device_at_alcSetError (st : ALCstate) (dev : option positive)
  (e : Z) (addr : positive) :
  device_at (alcSetError st dev e) addr
  = match dev with
    | Some a => if Pos.eqb addr a
                then option_map (set_LastError e) (device_at st addr)
                else device_at st addr
    | None => device_at st addr
    end.
Proof.
  unfold alcSetError.
  destruct dev as [a|]; destruct (TrapALCError st);
    rewrite ?device_at_modify; reflexivity.
Qed.

Lemma device_at_verified (st : ALCstate) (p : Z) (a : positive)
  (d : ALCdevice) :
  VerifyDevice st p = Some (a, d) -> p = Zpos a /\ device_at st a = Some d.
Proof.
  intros Hv. pose proof Hv as Ha. unfold VerifyDevice in Ha.
  apply VerifyDevice_from_addr in Ha. subst p.
  split; [reflexivity|]. unfold device_at. rewrite Hv. reflexivity.
Qed.

Lemma kept_refl (st : ALCstate) (addr : positive) : kept st st addr.
Proof. intros d Hd. exists d. auto. Qed.

Lemma kept_trans (st1 st2 st3 : ALCstate) (addr : positive) :
  kept st1 st2 addr -> kept st2 st3 addr -> kept st1 st3 addr.
Proof.
  intros H12 H23 d Hd.
  destruct (H12 d Hd) as (d2 & Hd2 & Hc2).
  destruct (H23 d2 Hd2) as (d3 & Hd3 & Hc3).
  exists d3. auto.
Qed.

Lemma kept_modify (st : ALCstate) (a addr : positive)
  (f : ALCdevice -> ALCdevice) :
  (forall d, device_at st a = Some d -> Connected d = false ->
             Connected (f d) = false) ->
  kept st (modify_device a f st) addr.
Proof.
  intros Hf d Hd. rewrite device_at_modify.
  destruct (Pos.eqb addr a) eqn:Ea.
  - apply Pos.eqb_eq in Ea. subst a. rewrite Hd. cbn [option_map].
    eexists. split; [reflexivity|]. apply Hf. exact Hd.
  - exists d. auto.
Qed.

Lemma kept_alcSetError (st : ALCstate) (dev : option positive) (e : Z)
  (addr : positive) :
  kept st (alcSetError st dev e) addr.
Proof.
  intros d Hd. rewrite device_at_alcSetError.
  destruct dev as [a|]; [|exists d; auto].
  destruct (Pos.eqb addr a); [|exists d; auto].
  rewrite Hd. eexists. split; [reflexivity|]. auto.
Qed.

(** Storing back a device derived from the verified one. *)
Lemma kept_put (st : ALCstate) (p : Z) (a addr : positive)
  (d d' : ALCdevice) :
  VerifyDevice st p = Some (a, d) ->
  (Connected d = false -> Connected d' = false) ->
  kept st (put_device a d' st) addr.
Proof.
  intros Hv Hc. apply device_at_verified in Hv. destruct Hv as [_ Ha].
  unfold put_device. apply kept_modify.
  intros d0 Hd0. rewrite Ha in Hd0. injection Hd0 as <-. exact Hc.
Qed.

Lemma aluHandleDisconnect_Connected (d : ALCdevice) :
  Connected (aluHandleDisconnect d) = false.
Proof. reflexivity. Qed.

Lemma locked_disconnect_Connected (d : ALCdevice) :
  Connected (locked_disconnect d) = false.
Proof. reflexivity. Qed.

Lemma kept_modify_other (st : ALCstate) (a addr : positive)
  (f : ALCdevice -> ALCdevice) :
  a <> addr -> kept st (modify_device a f st) addr.
Proof.
  intros Hne d Hd. rewrite device_at_modify.
  destruct (Pos.eqb addr a) eqn:Ea.
  - apply Pos.eqb_eq in Ea. congruence.
  - exists d. auto.
Qed.

Lemma kept_same_list (st st' : ALCstate) (addr : positive) :
  DeviceList st' = DeviceList st -> kept st st' addr.
Proof.
  intros Hl d Hd. exists d. split; [|auto].
  unfold device_at, VerifyDevice in *. rewrite Hl. exact Hd.
Qed.

Ltac kept_step :=
  first
    [ apply kept_refl
    | apply kept_alcSetError
    | apply kept_same_list; reflexivity
    | eapply kept_put;
      [ eassumption
      | let Hc := fresh "Hc" in
        intros Hc; first [exact Hc | reflexivity | congruence] ]
    | eapply kept_trans; [| apply kept_alcSetError]
    | eapply kept_trans;
      [| apply kept_modify; intros; reflexivity] ].

Lemma alcGetIntegerv_kept (K : Consts) (E : Env) (st : ALCstate)
  (device param size values : Z) (addr : positive) :
  kept st (fst (alcGetIntegerv K E st device param size values)) addr.
Proof.
  unfold alcGetIntegerv, GetIntegerv.
  destruct (VerifyDevice st device) as [[a d]|] eqn:Hv; cbn [option_map fst].
  - destruct (Type_ d);
      repeat match goal with
             | |- context [if ?c then _ else _] => destruct c
             end; cbn [fst]; repeat kept_step.
  - repeat match goal with
           | |- context [if ?c then _ else _] => destruct c
           end; cbn [fst]; repeat kept_step.
Qed.

Ltac split_branches :=
  repeat match goal with
         | |- context [if ?c then _ else _] =>
             let Hb := fresh "Hb" in destruct c eqn:Hb
         | |- context [match ?c with _ => _ end] =>
             let Hb := fresh "Hb" in destruct c eqn:Hb
         end.

Lemma alcRenderSamplesSOFT_kept (st : ALCstate) (device buffer samples : Z)
  (addr : positive) :
  kept st (alcRenderSamplesSOFT st device buffer samples) addr.
Proof.
  unfold alcRenderSamplesSOFT.
  destruct (VerifyDevice st device) as [[a d]|] eqn:Hv;
    split_branches; repeat kept_step.
Qed.

Lemma alcDevicePauseSOFT_kept (K : Consts) (st : ALCstate) (device : Z)
  (addr : positive) :
  kept st (alcDevicePauseSOFT K st device) addr.
Proof.
  unfold alcDevicePauseSOFT.
  destruct (VerifyDevice st device) as [[a d]|] eqn:Hv;
    [destruct (negb _)|]; try solve [repeat kept_step].
  eapply kept_put; [eassumption|]. cbv zeta.
  cbn [Connected set_Flags]. rewrite stop_if_running_Connected. auto.
Qed.

Lemma alcDeviceResumeSOFT_kept (K : Consts) (E : Env) (st : ALCstate)
  (device : Z) (addr : positive) :
  kept st (alcDeviceResumeSOFT K E st device) addr.
Proof.
  unfold alcDeviceResumeSOFT.
  destruct (VerifyDevice st device) as [[a d]|] eqn:Hv;
    split_branches; repeat kept_step.
Qed.

Lemma alcCaptureStart_kept (K : Consts) (E : Env) (st : ALCstate)
  (device : Z) (addr : positive) :
  kept st (alcCaptureStart K E st device) addr.
Proof.
  unfold alcCaptureStart.
  destruct (VerifyDevice st device) as [[a d]|] eqn:Hv;
    split_branches; repeat kept_step.
Qed.

Lemma alcCaptureStop_kept (K : Consts) (st : ALCstate) (device : Z)
  (addr : positive) :
  kept st (alcCaptureStop K st device) addr.
Proof.
  unfold alcCaptureStop.
  destruct (VerifyDevice st device) as [[a d]|] eqn:Hv;
    [destruct (negb _)|]; try solve [repeat kept_step].
  eapply kept_put; [eassumption|].
  rewrite stop_if_running_Connected. auto.
Qed.

Lemma alcCreateContext_kept (K : Consts) (E : Env) (st : ALCstate)
  (device : Z) (attrList : option (list Z)) (addr : positive) :
  kept st (fst (alcCreateContext K E st device attrList)) addr.
Proof.
  unfold alcCreateContext.
  destruct (VerifyDevice st device) as [[a d]|] eqn:Hv;
    [|cbn [fst]; repeat kept_step].
  destruct (DeviceType_eqb (Type_ d) Capture || negb (Connected d)) eqn:Hc;
    [cbn [fst]; repeat kept_step|].
  apply orb_false_iff in Hc. destruct Hc as [_ Hc].
  apply negb_false_iff in Hc.
  destruct (UpdateDeviceParams K E (set_LastError ALC_NO_ERROR d) attrList)
    as [err d1].
  split_branches; cbn [fst]; repeat kept_step.
Qed.

Lemma alcResetDeviceSOFT_kept_other (K : Consts) (E : Env) (st : ALCstate)
  (device : Z) (attribs : option (list Z)) (addr : positive) :
  device <> Zpos addr ->
  kept st (fst (alcResetDeviceSOFT K E st device attribs)) addr.
Proof.
  intros Hne. unfold alcResetDeviceSOFT.
  destruct (VerifyDevice st device) as [[a d]|] eqn:Hv;
    [|cbn [fst]; repeat kept_step].
  assert (Ha : a <> addr).
  { apply device_at_verified in Hv. destruct Hv as [-> _]. congruence. }
  destruct (DeviceType_eqb (Type_ d) Capture);
    [cbn [fst]; repeat kept_step|].
  destruct (UpdateDeviceParams K E _ attribs) as [err d1].
  assert (Hput : kept st (put_device a d1 st) addr)
    by (apply kept_modify_other; exact Ha).
  split_branches; cbn [fst]; try exact Hput.
  - eapply kept_trans; [|apply kept_modify_other; exact Ha].
    eapply kept_trans; [exact Hput | apply kept_alcSetError].
  - eapply kept_trans; [exact Hput | apply kept_alcSetError].
Qed.

Lemma perform_kept (K : Consts) (E : Env) (st : ALCstate) (op : Operation)
  (addr : positive) :
  is_reset_of addr op = false -> kept st (perform K E st op) addr.
Proof.
  destruct op; cbn [perform is_reset_of]; intros Hop.
  - unfold alcGetError.
    destruct (VerifyDevice st device) as [[a d]|] eqn:Hv; cbn [fst];
      repeat kept_step.
  - apply alcGetIntegerv_kept.
  - apply alcRenderSamplesSOFT_kept.
  - apply alcDevicePauseSOFT_kept.
  - apply alcDeviceResumeSOFT_kept.
  - apply alcCaptureStart_kept.
  - apply alcCaptureStop_kept.
  - apply alcCreateContext_kept.
  - apply alcResetDeviceSOFT_kept_other. apply Z.eqb_neq. exact Hop.
  - apply kept_modify. intros; reflexivity.
Qed.

Lemma perform_all_kept (K : Consts) (E : Env) (addr : positive) :
  forall (ops : list Operation) (st : ALCstate),
    forallb (fun op => negb (is_reset_of addr op)) ops = true ->
    kept st (perform_all K E st ops) addr.
Proof.
  induction ops as [|op rest IH]; intros st Hops.
  - apply kept_refl.
  - cbn [forallb] in Hops. apply andb_prop in Hops.
    destruct Hops as [Hop Hrest]. apply negb_true_iff in Hop.
    unfold perform_all. cbn [fold_left].
    eapply kept_trans; [apply perform_kept; exact Hop|].
    apply IH. exact Hrest.
Qed.

(** C2 (as amended).  Once a device's Connected flag is false it stays
    false through every sequence of operations that contains no
    alcResetDeviceSOFT on that device.  alcResetDeviceSOFT on a device
    that verifies and is not a capture device stores true into the flag
    before it reconfigures, and the flag is true afterwards unless
    UpdateDeviceParams returned ALC_INVALID_DEVICE. *)
Theorem Connected_false_until_reset
  (K : Consts) (E : Env) (st : ALCstate) (addr : positive) :
  (forall ops d,
     forallb (fun op => negb (is_reset_of addr op)) ops = true ->
     device_at st addr = Some d -> Connected d = false ->
     exists d', device_at (perform_all K E st ops) addr = Some d'
                /\ Connected d' = false)
  /\ (forall attribs d,
        device_at st addr = Some d ->
        DeviceType_eqb (Type_ d) Capture = false ->
        fst (UpdateDeviceParams K E
               (set_Connected true (stop_if_running K d)) attribs)
        <> ALC_INVALID_DEVICE ->
        exists d',
          device_at (perform K E st (Op_alcResetDeviceSOFT (Zpos addr) attribs))
            addr = Some d'
          /\ Connected d' = true).
Proof.
  split.
  - intros ops d Hops Hd Hc.
    destruct (perform_all_kept K E addr ops st Hops d Hd) as (d' & Hd' & Hk).
    exists d'. auto.
  - intros attribs d Hd Hcap Herr.
    assert (Hv : VerifyDevice st (Zpos addr) = Some (addr, d)).
    { unfold device_at in Hd.
      destruct (VerifyDevice st (Zpos addr)) as [[a d0]|] eqn:Hv;
        [|discriminate].
      destruct (device_at_verified st (Zpos addr) a d0 Hv) as [Ha _].
      injection Ha as <-. cbn in Hd. injection Hd as <-. reflexivity. }
    cbn [perform]. unfold alcResetDeviceSOFT. rewrite Hv, Hcap.
    pose proof (UpdateDeviceParams_Connected K E
                  (set_Connected true (stop_if_running K d)) attribs) as Hconn.
    destruct (UpdateDeviceParams K E
                (set_Connected true (stop_if_running K d)) attribs)
      as [err d1].
    cbn [fst snd] in *.
    assert (Hput : device_at (put_device addr d1 st) addr = Some d1).
    { unfold put_device. rewrite device_at_modify, Pos.eqb_refl, Hd.
      reflexivity. }
    destruct (err =? ALC_NO_ERROR); cbn [fst].
    + exists d1. split; [exact Hput | exact Hconn].
    + destruct (err =? ALC_INVALID_DEVICE) eqn:Ei.
      * apply Z.eqb_eq in Ei. contradiction.
      * cbn [fst]. rewrite device_at_alcSetError, Pos.eqb_refl, Hput.
        eexists. split; [reflexivity | exact Hconn].
Qed.

Lemma Connected_false_until_reset_witness :
  (exists d',
     device_at
       (perform_all upstream plain_env
          (one_device (set_Connected false playback_device))
          [Op_alcGetError 1; Op_alcDevicePauseSOFT 1;
           Op_alcCreateContext 1 None; Op_alcDeviceResumeSOFT 1])
       1 = Some d'
     /\ Connected d' = false)
  /\ (exists d',
        device_at
          (perform upstream plain_env
             (one_device (set_Connected false playback_device))
             (Op_alcResetDeviceSOFT 1 None)) 1 = Some d'
        /\ Connected d' = true).
Proof.
  destruct (Connected_false_until_reset upstream plain_env
              (one_device (set_Connected false playback_device)) 1)
    as [Hkeep Hreset].
  split.
  - apply (Hkeep _ (set_Connected false playback_device));
      reflexivity.
  - apply (Hreset None (set_Connected false playback_device));
      [reflexivity | reflexivity | vm_compute; discriminate].
Defined.

(** C2, as stated, fails: after the backend has reported the loss of the
    device, alcResetDeviceSOFT stores true into Connected again. *)
Lemma Connected_false_until_reset_counterexample :
  option_map Connected
    (device_at
       (perform upstream plain_env (one_device playback_device)
          (Op_aluHandleDisconnect 1)) 1) = Some false
  /\ option_map Connected
       (device_at
          (perform_all upstream plain_env (one_device playback_device)
             lost_then_reset) 1) = Some true.
Proof. vm_compute. split; reflexivity. Qed.

(* ================================================================== *)
(** * Further properties of the code *)

(* ------------------------------------------------------------------ *)
(** ** The attribute walk *)

Lemma walk_attrs_flatten (K : Consts) (ps : list (Z * Z)) (rest : list Z) :
  keys_nonzero ps = true ->
  forall a,
    walk_attrs K (flatten_attrs ps ++ 0 :: rest) a = apply_pairs K ps a.
Proof.
  induction ps as [|[k v] ps IH]; intros Hk a; [reflexivity|].
  cbn [keys_nonzero forallb fst] in Hk. apply andb_prop in Hk.
  destruct Hk as [Hk Hps]. apply negb_true_iff in Hk.
  unfold flatten_attrs, apply_pairs.
  cbn [flat_map fst snd app walk_attrs fold_left]. rewrite Hk.
  apply (IH Hps).
Qed.

(** X1.  The walk over an attribute array applies the switch to each
    key/value pair in order up to the first zero key, and whatever follows
    that terminator is never read. *)
Theorem walk_attrs_pairs (K : Consts) (ps : list (Z * Z)) (rest : list Z)
  (a : AttrVals) :
  walk_attrs K (flatten_attrs ps ++ 0 :: rest) a
  = apply_pairs K (live_pairs ps) a
  /\ (keys_nonzero ps = true ->
      walk_attrs K (flatten_attrs ps ++ 0 :: rest) a = apply_pairs K ps a).
Proof.
  assert (Hlive : forall a0,
            walk_attrs K (flatten_attrs ps ++ 0 :: rest) a0
            = apply_pairs K (live_pairs ps) a0).
  { induction ps as [|[k v] ps IH]; intros a0; [reflexivity|].
    unfold flatten_attrs, apply_pairs.
    cbn [flat_map fst snd app walk_attrs live_pairs].
    destruct (k =? 0); [reflexivity|].
    cbn [fold_left fst snd]. apply IH. }
  split; [apply Hlive|].
  intros Hk. rewrite Hlive. f_equal.
  clear Hlive. induction ps as [|[k v] ps IH]; [reflexivity|].
  cbn [keys_nonzero forallb fst] in Hk. apply andb_prop in Hk.
  destruct Hk as [Hk Hps]. apply negb_true_iff in Hk.
  cbn [live_pairs fst]. rewrite Hk, (IH Hps). reflexivity.
Qed.

Lemma walk_attrs_pairs_witness :
  walk_attrs upstream
    (flatten_attrs [(ALC_FREQUENCY, 48000); (ALC_HRTF_ID_SOFT, 2)]
     ++ 0 :: [ALC_FREQUENCY; 22050]) (initial_attrs playback_device)
  = apply_pairs upstream [(ALC_FREQUENCY, 48000); (ALC_HRTF_ID_SOFT, 2)]
      (initial_attrs playback_device).
Proof.
  apply (proj2 (walk_attrs_pairs upstream
                  [(ALC_FREQUENCY, 48000); (ALC_HRTF_ID_SOFT, 2)]
                  [ALC_FREQUENCY; 22050] (initial_attrs playback_device))).
  reflexivity.
Defined.

Lemma attr_case_aorder (K : Consts) (key val : Z) (a : AttrVals) :
  (key =? ALC_AMBISONIC_ORDER_SOFT K) = false ->
  aorder (attr_case K key val a) = aorder a.
Proof.
  intros Hk. unfold attr_case. rewrite Hk. split_ifs; reflexivity.
Qed.

Lemma apply_pairs_aorder (K : Consts) (ps : list (Z * Z)) :
  key_absent (ALC_AMBISONIC_ORDER_SOFT K) ps = true ->
  forall a, aorder (apply_pairs K ps a) = aorder a.
Proof.
  unfold apply_pairs.
  induction ps as [|[k v] ps IH]; intros Hk a; [reflexivity|].
  cbn [key_absent forallb fst] in Hk. apply andb_prop in Hk.
  destruct Hk as [Hk Hps]. apply negb_true_iff in Hk.
  cbn [fold_left fst snd]. rewrite (IH Hps).
  apply attr_case_aorder, Hk.
Qed.

Lemma loopback_attrs_invalid_order (K : Consts) (a : AttrVals) :
  aorder a < 1 -> loopback_attrs_invalid K a = true.
Proof.
  intros H. unfold loopback_attrs_invalid.
  apply Z.ltb_lt in H. rewrite H.
  cbn [orb]. rewrite !orb_true_r. reflexivity.
Qed.

Lemma attribute_stage_invalid (K : Consts) (E : Env) (device : ALCdevice)
  (attrList : option (list Z)) (err : Z) (d : ALCdevice) :
  attribute_stage K E device attrList = Return err d ->
  DeviceType_eqb (Type_ device) Loopback = true /\ d = device.
Proof.
  unfold attribute_stage.
  destruct (DeviceType_eqb (Type_ device) Loopback).
  - rewrite andb_true_r. cbn [andb].
    destruct (attrs_missing attrList).
    + intros H. injection H as _ H. auto.
    + destruct attrList as [attrs|]; [|discriminate].
      destruct (loopback_attrs_invalid K _).
      * intros H. injection H as _ H. auto.
      * destruct (source_counts E _ _). discriminate.
  - rewrite andb_false_r. cbn [andb].
    destruct attrList as [attrs|]; [|discriminate].
    destruct (attrs_missing (Some attrs)); [discriminate|].
    destruct (source_counts E _ _). discriminate.
Qed.

(* ------------------------------------------------------------------ *)
(** ** UpdateDeviceParams: what it returns *)

(** X2.  UpdateDeviceParams returns ALC_NO_ERROR, ALC_INVALID_VALUE or
    ALC_INVALID_DEVICE and nothing else; ALC_INVALID_VALUE comes from a
    loopback device only, and then the device is exactly as it was. *)
Theorem UpdateDeviceParams_error_codes (K : Consts) (E : Env)
  (device : ALCdevice) (attrList : option (list Z)) :
  let r := UpdateDeviceParams K E device attrList in
  (fst r = ALC_NO_ERROR \/ fst r = ALC_INVALID_VALUE
   \/ fst r = ALC_INVALID_DEVICE)
  /\ (fst r = ALC_INVALID_VALUE ->
      DeviceType_eqb (Type_ device) Loopback = true /\ snd r = device).
Proof.
  cbv zeta.
  destruct (UpdateDeviceParams_cases K E device attrList)
    as [[d [Ha Hu]]|[[d0 [l0 [Ha [Hr Hu]]]]|[[d [l [Hb [Hf Hu]]]]
       |[d [l [Hb Hu]]]]]].
  - rewrite Hu. cbn [fst snd]. split; [auto|].
    intros _. apply (attribute_stage_invalid K E device attrList _ _ Ha).
  - rewrite Hu. cbn [fst snd]. split; [auto|]. discriminate.
  - rewrite Hu. split; [auto|]. discriminate.
  - rewrite Hu.
    destruct (configure_stage_codes K E (d, l)) as [Hc|Hc]; rewrite Hc;
      (split; [auto|discriminate]).
Qed.

(** X3.  A loopback device accepts no attribute list that leaves out
    ALC_AMBISONIC_ORDER_SOFT: the order check [aorder < 1] is made whatever
    the channel layout asked for, so such a list is answered with
    ALC_INVALID_VALUE and the device is left as it was. *)
Theorem UpdateDeviceParams_loopback_needs_order (K : Consts) (E : Env)
  (device : ALCdevice) (ps : list (Z * Z)) (rest : list Z) :
  DeviceType_eqb (Type_ device) Loopback = true ->
  keys_nonzero ps = true ->
  key_absent (ALC_AMBISONIC_ORDER_SOFT K) ps = true ->
  UpdateDeviceParams K E device (Some (flatten_attrs ps ++ 0 :: rest))
  = (ALC_INVALID_VALUE, device).
Proof.
  intros Hl Hz Ho.
  rewrite UpdateDeviceParams_unfold.
  destruct ps as [|[k v] ps].
  - rewrite attribute_stage_missing by reflexivity. rewrite Hl. reflexivity.
  - assert (Hm : attrs_missing (Some (flatten_attrs ((k, v) :: ps) ++ 0 :: rest))
                 = false).
    { cbn [keys_nonzero forallb fst] in Hz. apply andb_prop in Hz.
      destruct Hz as [Hz _]. apply negb_true_iff in Hz. exact Hz. }
    unfold attribute_stage. rewrite Hm, Hl. cbn [andb].
    change (mkAttrVals AL_NONE AL_NONE 0 AL_NONE AL_NONE 0
              (wrapi (NumMonoSources device))
              (wrapi (NumStereoSources device)) (NumAuxSends device)
              Hrtf_Default (-1) (LimiterState device))
      with (initial_attrs device).
    rewrite (walk_attrs_flatten K ((k, v) :: ps) rest Hz),
      loopback_attrs_invalid_order; [reflexivity|].
    rewrite (apply_pairs_aorder K _ Ho). cbn. lia.
Qed.

Lemma UpdateDeviceParams_loopback_needs_order_witness :
  UpdateDeviceParams upstream plain_env loopback_device
    (Some (flatten_attrs
             [(ALC_FORMAT_CHANNELS_SOFT, ALC_STEREO_SOFT);
              (ALC_FORMAT_TYPE_SOFT, ALC_FLOAT_SOFT);
              (ALC_FREQUENCY, 44100)] ++ 0 :: []))
  = (ALC_INVALID_VALUE, loopback_device).
Proof.
  apply (UpdateDeviceParams_loopback_needs_order upstream plain_env
           loopback_device
           [(ALC_FORMAT_CHANNELS_SOFT, ALC_STEREO_SOFT);
            (ALC_FORMAT_TYPE_SOFT, ALC_FLOAT_SOFT);
            (ALC_FREQUENCY, 44100)] []); reflexivity.
Defined.

(* ------------------------------------------------------------------ *)
(** ** UpdateDeviceParams: fields it leaves alone *)

Ltac frame := cbv zeta; split_ifs; reflexivity.

Lemma stop_if_running_frame (K : Consts) (d : ALCdevice) :
  identity_fields (stop_if_running K d) = identity_fields d
  /\ source_limits (stop_if_running K d) = source_limits d
  /\ clock (stop_if_running K d) = clock d
  /\ NumAuxSends (stop_if_running K d) = NumAuxSends d
  /\ Frequency (stop_if_running K d) = Frequency d.
Proof. unfold stop_if_running. repeat split; frame. Qed.

Lemma playback_periods_frame (K : Consts) (E : Env) (n : option string)
  (f : Z) (d : ALCdevice) :
  identity_fields (playback_periods K E n f d) = identity_fields d
  /\ source_limits (playback_periods K E n f d) = source_limits d
  /\ clock (playback_periods K E n f d) = clock d
  /\ NumAuxSends (playback_periods K E n f d) = NumAuxSends d.
Proof. cbv beta zeta delta [playback_periods]. repeat split; frame. Qed.

Lemma loopback_format_frame (K : Consts) (a : AttrVals) (d : ALCdevice) :
  identity_fields (loopback_format K a d) = identity_fields d
  /\ source_limits (loopback_format K a d) = source_limits d
  /\ clock (loopback_format K a d) = clock d
  /\ NumAuxSends (loopback_format K a d) = NumAuxSends d.
Proof. unfold loopback_format. repeat split; frame. Qed.

Lemma UpdateClockBase_frame (d : ALCdevice) :
  identity_fields (UpdateClockBase d) = identity_fields d
  /\ source_limits (UpdateClockBase d) = source_limits d
  /\ NumAuxSends (UpdateClockBase d) = NumAuxSends d
  /\ Flags (UpdateClockBase d) = Flags d.
Proof. repeat split. Qed.

Lemma clear_views_frame (K : Consts) (d : ALCdevice) :
  identity_fields (clear_views K d) = identity_fields d
  /\ source_limits (clear_views K d) = source_limits d
  /\ NumAuxSends (clear_views K d) = NumAuxSends d
  /\ Flags (clear_views K d) = Flags d
  /\ clock (clear_views K d) = clock (UpdateClockBase d).
Proof. repeat split. Qed.

Lemma hrtf_request_frame (K : Consts) (E : Env) (d : ALCdevice) (l : Locals) :
  identity_fields (fst (hrtf_request K E d l)) = identity_fields d
  /\ source_limits (fst (hrtf_request K E d l)) = source_limits d
  /\ clock (fst (hrtf_request K E d l)) = clock d
  /\ NumAuxSends (fst (hrtf_request K E d l)) = NumAuxSends d
  /\ l_new_sends (snd (hrtf_request K E d l)) = l_new_sends l
  /\ l_old_sends (snd (hrtf_request K E d l)) = l_old_sends l.
Proof. unfold hrtf_request. repeat split; frame. Qed.

Lemma reconcile_requests_frame (K : Consts) (f : Z) (c : DevFmtChannels)
  (t : DevFmtType) (d : ALCdevice) :
  identity_fields (reconcile_requests K f c t d) = identity_fields d
  /\ source_limits (reconcile_requests K f c t d) = source_limits d
  /\ clock (reconcile_requests K f c t d) = clock d
  /\ NumAuxSends (reconcile_requests K f c t d) = NumAuxSends d.
Proof. unfold reconcile_requests. repeat split; frame. Qed.

Lemma allocate_mix_buffer_frame (n : Z) (d : ALCdevice) :
  identity_fields (allocate_mix_buffer n d) = identity_fields d
  /\ source_limits (allocate_mix_buffer n d) = source_limits d
  /\ clock (allocate_mix_buffer n d) = clock d
  /\ NumAuxSends (allocate_mix_buffer n d) = n.
Proof. unfold allocate_mix_buffer. repeat split; frame. Qed.

Lemma select_dither_frame (E : Env) (d : ALCdevice) :
  identity_fields (select_dither E d) = identity_fields d
  /\ source_limits (select_dither E d) = source_limits d
  /\ clock (select_dither E d) = clock d
  /\ NumAuxSends (select_dither E d) = NumAuxSends d.
Proof. unfold select_dither. repeat split; frame. Qed.

Lemma select_limiter_frame (E : Env) (g : Z) (d : ALCdevice) :
  identity_fields (select_limiter E g d) = identity_fields d
  /\ source_limits (select_limiter E g d) = source_limits d
  /\ clock (select_limiter E g d) = clock d
  /\ NumAuxSends (select_limiter E g d) = NumAuxSends d.
Proof. unfold select_limiter. repeat split; frame. Qed.

Lemma apply_renderer_frame (r : RendererResult) (d : ALCdevice) :
  identity_fields (apply_renderer r d) = identity_fields d
  /\ source_limits (apply_renderer r d) = source_limits d
  /\ clock (apply_renderer r d) = clock d.
Proof. repeat split. Qed.

Lemma configured_frame (E : Env) (d : ALCdevice) (l : Locals) :
  identity_fields (configured E d l) = identity_fields d
  /\ source_limits (configured E d l) = source_limits d
  /\ clock (configured E d l) = clock d
  /\ NumAuxSends (configured E d l) = l_new_sends l.
Proof.
  unfold configured.
  set (r := aluInitRenderer E d _ _ _).
  destruct (apply_renderer_frame r d) as [A1 [A2 A3]].
  destruct (allocate_mix_buffer_frame (l_new_sends l) (apply_renderer r d))
    as [B1 [B2 [B3 B4]]].
  set (d1 := allocate_mix_buffer _ _) in *.
  destruct (select_dither_frame E d1) as [C1 [C2 [C3 C4]]].
  destruct (select_limiter_frame E (l_gainLimiter l) (select_dither E d1))
    as [D1 [D2 [D3 D4]]].
  rewrite D1, D2, D3, D4, C1, C2, C3, C4, B1, B2, B3, B4, A1, A2, A3.
  auto.
Qed.

Lemma configure_stage_frame (K : Consts) (E : Env) (d : ALCdevice)
  (l : Locals) :
  identity_fields (snd (configure_stage K E (d, l))) = identity_fields d
  /\ source_limits (snd (configure_stage K E (d, l))) = source_limits d
  /\ clock (snd (configure_stage K E (d, l))) = clock d
  /\ NumAuxSends (snd (configure_stage K E (d, l))) = l_new_sends l.
Proof.
  rewrite configure_stage_unfold. cbv zeta.
  destruct (configured_frame E d l) as [H1 [H2 [H3 H4]]].
  rewrite <- H1, <- H2, <- H3, <- H4.
  repeat split; split_ifs; reflexivity.
Qed.

Lemma after_reset_frame (E : Env) (d : ALCdevice) :
  identity_fields (after_reset E d) = identity_fields d
  /\ source_limits (after_reset E d) = source_limits d
  /\ clock (after_reset E d) = clock d
  /\ NumAuxSends (after_reset E d) = NumAuxSends d
  /\ Flags (after_reset E d) = Flags d.
Proof. repeat split. Qed.

Lemma after_attributes_unfold (K : Consts) (E : Env) (d : ALCdevice)
  (l : Locals) :
  after_attributes K E (d, l) =
    if has_flag (Flags d) (DEVICE_RUNNING K) then (ALC_NO_ERROR, d)
    else
      let x := hrtf_request K E (clear_views K d) l in
      if fst (backend_reset E (fst x))
      then configure_stage K E
             (reconcile_requests K (Frequency (fst x)) (FmtChans (fst x))
                (FmtType (fst x)) (after_reset E (fst x)), snd x)
      else (ALC_INVALID_DEVICE, after_reset E (fst x)).
Proof.
  unfold after_attributes, prepare_stage.
  destruct (has_flag (Flags d) (DEVICE_RUNNING K)); [reflexivity|].
  cbn [andThen]. cbv zeta.
  destruct (hrtf_request K E (clear_views K d) l) as [d1 l1].
  rewrite reset_stage_cases. cbn [fst snd]. cbv zeta.
  destruct (fst (backend_reset E d1)); reflexivity.
Qed.

(** Past the attribute block the function either returns at once because
    the backend runs, or it goes through [clear_views]; the fields of the
    frame lemmas are carried to the end. *)
Lemma after_attributes_frame (K : Consts) (E : Env) (d : ALCdevice)
  (l : Locals) :
  let r := snd (after_attributes K E (d, l)) in
  identity_fields r = identity_fields d
  /\ source_limits r = source_limits d
  /\ (NumAuxSends r = NumAuxSends d \/ NumAuxSends r = l_new_sends l)
  /\ (after_attributes K E (d, l) = (ALC_NO_ERROR, d)
      \/ clock r = clock (UpdateClockBase d)).
Proof.
  cbv zeta. rewrite after_attributes_unfold.
  destruct (has_flag (Flags d) (DEVICE_RUNNING K)); [cbn [snd]; auto|].
  cbv zeta.
  destruct (hrtf_request_frame K E (clear_views K d) l)
    as [Hi [Hs [Hc [Hn [Hl _]]]]].
  destruct (clear_views_frame K d) as [Hi' [Hs' [Hn' [_ Hc']]]].
  destruct (hrtf_request K E (clear_views K d) l) as [d1 l1].
  cbn [fst snd] in *.
  destruct (after_reset_frame E d1) as [Ri [Rs [Rc [Rn _]]]].
  destruct (fst (backend_reset E d1)).
  - destruct (reconcile_requests_frame K (Frequency d1) (FmtChans d1)
                (FmtType d1) (after_reset E d1)) as [Qi [Qs [Qc Qn]]].
    destruct (configure_stage_frame K E
                (reconcile_requests K (Frequency d1) (FmtChans d1)
                   (FmtType d1) (after_reset E d1)) l1) as [Ci [Cs [Cc Cn]]].
    rewrite Ci, Cs, Cc, Cn, Qi, Qs, Qc, Ri, Rs, Rc, Hi, Hs, Hc, Hi', Hs', Hc', Hl.
    auto.
  - cbn [snd]. rewrite Ri, Rs, Rc, Rn, Hi, Hs, Hc, Hn, Hi', Hs', Hc', Hn'.
    auto.
Qed.

(* ------------------------------------------------------------------ *)
(** ** The attribute block: ranges of the locals *)

Lemma wrapi_range (z : Z) : - 2 ^ 31 <= wrapi z <= INT_MAX.
Proof.
  unfold wrapi, INT_MAX.
  pose proof (Z.mod_pos_bound (z + 2 ^ 31) (2 ^ 32) ltac:(lia)). lia.
Qed.

Lemma wrapu_small (z : Z) : 0 <= z < 2 ^ 32 -> wrapu z = z.
Proof. intros H. unfold wrapu. apply Z.mod_small, H. Qed.

Lemma is_i32_spec (v : Z) : is_i32 v = true <-> - 2 ^ 31 <= v <= INT_MAX.
Proof. unfold is_i32. rewrite andb_true_iff, !Z.leb_le. tauto. Qed.

Lemma maxi_spec (a b : Z) : maxi a b = Z.max a b.
Proof. unfold maxi. destruct (a >? b) eqn:H; lia. Qed.

Lemma mini_spec (a b : Z) : mini a b = Z.min a b.
Proof. unfold mini. destruct (a >? b) eqn:H; lia. Qed.

Lemma source_counts_spec (E : Env) (n : option string) (a : AttrVals) :
  0 <= numMono a <= INT_MAX -> 0 <= numStereo a <= INT_MAX ->
  let r := source_counts E n a in
  0 <= fst r /\ 0 <= snd r <= numStereo a
  /\ 1 <= fst r + snd r <= INT_MAX
  /\ (ConfigValueInt E n "sources" = None -> 256 <= fst r + snd r).
Proof.
  intros Hm Hs. cbv zeta. unfold source_counts. cbv zeta.
  set (s := numStereo a) in *. set (m := numMono a) in *.
  rewrite (wrapi_small (INT_MAX - s)) by lia.
  set (m1 := if m >? INT_MAX - s then INT_MAX - s else m).
  assert (Hm1 : 0 <= m1 /\ m1 + s <= INT_MAX).
  { subst m1. destruct (m >? INT_MAX - s) eqn:Hc; lia. }
  rewrite (wrapi_small (m1 + s)) by lia.
  set (t := match ConfigValueInt E n "sources" with
            | Some v => if wrapi v <=? 0 then 256 else wrapi v
            | None => maxi (m1 + s) 256
            end).
  assert (Ht : 1 <= t <= INT_MAX
               /\ (ConfigValueInt E n "sources" = None -> 256 <= t)).
  { subst t. destruct (ConfigValueInt E n "sources") as [v|].
    - pose proof (wrapi_range v).
      destruct (wrapi v <=? 0) eqn:Hv; (split; [|discriminate]);
        unfold INT_MAX in *; lia.
    - rewrite maxi_spec. unfold INT_MAX in *. split; [|intros _]; lia. }
  cbn [fst snd]. rewrite mini_spec.
  rewrite (wrapi_small (t - Z.min s t)) by lia.
  destruct Ht as [Ht1 Ht2]. repeat split; try lia.
  intros Hn. specialize (Ht2 Hn). lia.
Qed.

Lemma attr_case_ranges (K : Consts) (key val : Z) (a : AttrVals) :
  is_i32 val = true -> 0 <= MAX_SENDS K ->
  (0 <= numMono a <= INT_MAX /\ 0 <= numStereo a <= INT_MAX
   /\ 0 <= numSends a <= MAX_SENDS K) ->
  0 <= numMono (attr_case K key val a) <= INT_MAX
  /\ 0 <= numStereo (attr_case K key val a) <= INT_MAX
  /\ 0 <= numSends (attr_case K key val a) <= MAX_SENDS K.
Proof.
  intros Hv HK H. apply is_i32_spec in Hv.
  pose proof (clampi_range val 0 (MAX_SENDS K) HK) as Hc.
  unfold attr_case.
  split_ifs; cbn [numMono numStereo numSends set_schans set_stype set_freq
                  set_alayout set_ascale set_aorder set_numMono set_numStereo
                  set_numSends set_hrtf_appreq set_hrtf_id set_gainLimiter];
    rewrite ?maxi_spec; lia.
Qed.

Lemma walk_attrs_inv (K : Consts) (ok : Z -> bool) (P : AttrVals -> Prop) :
  ok 0 = true ->
  (forall k v a, ok v = true -> P a -> P (attr_case K k v a)) ->
  forall (n : nat) (attrs : list Z) (a : AttrVals),
    (List.length attrs <= n)%nat -> forallb ok attrs = true ->
    P a -> P (walk_attrs K attrs a).
Proof.
  intros H0 Hstep. induction n as [|n IH]; intros attrs a Hlen Hall Ha.
  - destruct attrs; [exact Ha|cbn in Hlen; lia].
  - destruct attrs as [|k [|v rest]]; [exact Ha| |].
    + cbn [walk_attrs]. destruct (k =? 0); [exact Ha|].
      apply Hstep; [exact H0|exact Ha].
    + cbn [walk_attrs]. destruct (k =? 0); [exact Ha|].
      cbn [forallb] in Hall. apply andb_prop in Hall.
      destruct Hall as [_ Hall]. apply andb_prop in Hall.
      destruct Hall as [Hv Hall].
      apply IH; [cbn in Hlen; lia|exact Hall|].
      apply Hstep; [exact Hv|exact Ha].
Qed.

Lemma stop_if_running_counts (K : Consts) (d : ALCdevice) :
  NumMonoSources (stop_if_running K d) = NumMonoSources d
  /\ NumStereoSources (stop_if_running K d) = NumStereoSources d.
Proof. unfold stop_if_running. split; frame. Qed.

(** The attribute block when a list is given. *)
Lemma attribute_stage_present (K : Consts) (E : Env) (device : ALCdevice)
  (attrs : list Z) :
  attrs_missing (Some attrs) = false ->
  let loopback := DeviceType_eqb (Type_ device) Loopback in
  let devname := if loopback then None else Some (DeviceName device) in
  let a := walk_attrs K attrs (initial_attrs device) in
  attribute_stage K E device (Some attrs) =
    if loopback && loopback_attrs_invalid K a
    then Return ALC_INVALID_VALUE device
    else
      let d := UpdateClockBase
                 (stop_if_running K
                    (if loopback then device else stop_if_running K device)) in
      let d := if loopback then loopback_format K a d
               else playback_periods K E devname (freq a) d in
      let c := source_counts E devname a in
      Next (set_NumStereoSources (wrapu (snd c))
              (set_NumMonoSources (wrapu (fst c))
                 (set_SourcesMax (wrapu (fst c + snd c)) d)),
            mkLocals Hrtf_Default (hrtf_appreq a) (hrtf_id a) (gainLimiter a)
              (NumAuxSends device)
              (sends_from_config K E devname (numSends a))).
Proof.
  intros Hm. cbv zeta. unfold attribute_stage. rewrite Hm. cbn [andb].
  unfold initial_attrs.
  destruct (DeviceType_eqb (Type_ device) Loopback); cbn [andb].
  - destruct (loopback_attrs_invalid K _); [reflexivity|].
    destruct (source_counts E None _); reflexivity.
  - destruct (stop_if_running_counts K device) as [H1 H2]. rewrite H1, H2.
    destruct (source_counts E _ _); reflexivity.
Qed.

Lemma set_counts_frame (x y z : Z) (d : ALCdevice) :
  let d' := set_NumStereoSources x
              (set_NumMonoSources y (set_SourcesMax z d)) in
  identity_fields d' = identity_fields d
  /\ clock d' = clock d
  /\ NumAuxSends d' = NumAuxSends d
  /\ source_limits d' = (z, y, x).
Proof. repeat split. Qed.

Lemma UpdateClockBase_clock (d : ALCdevice) :
  clock (UpdateClockBase d) = folded_clock d.
Proof. reflexivity. Qed.

Lemma folded_clock_eq (d d' : ALCdevice) :
  clock d = clock d' -> Frequency d = Frequency d' ->
  folded_clock d = folded_clock d'.
Proof.
  unfold clock, folded_clock. intros Hc Hf.
  assert (H1 : ClockBase d = ClockBase d') by congruence.
  assert (H2 : SamplesDone d = SamplesDone d') by congruence.
  assert (H3 : MixCount d = MixCount d') by congruence.
  rewrite H1, H2, H3, Hf. reflexivity.
Qed.

Lemma prepared_frame (K : Consts) (device : ALCdevice) (b : bool) :
  let d := stop_if_running K
             (if b then device else stop_if_running K device) in
  identity_fields d = identity_fields device
  /\ source_limits d = source_limits device
  /\ clock d = clock device
  /\ NumAuxSends d = NumAuxSends device
  /\ Frequency d = Frequency device.
Proof.
  cbv zeta.
  destruct (stop_if_running_frame K device) as [A1 [A2 [A3 [A4 A5]]]].
  destruct b.
  - auto 6.
  - destruct (stop_if_running_frame K (stop_if_running K device))
      as [B1 [B2 [B3 [B4 B5]]]].
    rewrite B1, B2, B3, B4, B5. auto 6.
Qed.

Lemma attribute_stage_frame (K : Consts) (E : Env) (device : ALCdevice)
  (attrList : option (list Z)) :
  stage_holds
    (fun d => identity_fields d = identity_fields device
              /\ NumAuxSends d = NumAuxSends device
              /\ (d = device \/ clock d = folded_clock device))
    (fun l => l_old_sends l = NumAuxSends device)
    (attribute_stage K E device attrList).
Proof.
  destruct (attrs_missing attrList) eqn:Hm.
  - rewrite (attribute_stage_missing K E device attrList Hm).
    destruct (DeviceType_eqb (Type_ device) Loopback); cbn; auto 6.
  - destruct attrList as [attrs|]; [|discriminate].
    rewrite (attribute_stage_present K E device attrs Hm). cbv zeta.
    destruct (_ && _)%bool; [cbn; auto|].
    cbn [stage_holds l_old_sends].
    match goal with
    | |- context [set_NumStereoSources ?x
                    (set_NumMonoSources ?y (set_SourcesMax ?z ?d))] =>
        destruct (set_counts_frame x y z d) as [S1 [S2 [S3 _]]]
    end.
    cbv zeta in S1, S2, S3. rewrite S1, S2, S3.
    destruct (prepared_frame K device
                (DeviceType_eqb (Type_ device) Loopback))
      as [P1 [_ [P3 [P4 P5]]]].
    cbv zeta in P1, P3, P4, P5.
    set (p := stop_if_running K _) in *.
    destruct (UpdateClockBase_frame p) as [U1 [_ [U3 _]]].
    pose proof (UpdateClockBase_clock p) as U4.
    rewrite (folded_clock_eq p device P3 P5) in U4.
    destruct (DeviceType_eqb (Type_ device) Loopback).
    + destruct (loopback_format_frame K
                  (walk_attrs K attrs (initial_attrs device))
                  (UpdateClockBase p)) as [L1 [_ [L3 L4]]].
      rewrite L1, L3, L4, U1, U3, U4, P1, P4. auto.
    + destruct (playback_periods_frame K E (Some (DeviceName device))
                  (freq (walk_attrs K attrs (initial_attrs device)))
                  (UpdateClockBase p)) as [L1 [_ [L3 L4]]].
      rewrite L1, L3, L4, U1, U3, U4, P1, P4. auto.
Qed.

Lemma UpdateDeviceParams_identity (K : Consts) (E : Env)
  (device : ALCdevice) (attrList : option (list Z)) :
  identity_fields (snd (UpdateDeviceParams K E device attrList))
  = identity_fields device.
Proof.
  rewrite UpdateDeviceParams_unfold.
  pose proof (attribute_stage_frame K E device attrList) as Ha.
  destruct (attribute_stage K E device attrList) as [e d|[d l]];
    cbn [stage_holds snd] in *.
  - apply Ha.
  - destruct (after_attributes_frame K E d l) as [Hi _].
    cbv zeta in Hi. rewrite Hi. apply Ha.
Qed.

Lemma identity_fields_eq (a b : ALCdevice) :
  identity_fields a = identity_fields b ->
  Type_ a = Type_ b /\ DeviceName a = DeviceName b
  /\ Connected a = Connected b /\ LastError a = LastError b
  /\ AuxiliaryEffectSlotMax a = AuxiliaryEffectSlotMax b.
Proof.
  unfold identity_fields.
  generalize (Type_ a), (Type_ b), (DeviceName a), (DeviceName b),
    (Connected a), (Connected b), (LastError a), (LastError b),
    (AuxiliaryEffectSlotMax a), (AuxiliaryEffectSlotMax b).
  intros. injection H as -> -> -> -> ->. auto.
Qed.

(** X4.  UpdateDeviceParams never writes the type, the name, the
    connection flag, the error latch or the effect slot limit of the
    device: the error it finds is returned, not recorded. *)
Theorem UpdateDeviceParams_identity_fields (K : Consts) (E : Env)
  (device : ALCdevice) (attrList : option (list Z)) :
  let d' := snd (UpdateDeviceParams K E device attrList) in
  Type_ d' = Type_ device /\ DeviceName d' = DeviceName device
  /\ Connected d' = Connected device /\ LastError d' = LastError device
  /\ AuxiliaryEffectSlotMax d' = AuxiliaryEffectSlotMax device.
Proof.
  cbv zeta. apply identity_fields_eq, UpdateDeviceParams_identity.
Qed.

Lemma triple_eq {A B C : Type} (a a' : A) (b b' : B) (c c' : C) :
  (a, b, c) = (a', b', c') -> a = a' /\ b = b' /\ c = c'.
Proof. intros H. injection H as H1 H2 H3. auto. Qed.

(** X5.  When an attribute list is given and not rejected, the source
    limits are recomputed without overflow: the total is the sum of the
    mono and stereo limits, lies between 1 and INT_MAX, and is at least
    256 unless the configuration file sets it. *)
Theorem UpdateDeviceParams_source_limits (K : Consts) (E : Env)
  (device : ALCdevice) (attrs : list Z) :
  attrs_missing (Some attrs) = false ->
  forallb is_i32 attrs = true ->
  0 <= NumMonoSources device <= INT_MAX ->
  0 <= NumStereoSources device <= INT_MAX ->
  fst (UpdateDeviceParams K E device (Some attrs)) <> ALC_INVALID_VALUE ->
  let d' := snd (UpdateDeviceParams K E device (Some attrs)) in
  SourcesMax d' = NumMonoSources d' + NumStereoSources d'
  /\ 1 <= SourcesMax d' <= INT_MAX
  /\ 0 <= NumMonoSources d' /\ 0 <= NumStereoSources d'
  /\ ((forall n, ConfigValueInt E n "sources" = None) -> 256 <= SourcesMax d').
Proof.
  intros Hm Hall Hmono Hstereo Herr. cbv zeta.
  rewrite UpdateDeviceParams_unfold in *.
  rewrite (attribute_stage_present K E device attrs Hm) in *.
  cbv zeta in *.
  destruct (_ && _)%bool; [exfalso; apply Herr; reflexivity|].
  match goal with
  | |- context [after_attributes K E (?d, ?l)] =>
      destruct (after_attributes_frame K E d l) as [_ [Hs _]];
      set (r := snd (after_attributes K E (d, l))) in *
  end.
  cbv zeta in Hs.
  match type of Hs with
  | _ = source_limits (set_NumStereoSources ?x
                         (set_NumMonoSources ?y (set_SourcesMax ?z ?d))) =>
      destruct (set_counts_frame x y z d) as [_ [_ [_ Hc]]]
  end.
  cbv zeta in Hc. rewrite Hc in Hs. clear Hc.
  apply triple_eq in Hs. destruct Hs as [H1 [H2 H3]].
  set (a := walk_attrs K attrs (initial_attrs device)) in *.
  assert (Ha : 0 <= numMono a <= INT_MAX /\ 0 <= numStereo a <= INT_MAX).
  { subst a.
    apply (walk_attrs_inv K is_i32
             (fun a => 0 <= numMono a <= INT_MAX
                       /\ 0 <= numStereo a <= INT_MAX)
             eq_refl) with (n := List.length attrs); [|lia|exact Hall|].
    - intros k v a0 Hv [Ha1 Ha2]. apply is_i32_spec in Hv.
      unfold attr_case.
      split_ifs; cbn [numMono numStereo set_schans set_stype set_freq
                      set_alayout set_ascale set_aorder set_numMono
                      set_numStereo set_numSends set_hrtf_appreq set_hrtf_id
                      set_gainLimiter];
        rewrite ?maxi_spec; lia.
    - cbn [initial_attrs numMono numStereo].
      rewrite !wrapi_small by lia. lia. }
  destruct Ha as [Ha1 Ha2].
  match type of H1 with
  | _ = wrapu (fst (source_counts E ?n a) + _) =>
      pose proof (source_counts_spec E n a Ha1 Ha2) as Hc;
      set (c := source_counts E n a) in *
  end.
  cbv zeta in Hc. destruct Hc as [C1 [C2 [C3 C4]]].
  unfold INT_MAX in *.
  rewrite wrapu_small in H1, H2, H3 by lia.
  rewrite H1, H2, H3. repeat split; try lia.
  intros Hn. specialize (C4 (Hn _)). lia.
Qed.

Lemma UpdateDeviceParams_source_limits_witness :
  let d' := snd (UpdateDeviceParams upstream plain_env playback_device
                   (Some [ALC_MONO_SOURCES; 2147483647;
                          ALC_STEREO_SOURCES; 300; 0])) in
  SourcesMax d' = NumMonoSources d' + NumStereoSources d'
  /\ 1 <= SourcesMax d' <= INT_MAX
  /\ 0 <= NumMonoSources d' /\ 0 <= NumStereoSources d'
  /\ ((forall n, ConfigValueInt plain_env n "sources" = None) ->
      256 <= SourcesMax d').
Proof.
  apply (UpdateDeviceParams_source_limits upstream plain_env playback_device
           [ALC_MONO_SOURCES; 2147483647; ALC_STEREO_SOURCES; 300; 0]).
  - reflexivity.
  - reflexivity.
  - vm_compute. split; discriminate.
  - vm_compute. split; discriminate.
  - vm_compute. discriminate.
Defined.

Lemma forallb_true {A : Type} (l : list A) : forallb (fun _ => true) l = true.
Proof. induction l; [reflexivity|exact IHl]. Qed.

Lemma walk_attrs_numSends (K : Consts) (attrs : list Z) (a : AttrVals) :
  0 <= MAX_SENDS K -> 0 <= numSends a <= MAX_SENDS K ->
  0 <= numSends (walk_attrs K attrs a) <= MAX_SENDS K.
Proof.
  intros HK Ha.
  apply (walk_attrs_inv K (fun _ => true)
           (fun a => 0 <= numSends a <= MAX_SENDS K) eq_refl)
    with (n := List.length attrs); [|lia|apply forallb_true|exact Ha].
  intros k v a0 _ Ha0.
  pose proof (clampi_range v 0 (MAX_SENDS K) HK) as Hc.
  unfold attr_case.
  split_ifs; cbn [numSends set_schans set_stype set_freq set_alayout
                  set_ascale set_aorder set_numMono set_numStereo
                  set_numSends set_hrtf_appreq set_hrtf_id set_gainLimiter];
    lia.
Qed.

Lemma sends_from_config_range (K : Consts) (E : Env) (n : option string)
  (s : Z) :
  0 <= MAX_SENDS K -> 0 <= s <= MAX_SENDS K ->
  0 <= sends_from_config K E n s <= s.
Proof.
  intros HK Hs. unfold sends_from_config.
  destruct (ConfigValueInt E n "sends") as [v|]; [|lia].
  pose proof (clampi_range (wrapi v) 0 (MAX_SENDS K) HK).
  rewrite mini_spec. lia.
Qed.

Lemma attribute_stage_new_sends (K : Consts) (E : Env) (device : ALCdevice)
  (attrList : option (list Z)) :
  0 <= MAX_SENDS K -> 0 <= NumAuxSends device <= MAX_SENDS K ->
  stage_holds (fun _ => True) (fun l => 0 <= l_new_sends l <= MAX_SENDS K)
    (attribute_stage K E device attrList).
Proof.
  intros HK Hd.
  destruct (attrs_missing attrList) eqn:Hm.
  - rewrite (attribute_stage_missing K E device attrList Hm).
    destruct (DeviceType_eqb (Type_ device) Loopback); cbn; auto.
  - destruct attrList as [attrs|]; [|discriminate].
    rewrite (attribute_stage_present K E device attrs Hm). cbv zeta.
    destruct (_ && _)%bool; [exact I|].
    cbn [stage_holds l_new_sends]. split; [exact I|].
    pose proof (walk_attrs_numSends K attrs (initial_attrs device) HK Hd).
    match goal with
    | |- _ <= sends_from_config K E ?n ?s <= _ =>
        pose proof (sends_from_config_range K E n s HK ltac:(assumption))
    end.
    lia.
Qed.

(** X6.  The auxiliary send count of a device stays within 0 and
    MAX_SENDS across UpdateDeviceParams, whatever the attribute list and
    the configuration file ask for. *)
Theorem UpdateDeviceParams_send_count (K : Consts) (E : Env)
  (device : ALCdevice) (attrList : option (list Z)) :
  0 <= MAX_SENDS K ->
  0 <= NumAuxSends device <= MAX_SENDS K ->
  0 <= NumAuxSends (snd (UpdateDeviceParams K E device attrList))
    <= MAX_SENDS K.
Proof.
  intros HK Hd. rewrite UpdateDeviceParams_unfold.
  pose proof (attribute_stage_frame K E device attrList) as Ha.
  pose proof (attribute_stage_new_sends K E device attrList) as Hn.
  destruct (attribute_stage K E device attrList) as [e d|[d l]];
    cbn [stage_holds snd] in *.
  - destruct Ha as [_ [Ha _]]. rewrite Ha. exact Hd.
  - destruct Ha as [[_ [Ha _]] _]. destruct (Hn HK Hd) as [_ Hn'].
    destruct (after_attributes_frame K E d l) as [_ [_ [[H|H] _]]];
      cbv zeta in H; rewrite H; [rewrite Ha; exact Hd|exact Hn'].
Qed.

Lemma UpdateDeviceParams_send_count_witness :
  0 <= NumAuxSends
         (snd (UpdateDeviceParams upstream plain_env playback_device
                 (Some [ALC_MAX_AUXILIARY_SENDS; 1000; 0])))
    <= MAX_SENDS upstream.
Proof.
  apply (UpdateDeviceParams_send_count upstream plain_env playback_device
           (Some [ALC_MAX_AUXILIARY_SENDS; 1000; 0])).
  - vm_compute. discriminate.
  - vm_compute. split; discriminate.
Defined.

(* ------------------------------------------------------------------ *)
(** ** The device clock *)

Lemma wrapu_even_2 (m : Z) : Z.even (wrapu (wrapu (m + 1) + 1)) = Z.even m.
Proof.
  unfold wrapu. rewrite Z.add_mod_idemp_l by lia.
  rewrite !Zeven_mod.
  rewrite Z.mod_mod_divide by (exists (2 ^ 31); reflexivity).
  replace (m + 1 + 1) with (m + 1 * 2) by lia.
  rewrite Z.mod_add by lia. reflexivity.
Qed.

Lemma folded_clock_twice (d d' : ALCdevice) :
  clock d' = folded_clock d ->
  fst (fst (folded_clock d')) = fst (fst (folded_clock d))
  /\ snd (fst (folded_clock d')) = 0
  /\ Z.even (snd (folded_clock d')) = Z.even (MixCount d).
Proof.
  unfold clock, folded_clock. intros H. apply triple_eq in H.
  destruct H as [H1 [H2 H3]]. cbn [fst snd].
  rewrite H1, H2, H3. cbn [Z.mul].
  change (Z.quot 0 (Frequency d')) with 0. rewrite Z.add_0_r.
  rewrite !wrapu_even_2. auto.
Qed.

Lemma playback_periods_Frequency (K : Consts) (E : Env) (n : option string)
  (f : Z) (d : ALCdevice) :
  wrapu (DEFAULT_OUTPUT_RATE K) <> 0 ->
  0 < MIN_OUTPUT_RATE K <= INT_MAX ->
  Frequency (playback_periods K E n f d) <> 0.
Proof.
  intros Hd Hm. unfold INT_MAX in Hm.
  cbv beta zeta delta [playback_periods].
  destruct (negb (Z.land (CPUCapFlags E) _ =? 0));
    destruct (config_uint E n "frequency" f <? 1);
    cbn [Frequency set_UpdateSize set_NumUpdates set_Flags set_Frequency];
    try exact Hd;
    rewrite maxi_spec;
    pose proof (wrapi_range (config_uint E n "frequency" f)) as Hw;
    unfold INT_MAX in Hw;
    rewrite wrapu_small; lia.
Qed.

Lemma loopback_format_Frequency (K : Consts) (a : AttrVals) (d : ALCdevice) :
  Frequency (loopback_format K a d) = freq a.
Proof. unfold loopback_format. frame. Qed.

(** The frequency the second UpdateClockBase divides by is not zero when
    the one the device came with, the default rate and the minimum rate
    are not. *)
Lemma attribute_stage_Frequency (K : Consts) (E : Env) (device : ALCdevice)
  (attrList : option (list Z)) :
  Frequency device <> 0 ->
  wrapu (DEFAULT_OUTPUT_RATE K) <> 0 ->
  0 < MIN_OUTPUT_RATE K <= INT_MAX ->
  match attribute_stage K E device attrList with
  | Next (d, _) => Frequency d <> 0
  | Return _ _ => True
  end.
Proof.
  intros Hf Hd Hm. unfold attribute_stage.
  destruct (attrs_missing attrList) eqn:Hmiss; cbn [andb].
  - destruct (DeviceType_eqb (Type_ device) Loopback); [exact I|].
    destruct attrList; exact Hf.
  - destruct attrList as [attrs|]; [|exact Hf].
    set (a := walk_attrs K attrs _).
    destruct (DeviceType_eqb (Type_ device) Loopback); cbn [andb].
    + destruct (loopback_attrs_invalid K a) eqn:Hinv; [exact I|].
      destruct (source_counts E None a) as [numMono numStereo].
      cbn [Frequency set_NumStereoSources set_NumMonoSources set_SourcesMax].
      rewrite loopback_format_Frequency.
      unfold loopback_attrs_invalid in Hinv.
      do 5 (apply orb_false_iff in Hinv; destruct Hinv as [Hinv _]).
      apply orb_false_iff in Hinv. destruct Hinv as [_ Hinv].
      apply Z.eqb_neq, Hinv.
    + destruct (source_counts E _ a) as [numMono numStereo].
      cbn [Frequency set_NumStereoSources set_NumMonoSources set_SourcesMax].
      apply playback_periods_Frequency; assumption.
Qed.

(** X7.  UpdateDeviceParams keeps the device clock consistent, on a
    device whose frequency is not zero and with a default and a minimum
    output rate that are not zero, so that neither fold of the clock
    divides by zero: the parity of the mix count is preserved, so a count
    that was even (no mix in progress) is even on return; and unless the
    device comes back untouched, the samples done have been folded into
    the clock base at the frequency the device had before the call,
    exactly once.  The frequency the attribute block hands on, by which
    the second fold divides, is not zero either. *)
Theorem UpdateDeviceParams_clock (K : Consts) (E : Env) (device : ALCdevice)
  (attrList : option (list Z)) :
  Frequency device <> 0 ->
  wrapu (DEFAULT_OUTPUT_RATE K) <> 0 ->
  0 < MIN_OUTPUT_RATE K <= INT_MAX ->
  let d' := snd (UpdateDeviceParams K E device attrList) in
  Z.even (MixCount d') = Z.even (MixCount device)
  /\ (d' = device
      \/ (SamplesDone d' = 0
          /\ ClockBase d'
             = ClockBase device
               + Z.quot (SamplesDone device * 1000000000)
                   (Frequency device)))
  /\ (forall d l,
        attribute_stage K E device attrList = Next (d, l) ->
        Frequency d <> 0).
Proof.
  intros Hfreq Hdef Hmin. cbv zeta.
  assert (Hdiv : forall d l,
            attribute_stage K E device attrList = Next (d, l) ->
            Frequency d <> 0).
  { intros d l Ha.
    pose proof (attribute_stage_Frequency K E device attrList Hfreq Hdef Hmin)
      as H.
    rewrite Ha in H. exact H. }
  cut (Z.even (MixCount (snd (UpdateDeviceParams K E device attrList)))
       = Z.even (MixCount device)
       /\ (snd (UpdateDeviceParams K E device attrList) = device
           \/ (SamplesDone (snd (UpdateDeviceParams K E device attrList)) = 0
               /\ ClockBase (snd (UpdateDeviceParams K E device attrList))
                  = ClockBase device
                    + Z.quot (SamplesDone device * 1000000000)
                        (Frequency device)))).
  { intros [H1 H2]. split; [exact H1|]. split; [exact H2|exact Hdiv]. }
  clear Hdiv.
  assert (Hfold : forall d, clock d = folded_clock device ->
            Z.even (MixCount d) = Z.even (MixCount device)
            /\ SamplesDone d = 0
            /\ ClockBase d
               = ClockBase device
                 + Z.quot (SamplesDone device * 1000000000)
                     (Frequency device)).
  { intros d H. unfold clock, folded_clock in H. apply triple_eq in H.
    destruct H as [H1 [H2 H3]]. rewrite H1, H2, H3, wrapu_even_2. auto. }
  rewrite UpdateDeviceParams_unfold.
  pose proof (attribute_stage_frame K E device attrList) as Ha.
  destruct (attribute_stage K E device attrList) as [e d|[d l]];
    cbn [stage_holds snd] in *.
  - destruct Ha as [_ [_ [Ha|Ha]]]; [subst d; auto|].
    destruct (Hfold d Ha) as [F1 [F2 F3]]. auto.
  - destruct Ha as [[_ [_ Ha]] _].
    destruct (after_attributes_frame K E d l) as [_ [_ [_ [Hr|Hr]]]];
      cbv zeta in Hr.
    + rewrite Hr. cbn [snd].
      destruct Ha as [Ha|Ha]; [subst d; auto|].
      destruct (Hfold d Ha) as [F1 [F2 F3]]. auto.
    + rewrite UpdateClockBase_clock in Hr.
      set (r := snd (after_attributes K E (d, l))) in *.
      destruct Ha as [Ha|Ha].
      * subst d. destruct (Hfold r Hr) as [F1 [F2 F3]]. auto.
      * destruct (folded_clock_twice device d Ha) as [T1 [T2 T3]].
        unfold clock in Hr.
        assert (Hr' : ClockBase r = fst (fst (folded_clock d))
                      /\ SamplesDone r = snd (fst (folded_clock d))
                      /\ MixCount r = snd (folded_clock d)).
        { destruct (folded_clock d) as [[x y] z]. apply triple_eq in Hr.
          exact Hr. }
        destruct Hr' as [R1 [R2 R3]].
        rewrite R1, R2, R3, T1, T2, T3. cbn [fst snd folded_clock]. auto.
Qed.

Lemma UpdateDeviceParams_clock_witness :
  let d' := snd (UpdateDeviceParams upstream plain_env playback_device
                   (Some [ALC_FREQUENCY; 48000; 0])) in
  Z.even (MixCount d') = Z.even (MixCount playback_device)
  /\ (d' = playback_device
      \/ (SamplesDone d' = 0
          /\ ClockBase d'
             = ClockBase playback_device
               + Z.quot (SamplesDone playback_device * 1000000000)
                   (Frequency playback_device)))
  /\ (forall d l,
        attribute_stage upstream plain_env playback_device
          (Some [ALC_FREQUENCY; 48000; 0]) = Next (d, l) ->
        Frequency d <> 0).
Proof.
  apply (UpdateDeviceParams_clock upstream plain_env playback_device
           (Some [ALC_FREQUENCY; 48000; 0])).
  - vm_compute. discriminate.
  - vm_compute. discriminate.
  - cbn. lia.
Defined.

(* ------------------------------------------------------------------ *)
(** ** The RUNNING flag and the backend calls *)

Lemma flags_ok_paused (K : Consts) :
  flags_ok K = true ->
  0 <= DEVICE_PAUSED K < 2 ^ 32
  /\ Z.land (DEVICE_RUNNING K) (DEVICE_PAUSED K) = 0.
Proof.
  unfold flags_ok, disjoint_masks. cbn [forallb]. unfold is_u32. intros H.
  repeat match goal with
         | X : (_ && _)%bool = true |- _ =>
             let H1 := fresh "H" in
             apply andb_prop in X; destruct X as [X H1]
         end.
  rewrite ?Z.leb_le, ?Z.ltb_lt, ?Z.eqb_eq in *.
  repeat split; assumption.
Qed.

Lemma land_lor_same (f m : Z) : Z.land (Z.lor f m) m = m.
Proof.
  apply Z.bits_inj'. intros n _.
  rewrite Z.land_spec, Z.lor_spec.
  destruct (Z.testbit f n), (Z.testbit m n); reflexivity.
Qed.

Lemma has_flag_raise (f m : Z) : m <> 0 -> has_flag (raise_flag f m) m = true.
Proof.
  intros H. unfold has_flag, raise_flag. rewrite land_lor_same.
  apply negb_true_iff, Z.eqb_neq, H.
Qed.

Lemma land_lor_other (f m k : Z) :
  Z.land m k = 0 -> Z.land (Z.lor f m) k = Z.land f k.
Proof.
  intros H. rewrite Z.land_lor_distr_l, H. apply Z.lor_0_r.
Qed.

Lemma hrtf_request_Flags (K : Consts) (E : Env) (d : ALCdevice) (l : Locals) :
  Flags (fst (hrtf_request K E d l)) = Flags d
  \/ Flags (fst (hrtf_request K E d l))
     = raise_flag (Flags d)
         (Z.lor (DEVICE_CHANNELS_REQUEST K) (DEVICE_FREQUENCY_REQUEST K)).
Proof. unfold hrtf_request. split_ifs; cbn; auto. Qed.

Lemma reconcile_requests_land (K : Consts) (f : Z) (c : DevFmtChannels)
  (t : DevFmtType) (d : ALCdevice) (k : Z) :
  Z.land (Flags d) k = 0 ->
  Z.land (Flags (reconcile_requests K f c t d)) k = 0.
Proof.
  intros H. unfold reconcile_requests. cbv zeta.
  split_ifs; cbn [Flags set_Flags];
    repeat first [ exact H | apply land_clear_other ].
Qed.

(** The flags with which the device reaches the renderer set-up have
    RUNNING clear when the attribute block left it clear. *)
Lemma reset_path_stopped (K : Consts) (E : Env) (d : ALCdevice) (l : Locals) :
  flags_ok K = true ->
  has_flag (Flags d) (DEVICE_RUNNING K) = false ->
  let x := hrtf_request K E (clear_views K d) l in
  Z.land (Flags (after_reset E (fst x))) (DEVICE_RUNNING K) = 0
  /\ Z.land (Flags (reconcile_requests K (Frequency (fst x))
                      (FmtChans (fst x)) (FmtType (fst x))
                      (after_reset E (fst x)))) (DEVICE_RUNNING K) = 0.
Proof.
  intros HK Hr. cbv zeta.
  destruct (flags_ok_facts K HK) as [_ [HF [HC _]]].
  apply has_flag_false_iff in Hr.
  assert (H1 : Z.land (Flags (fst (hrtf_request K E (clear_views K d) l)))
                 (DEVICE_RUNNING K) = 0).
  { destruct (hrtf_request_Flags K E (clear_views K d) l) as [H|H];
      rewrite H; [exact Hr|].
    unfold raise_flag. rewrite land_lor_other; [exact Hr|].
    rewrite Z.land_lor_distr_l, (Z.land_comm _ (DEVICE_RUNNING K)), HC,
      (Z.land_comm _ (DEVICE_RUNNING K)), HF. reflexivity. }
  destruct (after_reset_frame E (fst (hrtf_request K E (clear_views K d) l)))
    as [_ [_ [_ [_ Hf]]]].
  split; [|apply reconcile_requests_land]; rewrite Hf; exact H1.
Qed.

(** X8.  How the RUNNING flag stands when UpdateDeviceParams returns:
    after ALC_INVALID_DEVICE the backend is marked stopped; after
    ALC_NO_ERROR on a device that is not paused it is marked running. *)
Theorem UpdateDeviceParams_running_flag (K : Consts) (E : Env)
  (device : ALCdevice) (attrList : option (list Z)) :
  flags_ok K = true ->
  DEVICE_RUNNING K <> 0 ->
  let r := UpdateDeviceParams K E device attrList in
  (fst r = ALC_INVALID_DEVICE ->
   has_flag (Flags (snd r)) (DEVICE_RUNNING K) = false)
  /\ (fst r = ALC_NO_ERROR ->
      has_flag (Flags (snd r)) (DEVICE_PAUSED K) = false ->
      has_flag (Flags (snd r)) (DEVICE_RUNNING K) = true).
Proof.
  intros HK HR. cbv zeta. rewrite UpdateDeviceParams_unfold.
  pose proof (attribute_stage_return K E device attrList) as Hret.
  destruct (attribute_stage K E device attrList) as [e d|[d l]].
  - rewrite (Hret e d eq_refl). cbn [fst]. split; discriminate.
  - clear Hret. rewrite after_attributes_unfold.
    destruct (has_flag (Flags d) (DEVICE_RUNNING K)) eqn:Hrun.
    { cbn [fst snd]. split; [discriminate|auto]. }
    cbv zeta.
    destruct (reset_path_stopped K E d l HK Hrun) as [H1 H2].
    cbv zeta in H1, H2.
    set (x := hrtf_request K E (clear_views K d) l) in *.
    destruct (fst (backend_reset E (fst x))).
    + set (d2 := reconcile_requests K _ _ _ _) in *.
      rewrite configure_stage_unfold. cbv zeta.
      pose proof (configured_Flags E d2 (snd x)) as Hc.
      set (d0 := configured E d2 (snd x)) in *.
      destruct (snd (update_contexts E d0 _ _ _)).
      { cbn [fst snd Flags set_ContextList]. rewrite Hc.
        split; [intros _; apply has_flag_false_iff, H2|discriminate]. }
      destruct (has_flag (Flags (set_ContextList _ d0)) (DEVICE_PAUSED K))
        eqn:Hp; cbn [negb].
      * cbn [fst snd]. split; [discriminate|]. intros _ Hp'. congruence.
      * destruct (backend_start E _); cbn [negb fst snd].
        -- split; [discriminate|]. intros _ _.
           cbn [Flags set_Flags]. apply has_flag_raise, HR.
        -- split; [|discriminate]. intros _.
           cbn [Flags log_call set_BackendLog set_ContextList]. rewrite Hc.
           apply has_flag_false_iff, H2.
    + cbn [fst snd]. split; [|discriminate]. intros _.
      apply has_flag_false_iff, H1.
Qed.

Lemma UpdateDeviceParams_running_flag_witness :
  let r := UpdateDeviceParams upstream plain_env running_playback_device
             (Some [ALC_FREQUENCY; 48000; 0]) in
  (fst r = ALC_INVALID_DEVICE ->
   has_flag (Flags (snd r)) (DEVICE_RUNNING upstream) = false)
  /\ (fst r = ALC_NO_ERROR ->
      has_flag (Flags (snd r)) (DEVICE_PAUSED upstream) = false ->
      has_flag (Flags (snd r)) (DEVICE_RUNNING upstream) = true).
Proof.
  apply (UpdateDeviceParams_running_flag upstream plain_env
           running_playback_device (Some [ALC_FREQUENCY; 48000; 0])).
  - reflexivity.
  - vm_compute. discriminate.
Defined.

Lemma stop_if_running_log (K : Consts) (d : ALCdevice) :
  BackendLog (stop_if_running K d)
  = BackendLog d
    ++ (if has_flag (Flags d) (DEVICE_RUNNING K) then [Backend_stop] else [])
  /\ Flags (stop_if_running K d) = clear_flag (Flags d) (DEVICE_RUNNING K).
Proof.
  unfold stop_if_running. cbv zeta.
  destruct (has_flag (Flags d) (DEVICE_RUNNING K)); cbn;
    rewrite ?app_nil_r; auto.
Qed.

Lemma prepared_log (K : Consts) (device : ALCdevice) (b : bool) :
  0 <= DEVICE_RUNNING K < 2 ^ 32 ->
  BackendLog (stop_if_running K
                (if b then device else stop_if_running K device))
  = BackendLog device
    ++ (if has_flag (Flags device) (DEVICE_RUNNING K)
        then [Backend_stop] else []).
Proof.
  intros HR. destruct b; [apply stop_if_running_log|].
  destruct (stop_if_running_log K (stop_if_running K device)) as [H1 _].
  destruct (stop_if_running_log K device) as [H2 H3].
  rewrite H1, H3, has_flag_clear by exact HR.
  rewrite app_nil_r. exact H2.
Qed.

Lemma playback_periods_log (K : Consts) (E : Env) (n : option string)
  (f : Z) (d : ALCdevice) :
  BackendLog (playback_periods K E n f d) = BackendLog d.
Proof. cbv beta zeta delta [playback_periods]. frame. Qed.

Lemma loopback_format_log (K : Consts) (a : AttrVals) (d : ALCdevice) :
  BackendLog (loopback_format K a d) = BackendLog d.
Proof. unfold loopback_format. frame. Qed.

Lemma hrtf_request_log (K : Consts) (E : Env) (d : ALCdevice) (l : Locals) :
  BackendLog (fst (hrtf_request K E d l)) = BackendLog d.
Proof. unfold hrtf_request. frame. Qed.

Lemma reconcile_requests_log (K : Consts) (f : Z) (c : DevFmtChannels)
  (t : DevFmtType) (d : ALCdevice) :
  BackendLog (reconcile_requests K f c t d) = BackendLog d.
Proof. unfold reconcile_requests. frame. Qed.

Lemma configured_log (E : Env) (d : ALCdevice) (l : Locals) :
  BackendLog (configured E d l) = BackendLog d.
Proof.
  unfold configured.
  set (d1 := apply_renderer _ d).
  assert (H1 : BackendLog d1 = BackendLog d) by reflexivity.
  set (d2 := allocate_mix_buffer _ d1).
  assert (H2 : BackendLog d2 = BackendLog d1).
  { subst d2. unfold allocate_mix_buffer. frame. }
  set (d3 := select_dither E d2).
  assert (H3 : BackendLog d3 = BackendLog d2).
  { subst d3. unfold select_dither. frame. }
  assert (H4 : BackendLog (select_limiter E (l_gainLimiter l) d3)
               = BackendLog d3).
  { unfold select_limiter. frame. }
  congruence.
Qed.

Lemma configure_stage_log (K : Consts) (E : Env) (d : ALCdevice)
  (l : Locals) :
  exists start : bool,
    BackendLog (snd (configure_stage K E (d, l)))
    = BackendLog d ++ (if start then [Backend_start] else []).
Proof.
  rewrite configure_stage_unfold. cbv zeta.
  rewrite <- (configured_log E d l).
  split_ifs; cbn [snd BackendLog log_call set_BackendLog set_ContextList
                  set_Flags];
    first [ exists true; reflexivity
          | exists false; rewrite app_nil_r; reflexivity ].
Qed.

Lemma attribute_stage_log (K : Consts) (E : Env) (device : ALCdevice)
  (attrList : option (list Z)) :
  0 <= DEVICE_RUNNING K < 2 ^ 32 ->
  stage_holds
    (fun d => exists stop : bool,
       BackendLog d
       = BackendLog device ++ (if stop then [Backend_stop] else [])
       /\ (stop = true -> attrs_missing attrList = false
                          /\ has_flag (Flags device) (DEVICE_RUNNING K) = true))
    (fun _ => True)
    (attribute_stage K E device attrList).
Proof.
  intros HR.
  assert (Hsame : exists stop : bool,
            BackendLog device
            = BackendLog device ++ (if stop then [Backend_stop] else [])
            /\ (stop = true -> attrs_missing attrList = false
                /\ has_flag (Flags device) (DEVICE_RUNNING K) = true)).
  { exists false. rewrite app_nil_r. split; [reflexivity|discriminate]. }
  destruct (attrs_missing attrList) eqn:Hm.
  - rewrite (attribute_stage_missing K E device attrList Hm).
    destruct (DeviceType_eqb (Type_ device) Loopback); cbn; auto.
  - destruct attrList as [attrs|]; [|discriminate].
    rewrite (attribute_stage_present K E device attrs Hm). cbv zeta.
    destruct (_ && _)%bool; [exact Hsame|].
    cbn [stage_holds]. split; [|exact I].
    cbn [BackendLog set_NumStereoSources set_NumMonoSources set_SourcesMax].
    exists (has_flag (Flags device) (DEVICE_RUNNING K)).
    split; [|auto].
    rewrite <- (prepared_log K device
                  (DeviceType_eqb (Type_ device) Loopback) HR).
    set (p := stop_if_running K _).
    destruct (DeviceType_eqb (Type_ device) Loopback).
    + rewrite loopback_format_log. reflexivity.
    + rewrite playback_periods_log. reflexivity.
Qed.

(** X9.  The backend calls of UpdateDeviceParams: the log grows by at most
    a stop, a reset and a start, in that order.  The backend is started
    only after it has been reset, it is stopped only when it ran and an
    attribute list was given, and a call answered with ALC_INVALID_VALUE
    has not touched the backend. *)
Theorem UpdateDeviceParams_backend_calls (K : Consts) (E : Env)
  (device : ALCdevice) (attrList : option (list Z)) :
  0 <= DEVICE_RUNNING K < 2 ^ 32 ->
  let r := UpdateDeviceParams K E device attrList in
  exists stop reset start : bool,
    BackendLog (snd r) = BackendLog device ++ backend_calls stop reset start
    /\ (start = true -> reset = true)
    /\ (stop = true -> attrs_missing attrList = false
                       /\ has_flag (Flags device) (DEVICE_RUNNING K) = true)
    /\ (fst r = ALC_INVALID_VALUE ->
        stop = false /\ reset = false /\ start = false).
Proof.
  intros HR. cbv zeta. rewrite UpdateDeviceParams_unfold.
  pose proof (attribute_stage_log K E device attrList HR) as Hl.
  pose proof (attribute_stage_invalid K E device attrList) as Hi.
  destruct (attribute_stage K E device attrList) as [e d|[d l]];
    cbn [stage_holds fst snd] in *.
  - destruct (Hi e d eq_refl) as [_ Hd]. subst d.
    exists false, false, false. unfold backend_calls. cbn [app].
    rewrite app_nil_r. repeat split; discriminate.
  - clear Hi. destruct Hl as [[stop [Hlog Hstop]] _].
    rewrite after_attributes_unfold.
    destruct (has_flag (Flags d) (DEVICE_RUNNING K)).
    { exists stop, false, false. unfold backend_calls. cbn [fst snd app].
      rewrite app_nil_r. repeat split; try discriminate; try apply Hstop;
        assumption. }
    cbv zeta.
    pose proof (hrtf_request_log K E (clear_views K d) l) as Hh.
    set (x := hrtf_request K E (clear_views K d) l) in *.
    assert (Hx : BackendLog (after_reset E (fst x))
                 = (BackendLog device ++ (if stop then [Backend_stop] else []))
                   ++ [Backend_reset]).
    { rewrite <- Hlog.
      change (BackendLog (after_reset E (fst x)))
        with (BackendLog (fst x) ++ [Backend_reset]).
      rewrite Hh. reflexivity. }
    destruct (fst (backend_reset E (fst x))).
    + set (d2 := reconcile_requests K _ _ _ _).
      destruct (configure_stage_log K E d2 (snd x)) as [start Hs].
      destruct (configure_stage_codes K E (d2, snd x)) as [Hc|Hc].
      * exists stop, true, start. rewrite Hs, Hc. subst d2.
        rewrite reconcile_requests_log, Hx. unfold backend_calls.
        rewrite <- !app_assoc. repeat split; try discriminate; apply Hstop;
          assumption.
      * exists stop, true, start. rewrite Hs, Hc. subst d2.
        rewrite reconcile_requests_log, Hx. unfold backend_calls.
        rewrite <- !app_assoc. repeat split; try discriminate; apply Hstop;
          assumption.
    + exists stop, true, false. cbn [fst snd]. rewrite Hx.
      unfold backend_calls. rewrite <- !app_assoc.
      repeat split; try discriminate; apply Hstop; assumption.
Qed.

Lemma UpdateDeviceParams_backend_calls_witness :
  let r := UpdateDeviceParams upstream plain_env running_playback_device
             (Some [ALC_FREQUENCY; 48000; 0]) in
  exists stop reset start : bool,
    BackendLog (snd r)
    = BackendLog running_playback_device ++ backend_calls stop reset start
    /\ (start = true -> reset = true)
    /\ (stop = true ->
        attrs_missing (Some [ALC_FREQUENCY; 48000; 0]) = false
        /\ has_flag (Flags running_playback_device) (DEVICE_RUNNING upstream)
           = true)
    /\ (fst r = ALC_INVALID_VALUE ->
        stop = false /\ reset = false /\ start = false).
Proof.
  apply (UpdateDeviceParams_backend_calls upstream plain_env
           running_playback_device (Some [ALC_FREQUENCY; 48000; 0])).
  vm_compute. split; [discriminate|reflexivity].
Defined.

(* ------------------------------------------------------------------ *)
(** ** The context list *)

Lemma update_contexts_length (E : Env) (d : ALCdevice) (old_sends : Z) :
  forall cs failed,
    List.length (fst (update_contexts E d old_sends cs failed))
    = List.length cs.
Proof.
  induction cs as [|c cs IH]; intros failed; [reflexivity|].
  cbn [update_contexts].
  destruct (update_context E d old_sends c failed) as [c' f'].
  specialize (IH f').
  destruct (update_contexts E d old_sends cs f') as [rest f''].
  cbn [fst List.length] in *. rewrite IH. reflexivity.
Qed.

Lemma stage_contexts (K : Consts) (E : Env) (d : ALCdevice) :
  ContextList (stop_if_running K d) = ContextList d
  /\ (forall n f, ContextList (playback_periods K E n f d) = ContextList d)
  /\ (forall a, ContextList (loopback_format K a d) = ContextList d)
  /\ (forall l, ContextList (fst (hrtf_request K E d l)) = ContextList d)
  /\ (forall f c t, ContextList (reconcile_requests K f c t d) = ContextList d)
  /\ (forall n, ContextList (allocate_mix_buffer n d) = ContextList d)
  /\ ContextList (select_dither E d) = ContextList d
  /\ (forall g, ContextList (select_limiter E g d) = ContextList d).
Proof.
  repeat split; intros.
  - unfold stop_if_running. frame.
  - cbv beta zeta delta [playback_periods]. frame.
  - unfold loopback_format. frame.
  - unfold hrtf_request. frame.
  - unfold reconcile_requests. frame.
  - unfold allocate_mix_buffer. frame.
  - unfold select_dither. frame.
  - unfold select_limiter. frame.
Qed.

Lemma configured_contexts (E : Env) (d : ALCdevice) (l : Locals) :
  ContextList (configured E d l) = ContextList d.
Proof.
  unfold configured.
  set (d1 := apply_renderer _ d).
  assert (H1 : ContextList d1 = ContextList d) by reflexivity.
  set (d2 := allocate_mix_buffer _ d1).
  destruct (stage_contexts upstream E d1) as [_ [_ [_ [_ [_ [H2 _]]]]]].
  destruct (stage_contexts upstream E d2) as [_ [_ [_ [_ [_ [_ [H3 _]]]]]]].
  destruct (stage_contexts upstream E (select_dither E d2))
    as [_ [_ [_ [_ [_ [_ [_ H4]]]]]]].
  rewrite H4, H3. subst d2. rewrite H2. exact H1.
Qed.

Lemma attribute_stage_contexts (K : Consts) (E : Env) (device : ALCdevice)
  (attrList : option (list Z)) :
  stage_holds (fun d => ContextList d = ContextList device) (fun _ => True)
    (attribute_stage K E device attrList).
Proof.
  destruct (attrs_missing attrList) eqn:Hm.
  - rewrite (attribute_stage_missing K E device attrList Hm).
    destruct (DeviceType_eqb (Type_ device) Loopback); cbn; auto.
  - destruct attrList as [attrs|]; [|discriminate].
    rewrite (attribute_stage_present K E device attrs Hm). cbv zeta.
    destruct (_ && _)%bool; [reflexivity|].
    cbn [stage_holds]. split; [|exact I].
    cbn [ContextList set_NumStereoSources set_NumMonoSources set_SourcesMax].
    assert (Hp : ContextList
                   (stop_if_running K
                      (if DeviceType_eqb (Type_ device) Loopback then device
                       else stop_if_running K device))
                 = ContextList device).
    { destruct (stage_contexts K E device) as [H1 _].
      destruct (DeviceType_eqb (Type_ device) Loopback); [exact H1|].
      destruct (stage_contexts K E (stop_if_running K device)) as [H2 _].
      rewrite H2. exact H1. }
    set (p := stop_if_running K _) in *.
    destruct (stage_contexts K E (UpdateClockBase p))
      as [_ [H2 [H3 _]]].
    destruct (DeviceType_eqb (Type_ device) Loopback);
      rewrite ?H2, ?H3; exact Hp.
Qed.

Lemma after_reset_contexts (E : Env) (d : ALCdevice) :
  ContextList (after_reset E d) = ContextList d.
Proof. reflexivity. Qed.

(** UpdateDeviceParams neither attaches nor detaches a context. *)
Lemma UpdateDeviceParams_contexts (K : Consts) (E : Env) (device : ALCdevice)
  (attrList : option (list Z)) :
  List.length (ContextList (snd (UpdateDeviceParams K E device attrList)))
  = List.length (ContextList device).
Proof.
  rewrite UpdateDeviceParams_unfold.
  pose proof (attribute_stage_contexts K E device attrList) as Ha.
  destruct (attribute_stage K E device attrList) as [e d|[d l]];
    cbn [stage_holds snd] in *.
  - rewrite Ha. reflexivity.
  - destruct Ha as [Ha _]. rewrite <- Ha. clear Ha.
    rewrite after_attributes_unfold.
    destruct (has_flag (Flags d) (DEVICE_RUNNING K)); [reflexivity|].
    cbv zeta.
    destruct (stage_contexts K E (clear_views K d)) as [_ [_ [_ [Hh _]]]].
    specialize (Hh l).
    set (x := hrtf_request K E (clear_views K d) l) in *.
    assert (Hr : ContextList (after_reset E (fst x)) = ContextList d).
    { rewrite after_reset_contexts. exact Hh. }
    destruct (fst (backend_reset E (fst x))); [|cbn [snd]; congruence].
    destruct (stage_contexts K E (after_reset E (fst x)))
      as [_ [_ [_ [_ [Hq _]]]]].
    specialize (Hq (Frequency (fst x)) (FmtChans (fst x)) (FmtType (fst x))).
    set (d2 := reconcile_requests K _ _ _ _) in *.
    rewrite configure_stage_unfold. cbv zeta.
    pose proof (configured_contexts E d2 (snd x)) as Hc.
    set (d0 := configured E d2 (snd x)) in *.
    assert (Hlen : List.length
                     (fst (update_contexts E d0 (l_old_sends (snd x))
                             (ContextList d0) false))
                   = List.length (ContextList d)).
    { rewrite update_contexts_length. congruence. }
    split_ifs; cbn [snd ContextList set_ContextList set_Flags log_call
                    set_BackendLog]; exact Hlen.
Qed.

(* ------------------------------------------------------------------ *)
(** ** Entry points: what the caller gets back *)

Lemma device_at_put (st : ALCstate) (addr : positive) (d d' : ALCdevice) :
  device_at st addr = Some d ->
  device_at (put_device addr d' st) addr = Some d'.
Proof.
  intros H. unfold put_device. rewrite device_at_modify, Pos.eqb_refl, H.
  reflexivity.
Qed.

Lemma device_at_set_error (st : ALCstate) (addr : positive) (e : Z)
  (d : ALCdevice) :
  device_at st addr = Some d ->
  device_at (alcSetError st (Some addr) e) addr = Some (set_LastError e d).
Proof.
  intros H. rewrite device_at_alcSetError, Pos.eqb_refl, H. reflexivity.
Qed.

Lemma device_at_modify_same (st : ALCstate) (addr : positive)
  (f : ALCdevice -> ALCdevice) (d : ALCdevice) :
  device_at st addr = Some d ->
  device_at (modify_device addr f st) addr = Some (f d).
Proof.
  intros H. rewrite device_at_modify, Pos.eqb_refl, H. reflexivity.
Qed.

Lemma locked_disconnect_fields (d : ALCdevice) :
  Connected (locked_disconnect d) = false
  /\ LastError (locked_disconnect d) = LastError d
  /\ Type_ (locked_disconnect d) = Type_ d
  /\ List.length (ContextList (locked_disconnect d))
     = List.length (ContextList d).
Proof.
  repeat split. cbn. apply length_map.
Qed.

Lemma UpdateDeviceParams_codes (K : Consts) (E : Env) (device : ALCdevice)
  (attrList : option (list Z)) :
  fst (UpdateDeviceParams K E device attrList) = ALC_NO_ERROR
  \/ fst (UpdateDeviceParams K E device attrList) = ALC_INVALID_VALUE
  \/ fst (UpdateDeviceParams K E device attrList) = ALC_INVALID_DEVICE.
Proof.
  rewrite UpdateDeviceParams_unfold.
  pose proof (attribute_stage_return K E device attrList) as Hr.
  destruct (attribute_stage K E device attrList) as [e d|x].
  - rewrite (Hr e d eq_refl). auto.
  - destruct (after_attributes_codes K E x); auto.
Qed.

(** X10.  alcCreateContext returns a context exactly when it attached
    one: on success the device has one context more, is connected, is not
    a capture device and its error latch reads ALC_NO_ERROR; on failure
    the context list has its old length and the latch holds
    ALC_INVALID_DEVICE or ALC_INVALID_VALUE. *)
Theorem alcCreateContext_outcome (K : Consts) (E : Env) (st : ALCstate)
  (device : Z) (attrList : option (list Z)) (addr : positive)
  (d : ALCdevice) :
  VerifyDevice st device = Some (addr, d) ->
  let r := alcCreateContext K E st device attrList in
  exists d',
    device_at (fst r) addr = Some d'
    /\ (snd r = true ->
        List.length (ContextList d') = S (List.length (ContextList d))
        /\ LastError d' = ALC_NO_ERROR /\ Connected d' = true
        /\ DeviceType_eqb (Type_ d') Capture = false)
    /\ (snd r = false ->
        List.length (ContextList d') = List.length (ContextList d)
        /\ (LastError d' = ALC_INVALID_DEVICE
            \/ LastError d' = ALC_INVALID_VALUE)).
Proof.
  intros Hv. cbv zeta.
  destruct (device_at_verified st device addr d Hv) as [_ Hd].
  unfold alcCreateContext. rewrite Hv.
  destruct (DeviceType_eqb (Type_ d) Capture || negb (Connected d))%bool
    eqn:Hbad.
  { exists (set_LastError ALC_INVALID_DEVICE d). cbn [fst snd].
    split; [apply device_at_set_error, Hd|].
    split; [discriminate|]. intros _. cbn. auto. }
  apply orb_false_elim in Hbad. destruct Hbad as [Hcap Hcon].
  apply negb_false_iff in Hcon.
  pose proof (UpdateDeviceParams_identity K E
                (set_LastError ALC_NO_ERROR d) attrList) as Hid.
  apply identity_fields_eq in Hid.
  destruct Hid as [Htype [_ [Hconn [Hlast _]]]].
  pose proof (UpdateDeviceParams_contexts K E
                (set_LastError ALC_NO_ERROR d) attrList) as Hlen.
  pose proof (UpdateDeviceParams_codes K E
                (set_LastError ALC_NO_ERROR d) attrList) as Hcodes.
  destruct (UpdateDeviceParams K E (set_LastError ALC_NO_ERROR d) attrList)
    as [err d1].
  cbn [fst snd] in *.
  change (Type_ (set_LastError ALC_NO_ERROR d)) with (Type_ d) in Htype.
  change (Connected (set_LastError ALC_NO_ERROR d)) with (Connected d)
    in Hconn.
  change (LastError (set_LastError ALC_NO_ERROR d)) with ALC_NO_ERROR
    in Hlast.
  change (ContextList (set_LastError ALC_NO_ERROR d)) with (ContextList d)
    in Hlen.
  pose proof (device_at_put st addr d d1 Hd) as Hput.
  destruct Hcodes as [He|[He|He]]; subst err.
  - cbn [negb Z.eqb]. change (negb (ALC_NO_ERROR =? ALC_NO_ERROR)) with false.
    cbv iota. cbv zeta.
    eexists. cbn [fst snd].
    split; [apply (device_at_put st addr d _ Hd)|].
    split; [|discriminate]. intros _.
    cbn [ContextList set_ContextList LastError Connected Type_ List.length].
    rewrite Hlen, Hlast, Hconn, Htype. auto.
  - change (negb (ALC_INVALID_VALUE =? ALC_NO_ERROR)) with true.
    change (ALC_INVALID_VALUE =? ALC_INVALID_DEVICE) with false.
    cbv iota. exists (set_LastError ALC_INVALID_VALUE d1). cbn [fst snd].
    split; [apply device_at_set_error, Hput|].
    split; [discriminate|]. intros _. cbn [ContextList set_LastError LastError].
    auto.
  - change (negb (ALC_INVALID_DEVICE =? ALC_NO_ERROR)) with true.
    change (ALC_INVALID_DEVICE =? ALC_INVALID_DEVICE) with true.
    cbv iota.
    exists (locked_disconnect (set_LastError ALC_INVALID_DEVICE d1)).
    cbn [fst snd].
    split; [apply device_at_modify_same, device_at_set_error, Hput|].
    split; [discriminate|]. intros _.
    destruct (locked_disconnect_fields (set_LastError ALC_INVALID_DEVICE d1))
      as [_ [L1 [_ L2]]].
    rewrite L1, L2. cbn [ContextList set_LastError LastError]. auto.
Qed.

Lemma alcCreateContext_outcome_witness :
  let r := alcCreateContext upstream plain_env (one_device playback_device) 1
             None in
  exists d',
    device_at (fst r) 1 = Some d'
    /\ (snd r = true ->
        List.length (ContextList d')
        = S (List.length (ContextList playback_device))
        /\ LastError d' = ALC_NO_ERROR /\ Connected d' = true
        /\ DeviceType_eqb (Type_ d') Capture = false)
    /\ (snd r = false ->
        List.length (ContextList d')
        = List.length (ContextList playback_device)
        /\ (LastError d' = ALC_INVALID_DEVICE
            \/ LastError d' = ALC_INVALID_VALUE)).
Proof.
  apply (alcCreateContext_outcome upstream plain_env
           (one_device playback_device) 1 None 1%positive playback_device).
  reflexivity.
Defined.

Lemma UpdateDeviceParams_invalid_value (K : Consts) (E : Env)
  (device : ALCdevice) (attrList : option (list Z)) :
  fst (UpdateDeviceParams K E device attrList) = ALC_INVALID_VALUE ->
  DeviceType_eqb (Type_ device) Loopback = true
  /\ snd (UpdateDeviceParams K E device attrList) = device.
Proof.
  rewrite UpdateDeviceParams_unfold.
  pose proof (attribute_stage_invalid K E device attrList) as Hi.
  destruct (attribute_stage K E device attrList) as [e d|x].
  - intros _. apply (Hi e d eq_refl).
  - intros H. destruct (after_attributes_codes K E x) as [Hc|Hc];
      rewrite Hc in H; discriminate H.
Qed.

(** X11.  alcResetDeviceSOFT answers ALC_TRUE exactly when the device
    came out reconfigured: then the error latch is as it was and the
    device is connected.  When it answers ALC_FALSE the latch says why:
    ALC_INVALID_DEVICE for a capture device (nothing else changes) or a
    failed update (the device is then disconnected), ALC_INVALID_VALUE
    for a rejected loopback list (the device stays marked connected). *)
Theorem alcResetDeviceSOFT_outcome (K : Consts) (E : Env) (st : ALCstate)
  (device : Z) (attribs : option (list Z)) (addr : positive)
  (d : ALCdevice) :
  VerifyDevice st device = Some (addr, d) ->
  let r := alcResetDeviceSOFT K E st device attribs in
  exists d',
    device_at (fst r) addr = Some d'
    /\ Type_ d' = Type_ d
    /\ (snd r = true ->
        LastError d' = LastError d /\ Connected d' = true
        /\ DeviceType_eqb (Type_ d) Capture = false)
    /\ (snd r = false ->
        (LastError d' = ALC_INVALID_DEVICE
         /\ (d' = set_LastError ALC_INVALID_DEVICE d
             /\ DeviceType_eqb (Type_ d) Capture = true
             \/ Connected d' = false))
        \/ (LastError d' = ALC_INVALID_VALUE
            /\ DeviceType_eqb (Type_ d) Loopback = true
            /\ Connected d' = true)).
Proof.
  intros Hv. cbv zeta.
  destruct (device_at_verified st device addr d Hv) as [_ Hd].
  unfold alcResetDeviceSOFT. rewrite Hv.
  destruct (DeviceType_eqb (Type_ d) Capture) eqn:Hcap.
  { exists (set_LastError ALC_INVALID_DEVICE d). cbn [fst snd].
    split; [apply device_at_set_error, Hd|].
    split; [reflexivity|]. split; [discriminate|]. intros _. left. auto. }
  set (d0 := set_Connected true (stop_if_running K d)).
  assert (H0 : Type_ d0 = Type_ d /\ LastError d0 = LastError d
               /\ Connected d0 = true).
  { destruct (stop_if_running_frame K d) as [Hi _].
    apply identity_fields_eq in Hi. destruct Hi as [H1 [_ [_ [H2 _]]]].
    subst d0. cbn [Type_ LastError Connected set_Connected]. auto. }
  destruct H0 as [T0 [L0 C0]].
  pose proof (UpdateDeviceParams_identity K E d0 attribs) as Hid.
  apply identity_fields_eq in Hid.
  destruct Hid as [Htype [_ [Hconn [Hlast _]]]].
  pose proof (UpdateDeviceParams_codes K E d0 attribs) as Hcodes.
  pose proof (UpdateDeviceParams_invalid_value K E d0 attribs) as Hiv.
  destruct (UpdateDeviceParams K E d0 attribs) as [err d1].
  cbn [fst snd] in *.
  pose proof (device_at_put st addr d d1 Hd) as Hput.
  destruct Hcodes as [He|[He|He]]; subst err.
  - change (ALC_NO_ERROR =? ALC_NO_ERROR) with true. cbv iota.
    exists d1. cbn [fst snd]. split; [exact Hput|].
    split; [congruence|]. split; [|discriminate]. intros _.
    rewrite Hlast, Hconn. auto.
  - change (ALC_INVALID_VALUE =? ALC_NO_ERROR) with false.
    change (ALC_INVALID_VALUE =? ALC_INVALID_DEVICE) with false.
    cbv iota. exists (set_LastError ALC_INVALID_VALUE d1). cbn [fst snd].
    split; [apply device_at_set_error, Hput|].
    split; [cbn [Type_ set_LastError]; congruence|].
    split; [discriminate|]. intros _. right.
    destruct (Hiv eq_refl) as [Hl _].
    cbn [LastError Connected set_LastError]. rewrite <- T0, Hconn. auto.
  - change (ALC_INVALID_DEVICE =? ALC_NO_ERROR) with false.
    change (ALC_INVALID_DEVICE =? ALC_INVALID_DEVICE) with true.
    cbv iota.
    exists (locked_disconnect (set_LastError ALC_INVALID_DEVICE d1)).
    cbn [fst snd].
    split; [apply device_at_modify_same, device_at_set_error, Hput|].
    destruct (locked_disconnect_fields (set_LastError ALC_INVALID_DEVICE d1))
      as [L1 [L2 [L3 _]]].
    split; [rewrite L3; cbn [Type_ set_LastError]; congruence|].
    split; [discriminate|]. intros _. left.
    rewrite L1, L2. auto.
Qed.

Lemma alcResetDeviceSOFT_outcome_witness :
  let r := alcResetDeviceSOFT upstream plain_env (one_device loopback_device)
             1 (Some [ALC_FREQUENCY; 44100; 0]) in
  exists d',
    device_at (fst r) 1 = Some d'
    /\ Type_ d' = Type_ loopback_device
    /\ (snd r = true ->
        LastError d' = LastError loopback_device /\ Connected d' = true
        /\ DeviceType_eqb (Type_ loopback_device) Capture = false)
    /\ (snd r = false ->
        (LastError d' = ALC_INVALID_DEVICE
         /\ (d' = set_LastError ALC_INVALID_DEVICE loopback_device
             /\ DeviceType_eqb (Type_ loopback_device) Capture = true
             \/ Connected d' = false))
        \/ (LastError d' = ALC_INVALID_VALUE
            /\ DeviceType_eqb (Type_ loopback_device) Loopback = true
            /\ Connected d' = true)).
Proof.
  apply (alcResetDeviceSOFT_outcome upstream plain_env
           (one_device loopback_device) 1 (Some [ALC_FREQUENCY; 44100; 0])
           1%positive loopback_device).
  reflexivity.
Defined.

(* ------------------------------------------------------------------ *)
(** ** Pausing, resuming, capturing: round trips *)

Lemma testbit_u32_high (f n : Z) :
  0 <= f < 2 ^ 32 -> 32 <= n -> Z.testbit f n = false.
Proof.
  intros Hf Hn. rewrite <- (Z.mod_small f (2 ^ 32)) by exact Hf.
  apply Z.mod_pow2_bits_high. lia.
Qed.

Lemma testbit_notu (m n : Z) :
  0 <= n ->
  Z.testbit (notu m) n = if n <? 32 then negb (Z.testbit m n) else false.
Proof.
  intros Hn. unfold notu, wrapu. destruct (n <? 32) eqn:Hlt.
  - apply Z.ltb_lt in Hlt. rewrite Z.mod_pow2_bits_low by lia.
    apply Z.lnot_spec, Hn.
  - apply Z.ltb_ge in Hlt. apply Z.mod_pow2_bits_high. lia.
Qed.

Lemma testbit_disjoint (a b n : Z) :
  Z.land a b = 0 -> Z.testbit a n = true -> Z.testbit b n = false.
Proof.
  intros H Ha.
  assert (Hb : Z.testbit (Z.land a b) n = false)
    by (rewrite H; apply Z.bits_0).
  rewrite Z.land_spec, Ha in Hb. exact Hb.
Qed.

(** Raising a mask that was clear and clearing it again gives the flags
    back. *)
Lemma raise_then_clear (f m : Z) :
  0 <= f < 2 ^ 32 -> Z.land f m = 0 ->
  clear_flag (raise_flag f m) m = f.
Proof.
  intros Hf Hd. unfold clear_flag, raise_flag.
  apply Z.bits_inj'. intros n Hn.
  rewrite Z.land_spec, Z.lor_spec, testbit_notu by exact Hn.
  destruct (n <? 32) eqn:Hlt.
  - destruct (Z.testbit f n) eqn:Hb.
    + rewrite (testbit_disjoint f m n Hd Hb). reflexivity.
    + destruct (Z.testbit m n); reflexivity.
  - apply Z.ltb_ge in Hlt. rewrite (testbit_u32_high f n Hf Hlt).
    apply andb_false_r.
Qed.

(** Clearing a mask that was fully set and raising it again gives the
    flags back. *)
Lemma clear_then_raise (f m : Z) :
  0 <= f < 2 ^ 32 -> Z.land f m = m ->
  raise_flag (clear_flag f m) m = f.
Proof.
  intros Hf Hs. unfold clear_flag, raise_flag.
  apply Z.bits_inj'. intros n Hn.
  rewrite Z.lor_spec, Z.land_spec, testbit_notu by exact Hn.
  assert (Hm : Z.testbit m n = (Z.testbit f n && Z.testbit m n)%bool)
    by (rewrite <- Z.land_spec, Hs; reflexivity).
  destruct (n <? 32) eqn:Hlt.
  - destruct (Z.testbit f n), (Z.testbit m n); try reflexivity.
    discriminate Hm.
  - apply Z.ltb_ge in Hlt. rewrite (testbit_u32_high f n Hf Hlt) in *.
    cbn [andb] in *. rewrite Hm. reflexivity.
Qed.

Lemma has_flag_full (f m : Z) : m <> 0 -> Z.land f m = m -> has_flag f m = true.
Proof.
  intros Hm Hf. unfold has_flag. rewrite Hf.
  apply negb_true_iff, Z.eqb_neq, Hm.
Qed.

(** X12.  Capture round trip: on a connected capture device that is not
    running and whose backend starts, alcCaptureStart followed by
    alcCaptureStop leaves the device exactly as it was apart from the two
    backend calls it made, start then stop. *)
Theorem alcCaptureStart_Stop_round_trip (K : Consts) (E : Env)
  (st : ALCstate) (device : Z) (addr : positive) (d : ALCdevice) :
  VerifyDevice st device = Some (addr, d) ->
  DeviceType_eqb (Type_ d) Capture = true ->
  Connected d = true ->
  0 <= DEVICE_RUNNING K < 2 ^ 32 -> DEVICE_RUNNING K <> 0 ->
  0 <= Flags d < 2 ^ 32 ->
  Z.land (Flags d) (DEVICE_RUNNING K) = 0 ->
  backend_start E d = true ->
  device_at (alcCaptureStop K (alcCaptureStart K E st device) device) addr
  = Some (set_BackendLog (BackendLog d ++ [Backend_start; Backend_stop]) d).
Proof.
  intros Hv Ht Hc HR HR0 Hf Hrun Hstart.
  destruct (device_at_verified st device addr d Hv) as [Hp Hd].
  unfold alcCaptureStart. rewrite Hv, Ht, Hc. cbn [negb].
  assert (Hnot : has_flag (Flags d) (DEVICE_RUNNING K) = false)
    by (apply has_flag_false_iff, Hrun).
  rewrite Hnot, Hstart. cbn [negb].
  set (d1 := set_Flags _ _).
  assert (Hv1 : VerifyDevice (put_device addr d1 st) device = Some (addr, d1))
    by exact (VerifyDevice_modify_same st addr (fun _ => d1) device d Hv).
  unfold alcCaptureStop. rewrite Hv1.
  change (Type_ d1) with (Type_ d). rewrite Ht. cbn [negb].
  rewrite (device_at_put _ addr d1 _ (device_at_put st addr d d1 Hd)).
  f_equal. unfold stop_if_running. cbv zeta.
  change (Flags d1) with (raise_flag (Flags d) (DEVICE_RUNNING K)).
  rewrite (has_flag_raise _ _ HR0).
  cbn [Flags log_call set_BackendLog]. subst d1.
  cbn [Flags log_call set_BackendLog set_Flags BackendLog Type_ DeviceName
       Connected LastError Frequency UpdateSize NumUpdates FmtChans FmtType
       mAmbiOrder mAmbiLayout mAmbiScale SourcesMax AuxiliaryEffectSlotMax
       NumMonoSources NumStereoSources NumAuxSends LimiterState Limiter
       HrtfStatus HrtfHandle HrtfList Uhj_Encoder Bs2b ChannelDelay Dry
       FOAOut RealOut MixBuffer AvgSpeakerDist_pos ClockBase SamplesDone
       MixCount FixedLatency DitherSeed DitherDepth ContextList].
  rewrite (raise_then_clear _ _ Hf Hrun).
  unfold log_call, set_Flags, set_BackendLog.
  cbn [BackendLog Type_ DeviceName
       Connected LastError Frequency UpdateSize NumUpdates FmtChans FmtType
       mAmbiOrder mAmbiLayout mAmbiScale SourcesMax AuxiliaryEffectSlotMax
       NumMonoSources NumStereoSources NumAuxSends LimiterState Limiter
       HrtfStatus HrtfHandle HrtfList Uhj_Encoder Bs2b ChannelDelay Dry
       FOAOut RealOut MixBuffer AvgSpeakerDist_pos ClockBase SamplesDone
       MixCount FixedLatency DitherSeed DitherDepth ContextList].
  rewrite <- app_assoc. reflexivity.
Qed.

Lemma alcCaptureStart_Stop_round_trip_witness :
  device_at
    (alcCaptureStop upstream
       (alcCaptureStart upstream plain_env (one_device capture_device) 1) 1) 1
  = Some (set_BackendLog
            (BackendLog capture_device ++ [Backend_start; Backend_stop])
            capture_device).
Proof.
  apply (alcCaptureStart_Stop_round_trip upstream plain_env
           (one_device capture_device) 1 1%positive capture_device);
    try reflexivity.
  - vm_compute. split; [discriminate|reflexivity].
  - vm_compute. discriminate.
  - vm_compute. split; [discriminate|reflexivity].
Defined.

Lemma pause_resume_flags (f r p : Z) :
  0 <= f < 2 ^ 32 -> Z.land f r = r -> Z.land f p = 0 ->
  raise_flag (clear_flag (raise_flag (clear_flag f r) p) p) r = f.
Proof.
  intros Hf Hr Hp. unfold clear_flag, raise_flag.
  apply Z.bits_inj'. intros n Hn.
  rewrite !Z.lor_spec, !Z.land_spec, !Z.lor_spec, !Z.land_spec,
    !testbit_notu by exact Hn.
  assert (Hrn : Z.testbit r n = (Z.testbit f n && Z.testbit r n)%bool)
    by (rewrite <- Z.land_spec, Hr; reflexivity).
  assert (Hpn : (Z.testbit f n && Z.testbit p n)%bool = false)
    by (rewrite <- Z.land_spec, Hp; apply Z.bits_0).
  destruct (n <? 32) eqn:Hlt.
  - destruct (Z.testbit f n), (Z.testbit r n), (Z.testbit p n);
      cbn in *; congruence.
  - apply Z.ltb_ge in Hlt. rewrite (testbit_u32_high f n Hf Hlt) in *.
    cbn [andb] in *. rewrite Hrn. rewrite !andb_false_r. reflexivity.
Qed.

(** X13.  Pause and resume round trip: a running playback device with a
    context attached, paused and then resumed on a backend that starts,
    is exactly as it was apart from the two backend calls made, stop then
    start. *)
Theorem alcDevicePause_Resume_round_trip (K : Consts) (E : Env)
  (st : ALCstate) (device : Z) (addr : positive) (d : ALCdevice) :
  VerifyDevice st device = Some (addr, d) ->
  DeviceType_eqb (Type_ d) Playback = true ->
  DEVICE_RUNNING K <> 0 -> DEVICE_PAUSED K <> 0 ->
  0 <= Flags d < 2 ^ 32 ->
  Z.land (Flags d) (DEVICE_RUNNING K) = DEVICE_RUNNING K ->
  Z.land (Flags d) (DEVICE_PAUSED K) = 0 ->
  ContextList d <> [] ->
  (forall dev, backend_start E dev = true) ->
  device_at (alcDeviceResumeSOFT K E (alcDevicePauseSOFT K st device) device)
    addr
  = Some (set_BackendLog (BackendLog d ++ [Backend_stop; Backend_start]) d).
Proof.
  intros Hv Ht HR0 HP0 Hf Hrun Hpause Hctx Hstart.
  destruct (device_at_verified st device addr d Hv) as [Hp Hd].
  assert (Hs : stop_if_running K d
               = set_Flags (clear_flag (Flags d) (DEVICE_RUNNING K))
                   (log_call Backend_stop d)).
  { unfold stop_if_running. rewrite (has_flag_full _ _ HR0 Hrun).
    reflexivity. }
  unfold alcDevicePauseSOFT. rewrite Hv, Ht. cbn [negb]. cbv zeta.
  rewrite Hs.
  set (d1 := set_Flags _ (set_Flags _ _)).
  assert (T1 : Type_ d1 = Type_ d) by reflexivity.
  assert (F1 : Flags d1
               = raise_flag (clear_flag (Flags d) (DEVICE_RUNNING K))
                   (DEVICE_PAUSED K)) by reflexivity.
  assert (C1 : forall x, ContextList (set_Flags x d1) = ContextList d)
    by reflexivity.
  assert (Hv1 : VerifyDevice (put_device addr d1 st) device = Some (addr, d1))
    by exact (VerifyDevice_modify_same st addr (fun _ => d1) device d Hv).
  pose proof (device_at_put st addr d d1 Hd) as Hd1.
  unfold alcDeviceResumeSOFT. rewrite Hv1, T1, Ht. cbn [negb].
  rewrite F1, (has_flag_raise _ _ HP0). cbn [negb]. cbv zeta.
  rewrite C1.
  destruct (ContextList d) as [|c cs] eqn:Hc; [contradiction|].
  rewrite Hstart. cbn [negb].
  erewrite device_at_put by exact Hd1.
  f_equal. subst d1. clear Hv Hd Hv1 Hd1 T1 F1 C1.
  destruct d as [x1 x2 x3 x4 x5 x6 x7 x8 x9 x10 x11 x12 x13 x14 x15 x16 x17 x18 x19 x20
    x21 x22 x23 x24 x25 x26 x27 x28 x29 x30 x31 x32 x33 x34 x35 x36 x37 x38 x39].
  cbv [log_call set_Flags set_BackendLog BackendLog Type_ DeviceName Flags
       Connected LastError Frequency UpdateSize NumUpdates FmtChans FmtType
       mAmbiOrder mAmbiLayout mAmbiScale SourcesMax AuxiliaryEffectSlotMax
       NumMonoSources NumStereoSources NumAuxSends LimiterState Limiter
       HrtfStatus HrtfHandle HrtfList Uhj_Encoder Bs2b ChannelDelay Dry
       FOAOut RealOut MixBuffer AvgSpeakerDist_pos ClockBase SamplesDone
       MixCount FixedLatency DitherSeed DitherDepth ContextList] in *.
  rewrite (pause_resume_flags _ _ _ Hf Hrun Hpause), <- app_assoc.
  reflexivity.
Qed.

Lemma alcDevicePause_Resume_round_trip_witness :
  device_at
    (alcDeviceResumeSOFT upstream plain_env
       (alcDevicePauseSOFT upstream (one_device playing_device) 1) 1) 1
  = Some (set_BackendLog
            (BackendLog playing_device ++ [Backend_stop; Backend_start])
            playing_device).
Proof.
  apply (alcDevicePause_Resume_round_trip upstream plain_env
           (one_device playing_device) 1 1%positive playing_device);
    try reflexivity.
  - vm_compute. discriminate.
  - vm_compute. discriminate.
  - vm_compute. split; [discriminate|reflexivity].
  - discriminate.
Defined.

(* ------------------------------------------------------------------ *)
(** ** The error latches *)

Lemma VerifyDevice_alcSetError (st : ALCstate) (device : Z)
  (addr : positive) (d : ALCdevice) (e : Z) :
  VerifyDevice st device = Some (addr, d) ->
  VerifyDevice (alcSetError st (Some addr) e) device
  = Some (addr, set_LastError e d).
Proof.
  intros Hv. unfold alcSetError.
  destruct (TrapALCError st);
    apply (VerifyDevice_modify_same _ addr (set_LastError e) device d);
    exact Hv.
Qed.

Lemma VerifyDevice_null (st : ALCstate) : VerifyDevice st 0 = None.
Proof.
  unfold VerifyDevice. induction (DeviceList st) as [|[a x] l IH];
    [reflexivity|exact IH].
Qed.

Lemma alcSetError_null_latch (st : ALCstate) (addr : positive) (e : Z) :
  LastNullDeviceError (alcSetError st (Some addr) e) = LastNullDeviceError st.
Proof. unfold alcSetError. destruct (TrapALCError st); reflexivity. Qed.

(** X14.  The error latches: the code alcGetError returns for a device
    is the one recorded last for that device, whatever was recorded
    before; recording it leaves the latch of every other device and the
    process-wide latch alone.  An error recorded without a device is the
    one alcGetError returns for the null device, and no device is
    touched. *)
Theorem alcSetError_latches (st : ALCstate) (device : Z) (addr : positive)
  (d : ALCdevice) (e1 e2 : Z) :
  VerifyDevice st device = Some (addr, d) ->
  let st' := alcSetError (alcSetError st (Some addr) e1) (Some addr) e2 in
  snd (alcGetError st' device) = e2
  /\ LastNullDeviceError st' = LastNullDeviceError st
  /\ (forall other, other <> addr -> device_at st' other = device_at st other)
  /\ snd (alcGetError (alcSetError st None e1) 0) = e1
  /\ DeviceList (alcSetError st None e1) = DeviceList st.
Proof.
  intros Hv. cbv zeta.
  pose proof (VerifyDevice_alcSetError _ device addr _ e2
                (VerifyDevice_alcSetError st device addr d e1 Hv)) as H2.
  repeat split.
  - unfold alcGetError. rewrite H2. reflexivity.
  - rewrite !alcSetError_null_latch. reflexivity.
  - intros other Hne. rewrite !device_at_alcSetError.
    destruct (Pos.eqb other addr) eqn:Heq; [|reflexivity].
    apply Pos.eqb_eq in Heq. contradiction.
  - unfold alcGetError. rewrite VerifyDevice_null.
    unfold alcSetError. destruct (TrapALCError st); reflexivity.
  - unfold alcSetError. destruct (TrapALCError st); reflexivity.
Qed.

Lemma alcSetError_latches_witness :
  let st' := alcSetError
               (alcSetError failed_query_state (Some 1%positive)
                  ALC_INVALID_VALUE) (Some 1%positive) ALC_INVALID_DEVICE in
  snd (alcGetError st' 1) = ALC_INVALID_DEVICE
  /\ LastNullDeviceError st' = LastNullDeviceError failed_query_state
  /\ (forall other, other <> 1%positive ->
      device_at st' other = device_at failed_query_state other)
  /\ snd (alcGetError (alcSetError failed_query_state None ALC_INVALID_VALUE) 0)
     = ALC_INVALID_VALUE
  /\ DeviceList (alcSetError failed_query_state None ALC_INVALID_VALUE)
     = DeviceList failed_query_state.
Proof.
  apply (alcSetError_latches failed_query_state 1 1%positive
           (set_LastError ALC_INVALID_ENUM playback_device)
           ALC_INVALID_VALUE ALC_INVALID_DEVICE).
  reflexivity.
Defined.

(* ------------------------------------------------------------------ *)
(** ** Integer queries *)

Lemma all_attributes_length (K : Consts) (d : ALCdevice) :
  Type_ d <> Capture ->
  Z.of_nat (List.length (all_attributes K d)) = NumAttrsForDevice d.
Proof.
  intros Ht. unfold all_attributes, NumAttrsForDevice.
  destruct (Type_ d); [reflexivity|contradiction|].
  destruct (DevFmtChannels_eqb (FmtChans d) DevFmtAmbi3D); reflexivity.
Qed.

Lemma GetIntegerv_bounded (K : Consts) (E : Env) (st : ALCstate)
  (dev : option (positive * ALCdevice)) (param size values : Z) :
  Z.of_nat (List.length (snd (GetIntegerv K E st dev param size values)))
  <= Z.max 0 size.
Proof.
  unfold GetIntegerv.
  destruct ((size <=? 0) || (values =? 0))%bool eqn:Hs; [cbn; lia|].
  apply orb_false_elim in Hs. destruct Hs as [Hs _]. apply Z.leb_gt in Hs.
  destruct dev as [[addr d]|].
  - pose proof (all_attributes_length K d) as Hall.
    destruct (Type_ d) eqn:Ht.
    + specialize (Hall ltac:(discriminate)).
      repeat match goal with
             | |- context [if size <? ?n then _ else _] =>
                 destruct (Z.ltb_spec size n)
             | |- context [if ?c then _ else _] => destruct c
             end; cbn [snd List.length]; try lia.
    + repeat match goal with
             | |- context [if size <? ?n then _ else _] =>
                 destruct (Z.ltb_spec size n)
             | |- context [if ?c then _ else _] => destruct c
             end; cbn [snd List.length]; try lia.
      unfold NumAttrsForDevice in *. rewrite Ht in *. lia.
    + specialize (Hall ltac:(discriminate)).
      repeat match goal with
             | |- context [if size <? ?n then _ else _] =>
                 destruct (Z.ltb_spec size n)
             | |- context [if ?c then _ else _] => destruct c
             end; cbn [snd List.length]; try lia.
  - split_ifs; cbn; lia.
Qed.

(** X15.  An integer query never writes more values than the caller's
    buffer holds: the count of values written is at most [size] (none
    when [size] is not positive), also for ALC_ALL_ATTRIBUTES, which is
    refused when the buffer is shorter than the attribute list. *)
Theorem alcGetIntegerv_bounded (K : Consts) (E : Env) (st : ALCstate)
  (device param size values : Z) :
  Z.of_nat
    (List.length (snd (alcGetIntegerv K E st device param size values)))
  <= Z.max 0 size.
Proof.
  unfold alcGetIntegerv.
  destruct ((size <=? 0) || (values =? 0))%bool; [cbn; lia|].
  apply GetIntegerv_bounded.
Qed.

Lemma first_match_In {A : Type} (table : list (Z * A)) (k : Z) (v : A) :
  distinct (map fst table) = true -> In (k, v) table ->
  first_match k table = Some v.
Proof.
  induction table as [|[k0 v0] rest IH]; intros Hd Hin; [contradiction|].
  cbn [map fst distinct] in Hd. apply andb_prop in Hd.
  destruct Hd as [Hk0 Hd]. apply negb_true_iff in Hk0.
  cbn [first_match]. destruct Hin as [Heq|Hin].
  - injection Heq as -> ->. rewrite Z.eqb_refl. reflexivity.
  - destruct (Z.eqb_spec k k0) as [->|_]; [|apply IH; assumption].
    exfalso. assert (Hex : existsb (Z.eqb k0) (map fst rest) = true).
    { apply existsb_exists. exists k0. split; [|apply Z.eqb_refl].
      apply (in_map fst rest (k0, v) Hin). }
    congruence.
Qed.

(** [GetIntegerv] on a playback or loopback device is a look-up in the
    table, the first matching case winning, and ALC_INVALID_ENUM when no
    case matches. *)
Lemma GetIntegerv_render_table (K : Consts) (E : Env) (st : ALCstate)
  (addr : positive) (d : ALCdevice) (param size values : Z) :
  Type_ d <> Capture ->
  ((size <=? 0) || (values =? 0))%bool = false ->
  GetIntegerv K E st (Some (addr, d)) param size values
  = match first_match param (render_queries K E st addr d size) with
    | Some r => r
    | None => (alcSetError st (Some addr) ALC_INVALID_ENUM, [])
    end.
Proof.
  intros Ht Hs. unfold GetIntegerv. rewrite Hs.
  unfold render_queries. cbv zeta. cbn [first_match option_map fst].
  destruct (Type_ d); [|contradiction|];
    repeat (destruct (param =? _); [reflexivity|]); reflexivity.
Qed.

Lemma attr_pairs_all_pairs (k v : Z) :
  forall (fuel : nat) (l : list Z),
    In (k, v) (attr_pairs fuel l) -> In (k, v) (all_pairs fuel l).
Proof.
  induction fuel as [|fuel IH]; intros l H; [contradiction|].
  destruct l as [|k0 [|v0 rest]]; try contradiction.
  cbn [attr_pairs all_pairs] in *.
  destruct (k0 =? 0); [contradiction|].
  destruct H as [H|H]; [left; exact H|right; apply IH, H].
Qed.

Ltac find_entry :=
  cbn [In]; repeat first [ left; reflexivity | right ].

(** Every pair the ALC_ALL_ATTRIBUTES list of a render device holds is an
    entry of the query table. *)
Lemma all_attributes_in_table (K : Consts) (E : Env) (st : ALCstate)
  (addr : positive) (d : ALCdevice) (k v : Z) :
  Type_ d <> Capture ->
  In (k, v) (all_pairs (List.length (all_attributes K d)) (all_attributes K d)) ->
  In (k, (st, [v])) (render_queries K E st addr d 1).
Proof.
  intros Ht. unfold all_attributes, render_queries. cbv zeta.
  destruct (Type_ d) eqn:Hty; [|contradiction|].
  - cbn [app List.length all_pairs DeviceType_eqb negb andb In].
    intros H.
    repeat (destruct H as [H|H];
            [injection H as <- <-; find_entry|]).
    contradiction.
  - destruct (DevFmtChannels_eqb (FmtChans d) DevFmtAmbi3D);
      cbn [app List.length all_pairs DeviceType_eqb negb andb In];
      intros H;
      repeat (destruct H as [H|H];
              [injection H as <- <-; find_entry|]);
      contradiction.
Qed.

(** X16.  ALC_ALL_ATTRIBUTES agrees with the single queries: on a
    loopback device, or a playback device whose update size is not zero
    (the list and the ALC_REFRESH query divide by it), when the cases of
    the query switch have distinct keys and the buffer is long enough,
    the list written has exactly ALC_ATTRIBUTES_SIZE entries, records no
    error, and every key/value pair in it is the value the query for that
    key alone returns. *)
Theorem alcGetIntegerv_all_attributes (K : Consts) (E : Env) (st : ALCstate)
  (device size values : Z) (addr : positive) (d : ALCdevice) :
  distinct (render_query_keys K) = true ->
  VerifyDevice st device = Some (addr, d) ->
  Type_ d <> Capture ->
  (Type_ d = Playback -> UpdateSize d <> 0) ->
  values <> 0 ->
  NumAttrsForDevice d <= size ->
  let r := alcGetIntegerv K E st device ALC_ALL_ATTRIBUTES size values in
  fst r = st
  /\ alcGetIntegerv K E st device ALC_ATTRIBUTES_SIZE 1 values
     = (st, [Z.of_nat (List.length (snd r))])
  /\ forall k v,
       In (k, v) (attr_pairs (List.length (snd r)) (snd r)) ->
       alcGetIntegerv K E st device k 1 values = (st, [v]).
Proof.
  intros Hkeys Hv Ht Hupd Hval Hsize. cbv zeta.
  assert (Hn : 29 <= NumAttrsForDevice d).
  { unfold NumAttrsForDevice. destruct (Type_ d); [lia|contradiction|].
    destruct (DevFmtChannels_eqb _ _); lia. }
  assert (Hs : ((size <=? 0) || (values =? 0))%bool = false).
  { apply orb_false_intro; [apply Z.leb_gt; lia|apply Z.eqb_neq, Hval]. }
  assert (H1 : ((1 <=? 0) || (values =? 0))%bool = false).
  { apply orb_false_intro; [reflexivity|apply Z.eqb_neq, Hval]. }
  assert (Hsingle : forall k r,
            In (k, r) (render_queries K E st addr d 1) ->
            alcGetIntegerv K E st device k 1 values = r).
  { intros k r Hin. unfold alcGetIntegerv. rewrite Hv, H1.
    rewrite (GetIntegerv_render_table K E st addr d k 1 values Ht H1).
    rewrite (first_match_In (render_queries K E st addr d 1) k r Hkeys Hin).
    reflexivity. }
  assert (Hall : alcGetIntegerv K E st device ALC_ALL_ATTRIBUTES size values
                 = (st, all_attributes K d)).
  { unfold alcGetIntegerv. rewrite Hv, Hs.
    rewrite (GetIntegerv_render_table K E st addr d _ size values Ht Hs).
    unfold render_queries. cbv zeta. cbn [first_match].
    change (ALC_ALL_ATTRIBUTES =? ALC_ATTRIBUTES_SIZE) with false.
    change (ALC_ALL_ATTRIBUTES =? ALC_ALL_ATTRIBUTES) with true.
    cbv iota.
    destruct (Z.ltb_spec size (NumAttrsForDevice d)); [lia|reflexivity]. }
  rewrite Hall. cbn [fst snd].
  split; [reflexivity|]. split.
  - rewrite (all_attributes_length K d Ht).
    apply Hsingle. left. reflexivity.
  - intros k v Hin. apply Hsingle.
    apply all_attributes_in_table; [exact Ht|].
    apply attr_pairs_all_pairs, Hin.
Qed.

Lemma alcGetIntegerv_all_attributes_witness :
  let r := alcGetIntegerv upstream plain_env (one_device playback_device) 1
             ALC_ALL_ATTRIBUTES 29 1 in
  fst r = one_device playback_device
  /\ alcGetIntegerv upstream plain_env (one_device playback_device) 1
       ALC_ATTRIBUTES_SIZE 1 1
     = (one_device playback_device, [Z.of_nat (List.length (snd r))])
  /\ forall k v,
       In (k, v) (attr_pairs (List.length (snd r)) (snd r)) ->
       alcGetIntegerv upstream plain_env (one_device playback_device) 1 k 1 1
       = (one_device playback_device, [v]).
Proof.
  apply (alcGetIntegerv_all_attributes upstream plain_env
           (one_device playback_device) 1 29 1 1%positive playback_device).
  - reflexivity.
  - reflexivity.
  - discriminate.
  - intros _. discriminate.
  - discriminate.
  - vm_compute. discriminate.
Defined.

(* ------------------------------------------------------------------ *)
(** ** The loop over the sources in use *)

Lemma ctz_pos_spec (p : positive) :
  0 <= ctz_pos p
  /\ Z.testbit (Zpos p) (ctz_pos p) = true
  /\ forall j, 0 <= j < ctz_pos p -> Z.testbit (Zpos p) j = false.
Proof.
  induction p as [q IH|q IH|].
  - cbn [ctz_pos]. split; [lia|split; [reflexivity|intros; lia]].
  - destruct IH as [H0 [H1 H2]]. cbn [ctz_pos].
    change (Zpos q~0) with (2 * Zpos q).
    split; [lia|split].
    + replace (1 + ctz_pos q) with (Z.succ (ctz_pos q)) by lia.
      rewrite Z.testbit_even_succ by exact H0. exact H1.
    + intros j Hj. destruct (Z.eq_dec j 0) as [->|Hne].
      * apply Z.testbit_even_0.
      * replace j with (Z.succ (j - 1)) by lia.
        rewrite Z.testbit_even_succ by lia. apply H2. lia.
  - cbn [ctz_pos]. split; [lia|split; [reflexivity|intros; lia]].
Qed.

Lemma testbit_wrapu64 (x j : Z) :
  0 <= j ->
  Z.testbit (wrapu64 x) j = if j <? 64 then Z.testbit x j else false.
Proof.
  intros Hj. unfold wrapu64. destruct (j <? 64) eqn:Hlt.
  - apply Z.ltb_lt in Hlt. apply Z.mod_pow2_bits_low. lia.
  - apply Z.ltb_ge in Hlt. apply Z.mod_pow2_bits_high. lia.
Qed.

Lemma testbit_usemask (m j : Z) :
  0 <= j ->
  Z.testbit (wrapu64 (Z.lnot m)) j
  = if j <? 64 then negb (Z.testbit m j) else false.
Proof.
  intros Hj. rewrite testbit_wrapu64 by exact Hj.
  destruct (j <? 64); [apply Z.lnot_spec, Hj|reflexivity].
Qed.

(** Clearing the lowest set bit of the use mask marks one more slot as
    done. *)
Lemma usemask_clear (m idx : Z) :
  0 <= idx ->
  Z.land (wrapu64 (Z.lnot m)) (wrapu64 (Z.lnot (Z.shiftl 1 idx)))
  = wrapu64 (Z.lnot (Z.lor m (Z.shiftl 1 idx))).
Proof.
  intros Hi. apply Z.bits_inj'. intros j Hj.
  rewrite Z.land_spec, !testbit_usemask by exact Hj.
  rewrite Z.lor_spec.
  destruct (j <? 64); [|reflexivity].
  symmetry. apply negb_orb.
Qed.

Lemma testbit_one_shifted (idx j : Z) :
  0 <= idx -> 0 <= j -> Z.testbit (Z.shiftl 1 idx) j = (j =? idx).
Proof.
  intros Hi Hj. rewrite Z.shiftl_1_l.
  destruct (Z.eqb_spec j idx) as [->|Hne].
  - apply Z.pow2_bits_true, Hi.
  - apply Z.pow2_bits_false. lia.
Qed.

Lemma map_used_from_ext (f : ALsource -> ALsource) (m m' : Z) :
  forall (srcs : list ALsource) (start : nat),
    (forall i, (start <= i < start + List.length srcs)%nat ->
               Z.testbit m' (Z.of_nat i) = Z.testbit m (Z.of_nat i)) ->
    map_used_from f start m' srcs = map_used_from f start m srcs.
Proof.
  induction srcs as [|s rest IH]; intros start H; [reflexivity|].
  cbn [map_used_from]. rewrite (H start) by (cbn [List.length]; lia).
  f_equal. apply IH. intros i Hi. apply H. cbn [List.length]. lia.
Qed.

Lemma used_from_ext (m m' : Z) :
  forall (srcs : list ALsource) (start : nat),
    (forall i, (start <= i < start + List.length srcs)%nat ->
               Z.testbit m' (Z.of_nat i) = Z.testbit m (Z.of_nat i)) ->
    used_from start m' srcs = used_from start m srcs.
Proof.
  induction srcs as [|s rest IH]; intros start H; [reflexivity|].
  cbn [used_from]. rewrite (H start) by (cbn [List.length]; lia).
  rewrite (IH (S start)); [reflexivity|].
  intros i Hi. apply H. cbn [List.length]. lia.
Qed.

Lemma map_used_from_none (f : ALsource -> ALsource) (m : Z) :
  forall (srcs : list ALsource) (start : nat),
    (forall i, (start <= i < start + List.length srcs)%nat ->
               Z.testbit m (Z.of_nat i) = true) ->
    map_used_from f start m srcs = srcs
    /\ used_from start m srcs = [].
Proof.
  induction srcs as [|s rest IH]; intros start H; [split; reflexivity|].
  cbn [map_used_from used_from].
  rewrite (H start) by (cbn [List.length]; lia).
  destruct (IH (S start)) as [H1 H2].
  { intros i Hi. apply H. cbn [List.length]. lia. }
  rewrite H1, H2. split; reflexivity.
Qed.

Lemma list_set_length {A : Type} (x : A) :
  forall (l : list A) (i : nat), List.length (list_set i x l) = List.length l.
Proof.
  induction l as [|y rest IH]; intros i; [destruct i; reflexivity|].
  destruct i; cbn [list_set List.length]; [reflexivity|].
  rewrite IH. reflexivity.
Qed.

(** Visiting slot [start + k], the lowest one in use, is one step of
    mapping the body over the slots in use. *)
Lemma visit_one (f : ALsource -> ALsource) (m : Z) :
  forall (srcs : list ALsource) (start k : nat) (s : ALsource),
    nth_error srcs k = Some s ->
    Z.testbit m (Z.of_nat (start + k)) = false ->
    (forall i, (start <= i < start + k)%nat ->
               Z.testbit m (Z.of_nat i) = true) ->
    let m' := Z.lor m (Z.shiftl 1 (Z.of_nat (start + k))) in
    map_used_from f start m' (list_set k (f s) srcs)
    = map_used_from f start m srcs
    /\ used_from start m srcs
       = s :: used_from start m' (list_set k (f s) srcs).
Proof.
  cbv zeta.
  induction srcs as [|x rest IH]; intros start k s Hn Hb Hlow;
    [destruct k; discriminate|].
  assert (Hbit : forall i : nat,
            Z.testbit (Z.lor m (Z.shiftl 1 (Z.of_nat (start + k))))
              (Z.of_nat i)
            = (Z.testbit m (Z.of_nat i) || (i =? start + k)%nat)%bool).
  { intros i. rewrite Z.lor_spec, testbit_one_shifted by lia.
    f_equal. destruct (Nat.eqb_spec i (start + k)) as [->|Hne].
    - apply Z.eqb_refl.
    - apply Z.eqb_neq. lia. }
  destruct k as [|k].
  - cbn in Hn. injection Hn as ->.
    rewrite Nat.add_0_r in *.
    cbn [list_set map_used_from used_from].
    rewrite Hbit, Hb, Nat.eqb_refl. cbn [orb].
    assert (Hext : forall i, (S start <= i < S start + List.length rest)%nat ->
              Z.testbit (Z.lor m (Z.shiftl 1 (Z.of_nat start))) (Z.of_nat i)
              = Z.testbit m (Z.of_nat i)).
    { intros i Hi. rewrite Hbit.
      destruct (Nat.eqb_spec i start); [lia|apply orb_false_r]. }
    rewrite (map_used_from_ext f m _ rest (S start) Hext).
    rewrite (used_from_ext m _ rest (S start) Hext).
    split; reflexivity.
  - cbn in Hn. cbn [list_set map_used_from used_from].
    rewrite Hbit.
    destruct (Nat.eqb_spec start (start + S k)) as [Heq|_]; [lia|].
    rewrite orb_false_r.
    rewrite (Hlow start) by lia.
    replace (start + S k)%nat with (S start + k)%nat in * by lia.
    destruct (IH (S start) k s Hn Hb) as [H1 H2].
    { intros i Hi. apply Hlow. lia. }
    rewrite H1, H2. split; reflexivity.
Qed.

Lemma visit_used_spec (body : ALsource -> ALsource * list Z) :
  forall (fuel : nat) (m : Z) (srcs : list ALsource) (released : list Z),
    (List.length srcs <= 64)%nat ->
    (forall j : nat, (j < 64 - fuel)%nat -> Z.testbit m (Z.of_nat j) = true) ->
    visit_used fuel (wrapu64 (Z.lnot m)) body srcs released
    = (map_used_from (fun s => fst (body s)) 0 m srcs,
       released
       ++ flat_map (fun s => snd (body s)) (used_from 0 m srcs)).
Proof.
  assert (Hdone : forall m srcs (released : list Z),
            (List.length srcs <= 64)%nat ->
            (forall j : nat, (j < 64)%nat -> Z.testbit m (Z.of_nat j) = true) ->
            (srcs, released)
            = (map_used_from (fun s => fst (body s)) 0 m srcs,
               released
               ++ flat_map (fun s => snd (body s)) (used_from 0 m srcs))).
  { intros m srcs released Hlen Hall.
    destruct (map_used_from_none (fun s => fst (body s)) m srcs 0) as [H1 H2].
    { intros i Hi. apply Hall. lia. }
    rewrite H1, H2. cbn [flat_map]. rewrite app_nil_r. reflexivity. }
  induction fuel as [|fuel IH]; intros m srcs released Hlen Hlow.
  - cbn [visit_used]. apply Hdone; [exact Hlen|].
    intros j Hj. apply Hlow. lia.
  - cbn [visit_used].
    destruct (wrapu64 (Z.lnot m) =? 0) eqn:Hz.
    { apply Z.eqb_eq in Hz. apply Hdone; [exact Hlen|].
      intros j Hj.
      assert (Hb : Z.testbit (wrapu64 (Z.lnot m)) (Z.of_nat j) = false)
        by (rewrite Hz; apply Z.bits_0).
      rewrite testbit_usemask in Hb by lia.
      destruct (Z.ltb_spec (Z.of_nat j) 64); [|lia].
      apply negb_false_iff, Hb. }
    apply Z.eqb_neq in Hz.
    assert (Hnn : 0 <= wrapu64 (Z.lnot m))
      by (unfold wrapu64; apply Z.mod_pos_bound; lia).
    destruct (wrapu64 (Z.lnot m)) as [|p|p] eqn:Hu; [contradiction| |lia].
    cbn [CTZ64].
    destruct (ctz_pos_spec p) as [Hi0 [Hset Hclear]].
    set (idx := ctz_pos p) in *.
    assert (Hidx : idx < 64 /\ Z.testbit m idx = false).
    { rewrite <- Hu, testbit_usemask in Hset by exact Hi0.
      destruct (Z.ltb_spec idx 64); [|discriminate].
      split; [assumption|apply negb_true_iff, Hset]. }
    destruct Hidx as [Hlt Hmi].
    assert (Hbelow : forall j : nat, (j < Z.to_nat idx)%nat ->
              Z.testbit m (Z.of_nat j) = true).
    { intros j Hj.
      assert (Hb : Z.testbit (Zpos p) (Z.of_nat j) = false)
        by (apply Hclear; lia).
      rewrite <- Hu, testbit_usemask in Hb by lia.
      destruct (Z.ltb_spec (Z.of_nat j) 64); [|lia].
      apply negb_false_iff, Hb. }
    rewrite <- Hu, usemask_clear by exact Hi0.
    set (k := Z.to_nat idx) in *.
    assert (Hk : Z.of_nat k = idx) by (subst k; lia).
    assert (Hkmin : (64 - S fuel <= k)%nat).
    { destruct (Nat.le_gt_cases (64 - S fuel) k) as [H|H]; [exact H|].
      specialize (Hlow k H). rewrite Hk in Hlow. congruence. }
    assert (Hlow' : forall j : nat, (j < 64 - fuel)%nat ->
              Z.testbit (Z.lor m (Z.shiftl 1 idx)) (Z.of_nat j) = true).
    { intros j Hj. rewrite Z.lor_spec, testbit_one_shifted by lia.
      destruct (Nat.lt_trichotomy j k) as [H|[H|H]].
      - rewrite (Hbelow j H). reflexivity.
      - subst j. rewrite Hk, Z.eqb_refl. apply orb_true_r.
      - lia. }
    destruct (nth_error srcs k) as [source|] eqn:Hn.
    + destruct (body source) as [s r] eqn:Hb.
      rewrite IH; [|rewrite list_set_length; exact Hlen|exact Hlow'].
      destruct (visit_one (fun s => fst (body s)) m srcs 0 k source Hn)
        as [H1 H2].
      { cbn [Nat.add]. rewrite Hk. exact Hmi. }
      { intros i Hi. apply Hbelow. lia. }
      cbn [Nat.add] in H1, H2. rewrite Hk in H1, H2.
      cbn beta in H1, H2. rewrite Hb in H1, H2. cbn [fst] in H1, H2.
      rewrite H1, H2. cbn [flat_map]. rewrite Hb. cbn [snd].
      rewrite app_assoc. reflexivity.
    + rewrite IH; [|exact Hlen|exact Hlow'].
      apply nth_error_None in Hn.
      assert (Hext : forall i, (0 <= i < 0 + List.length srcs)%nat ->
                Z.testbit (Z.lor m (Z.shiftl 1 idx)) (Z.of_nat i)
                = Z.testbit m (Z.of_nat i)).
      { intros i Hi. rewrite Z.lor_spec, testbit_one_shifted by lia.
        destruct (Z.eqb_spec (Z.of_nat i) idx); [lia|apply orb_false_r]. }
      rewrite (map_used_from_ext _ m _ srcs 0 Hext).
      rewrite (used_from_ext m _ srcs 0 Hext). reflexivity.
Qed.

Lemma update_sublist_scan (old_sends new_sends : Z) (sl : SourceSubList) :
  (List.length (Sources sl) <= 64)%nat ->
  update_sublist old_sends new_sends sl
  = (mkSubList (FreeMask sl)
       (map_used_from (fun s => fst (update_source old_sends new_sends s)) 0
          (FreeMask sl) (Sources sl)),
     flat_map (fun s => snd (update_source old_sends new_sends s))
       (used_from 0 (FreeMask sl) (Sources sl))).
Proof.
  intros Hlen. unfold update_sublist.
  rewrite (visit_used_spec (update_source old_sends new_sends) 64
             (FreeMask sl) (Sources sl) [] Hlen).
  - reflexivity.
  - intros j Hj. lia.
Qed.

Lemma map_used_from_length (f : ALsource -> ALsource) (m : Z) :
  forall (srcs : list ALsource) (i : nat),
    List.length (map_used_from f i m srcs) = List.length srcs.
Proof.
  induction srcs as [|s rest IH]; intros i; [reflexivity|].
  cbn [map_used_from List.length]. rewrite IH. reflexivity.
Qed.

Lemma map_used_from_nth (f : ALsource -> ALsource) (m : Z) :
  forall (srcs : list ALsource) (start i : nat) (s : ALsource),
    nth_error srcs i = Some s ->
    nth_error (map_used_from f start m srcs) i
    = Some (if Z.testbit m (Z.of_nat (start + i)) then s else f s).
Proof.
  induction srcs as [|x rest IH]; intros start i s Hn;
    [destruct i; discriminate|].
  destruct i as [|i]; cbn [nth_error map_used_from] in *.
  - injection Hn as ->. rewrite Nat.add_0_r.
    destruct (Z.testbit m (Z.of_nat start)); reflexivity.
  - rewrite (IH (S start) i s Hn).
    replace (S start + i)%nat with (start + S i)%nat by lia. reflexivity.
Qed.

(** X17.  The scan of a slab of sources by lowest set bit of the use
    mask visits exactly the slots whose free bit is clear, each once and
    in rising order: the slab keeps its mask and its length, the source
    in a free slot is left as it was, the source in a used slot is the
    one the loop body makes of it, and the slot references given up are
    collected in slot order. *)
Theorem update_sublist_visits (old_sends new_sends : Z) (sl : SourceSubList) :
  (List.length (Sources sl) <= 64)%nat ->
  let r := update_sublist old_sends new_sends sl in
  FreeMask (fst r) = FreeMask sl
  /\ List.length (Sources (fst r)) = List.length (Sources sl)
  /\ (forall i s,
        nth_error (Sources sl) i = Some s ->
        nth_error (Sources (fst r)) i
        = Some (if Z.testbit (FreeMask sl) (Z.of_nat i) then s
                else fst (update_source old_sends new_sends s)))
  /\ snd r = flat_map (fun s => snd (update_source old_sends new_sends s))
               (used_from 0 (FreeMask sl) (Sources sl)).
Proof.
  intros Hlen. cbv zeta.
  rewrite (update_sublist_scan old_sends new_sends sl Hlen).
  cbn [fst snd FreeMask Sources].
  split; [reflexivity|]. split; [apply map_used_from_length|].
  split; [|reflexivity].
  intros i s Hn.
  exact (map_used_from_nth
           (fun s => fst (update_source old_sends new_sends s))
           (FreeMask sl) (Sources sl) 0 i s Hn).
Qed.

Lemma update_sublist_visits_witness :
  let sl := mkSubList (2 ^ 64 - 3)
              [mkSource 1 [] false;
               mkSource 2 [mkSend (Some 7) false; fresh_send] true] in
  let r := update_sublist 2 1 sl in
  FreeMask (fst r) = FreeMask sl
  /\ List.length (Sources (fst r)) = List.length (Sources sl)
  /\ (forall i s,
        nth_error (Sources sl) i = Some s ->
        nth_error (Sources (fst r)) i
        = Some (if Z.testbit (FreeMask sl) (Z.of_nat i) then s
                else fst (update_source 2 1 s)))
  /\ snd r = flat_map (fun s => snd (update_source 2 1 s))
               (used_from 0 (FreeMask sl) (Sources sl)).
Proof.
  apply (update_sublist_visits 2 1
           (mkSubList (2 ^ 64 - 3)
              [mkSource 1 [] false;
               mkSource 2 [mkSend (Some 7) false; fresh_send] true])).
  cbn. lia.
Defined.

(* ------------------------------------------------------------------ *)
(** ** Voices *)

Lemma resize_length {A : Type} (x : A) (n : Z) (v : list A) :
  List.length (resize x n v) = Z.to_nat n.
Proof.
  unfold resize. rewrite length_app, length_firstn, repeat_length. lia.
Qed.

Lemma copy_voice_fields (s_count num_sends : Z) (v : ALvoice) :
  SourceID (copy_voice s_count num_sends v) = SourceID v
  /\ voice_Update (copy_voice s_count num_sends v) = voice_Update v
  /\ List.length (voice_Send (copy_voice s_count num_sends v))
     = Z.to_nat num_sends.
Proof.
  unfold copy_voice. cbn [SourceID voice_Update voice_Send].
  rewrite resize_length. auto.
Qed.

(** X18.  When AllocateVoices reallocates, the new block has exactly
    [num_voices] voices, every one of them with as many send slots as
    the device has auxiliary sends; the voice count is cut to the new
    size, and the voices in use are carried over with their source and
    their pending update. *)
Theorem AllocateVoices_block (device : ALCdevice) (context : ALCcontext)
  (num_voices old_sends : Z) :
  ((num_voices =? MaxVoices context)
   && (NumAuxSends device =? old_sends))%bool = false ->
  let c' := AllocateVoices device context num_voices old_sends in
  exists vs,
    Voices c' = Some vs
    /\ List.length vs = Z.to_nat num_voices
    /\ Forall (fun v => List.length (voice_Send v)
                        = Z.to_nat (NumAuxSends device)) vs
    /\ MaxVoices c' = num_voices
    /\ VoiceCount c' = Z.min (VoiceCount context) num_voices
    /\ forall old i v,
         Voices context = Some old ->
         (i < Z.to_nat (Z.min (VoiceCount context) num_voices))%nat ->
         nth_error old i = Some v ->
         exists v', nth_error vs i = Some v'
                    /\ SourceID v' = SourceID v
                    /\ voice_Update v' = voice_Update v.
Proof.
  intros Hc. cbv zeta. unfold AllocateVoices. rewrite Hc.
  set (copied := match Voices context with
                 | Some old => _
                 | None => []
                 end).
  eexists. split; [reflexivity|].
  assert (Hlen : (List.length copied <= Z.to_nat num_voices)%nat).
  { subst copied. destruct (Voices context) as [old|]; [|cbn; lia].
    rewrite length_map, length_firstn, mini_spec. lia. }
  assert (Hsz : Forall (fun v => List.length (voice_Send v)
                                 = Z.to_nat (NumAuxSends device)) copied).
  { subst copied. destruct (Voices context) as [old|]; [|constructor].
    apply Forall_map, Forall_forall. intros v _.
    apply copy_voice_fields. }
  repeat split.
  - rewrite length_app, repeat_length. lia.
  - apply Forall_app. split; [exact Hsz|].
    apply Forall_forall. intros v Hv. apply repeat_spec in Hv. subst v.
    unfold fresh_voice. cbn [voice_Send]. apply repeat_length.
  - cbn [VoiceCount set_VoiceCount]. apply mini_spec.
  - intros old i v Hold Hi Hn. subst copied. rewrite Hold.
    exists (copy_voice (mini old_sends (NumAuxSends device))
              (NumAuxSends device) v).
    destruct (copy_voice_fields (mini old_sends (NumAuxSends device))
                (NumAuxSends device) v) as [H1 [H2 _]].
    split; [|auto].
    rewrite <- mini_spec in Hi.
    assert (Hi' : (i < List.length old)%nat)
      by (apply nth_error_Some; congruence).
    rewrite nth_error_app1
      by (rewrite length_map, length_firstn; lia).
    rewrite nth_error_map, nth_error_firstn.
    destruct (Nat.ltb_spec i (Z.to_nat (mini (VoiceCount context) num_voices)));
      [|lia].
    rewrite Hn. reflexivity.
Qed.

Lemma AllocateVoices_block_witness :
  let c' := AllocateVoices playback_device fresh_context 256 2 in
  exists vs,
    Voices c' = Some vs
    /\ List.length vs = Z.to_nat 256
    /\ Forall (fun v => List.length (voice_Send v)
                        = Z.to_nat (NumAuxSends playback_device)) vs
    /\ MaxVoices c' = 256
    /\ VoiceCount c' = Z.min (VoiceCount fresh_context) 256
    /\ forall old i v,
         Voices fresh_context = Some old ->
         (i < Z.to_nat (Z.min (VoiceCount fresh_context) 256))%nat ->
         nth_error old i = Some v ->
         exists v', nth_error vs i = Some v'
                    /\ SourceID v' = SourceID v
                    /\ voice_Update v' = voice_Update v.
Proof.
  apply (AllocateVoices_block playback_device fresh_context 256 2).
  reflexivity.
Defined.

(* ------------------------------------------------------------------ *)
(** ** Send slots across a reconfiguration *)

Lemma init_sends_length :
  forall (n from : nat) (sends : list SendData),
    List.length (init_sends n from sends) = List.length sends.
Proof.
  induction n as [|n IH]; intros from sends; [reflexivity|].
  cbn [init_sends]. rewrite IH. apply list_set_length.
Qed.

Lemma update_source_length (old_sends new_sends : Z) (s : ALsource) :
  List.length (Send s) = Z.to_nat old_sends ->
  List.length (Send (fst (update_source old_sends new_sends s)))
  = Z.to_nat new_sends.
Proof.
  intros Hs. unfold update_source.
  destruct (Z.eqb_spec old_sends new_sends) as [->|Hne]; cbn [negb].
  - cbn [fst set_src_PropsClean Send]. exact Hs.
  - unfold resend_source. cbn [fst set_src_PropsClean Send].
    rewrite init_sends_length. apply resize_length.
Qed.

Lemma update_sublists_spec (old_sends new_sends : Z) :
  forall sls : list SourceSubList,
    forallb (fun sl => Nat.leb (List.length (Sources sl)) 64) sls = true ->
    fst (update_sublists old_sends new_sends sls)
    = map (fun sl =>
             mkSubList (FreeMask sl)
               (map_used_from
                  (fun s => fst (update_source old_sends new_sends s)) 0
                  (FreeMask sl) (Sources sl))) sls.
Proof.
  induction sls as [|sl rest IH]; intros Hok; [reflexivity|].
  cbn [forallb] in Hok. apply andb_prop in Hok. destruct Hok as [H1 H2].
  apply Nat.leb_le in H1.
  cbn [update_sublists map].
  rewrite (update_sublist_scan old_sends new_sends sl H1).
  specialize (IH H2).
  destruct (update_sublists old_sends new_sends rest) as [rest' r2].
  cbn [fst] in *. rewrite IH. reflexivity.
Qed.

Lemma forallb_flat_map {A B : Type} (p : B -> bool) (g : A -> list B) :
  forall l : list A,
    forallb p (flat_map g l) = forallb (fun x => forallb p (g x)) l.
Proof.
  induction l as [|x rest IH]; [reflexivity|].
  cbn [flat_map forallb]. rewrite forallb_app, IH. reflexivity.
Qed.

Lemma forallb_map_comp {A B : Type} (p : B -> bool) (f : A -> B) :
  forall l : list A, forallb p (map f l) = forallb (fun x => p (f x)) l.
Proof.
  induction l as [|x rest IH]; [reflexivity|].
  cbn [map forallb]. rewrite IH. reflexivity.
Qed.

Lemma forallb_impl {A : Type} (p q : A -> bool) (l : list A) :
  (forall x, In x l -> p x = true -> q x = true) ->
  forallb p l = true -> forallb q l = true.
Proof.
  intros H Hp. apply forallb_forall. intros x Hx.
  apply H; [exact Hx|]. apply (proj1 (forallb_forall p l) Hp x Hx).
Qed.

Lemma retarget_slots_sources (E : Env) (d : ALCdevice) :
  forall slots c failed,
    sources_and_voices (snd (fst (retarget_slots E d slots c failed)))
    = sources_and_voices c.
Proof.
  induction slots as [|slot rest IH]; intros c failed; [reflexivity|].
  cbn [retarget_slots].
  destruct (retarget_slot E d slot) as [slot' ok].
  set (c1 := if ok then UpdateEffectSlotProps slot' c else c).
  assert (H1 : sources_and_voices c1 = sources_and_voices c)
    by (subst c1; destruct ok; reflexivity).
  specialize (IH c1 (failed || negb ok)%bool).
  destruct (retarget_slots E d rest c1 (failed || negb ok)) as [[r c2] f].
  cbn [fst snd] in *. congruence.
Qed.

Lemma sources_and_voices_eq (a b : ALCcontext) :
  sources_and_voices a = sources_and_voices b ->
  SourceList a = SourceList b /\ Voices a = Voices b
  /\ VoiceCount a = VoiceCount b /\ MaxVoices a = MaxVoices b.
Proof.
  unfold sources_and_voices.
  generalize (SourceList a), (SourceList b), (Voices a), (Voices b),
    (VoiceCount a), (VoiceCount b), (MaxVoices a), (MaxVoices b).
  intros. injection H as -> -> -> ->. auto.
Qed.

(** The voices after [AllocateVoices] and the sweep over the voices in
    use, as the loop over the contexts calls them. *)
Lemma reallocated_voices_sized (d : ALCdevice) (c : ALCcontext)
  (old_sends : Z) :
  match Voices c with
  | Some vs =>
      forallb (fun v => Nat.eqb (List.length (voice_Send v))
                          (Z.to_nat old_sends)) vs = true
  | None => True
  end ->
  match Voices (refresh_voices d (AllocateVoices d c (MaxVoices c) old_sends))
  with
  | Some vs =>
      forallb (fun v => Nat.eqb (List.length (voice_Send v))
                          (Z.to_nat (NumAuxSends d))) vs = true
  | None => True
  end.
Proof.
  intros Hold.
  assert (Ha : match Voices (AllocateVoices d c (MaxVoices c) old_sends) with
               | Some vs =>
                   forallb (fun v => Nat.eqb (List.length (voice_Send v))
                                       (Z.to_nat (NumAuxSends d))) vs = true
               | None => True
               end).
  { unfold AllocateVoices. rewrite Z.eqb_refl. cbn [andb].
    destruct (Z.eqb_spec (NumAuxSends d) old_sends) as [->|Hne];
      [exact Hold|].
    cbn [Voices set_Voices set_MaxVoices set_VoiceCount].
    rewrite forallb_app. apply andb_true_intro. split.
    - destruct (Voices c) as [old|]; [|reflexivity].
      rewrite forallb_map_comp. apply forallb_forall. intros v _.
      apply Nat.eqb_eq, copy_voice_fields.
    - apply forallb_forall. intros v Hv. apply repeat_spec in Hv. subst v.
      apply Nat.eqb_eq. unfold fresh_voice. cbn [voice_Send].
      apply repeat_length. }
  unfold refresh_voices.
  destruct (Voices (AllocateVoices d c (MaxVoices c) old_sends)) as [vs|]
    eqn:Hvs; [|rewrite Hvs; exact I].
  cbn [Voices set_Voices].
  rewrite <- (firstn_skipn
                (Z.to_nat (VoiceCount
                             (AllocateVoices d c (MaxVoices c) old_sends)))
                vs) in Ha.
  rewrite forallb_app in *. apply andb_prop in Ha. destruct Ha as [H1 H2].
  apply andb_true_intro. split; [|exact H2].
  rewrite forallb_map_comp.
  refine (forallb_impl _ _ _ _ H1). intros v _ Hv.
  assert (Hs : voice_Send (refresh_voice d v) = voice_Send v)
    by (unfold refresh_voice; cbv zeta; split_ifs; reflexivity).
  rewrite Hs. exact Hv.
Qed.

Lemma fold_publish_sources {A : Type} (g : A -> PropUpdate) (l : list A) :
  forall c,
    sources_and_voices (fold_left (fun c s => publish (g s) c) l c)
    = sources_and_voices c.
Proof.
  induction l as [|x rest IH]; intros c; [reflexivity|].
  cbn [fold_left]. rewrite IH. reflexivity.
Qed.

Lemma UpdateAllSourceProps_sources (c : ALCcontext) :
  SourceList (UpdateAllSourceProps c)
  = map (fun sl =>
           mkSubList (FreeMask sl)
             (map_used_from (set_src_PropsClean true) 0 (FreeMask sl)
                (Sources sl))) (SourceList c)
  /\ Voices (UpdateAllSourceProps c) = Voices c.
Proof.
  unfold UpdateAllSourceProps. cbv zeta.
  match goal with
  | |- context [fold_left ?f ?l ?c0] =>
      pose proof (fold_publish_sources
                    (fun s => Upd_Source (source_id s)) l c0) as H
  end.
  apply sources_and_voices_eq in H. destruct H as [H1 [H2 _]].
  rewrite H1, H2. split; reflexivity.
Qed.

Lemma updated_sources_sized (old_sends new_sends : Z)
  (sls : list SourceSubList) :
  forallb (fun sl => Nat.leb (List.length (Sources sl)) 64) sls = true ->
  forallb (fun s => Nat.eqb (List.length (Send s)) (Z.to_nat old_sends))
    (flat_map (fun sl => used_from 0 (FreeMask sl) (Sources sl)) sls) = true ->
  let sls' :=
    map (fun sl =>
           mkSubList (FreeMask sl)
             (map_used_from (set_src_PropsClean true) 0 (FreeMask sl)
                (Sources sl)))
      (fst (update_sublists old_sends new_sends sls)) in
  forallb (fun sl => Nat.leb (List.length (Sources sl)) 64) sls' = true
  /\ forallb (fun s => Nat.eqb (List.length (Send s)) (Z.to_nat new_sends))
       (flat_map (fun sl => used_from 0 (FreeMask sl) (Sources sl)) sls')
     = true.
Proof.
  intros Hslab Hlive. cbv zeta.
  rewrite (update_sublists_spec old_sends new_sends sls Hslab).
  rewrite map_map. cbn [FreeMask Sources].
  rewrite forallb_flat_map in *. rewrite !forallb_map_comp.
  cbn [FreeMask Sources]. split.
  - refine (forallb_impl _ _ _ _ Hslab). intros sl _ H.
    rewrite !map_used_from_length. exact H.
  - refine (forallb_impl _ _ _ _ Hlive). intros sl _ H.
    rewrite !used_from_map, !forallb_map_comp.
    refine (forallb_impl _ _ _ _ H). intros s _ Hs.
    apply Nat.eqb_eq in Hs. apply Nat.eqb_eq.
    cbn [set_src_PropsClean Send].
    apply update_source_length, Hs.
Qed.

Lemma reallocated_sources (d : ALCdevice) (c : ALCcontext) (n old_sends : Z) :
  SourceList (refresh_voices d (AllocateVoices d c n old_sends))
  = SourceList c.
Proof.
  unfold refresh_voices, AllocateVoices. split_ifs; reflexivity.
Qed.

(** One round of the loop over the contexts leaves every source in use
    and every voice with as many send slots as the device now has. *)
Lemma update_context_sized (E : Env) (d : ALCdevice) (old_sends : Z)
  (c : ALCcontext) (failed : bool) :
  sends_sized old_sends c = true ->
  sends_sized (NumAuxSends d) (fst (update_context E d old_sends c failed))
  = true.
Proof.
  unfold sends_sized at 1, live_sources. intros H.
  apply andb_prop in H. destruct H as [H H3].
  apply andb_prop in H. destruct H as [H1 H2].
  unfold update_context.
  set (p := match DefaultSlot c with
            | Some slot => _
            | None => (c, failed)
            end).
  assert (Hp : sources_and_voices (fst p) = sources_and_voices c).
  { subst p. destruct (DefaultSlot c) as [slot|]; [|reflexivity].
    destruct (retarget_slot E d slot) as [slot' ok].
    destruct ok; reflexivity. }
  destruct p as [c0 f0]. cbn [fst] in Hp.
  pose proof (retarget_slots_sources E d (EffectSlotList c0) c0 f0) as Hr.
  destruct (retarget_slots E d (EffectSlotList c0) c0 f0) as [[slots c1] f1].
  cbn [fst snd] in Hr. rewrite Hp in Hr. clear Hp.
  apply sources_and_voices_eq in Hr. destruct Hr as [Hs [Hv [_ _]]].
  change (SourceList (set_EffectSlotList slots c1)) with (SourceList c1).
  rewrite Hs.
  destruct (updated_sources_sized old_sends (NumAuxSends d) (SourceList c)
              H3 H1) as [U1 U2].
  cbv zeta in U1, U2.
  destruct (update_sublists old_sends (NumAuxSends d) (SourceList c))
    as [subs rel].
  cbn [fst] in *.
  match goal with
  | |- sends_sized _ (UpdateAllSourceProps ?y) = true => set (y0 := y)
  end.
  destruct (UpdateAllSourceProps_sources y0) as [A1 A2].
  unfold sends_sized, live_sources. rewrite A1, A2.
  subst y0.
  match goal with
  | |- context [refresh_voices d (AllocateVoices d ?x ?n old_sends)] =>
      set (cx := x) in *
  end.
  pose proof (reallocated_sources d cx (MaxVoices cx) old_sends) as R1.
  pose proof (reallocated_voices_sized d cx old_sends) as R2.
  change (SourceList
            (UpdateListenerProps
               (set_Listener_PropsClean true
                  (UpdateContextProps
                     (set_ctx_PropsClean true
                        (refresh_voices d
                           (AllocateVoices d cx (MaxVoices cx) old_sends)))))))
    with (SourceList
            (refresh_voices d (AllocateVoices d cx (MaxVoices cx) old_sends))).
  change (Voices
            (UpdateListenerProps
               (set_Listener_PropsClean true
                  (UpdateContextProps
                     (set_ctx_PropsClean true
                        (refresh_voices d
                           (AllocateVoices d cx (MaxVoices cx) old_sends)))))))
    with (Voices
            (refresh_voices d (AllocateVoices d cx (MaxVoices cx) old_sends))).
  rewrite R1.
  change (SourceList cx) with subs.
  rewrite U1, U2. cbn [andb]. rewrite andb_true_r.
  assert (Hcx : Voices cx = Voices c) by (subst cx; exact Hv).
  rewrite Hcx in R2. specialize (R2 ltac:(destruct (Voices c); auto)).
  destruct (Voices (refresh_voices d _)); [exact R2|reflexivity].
Qed.

Lemma update_contexts_sized (E : Env) (d : ALCdevice) (old_sends : Z) :
  forall (cs : list ALCcontext) (failed : bool),
    forallb (sends_sized old_sends) cs = true ->
    forallb (sends_sized (NumAuxSends d))
      (fst (update_contexts E d old_sends cs failed)) = true.
Proof.
  induction cs as [|c rest IH]; intros failed H; [reflexivity|].
  cbn [forallb] in H. apply andb_prop in H. destruct H as [H1 H2].
  cbn [update_contexts].
  pose proof (update_context_sized E d old_sends c failed H1) as Hc.
  destruct (update_context E d old_sends c failed) as [c' f'].
  specialize (IH f' H2).
  destruct (update_contexts E d old_sends rest f') as [rest' f''].
  cbn [fst forallb] in *. rewrite Hc, IH. reflexivity.
Qed.

(** Where the context list and the send count of the result come from:
    either both are the device's own, or the loop over the contexts ran
    with the device's old send count. *)
Lemma UpdateDeviceParams_context_loop (K : Consts) (E : Env)
  (device : ALCdevice) (attrList : option (list Z)) :
  let r := snd (UpdateDeviceParams K E device attrList) in
  (ContextList r = ContextList device
   /\ NumAuxSends r = NumAuxSends device)
  \/ exists d0,
       NumAuxSends d0 = NumAuxSends r
       /\ ContextList r
          = fst (update_contexts E d0 (NumAuxSends device)
                   (ContextList device) false).
Proof.
  cbv zeta. rewrite UpdateDeviceParams_unfold.
  pose proof (attribute_stage_contexts K E device attrList) as Hc.
  pose proof (attribute_stage_frame K E device attrList) as Hf.
  destruct (attribute_stage K E device attrList) as [e d|[d l]];
    cbn [stage_holds snd] in *.
  - left. split; [exact Hc|apply Hf].
  - destruct Hc as [Hc _]. destruct Hf as [[_ [Hn _]] Hold].
    rewrite after_attributes_unfold.
    destruct (has_flag (Flags d) (DEVICE_RUNNING K)); [left; auto|].
    cbv zeta.
    destruct (stage_contexts K E (clear_views K d)) as [_ [_ [_ [Hh _]]]].
    specialize (Hh l).
    destruct (hrtf_request_frame K E (clear_views K d) l)
      as [_ [_ [_ [Hhn [_ Hho]]]]].
    set (x := hrtf_request K E (clear_views K d) l) in *.
    assert (Hr : ContextList (after_reset E (fst x)) = ContextList device).
    { rewrite after_reset_contexts, Hh. exact Hc. }
    assert (Hrn : NumAuxSends (after_reset E (fst x)) = NumAuxSends device).
    { destruct (after_reset_frame E (fst x)) as [_ [_ [_ [H _]]]].
      rewrite H, Hhn. exact Hn. }
    destruct (fst (backend_reset E (fst x))); [|left; cbn [snd]; auto].
    right.
    destruct (stage_contexts K E (after_reset E (fst x)))
      as [_ [_ [_ [_ [Hq _]]]]].
    specialize (Hq (Frequency (fst x)) (FmtChans (fst x)) (FmtType (fst x))).
    set (d2 := reconcile_requests K _ _ _ _) in *.
    destruct (configure_stage_frame K E d2 (snd x)) as [_ [_ [_ Hcn]]].
    rewrite Hcn.
    rewrite configure_stage_unfold. cbv zeta.
    pose proof (configured_contexts E d2 (snd x)) as Hcc.
    destruct (configured_frame E d2 (snd x)) as [_ [_ [_ Hcf]]].
    set (d0 := configured E d2 (snd x)) in *.
    exists d0. split; [exact Hcf|].
    rewrite Hho, Hold, Hcc, Hq, Hr.
    split_ifs; reflexivity.
Qed.

(** X19.  Send slots survive a reconfiguration: if every source in use
    and every voice of every attached context has as many send slots as
    the device has auxiliary sends, the same holds when
    UpdateDeviceParams returns, whatever it returns and whether or not
    the send count changed. *)
Theorem UpdateDeviceParams_send_slots (K : Consts) (E : Env)
  (device : ALCdevice) (attrList : option (list Z)) :
  forallb (sends_sized (NumAuxSends device)) (ContextList device) = true ->
  let r := snd (UpdateDeviceParams K E device attrList) in
  forallb (sends_sized (NumAuxSends r)) (ContextList r) = true.
Proof.
  intros H. cbv zeta.
  destruct (UpdateDeviceParams_context_loop K E device attrList)
    as [[Hc Hn]|[d0 [Hn Hc]]]; cbv zeta in *.
  - rewrite Hc, Hn. exact H.
  - rewrite Hc, <- Hn. apply update_contexts_sized, H.
Qed.

Lemma UpdateDeviceParams_send_slots_witness :
  let r := snd (UpdateDeviceParams upstream plain_env busy_device
                  (Some [ALC_MAX_AUXILIARY_SENDS; 1; 0])) in
  forallb (sends_sized (NumAuxSends r)) (ContextList r) = true.
Proof.
  apply (UpdateDeviceParams_send_slots upstream plain_env busy_device
           (Some [ALC_MAX_AUXILIARY_SENDS; 1; 0])).
  reflexivity.
Defined.

(* ------------------------------------------------------------------ *)
(** ** Device formats *)

Lemma first_match_sound {A : Type} (table : list (Z * A)) (k : Z) (v : A) :
  first_match k table = Some v -> In (k, v) table.
Proof.
  induction table as [|[k0 v0] rest IH]; [discriminate|].
  cbn [first_match]. destruct (Z.eqb_spec k k0) as [->|_].
  - intros H. injection H as ->. left. reflexivity.
  - intros H. right. apply IH, H.
Qed.

Lemma DevFmtChannels_eqb_eq (a b : DevFmtChannels) :
  DevFmtChannels_eqb a b = true -> a = b.
Proof. destruct a, b; (reflexivity || discriminate). Qed.

Lemma DevFmtType_eqb_eq (a b : DevFmtType) :
  DevFmtType_eqb a b = true -> a = b.
Proof. destruct a, b; (reflexivity || discriminate). Qed.

Lemma DevFmtChannels_eqb_refl (a : DevFmtChannels) :
  DevFmtChannels_eqb a a = true.
Proof. destruct a; reflexivity. Qed.

Lemma DevFmtType_eqb_refl (a : DevFmtType) : DevFmtType_eqb a a = true.
Proof. destruct a; reflexivity. Qed.

(** X20.  DecomposeDevFormat accepts exactly the formats of its table,
    each with the layout and type listed for it.  An accepted format has
    an unsigned byte, short or float sample type, is neither rear 5.1 nor
    B-Format, has frames of 1 to 32 bytes, and is the only format with
    its layout and sample type. *)
Theorem DecomposeDevFormat_table (format : Z) (chans : DevFmtChannels)
  (type : DevFmtType) :
  (In (format, (chans, type)) format_list <->
   DecomposeDevFormat format = Some (chans, type))
  /\ (DecomposeDevFormat format = Some (chans, type) ->
      (type = DevFmtUByte \/ type = DevFmtShort \/ type = DevFmtFloat)
      /\ chans <> DevFmtX51Rear /\ chans <> DevFmtAmbi3D
      /\ 1 <= BytesFromDevFmt type * ChannelsFromDevFmt chans 0 <= 32
      /\ forall format',
           DecomposeDevFormat format' = Some (chans, type) ->
           format' = format).
Proof.
  assert (Hsound : forall f c t,
            DecomposeDevFormat f = Some (c, t) -> In (f, (c, t)) format_list)
    by (intros f c t; apply first_match_sound).
  split; [split; [|apply Hsound]|].
  - intros Hin. unfold DecomposeDevFormat.
    apply first_match_In; [reflexivity|exact Hin].
  - intros Hd. pose proof (Hsound _ _ _ Hd) as Hin.
    assert (Hok : forallb format_entry_ok format_list = true) by reflexivity.
    pose proof (proj1 (forallb_forall _ _) Hok _ Hin) as He.
    unfold format_entry_ok in He. cbn [snd] in He.
    repeat match type of He with
           | (_ && _)%bool = true =>
               let H := fresh "He" in
               apply andb_prop in He; destruct He as [He H]
           end.
    repeat split.
    + apply orb_prop in He. destruct He as [He|He];
        [apply orb_prop in He; destruct He as [He|He]|];
        apply DevFmtType_eqb_eq in He; auto.
    + intros ->. discriminate.
    + intros ->. discriminate.
    + apply Z.leb_le. assumption.
    + apply Z.leb_le. assumption.
    + intros format' Hd'. pose proof (Hsound _ _ _ Hd') as Hin'.
      assert (Hinj : forallb (fun e1 => forallb (same_value_same_key e1)
                                          format_list) format_list = true)
        by reflexivity.
      pose proof (proj1 (forallb_forall _ _) Hinj _ Hin') as H1.
      pose proof (proj1 (forallb_forall _ _) H1 _ Hin) as H2.
      unfold same_value_same_key in H2. cbn [fst snd] in H2.
      rewrite DevFmtChannels_eqb_refl, DevFmtType_eqb_refl in H2.
      apply Z.eqb_eq, H2.
Qed.

(* ------------------------------------------------------------------ *)
(** ** Default channel orders *)

Lemma repeat_add {A : Type} (x : A) (n m : nat) :
  repeat x (n + m) = repeat x n ++ repeat x m.
Proof. induction n; [reflexivity|cbn; f_equal; assumption]. Qed.

Lemma named_invalid (m : nat) : named (repeat InvalidChannel m) = [].
Proof. induction m as [|m IH]; [reflexivity|exact IH]. Qed.

Ltac at_least n size m :=
  replace size with (n + m)%nat by lia;
  cbn [Nat.add repeat assign_from list_set].

Ltac distinct_names :=
  repeat constructor; cbn [In]; intuition discriminate.

(** X21.  The default WaveFormatEx order names exactly as many channels
    as the device format has (for B-Format of order 0 to 3): in an array
    of at least 16 entries the named channels are the first
    ChannelsFromDevFmt entries, no channel is named twice, and every
    entry after them is InvalidChannel. *)
Theorem SetDefaultWFXChannelOrder_names (size : nat) (device : ALCdevice) :
  (16 <= size)%nat ->
  (FmtChans device = DevFmtAmbi3D -> 0 <= mAmbiOrder device <= 3) ->
  let arr := SetDefaultWFXChannelOrder size device in
  let n := Z.to_nat
             (ChannelsFromDevFmt (FmtChans device) (mAmbiOrder device)) in
  List.length arr = size
  /\ named arr = firstn n arr
  /\ NoDup (firstn n arr)
  /\ skipn n arr = repeat InvalidChannel (size - n).
Proof.
  intros Hsize Hamb. cbv zeta.
  unfold SetDefaultWFXChannelOrder, ChannelsFromDevFmt, named.
  set (m := (size - 16)%nat).
  assert (Hm : forall k : nat, (k <= 16)%nat ->
            (size - k = (16 - k) + m)%nat) by (intros; lia).
  pose proof (named_invalid m) as Hf. unfold named in Hf.
  destruct (FmtChans device).
  8: {
    specialize (Hamb eq_refl).
    assert (Ho : mAmbiOrder device = 0 \/ mAmbiOrder device = 1
                 \/ mAmbiOrder device = 2 \/ mAmbiOrder device = 3) by lia.
    destruct Ho as [Ho|[Ho|[Ho|Ho]]]; rewrite Ho;
      match goal with
      | |- context [Z.to_nat ?z] =>
          let k := eval vm_compute in (Z.to_nat z) in
          change (Z.to_nat z) with k; rewrite (Hm k) by lia
      end;
      at_least 16%nat size m;
      cbn [Z.gtb Z.compare Pos.compare Pos.compare_cont assign_from list_set
           firstn skipn filter Channel_eqb negb List.length Nat.sub Nat.add
           app];
      rewrite ?Hf, ?repeat_length;
      (split; [f_equal; lia|]); (split; [reflexivity|]);
      (split; [distinct_names|reflexivity]).
  }
  all: match goal with
    | |- context [Z.to_nat ?z] =>
        let k := eval vm_compute in (Z.to_nat z) in
        change (Z.to_nat z) with k; rewrite (Hm k) by lia
    end;
    at_least 16%nat size m;
    cbn [firstn skipn filter Channel_eqb negb List.length Nat.sub Nat.add app];
    rewrite ?Hf, ?repeat_length;
    (split; [f_equal; lia|]); (split; [reflexivity|]);
    (split; [distinct_names|reflexivity]).
Qed.

Lemma SetDefaultWFXChannelOrder_names_witness :
  let arr := SetDefaultWFXChannelOrder 16 ambisonic_device in
  let n := Z.to_nat
             (ChannelsFromDevFmt (FmtChans ambisonic_device)
                (mAmbiOrder ambisonic_device)) in
  List.length arr = 16%nat
  /\ named arr = firstn n arr
  /\ NoDup (firstn n arr)
  /\ skipn n arr = repeat InvalidChannel (16 - n).
Proof.
  apply (SetDefaultWFXChannelOrder_names 16 ambisonic_device).
  - lia.
  - intros _. vm_compute. split; discriminate.
Defined.

Lemma occurrences_app (c : Channel) (a b : list Channel) :
  occurrences c (a ++ b) = (occurrences c a + occurrences c b)%nat.
Proof. unfold occurrences. rewrite filter_app. apply length_app. Qed.

(** X22.  The default channel order names the same channels as the
    WaveFormatEx order, each as often, in an array of at least 8 entries:
    the two orders are permutations of one another, and they are the
    same array unless the layout is rear 5.1 or 7.1. *)
Theorem SetDefaultChannelOrder_permutes (size : nat) (device : ALCdevice) :
  (8 <= size)%nat ->
  (forall c : Channel,
     occurrences c (SetDefaultChannelOrder size device)
     = occurrences c (SetDefaultWFXChannelOrder size device))
  /\ List.length (SetDefaultChannelOrder size device) = size
  /\ (FmtChans device <> DevFmtX51Rear -> FmtChans device <> DevFmtX71 ->
      SetDefaultChannelOrder size device
      = SetDefaultWFXChannelOrder size device).
Proof.
  intros Hsize.
  unfold SetDefaultChannelOrder, SetDefaultWFXChannelOrder.
  set (m := (size - 8)%nat).
  assert (Hlen : forall (names : list Channel) (i : nat) (arr : list Channel),
            List.length (assign_from i names arr) = List.length arr).
  { induction names as [|c rest IH]; intros i arr; [reflexivity|].
    cbn [assign_from]. rewrite IH. apply list_set_length. }
  destruct (FmtChans device) eqn:Hc; cbv zeta.
  5: { at_least 8%nat size m. split; [|split].
       - intros c. change (?a :: ?b :: ?c0 :: ?d :: ?e :: ?f :: ?t)
           with ([a; b; c0; d; e; f] ++ t).
         rewrite !occurrences_app. f_equal. destruct c; reflexivity.
       - cbn [List.length]. rewrite repeat_length. reflexivity.
       - intros H. contradiction. }
  6: { at_least 8%nat size m. split; [|split].
       - intros c.
         change (?a :: ?b :: ?c0 :: ?d :: ?e :: ?f :: ?g :: ?h :: ?t)
           with ([a; b; c0; d; e; f; g; h] ++ t).
         rewrite !occurrences_app. f_equal. destruct c; reflexivity.
       - cbn [List.length]. rewrite repeat_length. reflexivity.
       - intros _ H. contradiction. }
  all: split; [reflexivity|split; [|reflexivity]];
    repeat match goal with
           | |- context [if ?b then _ else _] => destruct b
           end;
    rewrite ?Hlen; apply repeat_length.
Qed.

Lemma SetDefaultChannelOrder_permutes_witness :
  (forall c : Channel,
     occurrences c
       (SetDefaultChannelOrder 16 (set_FmtChans DevFmtX71 playback_device))
     = occurrences c
         (SetDefaultWFXChannelOrder 16
            (set_FmtChans DevFmtX71 playback_device)))
  /\ List.length
       (SetDefaultChannelOrder 16 (set_FmtChans DevFmtX71 playback_device))
     = 16%nat
  /\ (FmtChans (set_FmtChans DevFmtX71 playback_device) <> DevFmtX51Rear ->
      FmtChans (set_FmtChans DevFmtX71 playback_device) <> DevFmtX71 ->
      SetDefaultChannelOrder 16 (set_FmtChans DevFmtX71 playback_device)
      = SetDefaultWFXChannelOrder 16
          (set_FmtChans DevFmtX71 playback_device)).
Proof.
  apply (SetDefaultChannelOrder_permutes 16
           (set_FmtChans DevFmtX71 playback_device)).
  lia.
Defined.

(* ------------------------------------------------------------------ *)
(** ** Opening devices *)

Lemma wrapu_range (z : Z) : 0 <= wrapu z < 2 ^ 32.
Proof. unfold wrapu. apply Z.mod_pos_bound. lia. Qed.

Lemma config_uint_range (E : Env) (n : option string) (key : string) (v : Z) :
  0 <= v < 2 ^ 32 -> 0 <= config_uint E n key v < 2 ^ 32.
Proof.
  intros Hv. unfold config_uint.
  destruct (ConfigValueUInt E n key); [apply wrapu_range|exact Hv].
Qed.

Lemma alcSetError_null (st : ALCstate) (e : Z) :
  DeviceList (alcSetError st None e) = DeviceList st
  /\ LastNullDeviceError (alcSetError st None e) = e.
Proof. unfold alcSetError. destruct (TrapALCError st); split; reflexivity. Qed.

Lemma open_limits_spec (K : Consts) (E : Env) (O : OpenEnv)
  (n : option string) (d : ALCdevice) :
  0 <= SourcesMax d < 2 ^ 32 -> 0 <= AuxiliaryEffectSlotMax d < 2 ^ 32 ->
  let d' := open_limits K E O n d in
  1 <= SourcesMax d' < 2 ^ 32
  /\ NumStereoSources d' = 1
  /\ NumMonoSources d' = SourcesMax d' - 1
  /\ 1 <= AuxiliaryEffectSlotMax d' <= INT_MAX
  /\ (0 <= MAX_SENDS K -> 0 <= NumAuxSends d <= MAX_SENDS K ->
      0 <= NumAuxSends d' <= MAX_SENDS K)
  /\ Type_ d' = Type_ d /\ NumUpdates d' = NumUpdates d
  /\ UpdateSize d' = UpdateSize d /\ LimiterState d' = LimiterState d
  /\ Flags d' = Flags d /\ Frequency d' = Frequency d.
Proof.
  intros Hs Ha. cbv zeta. unfold open_limits. cbv zeta.
  pose proof (config_uint_range E n "sources" (SourcesMax d) Hs) as Hs1.
  set (s1 := config_uint E n "sources" (SourcesMax d)) in *.
  set (d1 := set_SourcesMax s1 d).
  set (d2 := if SourcesMax d1 =? 0 then set_SourcesMax 256 d1 else d1).
  assert (H2 : 1 <= SourcesMax d2 < 2 ^ 32
               /\ AuxiliaryEffectSlotMax d2 = AuxiliaryEffectSlotMax d
               /\ NumAuxSends d2 = NumAuxSends d).
  { subst d2 d1. cbn [SourcesMax set_SourcesMax].
    destruct (Z.eqb_spec s1 0); cbn; repeat split; lia. }
  destruct H2 as [H2 [H2a H2n]].
  pose proof (config_uint_range E n "slots" (AuxiliaryEffectSlotMax d2)
                ltac:(rewrite H2a; exact Ha)) as Ha1.
  set (a1 := config_uint E n "slots" (AuxiliaryEffectSlotMax d2)) in *.
  set (d3 := set_AuxiliaryEffectSlotMax a1 d2).
  set (d4 := if AuxiliaryEffectSlotMax d3 =? 0
             then set_AuxiliaryEffectSlotMax 64 d3
             else set_AuxiliaryEffectSlotMax
                    (minu (AuxiliaryEffectSlotMax d3) INT_MAX) d3).
  assert (H4 : 1 <= AuxiliaryEffectSlotMax d4 <= INT_MAX
               /\ SourcesMax d4 = SourcesMax d2
               /\ NumAuxSends d4 = NumAuxSends d).
  { subst d4 d3. cbn [AuxiliaryEffectSlotMax set_AuxiliaryEffectSlotMax].
    destruct (Z.eqb_spec a1 0);
      cbn [AuxiliaryEffectSlotMax set_AuxiliaryEffectSlotMax SourcesMax
           NumAuxSends];
      (split; [|split; [reflexivity|exact H2n]]).
    - unfold INT_MAX. lia.
    - unfold minu, INT_MAX. destruct (a1 >? 2 ^ 31 - 1) eqn:Hc; lia. }
  destruct H4 as [H4 [H4s H4n]].
  set (d5 := match ConfigValueInt E n "sends" with
             | Some v => _
             | None => d4
             end).
  assert (H5 : SourcesMax d5 = SourcesMax d2
               /\ AuxiliaryEffectSlotMax d5 = AuxiliaryEffectSlotMax d4
               /\ (0 <= MAX_SENDS K -> 0 <= NumAuxSends d <= MAX_SENDS K ->
                   0 <= NumAuxSends d5 <= MAX_SENDS K)).
  { subst d5. destruct (ConfigValueInt E n "sends") as [v|].
    - cbn [SourcesMax AuxiliaryEffectSlotMax NumAuxSends set_NumAuxSends].
      split; [exact H4s|split; [reflexivity|]]. intros HK _.
      pose proof (clampi_range (wrapi v) 0 (MAX_SENDS K) HK) as Hc.
      pose proof (clampi_range (DEFAULT_SENDS O) 0 _ (proj1 Hc)). lia.
    - split; [exact H4s|split; [reflexivity|]]. intros _ Hn.
      rewrite H4n. exact Hn. }
  destruct H5 as [H5s [H5a H5n]].
  cbn [SourcesMax AuxiliaryEffectSlotMax NumStereoSources NumMonoSources
       NumAuxSends set_NumStereoSources set_NumMonoSources].
  rewrite H5s, H5a.
  assert (Hrest : Type_ d5 = Type_ d /\ NumUpdates d5 = NumUpdates d
                  /\ UpdateSize d5 = UpdateSize d
                  /\ LimiterState d5 = LimiterState d
                  /\ Flags d5 = Flags d /\ Frequency d5 = Frequency d).
  { subst d5 d4 d3 d2 d1. split_ifs; repeat split. }
  rewrite wrapu_small by lia.
  repeat split; try lia; try apply H5n; try apply Hrest; try apply H4.
Qed.

Lemma open_format_spec (K : Consts) (E : Env) (n : option string)
  (d : ALCdevice) :
  let d' := open_format K E n d in
  2 <= NumUpdates d' <= 16
  /\ 64 <= UpdateSize d' <= 8192
  /\ (simd_present K E = true -> UpdateSize d' mod 4 = 0)
  /\ Type_ d' = Type_ d /\ SourcesMax d' = SourcesMax d
  /\ AuxiliaryEffectSlotMax d' = AuxiliaryEffectSlotMax d
  /\ NumAuxSends d' = NumAuxSends d /\ LimiterState d' = LimiterState d.
Proof.
  cbv zeta. cbv beta zeta delta [open_format simd_present].
  set (d1 := match ConfigValueStr E n "channels" with
             | Some fmt => _
             | None => d
             end).
  set (d2 := match ConfigValueStr E n "sample-type" with
             | Some fmt => _
             | None => d1
             end).
  set (d3 := if (is_some (ConfigValueUInt E n "frequency") && _)%bool
             then _ else d2).
  assert (H3 : Type_ d3 = Type_ d /\ SourcesMax d3 = SourcesMax d
               /\ AuxiliaryEffectSlotMax d3 = AuxiliaryEffectSlotMax d
               /\ NumAuxSends d3 = NumAuxSends d
               /\ LimiterState d3 = LimiterState d).
  { subst d3 d2 d1. split_ifs; repeat split. }
  destruct (negb (Z.land (CPUCapFlags E) _ =? 0));
    cbn [NumUpdates UpdateSize Type_ SourcesMax AuxiliaryEffectSlotMax
         NumAuxSends LimiterState set_UpdateSize set_NumUpdates].
  - match goal with
    | |- context [clampu ?v 64 8192] =>
        pose proof (clampu_range v 64 8192 ltac:(lia)) as Hc;
        pose proof (round_up_4_spec (clampu v 64 8192) Hc) as Hr
    end.
    unfold round_up_4 in Hr.
    split; [apply clampu_range; lia|].
    split; [apply Hr|]. split; [intros _; apply Hr|exact H3].
  - split; [apply clampu_range; lia|].
    split; [apply clampu_range; lia|].
    split; [discriminate|exact H3].
Qed.

(** X23.  What alcOpenDevice hands out.  When it returns a device, that
    device is at the head of the device list, is a playback device with
    2 to 16 periods of 64 to 8192 frames (a multiple of four where SSE or
    NEON is present), at least one source of which exactly one is stereo,
    1 to INT_MAX effect slots and the limiter requested, and no error is
    recorded.  When it returns null, the device list is as it was and
    the process-wide latch holds the reason, which is never
    ALC_NO_ERROR. *)
Theorem alcOpenDevice_result (K : Consts) (E : Env) (O : OpenEnv)
  (st : ALCstate) (addr : positive) (deviceName : option string) :
  let r := alcOpenDevice K E O st addr deviceName in
  match snd r with
  | Some a =>
      a = addr
      /\ LastNullDeviceError (fst r) = LastNullDeviceError st
      /\ exists d,
           DeviceList (fst r) = (addr, d) :: DeviceList st
           /\ Type_ d = Playback
           /\ 2 <= NumUpdates d <= 16
           /\ 64 <= UpdateSize d <= 8192
           /\ (simd_present K E = true -> UpdateSize d mod 4 = 0)
           /\ 1 <= SourcesMax d < 2 ^ 32
           /\ NumStereoSources d = 1
           /\ NumMonoSources d = SourcesMax d - 1
           /\ 1 <= AuxiliaryEffectSlotMax d <= INT_MAX
           /\ LimiterState d = ALC_TRUE
  | None =>
      DeviceList (fst r) = DeviceList st
      /\ LastNullDeviceError (fst r) <> ALC_NO_ERROR
  end.
Proof.
  cbv zeta. unfold alcOpenDevice.
  destruct (PlaybackBackend_name O); cbn [negb].
  2: { cbn [snd fst].
       destruct (alcSetError_null st ALC_INVALID_VALUE) as [H1 H2].
       rewrite H1, H2. split; [reflexivity|discriminate]. }
  cbv zeta.
  set (d0 := set_NumAuxSends _ _).
  pose proof (open_format_spec K E (default_to_null deviceName) d0) as Hf.
  cbv zeta in Hf.
  set (d1 := open_format K E (default_to_null deviceName) d0) in *.
  destruct Hf as [F1 [F2 [F3 [F4 [F5 [F6 [F7 F8]]]]]]].
  assert (Hs : 0 <= SourcesMax d1 < 2 ^ 32) by (rewrite F5; cbn; lia).
  assert (Ha : 0 <= AuxiliaryEffectSlotMax d1 < 2 ^ 32)
    by (rewrite F6; cbn; lia).
  pose proof (open_limits_spec K E O (default_to_null deviceName) d1 Hs Ha)
    as Hl.
  cbv zeta in Hl.
  set (d2 := open_limits K E O (default_to_null deviceName) d1) in *.
  destruct Hl as [L1 [L2 [L3 [L4 [_ [L6 [L7 [L8 [L9 _]]]]]]]]].
  destruct (createBackend_ok O d2); cbn [negb].
  2: { cbn [snd fst].
       destruct (alcSetError_null st ALC_OUT_OF_MEMORY) as [H1 H2].
       rewrite H1, H2. split; [reflexivity|discriminate]. }
  destruct (Z.eqb_spec (backend_open O d2 (default_to_null deviceName))
              ALC_NO_ERROR) as [He|He]; cbn [negb].
  - cbn [snd fst]. split; [reflexivity|]. split; [reflexivity|].
    exists (open_ambi_format K E d2). split; [reflexivity|].
    assert (Hamb : forall f : ALCdevice -> Z,
              (forall v x, f (set_mAmbiScale v x) = f x) ->
              (forall v x, f (set_mAmbiLayout v x) = f x) ->
              f (open_ambi_format K E d2) = f d2).
    { intros f H1 H2. unfold open_ambi_format.
      split_ifs; rewrite ?H1, ?H2; reflexivity. }
    rewrite (Hamb NumUpdates), (Hamb UpdateSize), (Hamb SourcesMax),
      (Hamb NumStereoSources), (Hamb NumMonoSources),
      (Hamb AuxiliaryEffectSlotMax), (Hamb LimiterState)
      by (intros; reflexivity).
    assert (Ht : Type_ (open_ambi_format K E d2) = Type_ d2)
      by (unfold open_ambi_format; split_ifs; reflexivity).
    rewrite Ht, L6, L7, L8, L9, F4, F8.
    repeat split; try assumption; try apply F1; try apply F2; try apply L1;
      try apply L4.
  - cbn [snd fst].
    destruct (alcSetError_null st
                (backend_open O d2 (default_to_null deviceName))) as [H1 H2].
    rewrite H1, H2. split; [reflexivity|exact He].
Qed.

(** X24.  What alcCaptureOpenDevice hands out.  It returns a device only
    when a capture backend exists, [samples] is positive and the format
    is one DecomposeDevFormat accepts; the device is then at the head of
    the device list, is a capture device with that layout and sample
    type, one period of [samples] frames, the frequency asked for, and
    all three request flags raised.  When it returns null the device
    list is as it was and the process-wide latch holds the reason:
    ALC_INVALID_VALUE without a backend or with no samples,
    ALC_INVALID_ENUM for an unknown format. *)
Theorem alcCaptureOpenDevice_result (K : Consts) (O : OpenEnv)
  (st : ALCstate) (addr : positive) (deviceName : option string)
  (frequency format samples : Z) :
  let r := alcCaptureOpenDevice K O st addr deviceName frequency format
             samples in
  match snd r with
  | Some a =>
      a = addr
      /\ CaptureBackend_name O = true /\ 0 < samples
      /\ LastNullDeviceError (fst r) = LastNullDeviceError st
      /\ exists d,
           DeviceList (fst r) = (addr, d) :: DeviceList st
           /\ Type_ d = Capture
           /\ DecomposeDevFormat format = Some (FmtChans d, FmtType d)
           /\ UpdateSize d = wrapu samples /\ NumUpdates d = 1
           /\ Frequency d = wrapu frequency
           /\ Z.land (Flags d) (DEVICE_FREQUENCY_REQUEST K)
              = DEVICE_FREQUENCY_REQUEST K
           /\ Z.land (Flags d) (DEVICE_CHANNELS_REQUEST K)
              = DEVICE_CHANNELS_REQUEST K
           /\ Z.land (Flags d) (DEVICE_SAMPLE_TYPE_REQUEST K)
              = DEVICE_SAMPLE_TYPE_REQUEST K
  | None =>
      DeviceList (fst r) = DeviceList st
      /\ LastNullDeviceError (fst r) <> ALC_NO_ERROR
      /\ (CaptureBackend_name O = false \/ samples <= 0 ->
          LastNullDeviceError (fst r) = ALC_INVALID_VALUE)
      /\ (CaptureBackend_name O = true -> 0 < samples ->
          DecomposeDevFormat format = None ->
          LastNullDeviceError (fst r) = ALC_INVALID_ENUM)
  end.
Proof.
  cbv zeta. unfold alcCaptureOpenDevice.
  assert (Hfail : forall e, e <> ALC_NO_ERROR ->
            DeviceList (fst (alcSetError st None e, @None positive))
            = DeviceList st
            /\ LastNullDeviceError (fst (alcSetError st None e, @None positive))
               <> ALC_NO_ERROR
            /\ LastNullDeviceError (fst (alcSetError st None e, @None positive))
               = e).
  { intros e He. cbn [fst]. destruct (alcSetError_null st e) as [H1 H2].
    rewrite H1, H2. auto. }
  destruct (CaptureBackend_name O); cbn [negb].
  2: { destruct (Hfail ALC_INVALID_VALUE ltac:(discriminate)) as [H1 [H2 H3]].
       cbn [snd]. repeat split; try assumption; intros; congruence. }
  destruct (Z.leb_spec samples 0) as [Hs|Hs].
  { destruct (Hfail ALC_INVALID_VALUE ltac:(discriminate)) as [H1 [H2 H3]].
    cbn [snd]. repeat split; try assumption; intros; lia. }
  cbv zeta.
  destruct (DecomposeDevFormat format) as [[chans type]|] eqn:Hd.
  2: { destruct (Hfail ALC_INVALID_ENUM ltac:(discriminate)) as [H1 [H2 H3]].
       cbn [snd]. repeat split; try assumption.
       intros [H|H]; [discriminate|lia]. }
  set (d := set_NumUpdates 1 _).
  destruct (createBackend_ok O d); cbn [negb].
  2: { destruct (Hfail ALC_OUT_OF_MEMORY ltac:(discriminate)) as [H1 [H2 H3]].
       cbn [snd]. repeat split; try assumption.
       - intros [H|H]; [discriminate|lia].
       - intros; discriminate. }
  destruct (Z.eqb_spec (backend_open O d (default_to_null deviceName))
              ALC_NO_ERROR) as [He|He]; cbn [negb].
  - cbn [snd fst]. repeat split; try assumption.
    exists d. subst d.
    cbn [Type_ FmtChans FmtType UpdateSize NumUpdates Frequency Flags
         set_NumUpdates set_UpdateSize set_Flags set_FmtType set_FmtChans
         set_Frequency new_device set_Type_].
    unfold raise_flag.
    repeat split;
      apply Z.bits_inj'; intros n _;
      rewrite ?Z.land_spec, ?Z.lor_spec;
      destruct (Z.testbit (Flags (blank_device O)) n),
        (Z.testbit (DEVICE_FREQUENCY_REQUEST K) n),
        (Z.testbit (DEVICE_CHANNELS_REQUEST K) n),
        (Z.testbit (DEVICE_SAMPLE_TYPE_REQUEST K) n); reflexivity.
  - destruct (Hfail _ He) as [H1 [H2 H3]].
    cbn [snd]. repeat split; try assumption.
    + intros [H|H]; [discriminate|lia].
    + intros; discriminate.
Qed.

(* ------------------------------------------------------------------ *)
(** ** Closing devices *)

Lemma close_pushed (st : ALCstate) (addr : positive) (d : ALCdevice) :
  find_for_close (push_device addr d st) (Zpos addr) = Some (Some (addr, d))
  /\ set_DeviceList
       (unlink addr (DeviceList (push_device addr d st)))
       (push_device addr d st) = st.
Proof.
  unfold find_for_close, push_device, VerifyDevice.
  cbn [DeviceList set_DeviceList VerifyDevice_from unlink].
  rewrite Z.eqb_refl, Pos.eqb_refl. split; [reflexivity|].
  destruct st; reflexivity.
Qed.

Lemma open_limits_Type (K : Consts) (E : Env) (O : OpenEnv)
  (n : option string) (d : ALCdevice) :
  Type_ (open_limits K E O n d) = Type_ d.
Proof.
  unfold open_limits. cbv zeta.
  repeat match goal with
         | |- context [if ?c then _ else _] => destruct c
         | |- context [match ?c with Some _ => _ | None => _ end] =>
             destruct c
         end; reflexivity.
Qed.

Lemma open_ambi_format_Type (K : Consts) (E : Env) (d : ALCdevice) :
  Type_ (open_ambi_format K E d) = Type_ d.
Proof.
  unfold open_ambi_format.
  repeat match goal with
         | |- context [if ?c then _ else _] => destruct c
         | |- context [match ?c with Some _ => _ | None => _ end] =>
             destruct c
         end; reflexivity.
Qed.

(** X25.  Opening a device and closing it again leaves the process as it
    was.  Whenever alcOpenDevice, alcLoopbackOpenDeviceSOFT or
    alcCaptureOpenDevice returns a device, the matching close function
    called with that pointer succeeds, and the state it leaves (device
    list and error latch) is exactly the state before the open. *)
Theorem open_close_round_trip (K : Consts) (E : Env) (O : OpenEnv)
  (st : ALCstate) (addr : positive) (deviceName : option string)
  (frequency format samples : Z) :
  (forall p,
     snd (alcOpenDevice K E O st addr deviceName) = Some p ->
     exists d,
       alcCloseDevice K (fst (alcOpenDevice K E O st addr deviceName))
         (Zpos p) = Some (st, Some d))
  /\ (forall p,
        snd (alcLoopbackOpenDeviceSOFT K E O st addr deviceName) = Some p ->
        exists d,
          alcCloseDevice K
            (fst (alcLoopbackOpenDeviceSOFT K E O st addr deviceName))
            (Zpos p) = Some (st, Some d))
  /\ (forall p,
        snd (alcCaptureOpenDevice K O st addr deviceName frequency format
               samples) = Some p ->
        exists d,
          alcCaptureCloseDevice K
            (fst (alcCaptureOpenDevice K O st addr deviceName frequency
                    format samples)) (Zpos p) = Some (st, Some d)).
Proof.
  split; [|split]; intros p.
  - unfold alcOpenDevice.
    repeat match goal with
           | |- context [if ?c then (_, None) else _] => destruct c
           end; cbn [snd fst]; try discriminate.
    intros Hp. injection Hp as <-.
    match goal with
    | |- context [push_device addr ?x st] =>
        destruct (close_pushed st addr x) as [H1 H2];
        assert (Ht : Type_ x = Playback);
        [|set (d1 := x) in *]
    end.
    { rewrite open_ambi_format_Type, open_limits_Type.
      match goal with
      | |- Type_ (open_format K E ?n ?x) = _ =>
          pose proof (open_format_spec K E n x) as Hf
      end.
      cbv zeta in Hf. destruct Hf as [_ [_ [_ [Hf _]]]].
      rewrite Hf. reflexivity. }
    unfold alcCloseDevice. rewrite H1, Ht. cbn [DeviceType_eqb].
    rewrite H2. eexists. reflexivity.
  - unfold alcLoopbackOpenDeviceSOFT.
    repeat match goal with
           | |- context [if ?c then (_, None) else _] => destruct c
           end; cbn [snd fst]; try discriminate.
    intros Hp. injection Hp as <-.
    match goal with
    | |- context [push_device addr ?x st] =>
        destruct (close_pushed st addr x) as [H1 H2];
        assert (Ht : Type_ x = Loopback);
        [|set (d1 := x) in *]
    end.
    { rewrite open_limits_Type. reflexivity. }
    unfold alcCloseDevice. rewrite H1, Ht. cbn [DeviceType_eqb].
    rewrite H2. eexists. reflexivity.
  - unfold alcCaptureOpenDevice.
    destruct (DecomposeDevFormat format) as [[chans type]|].
    2: { repeat match goal with
                | |- context [if ?c then (_, None) else _] => destruct c
                end; cbn [snd]; discriminate. }
    repeat match goal with
           | |- context [if ?c then (_, None) else _] => destruct c
           end; cbn [snd fst]; try discriminate.
    intros Hp. injection Hp as <-.
    match goal with
    | |- context [push_device addr ?x st] =>
        destruct (close_pushed st addr x) as [H1 H2];
        assert (Ht : Type_ x = Capture);
        [|set (d1 := x) in *]
    end.
    { reflexivity. }
    unfold alcCaptureCloseDevice. rewrite H1, Ht. cbn [DeviceType_eqb negb].
    rewrite H2. eexists. reflexivity.
Qed.

Lemma open_close_round_trip_witness :
  snd (alcOpenDevice upstream plain_env plain_open no_devices 7 None)
  = Some 7%positive
  /\ exists d,
       alcCloseDevice upstream
         (fst (alcOpenDevice upstream plain_env plain_open no_devices 7 None))
         7 = Some (no_devices, Some d).
Proof.
  split; [reflexivity|].
  apply (proj1 (open_close_round_trip upstream plain_env plain_open
                  no_devices 7 None 0 0 0)).
  reflexivity.
Defined.

(* ------------------------------------------------------------------ *)
(** ** Reading captured samples *)

(** X26.  alcCaptureSamples hands a request on to the backend exactly
    when the count is not negative and not above what the backend has
    available; a request outside that range never reaches the backend and
    latches ALC_INVALID_VALUE on the device.  A request handed on leaves
    the state untouched when the backend succeeds and latches the
    backend's error when it does not. *)
Theorem alcCaptureSamples_guard (E : Env) (O : OpenEnv) (st : ALCstate)
  (device buffer samples : Z) (addr : positive) (d : ALCdevice) :
  VerifyDevice st device = Some (addr, d) ->
  Type_ d = Capture ->
  is_i32 samples = true ->
  let r := alcCaptureSamples E O st device buffer samples in
  let avail := wrapu (backend_availableSamples E d) in
  let err := backend_captureSamples O d buffer samples in
  (0 <= samples <= avail ->
   snd r = Some (buffer, samples)
   /\ (err = ALC_NO_ERROR -> fst r = st)
   /\ (err <> ALC_NO_ERROR -> snd (alcGetError (fst r) device) = err))
  /\ (~ 0 <= samples <= avail ->
      snd r = None
      /\ snd (alcGetError (fst r) device) = ALC_INVALID_VALUE).
Proof.
  intros Hv Ht Hs. cbv zeta.
  apply is_i32_spec in Hs. unfold INT_MAX in Hs.
  unfold alcCaptureSamples. rewrite Hv, Ht. cbn [DeviceType_eqb negb].
  assert (Hg : forall e,
            snd (alcGetError (alcSetError st (Some addr) e) device) = e).
  { intros e. unfold alcGetError.
    rewrite (VerifyDevice_alcSetError st device addr d e Hv). reflexivity. }
  split.
  - intros Hr.
    assert (Hc : (samples >=? 0)
                 && (wrapu (backend_availableSamples E d) >=? wrapu samples)
                 = true).
    { rewrite (wrapu_small samples) by lia.
      apply andb_true_iff. split; apply Z.geb_le; lia. }
    rewrite Hc. cbn [snd fst]. split; [reflexivity|].
    destruct (Z.eqb_spec (backend_captureSamples O d buffer samples)
                ALC_NO_ERROR) as [He|He]; cbn [negb].
    + split; [reflexivity|]. intros Hn. contradiction.
    + split; [intros Hn; contradiction|]. intros _. apply Hg.
  - intros Hr.
    assert (Hc : (samples >=? 0)
                 && (wrapu (backend_availableSamples E d) >=? wrapu samples)
                 = false).
    { destruct (Z.geb_spec samples 0) as [H0|H0]; [|reflexivity].
      cbn [andb]. rewrite (wrapu_small samples) by lia.
      destruct (Z.geb_spec (wrapu (backend_availableSamples E d)) samples)
        as [H1|H1]; [|reflexivity].
      exfalso. apply Hr. lia. }
    rewrite Hc. cbn [snd fst]. split; [reflexivity|].
    change (negb (ALC_INVALID_VALUE =? ALC_NO_ERROR)) with true.
    cbn iota. apply Hg.
Qed.

Lemma alcCaptureSamples_guard_witness :
  let r := alcCaptureSamples plain_env plain_open (one_device capture_device)
             1 4096 0 in
  (0 <= 0 <= wrapu (backend_availableSamples plain_env capture_device) ->
   snd r = Some (4096, 0)
   /\ (backend_captureSamples plain_open capture_device 4096 0 = ALC_NO_ERROR ->
       fst r = one_device capture_device)
   /\ (backend_captureSamples plain_open capture_device 4096 0 <> ALC_NO_ERROR ->
       snd (alcGetError (fst r) 1)
       = backend_captureSamples plain_open capture_device 4096 0))
  /\ (~ 0 <= 0 <= wrapu (backend_availableSamples plain_env capture_device) ->
      snd r = None
      /\ snd (alcGetError (fst r) 1) = ALC_INVALID_VALUE).
Proof.
  apply (alcCaptureSamples_guard plain_env plain_open
           (one_device capture_device) 1 4096 0 1%positive capture_device);
    reflexivity.
Defined.

(* ------------------------------------------------------------------ *)
(** ** Render formats of loopback devices *)

Lemma attr_case_format (K : Consts) (key val : Z) (a : AttrVals) :
  (key =? ALC_FORMAT_CHANNELS_SOFT) = false ->
  (key =? ALC_FORMAT_TYPE_SOFT) = false ->
  (key =? ALC_FREQUENCY) = false ->
  schans (attr_case K key val a) = schans a
  /\ stype (attr_case K key val a) = stype a
  /\ freq (attr_case K key val a) = freq a.
Proof.
  intros H1 H2 H3. unfold attr_case. rewrite H1, H2, H3.
  split_ifs; repeat split; reflexivity.
Qed.

Lemma apply_pairs_format (K : Consts) (ps : list (Z * Z)) :
  key_absent ALC_FORMAT_CHANNELS_SOFT ps = true ->
  key_absent ALC_FORMAT_TYPE_SOFT ps = true ->
  key_absent ALC_FREQUENCY ps = true ->
  forall a,
    schans (apply_pairs K ps a) = schans a
    /\ stype (apply_pairs K ps a) = stype a
    /\ freq (apply_pairs K ps a) = freq a.
Proof.
  unfold apply_pairs.
  induction ps as [|[k v] ps IH]; intros H1 H2 H3 a; [auto|].
  cbn [key_absent forallb fst] in H1, H2, H3.
  apply andb_prop in H1, H2, H3.
  destruct H1 as [H1 P1], H2 as [H2 P2], H3 as [H3 P3].
  apply negb_true_iff in H1, H2, H3.
  cbn [fold_left fst snd].
  destruct (IH P1 P2 P3 (attr_case K k v a)) as [I1 [I2 I3]].
  destruct (attr_case_format K k v a H1 H2 H3) as [A1 [A2 A3]].
  rewrite I1, I2, I3, A1, A2, A3. auto.
Qed.

(** X27.  alcIsRenderFormatSupportedSOFT and the attribute check of
    UpdateDeviceParams agree on what they turn down: a frequency, channel
    layout and sample type for which the query on a loopback device
    answers ALC_FALSE is answered with ALC_INVALID_VALUE, the device left
    as it was, by UpdateDeviceParams on every attribute list that asks
    for them, whatever else the list holds. *)
Theorem unsupported_render_format_rejected (K : Consts) (E : Env)
  (st : ALCstate) (device : Z) (addr : positive) (d : ALCdevice)
  (frequency channels type : Z) (ps : list (Z * Z)) (rest : list Z) :
  VerifyDevice st device = Some (addr, d) ->
  Type_ d = Loopback ->
  0 <= frequency <= INT_MAX ->
  0 <= MIN_OUTPUT_RATE K <= INT_MAX ->
  keys_nonzero ps = true ->
  key_absent ALC_FORMAT_CHANNELS_SOFT ps = true ->
  key_absent ALC_FORMAT_TYPE_SOFT ps = true ->
  key_absent ALC_FREQUENCY ps = true ->
  snd (alcIsRenderFormatSupportedSOFT K st device frequency channels type)
  = false ->
  UpdateDeviceParams K E d
    (Some (flatten_attrs
             ((ALC_FORMAT_CHANNELS_SOFT, channels)
              :: (ALC_FORMAT_TYPE_SOFT, type)
              :: (ALC_FREQUENCY, frequency) :: ps) ++ 0 :: rest))
  = (ALC_INVALID_VALUE, d).
Proof.
  intros Hv Ht Hf Hm Hz H1 H2 H3 Hq. unfold INT_MAX in *.
  rewrite UpdateDeviceParams_unfold. unfold attribute_stage.
  rewrite Ht.
  change (attrs_missing _) with false.
  cbn [DeviceType_eqb andb].
  change (mkAttrVals AL_NONE AL_NONE 0 AL_NONE AL_NONE 0
            (wrapi (NumMonoSources d)) (wrapi (NumStereoSources d))
            (NumAuxSends d) Hrtf_Default (-1) (LimiterState d))
    with (initial_attrs d).
  rewrite walk_attrs_flatten by exact Hz.
  set (a0 := attr_case K ALC_FREQUENCY frequency
               (attr_case K ALC_FORMAT_TYPE_SOFT type
                  (attr_case K ALC_FORMAT_CHANNELS_SOFT channels
                     (initial_attrs d)))).
  change (apply_pairs K _ (initial_attrs d)) with (apply_pairs K ps a0).
  destruct (apply_pairs_format K ps H1 H2 H3 a0) as [A1 [A2 A3]].
  assert (Hi : loopback_attrs_invalid K (apply_pairs K ps a0) = true).
  { unfold loopback_attrs_invalid. rewrite A1, A2, A3.
    change (schans a0) with channels. change (stype a0) with type.
    change (freq a0) with (wrapu frequency).
    rewrite (wrapu_small frequency), (wrapu_small (MIN_OUTPUT_RATE K)) by lia.
    unfold alcIsRenderFormatSupportedSOFT in Hq. rewrite Hv, Ht in Hq.
    cbn [DeviceType_eqb negb] in Hq.
    destruct (Z.leb_spec frequency 0) as [H0|H0].
    - assert (frequency = 0) as -> by lia.
      rewrite !orb_true_r. reflexivity.
    - cbn [snd] in Hq.
      destruct (IsValidALCType type); cbn [negb];
        [|rewrite !orb_true_r; reflexivity].
      destruct (IsValidALCChannels K channels); cbn [negb];
        [|rewrite ?orb_true_r; reflexivity].
      cbn [andb] in Hq.
      assert (Hlt : (frequency <? MIN_OUTPUT_RATE K) = true).
      { apply Z.ltb_lt.
        destruct (Z.geb_spec frequency (MIN_OUTPUT_RATE K));
          [discriminate|lia]. }
      rewrite Hlt. rewrite ?orb_true_r. reflexivity. }
  rewrite Hi. reflexivity.
Qed.

Lemma unsupported_render_format_rejected_witness :
  UpdateDeviceParams upstream plain_env loopback_device
    (Some (flatten_attrs
             ((ALC_FORMAT_CHANNELS_SOFT, ALC_STEREO_SOFT)
              :: (ALC_FORMAT_TYPE_SOFT, ALC_FLOAT_SOFT)
              :: (ALC_FREQUENCY, 4000)
              :: [(ALC_AMBISONIC_LAYOUT_SOFT upstream, ALC_ACN_SOFT upstream);
                  (ALC_AMBISONIC_SCALING_SOFT upstream,
                   ALC_N3D_SOFT upstream);
                  (ALC_AMBISONIC_ORDER_SOFT upstream, 1)]) ++ 0 :: []))
  = (ALC_INVALID_VALUE, loopback_device).
Proof.
  apply (unsupported_render_format_rejected upstream plain_env
           (one_device loopback_device) 1 1%positive loopback_device
           4000 ALC_STEREO_SOFT ALC_FLOAT_SOFT
           [(ALC_AMBISONIC_LAYOUT_SOFT upstream, ALC_ACN_SOFT upstream);
            (ALC_AMBISONIC_SCALING_SOFT upstream, ALC_N3D_SOFT upstream);
            (ALC_AMBISONIC_ORDER_SOFT upstream, 1)] []);
    try reflexivity; cbn; lia.
Defined.

(* ------------------------------------------------------------------ *)
(** ** What closing a device leaves behind *)

Lemma unlink_other (l : list (positive * ALCdevice)) (addr : positive)
  (p : Z) :
  p <> Zpos addr ->
  VerifyDevice_from (unlink addr l) p = VerifyDevice_from l p.
Proof.
  intros Hp. induction l as [|[a x] rest IH]; [reflexivity|].
  cbn [unlink]. destruct (Pos.eqb_spec a addr) as [->|Ha].
  - cbn [VerifyDevice_from].
    destruct (Z.eqb_spec (Zpos addr) p) as [He|_]; [|reflexivity].
    symmetry in He. contradiction.
  - cbn [VerifyDevice_from]. rewrite IH. reflexivity.
Qed.

Lemma VerifyDevice_from_absent (l : list (positive * ALCdevice))
  (addr : positive) :
  ~ In addr (map fst l) -> VerifyDevice_from l (Zpos addr) = None.
Proof.
  induction l as [|[a x] rest IH]; intros Hn; [reflexivity|].
  cbn [VerifyDevice_from map fst In] in *.
  destruct (Z.eqb_spec (Zpos a) (Zpos addr)) as [He|_].
  - exfalso. apply Hn. left. congruence.
  - apply IH. intros Hi. apply Hn. right. exact Hi.
Qed.

Lemma unlink_same (l : list (positive * ALCdevice)) (addr : positive) :
  NoDup (map fst l) ->
  VerifyDevice_from (unlink addr l) (Zpos addr) = None
  /\ (In addr (map fst l) ->
      S (List.length (unlink addr l)) = List.length l).
Proof.
  induction l as [|[a x] rest IH]; intros Hd; [split; [reflexivity|]|].
  { intros []. }
  cbn [map fst] in Hd. inversion Hd as [|a' l' Hn Hd']; subst.
  cbn [unlink]. destruct (Pos.eqb_spec a addr) as [->|Ha].
  - split; [apply VerifyDevice_from_absent, Hn|reflexivity].
  - destruct (IH Hd') as [I1 I2]. cbn [VerifyDevice_from].
    destruct (Z.eqb_spec (Zpos a) (Zpos addr)) as [He|_]; [congruence|].
    split; [exact I1|].
    cbn [map fst In List.length]. intros [Hi|Hi]; [contradiction|].
    rewrite (I2 Hi). reflexivity.
Qed.

Lemma VerifyDevice_from_In (l : list (positive * ALCdevice)) (p : Z)
  (addr : positive) (d : ALCdevice) :
  VerifyDevice_from l p = Some (addr, d) -> In addr (map fst l).
Proof.
  induction l as [|[a x] rest IH]; cbn [VerifyDevice_from];
    [discriminate|].
  destruct (Zpos a =? p).
  - intros H. injection H as -> _. left. reflexivity.
  - intros H. right. apply IH, H.
Qed.

Lemma release_step_fields (d : ALCdevice) :
  let d' := log_call Backend_unlock
              (set_ContextList (tl (ContextList (log_call Backend_lock d)))
                 (log_call Backend_lock d)) in
  ContextList d' = tl (ContextList d)
  /\ Flags d' = Flags d
  /\ BackendLog d' = BackendLog d ++ [Backend_lock; Backend_unlock].
Proof.
  destruct d. cbv zeta. cbn. rewrite <- app_assoc. auto.
Qed.

Lemma release_fold (l : list ALCcontext) :
  forall d,
    let r := fold_left
               (fun d (_ : ALCcontext) =>
                  let d := log_call Backend_lock d in
                  let d := set_ContextList (tl (ContextList d)) d in
                  log_call Backend_unlock d) l d in
    ContextList r = skipn (List.length l) (ContextList d)
    /\ Flags r = Flags d
    /\ BackendLog r
       = BackendLog d
         ++ flat_map (fun _ => [Backend_lock; Backend_unlock]) l.
Proof.
  induction l as [|c l IH]; intros d; cbv zeta.
  - cbn [fold_left List.length skipn flat_map]. rewrite app_nil_r. auto.
  - cbn [fold_left].
    pose proof (release_step_fields d) as Hs. cbv zeta in Hs.
    set (d1 := log_call Backend_unlock _) in *.
    destruct Hs as [S1 [S2 S3]].
    specialize (IH d1). cbv zeta in IH. destruct IH as [I1 [I2 I3]].
    rewrite I1, I2, I3, S1, S2, S3.
    cbn [flat_map List.length]. rewrite <- app_assoc.
    repeat split. destruct (ContextList d); [|reflexivity].
    cbn [tl]. rewrite !skipn_nil. reflexivity.
Qed.

Lemma stop_if_running_ContextList (K : Consts) (d : ALCdevice) :
  ContextList (stop_if_running K d) = ContextList d.
Proof. unfold stop_if_running. frame. Qed.

(** X28.  What alcCloseDevice leaves behind.  Closing a verified device
    that is not a capture device succeeds: its pointer no longer verifies
    while every other pointer verifies as before, the list is one node
    shorter and the process-wide latch untouched.  The device released
    has no contexts left and is not running; each of its contexts was
    unlinked under the backend lock, and the backend was stopped
    afterwards if the device had been running. *)
Theorem alcCloseDevice_releases (K : Consts) (st : ALCstate) (device : Z)
  (addr : positive) (d : ALCdevice) :
  0 <= DEVICE_RUNNING K < 2 ^ 32 ->
  NoDup (map fst (DeviceList st)) ->
  VerifyDevice st device = Some (addr, d) ->
  Type_ d <> Capture ->
  exists st' d',
    alcCloseDevice K st device = Some (st', Some d')
    /\ VerifyDevice st' device = None
    /\ (forall other, other <> device ->
        VerifyDevice st' other = VerifyDevice st other)
    /\ S (List.length (DeviceList st')) = List.length (DeviceList st)
    /\ LastNullDeviceError st' = LastNullDeviceError st
    /\ ContextList d' = []
    /\ has_flag (Flags d') (DEVICE_RUNNING K) = false
    /\ BackendLog d'
       = BackendLog d
         ++ flat_map (fun _ => [Backend_lock; Backend_unlock]) (ContextList d)
         ++ (if has_flag (Flags d) (DEVICE_RUNNING K)
             then [Backend_stop] else []).
Proof.
  intros HR Hd Hv Ht.
  assert (Hp : Zpos addr = device)
    by exact (VerifyDevice_from_addr _ _ _ _ Hv).
  assert (Hf : find_for_close st device = Some (Some (addr, d))).
  { unfold find_for_close. unfold VerifyDevice in Hv.
    destruct (DeviceList st) eqn:El; [discriminate|].
    unfold VerifyDevice. rewrite El. rewrite Hv. reflexivity. }
  unfold alcCloseDevice. rewrite Hf.
  assert (Hc : DeviceType_eqb (Type_ d) Capture = false)
    by (destruct (Type_ d); [reflexivity|contradiction|reflexivity]).
  rewrite Hc.
  eexists. eexists. split; [reflexivity|].
  destruct (unlink_same (DeviceList st) addr Hd) as [U1 U2].
  pose proof (release_fold (ContextList d) d) as Hr. cbv zeta in Hr.
  fold (release_contexts d) in Hr. destruct Hr as [R1 [R2 R3]].
  destruct (stop_if_running_log K (release_contexts d)) as [L1 L2].
  split; [|split; [|split; [|split; [|split; [|split]]]]].
  - unfold VerifyDevice. destruct st as [dl le tr tn]; cbn [DeviceList set_DeviceList] in *.
    rewrite <- Hp. exact U1.
  - intros other Ho. unfold VerifyDevice.
    destruct st as [dl le tr tn]; cbn [DeviceList set_DeviceList] in *.
    apply unlink_other. congruence.
  - destruct st as [dl le tr tn]; cbn [DeviceList set_DeviceList] in *.
    apply U2. exact (VerifyDevice_from_In _ _ _ _ Hv).
  - destruct st as [dl le tr tn]; reflexivity.
  - rewrite stop_if_running_ContextList, R1. apply skipn_all.
  - rewrite L2. apply has_flag_clear, HR.
  - rewrite L1, R2, R3, <- app_assoc. reflexivity.
Qed.

Lemma alcCloseDevice_releases_witness :
  exists st' d',
    alcCloseDevice upstream (one_device playing_device) 1 = Some (st', Some d')
    /\ VerifyDevice st' 1 = None
    /\ (forall other, other <> 1 ->
        VerifyDevice st' other = VerifyDevice (one_device playing_device) other)
    /\ S (List.length (DeviceList st'))
       = List.length (DeviceList (one_device playing_device))
    /\ LastNullDeviceError st'
       = LastNullDeviceError (one_device playing_device)
    /\ ContextList d' = []
    /\ has_flag (Flags d') (DEVICE_RUNNING upstream) = false
    /\ BackendLog d'
       = BackendLog playing_device
         ++ flat_map (fun _ => [Backend_lock; Backend_unlock])
              (ContextList playing_device)
         ++ (if has_flag (Flags playing_device) (DEVICE_RUNNING upstream)
             then [Backend_stop] else []).
Proof.
  apply (alcCloseDevice_releases upstream (one_device playing_device) 1
           1%positive playing_device).
  - cbn. lia.
  - cbn. repeat constructor. intros [].
  - reflexivity.
  - discriminate.
Defined.

(* ------------------------------------------------------------------ *)
(** ** Contexts on freshly opened devices *)

Lemma VerifyDevice_pushed (st : ALCstate) (addr : positive) (d : ALCdevice) :
  VerifyDevice (push_device addr d st) (Zpos addr) = Some (addr, d).
Proof.
  unfold VerifyDevice, push_device.
  destruct st as [dl le tr tn].
  cbn [DeviceList set_DeviceList VerifyDevice_from].
  rewrite Z.eqb_refl. reflexivity.
Qed.

Lemma open_limits_Connected (K : Consts) (E : Env) (O : OpenEnv)
  (n : option string) (d : ALCdevice) :
  Connected (open_limits K E O n d) = Connected d.
Proof. unfold open_limits. frame. Qed.

(** X29.  A device fresh from its open call and alcCreateContext.  A
    capture device is never given a context: alcCreateContext on the
    pointer alcCaptureOpenDevice returned answers null and latches
    ALC_INVALID_DEVICE, whatever the attribute list.  A loopback device
    is given none without attributes: on the pointer
    alcLoopbackOpenDeviceSOFT returned, a null or empty attribute list is
    answered with null and ALC_INVALID_VALUE. *)
Theorem opened_device_refuses_context (K : Consts) (E : Env) (O : OpenEnv)
  (st : ALCstate) (addr : positive) (deviceName : option string)
  (frequency format samples : Z) (attrList : option (list Z))
  (p : positive) :
  Connected (blank_device O) = true ->
  (snd (alcCaptureOpenDevice K O st addr deviceName frequency format samples)
   = Some p ->
   let st1 := fst (alcCaptureOpenDevice K O st addr deviceName frequency
                     format samples) in
   let r := alcCreateContext K E st1 (Zpos p) attrList in
   snd r = false
   /\ snd (alcGetError (fst r) (Zpos p)) = ALC_INVALID_DEVICE)
  /\ (attrs_missing attrList = true ->
      snd (alcLoopbackOpenDeviceSOFT K E O st addr deviceName) = Some p ->
      let st1 := fst (alcLoopbackOpenDeviceSOFT K E O st addr deviceName) in
      let r := alcCreateContext K E st1 (Zpos p) attrList in
      snd r = false
      /\ snd (alcGetError (fst r) (Zpos p)) = ALC_INVALID_VALUE).
Proof.
  intros Hc. split.
  - unfold alcCaptureOpenDevice.
    destruct (DecomposeDevFormat format) as [[chans type]|].
    2: { repeat match goal with
                | |- context [if ?c then (_, None) else _] => destruct c
                end; cbn [snd]; discriminate. }
    repeat match goal with
           | |- context [if ?c then (_, None) else _] => destruct c
           end; cbn [snd fst]; try discriminate.
    intros Hp. injection Hp as <-. cbv zeta.
    match goal with
    | |- context [push_device addr ?x st] =>
        pose proof (VerifyDevice_pushed st addr x) as Hv;
        assert (Ht : Type_ x = Capture) by reflexivity;
        set (d1 := x) in *
    end.
    unfold alcCreateContext. rewrite Hv, Ht. cbn [DeviceType_eqb orb snd fst].
    split; [reflexivity|].
    unfold alcGetError.
    rewrite (VerifyDevice_alcSetError _ _ addr d1 ALC_INVALID_DEVICE Hv).
    reflexivity.
  - intros Hm. unfold alcLoopbackOpenDeviceSOFT.
    repeat match goal with
           | |- context [if ?c then (_, None) else _] => destruct c
           end; cbn [snd fst]; try discriminate.
    intros Hp. injection Hp as <-. cbv zeta.
    match goal with
    | |- context [push_device addr ?x st] =>
        pose proof (VerifyDevice_pushed st addr x) as Hv;
        assert (Ht : Type_ x = Loopback)
          by (rewrite open_limits_Type; reflexivity);
        assert (Hn : Connected x = true)
          by (rewrite open_limits_Connected; exact Hc);
        set (d1 := x) in *
    end.
    unfold alcCreateContext. rewrite Hv, Ht, Hn. cbn [DeviceType_eqb orb negb].
    rewrite UpdateDeviceParams_unfold, attribute_stage_missing by exact Hm.
    assert (Ht' : Type_ (set_LastError ALC_NO_ERROR d1) = Loopback)
      by (destruct d1; exact Ht).
    rewrite Ht'. cbn [DeviceType_eqb].
    change (negb (ALC_INVALID_VALUE =? ALC_NO_ERROR)) with true.
    change (ALC_INVALID_VALUE =? ALC_INVALID_DEVICE) with false.
    cbn iota. cbn [snd fst]. split; [reflexivity|].
    assert (Hv1 : VerifyDevice
                    (put_device addr (set_LastError ALC_NO_ERROR d1)
                       (push_device addr d1 st)) (Zpos addr)
                  = Some (addr, set_LastError ALC_NO_ERROR d1))
      by exact (VerifyDevice_modify_same _ addr
                  (fun _ => set_LastError ALC_NO_ERROR d1) (Zpos addr) d1 Hv).
    unfold alcGetError.
    rewrite (VerifyDevice_alcSetError _ _ addr _ ALC_INVALID_VALUE Hv1).
    reflexivity.
Qed.

Lemma opened_device_refuses_context_witness :
  (let st1 := fst (alcCaptureOpenDevice upstream plain_open no_devices 3 None
                     44100 AL_FORMAT_MONO16 1024) in
   let r := alcCreateContext upstream plain_env st1 3 None in
   snd r = false
   /\ snd (alcGetError (fst r) 3) = ALC_INVALID_DEVICE)
  /\ (let st1 := fst (alcLoopbackOpenDeviceSOFT upstream plain_env plain_open
                        no_devices 3 None) in
      let r := alcCreateContext upstream plain_env st1 3 None in
      snd r = false
      /\ snd (alcGetError (fst r) 3) = ALC_INVALID_VALUE).
Proof.
  pose proof (opened_device_refuses_context upstream plain_env plain_open
                no_devices 3 None 44100 AL_FORMAT_MONO16 1024 None 3%positive
                eq_refl) as [H1 H2].
  split; [apply H1; reflexivity|apply H2; reflexivity].
Defined.

(* ------------------------------------------------------------------ *)
(** ** Period count and period size at return *)

Lemma configured_periods (E : Env) (d : ALCdevice) (l : Locals) :
  NumUpdates (configured E d l) = NumUpdates d
  /\ UpdateSize (configured E d l) = UpdateSize d.
Proof.
  unfold configured.
  set (r := aluInitRenderer E d _ _ _).
  assert (A : NumUpdates (apply_renderer r d) = NumUpdates d
              /\ UpdateSize (apply_renderer r d) = UpdateSize d)
    by (split; reflexivity).
  set (d0 := apply_renderer r d) in *.
  assert (B : NumUpdates (allocate_mix_buffer (l_new_sends l) d0)
              = NumUpdates d0
              /\ UpdateSize (allocate_mix_buffer (l_new_sends l) d0)
                 = UpdateSize d0)
    by (unfold allocate_mix_buffer; split; frame).
  set (d1 := allocate_mix_buffer _ d0) in *.
  assert (C : NumUpdates (select_dither E d1) = NumUpdates d1
              /\ UpdateSize (select_dither E d1) = UpdateSize d1)
    by (unfold select_dither; split; frame).
  set (d2 := select_dither E d1) in *.
  assert (D : NumUpdates (select_limiter E (l_gainLimiter l) d2)
              = NumUpdates d2
              /\ UpdateSize (select_limiter E (l_gainLimiter l) d2)
                 = UpdateSize d2)
    by (unfold select_limiter; split; frame).
  destruct A as [A1 A2], B as [B1 B2], C as [C1 C2], D as [D1 D2].
  rewrite D1, D2, C1, C2, B1, B2, A1, A2. auto.
Qed.

Lemma configure_stage_periods (K : Consts) (E : Env) (d : ALCdevice)
  (l : Locals) :
  NumUpdates (snd (configure_stage K E (d, l))) = NumUpdates d
  /\ UpdateSize (snd (configure_stage K E (d, l))) = UpdateSize d.
Proof.
  rewrite configure_stage_unfold. cbv zeta.
  destruct (configured_periods E d l) as [H1 H2].
  rewrite <- H1, <- H2.
  split; split_ifs; reflexivity.
Qed.

Lemma reconcile_requests_periods (K : Consts) (f : Z) (c : DevFmtChannels)
  (t : DevFmtType) (d : ALCdevice) :
  NumUpdates (reconcile_requests K f c t d) = NumUpdates d
  /\ UpdateSize (reconcile_requests K f c t d) = UpdateSize d.
Proof. unfold reconcile_requests. split; frame. Qed.

Lemma after_reset_periods (E : Env) (d : ALCdevice) :
  NumUpdates (after_reset E d) = wrapu (bf_NumUpdates (snd (backend_reset E d)))
  /\ UpdateSize (after_reset E d)
     = wrapu (bf_UpdateSize (snd (backend_reset E d))).
Proof. split; reflexivity. Qed.

(** C9 (as amended).  When UpdateDeviceParams processes a non-empty
    attribute list for a device that is not a loopback device, it reaches
    the backend's reset() with the period count in [2,16] and the period
    size in [64,8192], the latter a multiple of 4 when the CPU has SSE or
    NEON.  On return the two fields hold what reset() wrote, as 32-bit
    values: they are within the same bounds when the backend kept the
    values it was handed, and are whatever the backend chose otherwise. *)
Theorem UpdateDeviceParams_period_bounds
  (K : Consts) (E : Env) (device : ALCdevice) (attrList : option (list Z)) :
  flags_ok K = true ->
  attrs_missing attrList = false ->
  DeviceType_eqb (Type_ device) Loopback = false ->
  exists (d : ALCdevice) (l : Locals),
    before_reset K E device attrList = Next (d, l)
    /\ 2 <= NumUpdates d <= 16
    /\ 64 <= UpdateSize d <= 8192
    /\ (simd_present K E = true -> UpdateSize d mod 4 = 0)
    /\ let got := snd (backend_reset E d) in
       let r := snd (UpdateDeviceParams K E device attrList) in
       NumUpdates r = wrapu (bf_NumUpdates got)
       /\ UpdateSize r = wrapu (bf_UpdateSize got)
       /\ (bf_NumUpdates got = NumUpdates d ->
           bf_UpdateSize got = UpdateSize d ->
           2 <= NumUpdates r <= 16
           /\ 64 <= UpdateSize r <= 8192
           /\ (simd_present K E = true -> UpdateSize r mod 4 = 0)).
Proof.
  intros Hok Hm Hl.
  destruct (attribute_stage_period_bounds K E device attrList Hm Hl)
    as [d0 [l0 [Ha [Hn [Hu [Hs Hp]]]]]].
  pose proof (attribute_stage_stopped K E device attrList d0 l0 Hok Hm Ha)
    as Hstop.
  assert (Hprep : prepare_stage K E (d0, l0)
                  = Next (hrtf_request K E (clear_views K d0) l0)).
  { unfold prepare_stage. rewrite Hstop. reflexivity. }
  pose proof (UpdateDeviceParams_unfold K E device attrList) as Hupd.
  rewrite Ha, after_attributes_unfold, Hstop in Hupd. cbv zeta in Hupd.
  destruct (hrtf_request K E (clear_views K d0) l0) as [d1 l1] eqn:Hx.
  cbn [fst snd] in Hupd.
  destruct (Hp d1 l1 Hprep) as [Pn Pu].
  exists d1, l1.
  split; [unfold before_reset; rewrite Ha; cbn [andThen]; exact Hprep|].
  rewrite Pn, Pu.
  split; [exact Hn|]. split; [exact Hu|]. split; [exact Hs|].
  cbv zeta.
  destruct (after_reset_periods E d1) as [Rn Ru].
  assert (Hr : NumUpdates (snd (UpdateDeviceParams K E device attrList))
               = wrapu (bf_NumUpdates (snd (backend_reset E d1)))
               /\ UpdateSize (snd (UpdateDeviceParams K E device attrList))
                  = wrapu (bf_UpdateSize (snd (backend_reset E d1)))).
  { rewrite Hupd. destruct (fst (backend_reset E d1)).
    - destruct (configure_stage_periods K E
                  (reconcile_requests K (Frequency d1) (FmtChans d1)
                     (FmtType d1) (after_reset E d1)) l1) as [Cn Cu].
      destruct (reconcile_requests_periods K (Frequency d1) (FmtChans d1)
                  (FmtType d1) (after_reset E d1)) as [Qn Qu].
      rewrite Cn, Cu, Qn, Qu, Rn, Ru. auto.
    - cbn [snd]. rewrite Rn, Ru. auto. }
  destruct Hr as [Hrn Hru].
  split; [exact Hrn|]. split; [exact Hru|].
  intros Gn Gu. rewrite Hrn, Hru, Gn, Gu.
  rewrite !wrapu_small by lia. auto.
Qed.

Lemma UpdateDeviceParams_period_bounds_witness :
  exists (d : ALCdevice) (l : Locals),
    before_reset upstream sse_env playback_device
      (Some [ALC_FREQUENCY; 48000; 0]) = Next (d, l)
    /\ 2 <= NumUpdates d <= 16
    /\ 64 <= UpdateSize d <= 8192
    /\ (simd_present upstream sse_env = true -> UpdateSize d mod 4 = 0)
    /\ let got := snd (backend_reset sse_env d) in
       let r := snd (UpdateDeviceParams upstream sse_env playback_device
                       (Some [ALC_FREQUENCY; 48000; 0])) in
       NumUpdates r = wrapu (bf_NumUpdates got)
       /\ UpdateSize r = wrapu (bf_UpdateSize got)
       /\ (bf_NumUpdates got = NumUpdates d ->
           bf_UpdateSize got = UpdateSize d ->
           2 <= NumUpdates r <= 16
           /\ 64 <= UpdateSize r <= 8192
           /\ (simd_present upstream sse_env = true ->
               UpdateSize r mod 4 = 0)).
Proof.
  apply (UpdateDeviceParams_period_bounds upstream sse_env playback_device
           (Some [ALC_FREQUENCY; 48000; 0])); reflexivity.
Defined.

(** C9, as stated, fails at return: a backend that runs one period of
    16384 frames answers a request for 48000 Hz on a playback device with
    success, and the device comes back with a period count of 1 and a
    period size of 16384. *)
Lemma UpdateDeviceParams_period_bounds_counterexample :
  attrs_missing (Some [ALC_FREQUENCY; 48000; 0]) = false
  /\ Type_ playback_device = Playback
  /\ fst own_period_run = ALC_NO_ERROR
  /\ NumUpdates (snd own_period_run) = 1
  /\ UpdateSize (snd own_period_run) = 16384
  /\ ~ 2 <= NumUpdates (snd own_period_run) <= 16
  /\ ~ 64 <= UpdateSize (snd own_period_run) <= 8192.
Proof.
  assert (Hn : NumUpdates (snd own_period_run) = 1)
    by (vm_compute; reflexivity).
  assert (Hu : UpdateSize (snd own_period_run) = 16384)
    by (vm_compute; reflexivity).
  repeat split; try (vm_compute; reflexivity); rewrite ?Hn, ?Hu; lia.
Qed.

(* ------------------------------------------------------------------ *)
(** ** ALC_REFRESH and ALC_SYNC in attribute lists *)

Lemma apply_pairs_app (K : Consts) (ps1 ps2 : list (Z * Z)) (a : AttrVals) :
  apply_pairs K (ps1 ++ ps2) a = apply_pairs K ps2 (apply_pairs K ps1 a).
Proof. unfold apply_pairs. apply fold_left_app. Qed.

Lemma keys_nonzero_app (ps1 ps2 : list (Z * Z)) :
  keys_nonzero (ps1 ++ ps2) = keys_nonzero ps1 && keys_nonzero ps2.
Proof. unfold keys_nonzero. apply forallb_app. Qed.

Lemma attrs_missing_flatten (ps : list (Z * Z)) (rest : list Z) :
  keys_nonzero ps = true -> ps <> [] ->
  attrs_missing (Some (flatten_attrs ps ++ rest)) = false.
Proof.
  destruct ps as [|[k v] ps]; intros Hk Hne; [contradiction|].
  cbn [keys_nonzero forallb fst] in Hk. apply andb_prop in Hk.
  destruct Hk as [Hk _]. apply negb_true_iff in Hk. exact Hk.
Qed.

(** The attribute block sees the list only through the test for a
    missing list and through the walk. *)
Lemma attribute_stage_ext (K : Consts) (E : Env) (device : ALCdevice)
  (l1 l2 : list Z) :
  attrs_missing (Some l1) = false ->
  attrs_missing (Some l2) = false ->
  (forall a, walk_attrs K l1 a = walk_attrs K l2 a) ->
  attribute_stage K E device (Some l1) = attribute_stage K E device (Some l2).
Proof.
  intros H1 H2 Hw. unfold attribute_stage.
  rewrite H1, H2, Hw. reflexivity.
Qed.

(** C8 (as amended).  For a device that verifies, queried with a positive
    size and a non-null array: on a playback device ALC_SYNC writes
    ALC_FALSE and ALC_REFRESH writes the frequency divided by the update
    size (an unsigned quotient stored in an ALCint, the update size not
    zero), and no error is recorded; on a loopback device both queries
    write nothing and record ALC_INVALID_DEVICE; on a capture device both
    write nothing and record ALC_INVALID_ENUM.  Both are read-only in
    that the attribute walk has no case for either key: UpdateDeviceParams
    gives the same result for an attribute list that holds an ALC_REFRESH
    or ALC_SYNC pair as for the list without that pair, as long as
    another pair remains.  ALC_SYNC still reads ALC_FALSE on a playback
    device after UpdateDeviceParams, whatever the list; what ALC_REFRESH
    reads follows the frequency and update size of the device, which a
    non-empty list does change. *)
Theorem alcGetIntegerv_refresh_sync
  (K : Consts) (E : Env) (st : ALCstate) (device size values : Z)
  (addr : positive) (d : ALCdevice) :
  VerifyDevice st device = Some (addr, d) ->
  0 < size -> values <> 0 ->
  match Type_ d with
  | Playback =>
      alcGetIntegerv K E st device ALC_SYNC size values = (st, [ALC_FALSE])
      /\ (UpdateSize d <> 0 ->
          alcGetIntegerv K E st device ALC_REFRESH size values
          = (st, [wrapi (Z.quot (Frequency d) (UpdateSize d))]))
  | Loopback =>
      alcGetIntegerv K E st device ALC_SYNC size values
      = (alcSetError st (Some addr) ALC_INVALID_DEVICE, [])
      /\ alcGetIntegerv K E st device ALC_REFRESH size values
         = (alcSetError st (Some addr) ALC_INVALID_DEVICE, [])
  | Capture =>
      alcGetIntegerv K E st device ALC_SYNC size values
      = (alcSetError st (Some addr) ALC_INVALID_ENUM, [])
      /\ alcGetIntegerv K E st device ALC_REFRESH size values
         = (alcSetError st (Some addr) ALC_INVALID_ENUM, [])
  end
  /\ (ambi_keys_ok K = true ->
      forall key, key = ALC_REFRESH \/ key = ALC_SYNC ->
        (forall val a, attr_case K key val a = a)
        /\ forall (dev : ALCdevice) (val : Z) (ps1 ps2 : list (Z * Z))
             (rest : list Z),
             keys_nonzero ps1 = true -> keys_nonzero ps2 = true ->
             ps1 ++ ps2 <> [] ->
             UpdateDeviceParams K E dev
               (Some (flatten_attrs (ps1 ++ (key, val) :: ps2) ++ 0 :: rest))
             = UpdateDeviceParams K E dev
                 (Some (flatten_attrs (ps1 ++ ps2) ++ 0 :: rest)))
  /\ (Type_ d = Playback ->
      forall (attrList : option (list Z)) (st' : ALCstate) (device' : Z)
        (addr' : positive),
        VerifyDevice st' device'
        = Some (addr', snd (UpdateDeviceParams K E d attrList)) ->
        alcGetIntegerv K E st' device' ALC_SYNC size values
        = (st', [ALC_FALSE])).
Proof.
  intros Hv Hsize Hvalues.
  destruct (refresh_sync_cases K E st device size values addr d Hv Hsize
              Hvalues) as [Hq Hc].
  split; [exact Hq|]. split.
  - intros Hk key Hkey.
    assert (Hskip : forall val a, attr_case K key val a = a).
    { intros val a. destruct (Hc Hk val a) as [Hr Hs].
      destruct Hkey as [-> | ->]; assumption. }
    split; [exact Hskip|].
    intros dev val ps1 ps2 rest Hz1 Hz2 Hne.
    assert (Hkz : (key =? 0) = false)
      by (destruct Hkey as [-> | ->]; reflexivity).
    assert (Hz : keys_nonzero (ps1 ++ (key, val) :: ps2) = true).
    { rewrite keys_nonzero_app, Hz1.
      cbn [keys_nonzero forallb fst andb]. rewrite Hkz. exact Hz2. }
    assert (Hz' : keys_nonzero (ps1 ++ ps2) = true)
      by (rewrite keys_nonzero_app, Hz1; exact Hz2).
    rewrite !UpdateDeviceParams_unfold.
    rewrite (attribute_stage_ext K E dev
               (flatten_attrs (ps1 ++ (key, val) :: ps2) ++ 0 :: rest)
               (flatten_attrs (ps1 ++ ps2) ++ 0 :: rest)).
    + reflexivity.
    + apply attrs_missing_flatten; [exact Hz|].
      intros Hnil. apply app_eq_nil in Hnil. destruct Hnil as [_ Hnil].
      discriminate Hnil.
    + apply attrs_missing_flatten; assumption.
    + intros a.
      rewrite (walk_attrs_flatten K _ rest Hz),
        (walk_attrs_flatten K _ rest Hz').
      rewrite !apply_pairs_app.
      change (apply_pairs K ((key, val) :: ps2) (apply_pairs K ps1 a))
        with (apply_pairs K ps2
                (attr_case K key val (apply_pairs K ps1 a))).
      rewrite Hskip. reflexivity.
  - intros Ht attrList st' device' addr' Hv'.
    pose proof (refresh_sync_cases K E st' device' size values addr'
                  (snd (UpdateDeviceParams K E d attrList)) Hv' Hsize
                  Hvalues) as [Hq' _].
    pose proof (UpdateDeviceParams_identity K E d attrList) as Hi.
    assert (Ht' : Type_ (snd (UpdateDeviceParams K E d attrList)) = Playback).
    { unfold identity_fields in Hi. rewrite <- Ht. congruence. }
    rewrite Ht' in Hq'. apply Hq'.
Qed.

Lemma alcGetIntegerv_refresh_sync_witness :
  (alcGetIntegerv upstream plain_env (one_device playback_device) 1
     ALC_SYNC 1 1 = (one_device playback_device, [ALC_FALSE])
   /\ alcGetIntegerv upstream plain_env (one_device playback_device) 1
        ALC_REFRESH 1 1 = (one_device playback_device, [43]))
  /\ UpdateDeviceParams upstream plain_env playback_device
       (Some (flatten_attrs
                ([(ALC_FREQUENCY, 48000)] ++ (ALC_REFRESH, 60) :: [])
              ++ 0 :: []))
     = UpdateDeviceParams upstream plain_env playback_device
         (Some (flatten_attrs ([(ALC_FREQUENCY, 48000)] ++ []) ++ 0 :: []))
  /\ alcGetIntegerv upstream plain_env
       (one_device
          (snd (UpdateDeviceParams upstream plain_env playback_device
                  (Some [ALC_FREQUENCY; 48000; 0])))) 1 ALC_SYNC 1 1
     = (one_device
          (snd (UpdateDeviceParams upstream plain_env playback_device
                  (Some [ALC_FREQUENCY; 48000; 0]))), [ALC_FALSE]).
Proof.
  pose proof (alcGetIntegerv_refresh_sync upstream plain_env
                (one_device playback_device) 1 1 1 1%positive
                playback_device eq_refl) as H.
  assert (H1 : 0 < 1) by lia.
  assert (H2 : 1 <> 0) by lia.
  destruct (H H1 H2) as [[Hs Hr] [Ha Hu]].
  split; [split; [exact Hs|apply Hr; cbn; lia]|]. split.
  - apply (proj2 (Ha eq_refl ALC_REFRESH (or_introl eq_refl)));
      [reflexivity|reflexivity|discriminate].
  - apply (Hu eq_refl (Some [ALC_FREQUENCY; 48000; 0]) _ 1 1%positive).
    reflexivity.
Defined.

(** C8, as stated, fails twice.  On a loopback device the ALC_SYNC query
    writes nothing and leaves ALC_INVALID_DEVICE in the device's latch.
    And attribute-list keys do change what ALC_REFRESH reads: on the
    playback device an ALC_FREQUENCY pair takes the reading from 43 to
    21, and on that device at 48000 Hz a list holding nothing but an
    ALC_REFRESH pair takes it from 46 to 43, the attribute block having
    put the default rate back. *)
Lemma alcGetIntegerv_refresh_sync_counterexample :
  (snd (alcGetIntegerv upstream plain_env (one_device loopback_device) 1
          ALC_SYNC 1 1) <> [ALC_FALSE]
   /\ option_map (fun x => LastError (snd x))
        (VerifyDevice
           (fst (alcGetIntegerv upstream plain_env
                   (one_device loopback_device) 1 ALC_SYNC 1 1)) 1)
      = Some ALC_INVALID_DEVICE)
  /\ (refresh_reading playback_device = [43]
      /\ fst (UpdateDeviceParams upstream plain_env playback_device
                (Some [ALC_FREQUENCY; 22050; 0])) = ALC_NO_ERROR
      /\ refresh_reading
           (snd (UpdateDeviceParams upstream plain_env playback_device
                   (Some [ALC_FREQUENCY; 22050; 0]))) = [21])
  /\ (refresh_reading playback_48000 = [46]
      /\ fst (UpdateDeviceParams upstream plain_env playback_48000
                (Some [ALC_REFRESH; 60; 0])) = ALC_NO_ERROR
      /\ refresh_reading
           (snd (UpdateDeviceParams upstream plain_env playback_48000
                   (Some [ALC_REFRESH; 60; 0]))) = [43]).
Proof.
  split; [|split].
  - vm_compute. split; [discriminate|reflexivity].
  - repeat split; vm_compute; reflexivity.
  - repeat split; vm_compute; reflexivity.
Qed.
